(** * Xilinx video pipeline: streaming state machine and stream routing

    A shallow embedding of the pipeline start/stop protocol of the Xilinx
    video DMA driver (xilinx-dma.c, kept as src/unnamed/part_004), of the
    generic stream dispatch helpers of the Xilinx Video IP core
    (xilinx-vip.c), of the routing set-up of the two stream switches (the
    AXI4-Stream switch of xilinx-axis-switch.c and the video switch, whose
    source follows the Video IP core in xilinx-vip.c) and of the lookups
    in the video format table.

    Conventions.  C integers are modelled as [Z]; unsigned 32 and 64 bit
    arithmetic is reduced explicitly ([u32], [u64]).  Calls that leave the
    driver (DMA engine API, V4L2 sub-device calls, the per-device
    [xvip_device_ops] hooks) are recorded in a trace of [event]s, and the
    value each call returns is supplied by an environment that may depend on
    the whole history of calls made so far. *)

From Stdlib Require Import ZArith List Bool Lia String.
From stdpp Require Import base tactics option list.
Import ListNotations.
Local Open Scope Z_scope.

(** ** Error numbers (include/uapi/asm-generic/errno-base.h) *)

Module Errno.
Definition ENXIO : Z := 6.
Definition ENOMEM : Z := 12.
Definition EBUSY : Z := 16.
Definition EINVAL : Z := 22.
Definition EPIPE : Z := 32.
End Errno.
Import Errno.

(** ** Fixed-width unsigned arithmetic *)

Definition u32 (x : Z) : Z := x mod 2 ^ 32.
Definition u64 (x : Z) : Z := x mod 2 ^ 64.

(** [BIT(nr)] is [1UL << nr]; on the 64-bit targets of these drivers
    [unsigned long] is 64 bits wide. *)
Definition BIT (nr : Z) : Z := Z.shiftl 1 nr.

(** ** Video formats (xilinx-vip.c, [xvip_video_formats]) *)

Module Formats.

Inductive xvip_vf_code : Type :=
  | XVIP_VF_YUV_420
  | XVIP_VF_YUV_422
  | XVIP_VF_VUY_422
  | XVIP_VF_YUV_444
  | XVIP_VF_YUVX
  | XVIP_VF_RBG
  | XVIP_VF_BGRX
  | XVIP_VF_XRGB
  | XVIP_VF_XBGR
  | XVIP_VF_MONO_SENSOR
  | XVIP_VF_Y_GREY.

Inductive media_bus_fmt : Type :=
  | MEDIA_BUS_FMT_VYYUYY8_1X24
  | MEDIA_BUS_FMT_VYYUYY10_4X20
  | MEDIA_BUS_FMT_UYYVYY12_4X24
  | MEDIA_BUS_FMT_UYYVYY16_4X32
  | MEDIA_BUS_FMT_UYVY8_1X16
  | MEDIA_BUS_FMT_UYVY10_1X20
  | MEDIA_BUS_FMT_UYVY12_1X24
  | MEDIA_BUS_FMT_UYVY16_2X32
  | MEDIA_BUS_FMT_VUY8_1X24
  | MEDIA_BUS_FMT_VUY10_1X30
  | MEDIA_BUS_FMT_VUY12_1X36
  | MEDIA_BUS_FMT_VUY16_1X48
  | MEDIA_BUS_FMT_RBG888_1X24
  | MEDIA_BUS_FMT_RBG101010_1X30
  | MEDIA_BUS_FMT_RBG121212_1X36
  | MEDIA_BUS_FMT_RBG161616_1X48
  | MEDIA_BUS_FMT_Y8_1X8
  | MEDIA_BUS_FMT_Y10_1X10
  | MEDIA_BUS_FMT_Y12_1X12
  | MEDIA_BUS_FMT_Y16_1X16
  | MEDIA_BUS_FMT_SRGGB8_1X8
  | MEDIA_BUS_FMT_SGRBG8_1X8
  | MEDIA_BUS_FMT_SGBRG8_1X8
  | MEDIA_BUS_FMT_SBGGR8_1X8
  | MEDIA_BUS_FMT_SRGGB10_1X10
  | MEDIA_BUS_FMT_SGRBG10_1X10
  | MEDIA_BUS_FMT_SGBRG10_1X10
  | MEDIA_BUS_FMT_SBGGR10_1X10
  | MEDIA_BUS_FMT_SRGGB12_1X12
  | MEDIA_BUS_FMT_SGRBG12_1X12
  | MEDIA_BUS_FMT_SGBRG12_1X12
  | MEDIA_BUS_FMT_SBGGR12_1X12
  | MEDIA_BUS_FMT_SRGGB16_1X16
  | MEDIA_BUS_FMT_SGRBG16_1X16
  | MEDIA_BUS_FMT_SGBRG16_1X16
  | MEDIA_BUS_FMT_SBGGR16_1X16.

Inductive v4l2_pix_fmt : Type :=
  | V4L2_PIX_FMT_NV12
  | V4L2_PIX_FMT_NV12M
  | V4L2_PIX_FMT_XV15
  | V4L2_PIX_FMT_XV15M
  | V4L2_PIX_FMT_X012
  | V4L2_PIX_FMT_X012M
  | V4L2_PIX_FMT_X016
  | V4L2_PIX_FMT_X016M
  | V4L2_PIX_FMT_NV16
  | V4L2_PIX_FMT_NV16M
  | V4L2_PIX_FMT_YUYV
  | V4L2_PIX_FMT_UYVY
  | V4L2_PIX_FMT_XV20
  | V4L2_PIX_FMT_XV20M
  | V4L2_PIX_FMT_X212
  | V4L2_PIX_FMT_X212M
  | V4L2_PIX_FMT_X216
  | V4L2_PIX_FMT_X216M
  | V4L2_PIX_FMT_VUY24
  | V4L2_PIX_FMT_XVUY32
  | V4L2_PIX_FMT_XVUY10
  | V4L2_PIX_FMT_X412
  | V4L2_PIX_FMT_X412M
  | V4L2_PIX_FMT_X416
  | V4L2_PIX_FMT_X416M
  | V4L2_PIX_FMT_BGR24
  | V4L2_PIX_FMT_RGB24
  | V4L2_PIX_FMT_BGRX32
  | V4L2_PIX_FMT_XBGR32
  | V4L2_PIX_FMT_XBGR30
  | V4L2_PIX_FMT_XBGR40
  | V4L2_PIX_FMT_BGR48
  | V4L2_PIX_FMT_GREY
  | V4L2_PIX_FMT_XY10
  | V4L2_PIX_FMT_XY12
  | V4L2_PIX_FMT_Y16
  | V4L2_PIX_FMT_SGRBG8
  | V4L2_PIX_FMT_SGBRG8
  | V4L2_PIX_FMT_SBGGR8
  | V4L2_PIX_FMT_SRGGB10
  | V4L2_PIX_FMT_SGRBG10
  | V4L2_PIX_FMT_SGBRG10
  | V4L2_PIX_FMT_SBGGR10
  | V4L2_PIX_FMT_SRGGB12
  | V4L2_PIX_FMT_SGRBG12
  | V4L2_PIX_FMT_SGBRG12
  | V4L2_PIX_FMT_SBGGR12
  | V4L2_PIX_FMT_SRGGB16
  | V4L2_PIX_FMT_SGRBG16
  | V4L2_PIX_FMT_SGBRG16
  | V4L2_PIX_FMT_SBGGR16.


(** [struct xvip_video_format].  The [pattern] string pointer is [None] for
    [NULL]; a [flavor] of [0] (no flavor) is [None]. *)
Record xvip_video_format : Type := mk_format {
  vf_code : xvip_vf_code;
  width : Z;
  pattern : option string;
  code : media_bus_fmt;
  flavor : option media_bus_fmt;
  bpl_factor : Z;
  bits_per_pixel : Z;
  bpl_scaling : Z * Z;
  fourcc : v4l2_pix_fmt;
  num_planes : Z;
  buffers : Z;
  hsub : Z;
  vsub : Z
}.

Definition xvip_video_formats : list xvip_video_format :=
  [
    mk_format XVIP_VF_YUV_420 8 (None) MEDIA_BUS_FMT_VYYUYY8_1X24 (None) 1 12 (1, 1) V4L2_PIX_FMT_NV12 2 1 1 2;
    mk_format XVIP_VF_YUV_420 8 (None) MEDIA_BUS_FMT_VYYUYY8_1X24 (None) 1 12 (1, 1) V4L2_PIX_FMT_NV12M 2 2 1 2;
    mk_format XVIP_VF_YUV_420 10 (None) MEDIA_BUS_FMT_VYYUYY10_4X20 (None) 1 12 (4, 3) V4L2_PIX_FMT_XV15 2 1 2 2;
    mk_format XVIP_VF_YUV_420 10 (None) MEDIA_BUS_FMT_VYYUYY10_4X20 (None) 1 12 (4, 3) V4L2_PIX_FMT_XV15M 2 2 1 2;
    mk_format XVIP_VF_YUV_420 12 (None) MEDIA_BUS_FMT_UYYVYY12_4X24 (None) 1 12 (5, 3) V4L2_PIX_FMT_X012 2 1 2 2;
    mk_format XVIP_VF_YUV_420 12 (None) MEDIA_BUS_FMT_UYYVYY12_4X24 (None) 1 12 (5, 3) V4L2_PIX_FMT_X012M 2 2 1 2;
    mk_format XVIP_VF_YUV_420 16 (None) MEDIA_BUS_FMT_UYYVYY16_4X32 (None) 2 12 (1, 1) V4L2_PIX_FMT_X016 2 1 2 2;
    mk_format XVIP_VF_YUV_420 16 (None) MEDIA_BUS_FMT_UYYVYY16_4X32 (None) 2 12 (1, 1) V4L2_PIX_FMT_X016M 2 2 1 2;
    mk_format XVIP_VF_YUV_422 8 (None) MEDIA_BUS_FMT_UYVY8_1X16 (None) 1 16 (1, 1) V4L2_PIX_FMT_NV16 2 1 1 1;
    mk_format XVIP_VF_YUV_422 8 (None) MEDIA_BUS_FMT_UYVY8_1X16 (None) 1 16 (1, 1) V4L2_PIX_FMT_NV16M 2 2 1 1;
    mk_format XVIP_VF_YUV_422 8 (None) MEDIA_BUS_FMT_UYVY8_1X16 (None) 2 16 (1, 1) V4L2_PIX_FMT_YUYV 1 1 2 1;
    mk_format XVIP_VF_VUY_422 8 (None) MEDIA_BUS_FMT_UYVY8_1X16 (None) 2 16 (1, 1) V4L2_PIX_FMT_UYVY 1 1 2 1;
    mk_format XVIP_VF_YUV_422 10 (None) MEDIA_BUS_FMT_UYVY10_1X20 (None) 1 16 (4, 3) V4L2_PIX_FMT_XV20 2 1 2 1;
    mk_format XVIP_VF_YUV_422 10 (None) MEDIA_BUS_FMT_UYVY10_1X20 (None) 1 16 (4, 3) V4L2_PIX_FMT_XV20M 2 2 1 1;
    mk_format XVIP_VF_YUV_422 12 (None) MEDIA_BUS_FMT_UYVY12_1X24 (None) 1 16 (5, 3) V4L2_PIX_FMT_X212 2 1 2 1;
    mk_format XVIP_VF_YUV_422 12 (None) MEDIA_BUS_FMT_UYVY12_1X24 (None) 1 16 (5, 3) V4L2_PIX_FMT_X212M 2 2 1 1;
    mk_format XVIP_VF_YUV_422 16 (None) MEDIA_BUS_FMT_UYVY16_2X32 (None) 2 16 (1, 1) V4L2_PIX_FMT_X216 2 1 2 1;
    mk_format XVIP_VF_YUV_422 16 (None) MEDIA_BUS_FMT_UYVY16_2X32 (None) 2 16 (1, 1) V4L2_PIX_FMT_X216M 2 2 1 1;
    mk_format XVIP_VF_YUV_444 8 (None) MEDIA_BUS_FMT_VUY8_1X24 (None) 3 24 (1, 1) V4L2_PIX_FMT_VUY24 1 1 1 1;
    mk_format XVIP_VF_YUVX 8 (None) MEDIA_BUS_FMT_VUY8_1X24 (None) 4 32 (1, 1) V4L2_PIX_FMT_XVUY32 1 1 1 1;
    mk_format XVIP_VF_YUVX 10 (None) MEDIA_BUS_FMT_VUY10_1X30 (None) 3 32 (4, 3) V4L2_PIX_FMT_XVUY10 1 1 1 1;
    mk_format XVIP_VF_YUV_444 12 (None) MEDIA_BUS_FMT_VUY12_1X36 (None) 1 24 (5, 3) V4L2_PIX_FMT_X412 1 1 1 1;
    mk_format XVIP_VF_YUV_444 12 (None) MEDIA_BUS_FMT_VUY12_1X36 (None) 1 24 (5, 3) V4L2_PIX_FMT_X412M 1 1 1 1;
    mk_format XVIP_VF_YUV_444 16 (None) MEDIA_BUS_FMT_VUY16_1X48 (None) 2 24 (1, 1) V4L2_PIX_FMT_X416 1 1 1 1;
    mk_format XVIP_VF_YUV_444 16 (None) MEDIA_BUS_FMT_VUY16_1X48 (None) 2 24 (1, 1) V4L2_PIX_FMT_X416M 1 1 1 1;
    mk_format XVIP_VF_RBG 8 (None) MEDIA_BUS_FMT_RBG888_1X24 (None) 3 24 (1, 1) V4L2_PIX_FMT_BGR24 1 1 1 1;
    mk_format XVIP_VF_RBG 8 (None) MEDIA_BUS_FMT_RBG888_1X24 (None) 3 24 (1, 1) V4L2_PIX_FMT_RGB24 1 1 1 1;
    mk_format XVIP_VF_BGRX 8 (None) MEDIA_BUS_FMT_RBG888_1X24 (None) 4 32 (1, 1) V4L2_PIX_FMT_BGRX32 1 1 1 1;
    mk_format XVIP_VF_XRGB 8 (None) MEDIA_BUS_FMT_RBG888_1X24 (None) 4 32 (1, 1) V4L2_PIX_FMT_XBGR32 1 1 1 1;
    mk_format XVIP_VF_XBGR 10 (None) MEDIA_BUS_FMT_RBG101010_1X30 (None) 3 32 (4, 3) V4L2_PIX_FMT_XBGR30 1 1 1 1;
    mk_format XVIP_VF_XBGR 12 (None) MEDIA_BUS_FMT_RBG121212_1X36 (None) 3 40 (5, 3) V4L2_PIX_FMT_XBGR40 1 1 1 1;
    mk_format XVIP_VF_RBG 16 (None) MEDIA_BUS_FMT_RBG161616_1X48 (None) 6 48 (1, 1) V4L2_PIX_FMT_BGR48 1 1 1 1;
    mk_format XVIP_VF_MONO_SENSOR 8 (Some "mono"%string) MEDIA_BUS_FMT_Y8_1X8 (Some MEDIA_BUS_FMT_Y8_1X8) 1 8 (1, 1) V4L2_PIX_FMT_GREY 1 1 1 1;
    mk_format XVIP_VF_Y_GREY 10 (None) MEDIA_BUS_FMT_Y10_1X10 (Some MEDIA_BUS_FMT_Y8_1X8) 1 32 (4, 3) V4L2_PIX_FMT_XY10 1 1 1 1;
    mk_format XVIP_VF_Y_GREY 12 (None) MEDIA_BUS_FMT_Y12_1X12 (Some MEDIA_BUS_FMT_Y8_1X8) 1 12 (5, 3) V4L2_PIX_FMT_XY12 1 1 1 1;
    mk_format XVIP_VF_Y_GREY 16 (None) MEDIA_BUS_FMT_Y16_1X16 (Some MEDIA_BUS_FMT_Y8_1X8) 2 16 (1, 1) V4L2_PIX_FMT_Y16 1 1 1 1;
    mk_format XVIP_VF_MONO_SENSOR 8 (Some "rggb"%string) MEDIA_BUS_FMT_SRGGB8_1X8 (Some MEDIA_BUS_FMT_SRGGB8_1X8) 1 8 (1, 1) V4L2_PIX_FMT_SGRBG8 1 1 1 1;
    mk_format XVIP_VF_MONO_SENSOR 8 (Some "grbg"%string) MEDIA_BUS_FMT_SGRBG8_1X8 (Some MEDIA_BUS_FMT_SGRBG8_1X8) 1 8 (1, 1) V4L2_PIX_FMT_SGRBG8 1 1 1 1;
    mk_format XVIP_VF_MONO_SENSOR 8 (Some "gbrg"%string) MEDIA_BUS_FMT_SGBRG8_1X8 (Some MEDIA_BUS_FMT_SGBRG8_1X8) 1 8 (1, 1) V4L2_PIX_FMT_SGBRG8 1 1 1 1;
    mk_format XVIP_VF_MONO_SENSOR 8 (Some "bggr"%string) MEDIA_BUS_FMT_SBGGR8_1X8 (Some MEDIA_BUS_FMT_SBGGR8_1X8) 1 8 (1, 1) V4L2_PIX_FMT_SBGGR8 1 1 1 1;
    mk_format XVIP_VF_MONO_SENSOR 10 (Some "rggb"%string) MEDIA_BUS_FMT_SRGGB10_1X10 (Some MEDIA_BUS_FMT_SRGGB8_1X8) 2 10 (1, 1) V4L2_PIX_FMT_SRGGB10 1 1 1 1;
    mk_format XVIP_VF_MONO_SENSOR 10 (Some "grbg"%string) MEDIA_BUS_FMT_SGRBG10_1X10 (Some MEDIA_BUS_FMT_SGRBG8_1X8) 2 10 (1, 1) V4L2_PIX_FMT_SGRBG10 1 1 1 1;
    mk_format XVIP_VF_MONO_SENSOR 10 (Some "gbrg"%string) MEDIA_BUS_FMT_SGBRG10_1X10 (Some MEDIA_BUS_FMT_SGBRG8_1X8) 2 10 (1, 1) V4L2_PIX_FMT_SGBRG10 1 1 1 1;
    mk_format XVIP_VF_MONO_SENSOR 10 (Some "bggr"%string) MEDIA_BUS_FMT_SBGGR10_1X10 (Some MEDIA_BUS_FMT_SBGGR8_1X8) 2 10 (1, 1) V4L2_PIX_FMT_SBGGR10 1 1 1 1;
    mk_format XVIP_VF_MONO_SENSOR 12 (Some "rggb"%string) MEDIA_BUS_FMT_SRGGB12_1X12 (Some MEDIA_BUS_FMT_SRGGB8_1X8) 2 12 (1, 1) V4L2_PIX_FMT_SRGGB12 1 1 1 1;
    mk_format XVIP_VF_MONO_SENSOR 12 (Some "grbg"%string) MEDIA_BUS_FMT_SGRBG12_1X12 (Some MEDIA_BUS_FMT_SGRBG8_1X8) 2 12 (1, 1) V4L2_PIX_FMT_SGRBG12 1 1 1 1;
    mk_format XVIP_VF_MONO_SENSOR 12 (Some "gbrg"%string) MEDIA_BUS_FMT_SGBRG12_1X12 (Some MEDIA_BUS_FMT_SGBRG8_1X8) 2 12 (1, 1) V4L2_PIX_FMT_SGBRG12 1 1 1 1;
    mk_format XVIP_VF_MONO_SENSOR 12 (Some "bggr"%string) MEDIA_BUS_FMT_SBGGR12_1X12 (Some MEDIA_BUS_FMT_SBGGR8_1X8) 2 12 (1, 1) V4L2_PIX_FMT_SBGGR12 1 1 1 1;
    mk_format XVIP_VF_MONO_SENSOR 16 (Some "rggb"%string) MEDIA_BUS_FMT_SRGGB16_1X16 (Some MEDIA_BUS_FMT_SRGGB8_1X8) 2 16 (1, 1) V4L2_PIX_FMT_SRGGB16 1 1 1 1;
    mk_format XVIP_VF_MONO_SENSOR 16 (Some "grbg"%string) MEDIA_BUS_FMT_SGRBG16_1X16 (Some MEDIA_BUS_FMT_SGRBG8_1X8) 2 16 (1, 1) V4L2_PIX_FMT_SGRBG16 1 1 1 1;
    mk_format XVIP_VF_MONO_SENSOR 16 (Some "gbrg"%string) MEDIA_BUS_FMT_SGBRG16_1X16 (Some MEDIA_BUS_FMT_SGBRG8_1X8) 2 16 (1, 1) V4L2_PIX_FMT_SGBRG16 1 1 1 1;
    mk_format XVIP_VF_MONO_SENSOR 16 (Some "bggr"%string) MEDIA_BUS_FMT_SBGGR16_1X16 (Some MEDIA_BUS_FMT_SBGGR8_1X8) 2 16 (1, 1) V4L2_PIX_FMT_SBGGR16 1 1 1 1
  ].

(** A [const struct xvip_video_format *] returned by the lookups: either the
    address of the [i]-th element of [xvip_video_formats] or an [ERR_PTR]. *)
Inductive format_ptr : Type :=
  | FormatAt (i : nat)
  | ERR_PTR (err : Z).

Definition IS_ERR (p : format_ptr) : bool :=
  match p with
  | FormatAt _ => false
  | ERR_PTR _ => true
  end.

Definition deref (p : format_ptr) : option xvip_video_format :=
  match p with
  | FormatAt i => xvip_video_formats !! i
  | ERR_PTR _ => None
  end.

(** The loop [for (i = 0; i < ARRAY_SIZE(xvip_video_formats); ++i)] with an
    early [return] on the first element satisfying [hit]; [i] is the index
    of the head of [fs] in the table. *)
Fixpoint scan_formats (hit : xvip_video_format -> bool)
    (fs : list xvip_video_format) (i : nat) : option nat :=
  match fs with
  | [] => None
  | f :: fs' => if hit f then Some i else scan_formats hit fs' (S i)
  end.

Section Lookups.

(** The numeric values of the media bus codes and of the 4CCs are macros
    of the V4L2 UAPI headers; the lookups only compare them. *)
Variable code_value : media_bus_fmt -> Z.
Variable fourcc_value : v4l2_pix_fmt -> Z.

Definition xvip_get_format_by_code (c : Z) : format_ptr :=
  match scan_formats (fun f => code_value (code f) =? c)
        xvip_video_formats 0 with
  | Some i => FormatAt i
  | None => ERR_PTR (- EINVAL)
  end.

Definition xvip_get_format_by_fourcc (v : Z) : format_ptr :=
  match scan_formats (fun f => fourcc_value (fourcc f) =? v)
        xvip_video_formats 0 with
  | Some i => FormatAt i
  | None => FormatAt 0
  end.

End Lookups.

End Formats.

(** ** Media controller objects (include/media/media-entity.h) *)

Module Media.

(** Pad, link and route flags of the media controller and V4L2 UAPI
    (include/uapi/linux/media.h, include/uapi/linux/v4l2-subdev.h). *)
Definition MEDIA_PAD_FL_SINK : Z := BIT 0.
Definition MEDIA_PAD_FL_SOURCE : Z := BIT 1.
Definition MEDIA_LNK_FL_ENABLED : Z := BIT 0.
Definition MEDIA_LNK_FL_LINK_TYPE : Z := Z.shiftl 15 28.
Definition MEDIA_LNK_FL_DATA_LINK : Z := Z.shiftl 0 28.
Definition V4L2_SUBDEV_ROUTE_FL_ACTIVE : Z := BIT 0.

Inductive media_entity_type : Type :=
  | MEDIA_ENTITY_TYPE_BASE
  | MEDIA_ENTITY_TYPE_VIDEO_DEVICE
  | MEDIA_ENTITY_TYPE_V4L2_SUBDEV.

(** A [struct media_entity *]: entities are compared by address, which is
    the identifier [ent_id] here. *)
Record media_entity : Type := mk_entity {
  ent_id : nat;
  obj_type : media_entity_type
}.

Record media_pad : Type := mk_pad {
  entity : media_entity;
  index : Z;
  flags : Z
}.

Record media_link : Type := mk_link {
  source : media_pad;
  sink : media_pad;
  link_flags : Z
}.

Definition is_media_entity_v4l2_subdev (e : media_entity) : bool :=
  match obj_type e with
  | MEDIA_ENTITY_TYPE_V4L2_SUBDEV => true
  | _ => false
  end.

(** [struct v4l2_subdev_route]: five [__u32] fields. *)
Record v4l2_subdev_route : Type := mk_route {
  sink_pad : Z;
  sink_stream : Z;
  source_pad : Z;
  source_stream : Z;
  route_flags : Z
}.

Definition route_is_active (r : v4l2_subdev_route) : bool :=
  negb (Z.land (route_flags r) V4L2_SUBDEV_ROUTE_FL_ACTIVE =? 0).

(** The routes visited by [for_each_active_route], in table order. *)
Definition active_routes (routing : list v4l2_subdev_route)
  : list v4l2_subdev_route :=
  List.filter route_is_active routing.

End Media.
Import Media.

(** ** Calls leaving the driver, and the environment answering them *)

Module Env.

(** The calls recorded: the two DMA engine calls on a channel, the V4L2
    core calls that enable or disable streams on a sub-device, and the
    [enable_streams] and [disable_streams] hooks of [xvip_device_ops],
    each with the sub-device, pad and stream mask it is given. *)
Inductive event : Type :=
  | dma_async_issue_pending (chan : nat)
  | dmaengine_terminate_all (chan : nat)
  | v4l2_subdev_enable_streams (sd : nat) (pad : Z) (streams_mask : Z)
  | v4l2_subdev_disable_streams (sd : nat) (pad : Z) (streams_mask : Z)
  | ops_enable_streams (sd : nat) (pad : Z) (streams_mask : Z)
  | ops_disable_streams (sd : nat) (pad : Z) (streams_mask : Z).

(** [returns h e] is the [int] returned by call [e] when it is made after
    the calls [h]; [kcalloc_ok h] tells whether an allocation attempted
    after [h] succeeds. *)
Record environment : Type := mk_env {
  returns : list event -> event -> Z;
  kcalloc_ok : list event -> bool
}.

(** Computations that extend the trace of calls. *)
Definition M (A : Type) : Type := list event -> A * list event.

Definition ret {A : Type} (a : A) : M A := fun tr => (a, tr).

Definition bind {A B : Type} (m : M A) (k : A -> M B) : M B :=
  fun tr => let (a, tr') := m tr in k a tr'.

(** A call whose result is used by the driver. *)
Definition call (env : environment) (e : event) : M Z :=
  fun tr => (returns env tr e, tr ++ [e]).

(** A call to a [void] function, or one whose result is discarded. *)
Definition call_void (e : event) : M unit :=
  fun tr => (tt, tr ++ [e]).

(** Run a list of computations for their effects only. *)
Fixpoint iter {A : Type} (f : A -> M unit) (l : list A) : M unit :=
  match l with
  | [] => ret tt
  | a :: l' => bind (f a) (fun _ => iter f l')
  end.

End Env.
Import Env.

Declare Scope drv_scope.
Delimit Scope drv_scope with drv.
Notation "x <- c1 ;; c2" := (bind c1 (fun x => c2))
  (at level 100, c1 at next level, right associativity) : drv_scope.
Notation "c1 ;;; c2" := (bind c1 (fun _ => c2))
  (at level 100, right associativity) : drv_scope.

(** ** Generic stream dispatch of the Video IP core (xilinx-vip.c) *)

Module Vip.

(** [struct xvip_device_ops]: each hook may be left unimplemented; a field
    is [true] when its function pointer is set.  What a hook does and
    returns belongs to the environment ([ops_enable_streams],
    [ops_disable_streams]). *)
Record xvip_device_ops : Type := mk_ops {
  enable_streams : bool;
  disable_streams : bool
}.

(** The parts of [struct xvip_device] and of its embedded sub-device and
    entity that the dispatch helpers read.  [entity_pipe] is the
    [media_pipeline] the entity currently belongs to, if any. *)
Record xvip_device : Type := mk_xvip {
  sd : media_entity;
  pads : list media_pad;
  links : list media_link;
  ops : option xvip_device_ops;
  num_sinks : Z;
  num_sources : Z;
  entity_pipe : option nat
}.

(** [xvip_device_init]: the first [num_sinks] pads are sinks, the
    remaining ones sources. *)
Definition xvip_device_init_pads (e : media_entity) (nsinks nsources : nat)
  : list media_pad :=
  map (fun i => mk_pad e (Z.of_nat i) MEDIA_PAD_FL_SINK) (seq 0 nsinks) ++
  map (fun i => mk_pad e (Z.of_nat i) MEDIA_PAD_FL_SOURCE)
      (seq nsinks nsources).

Definition has_enable_streams (xvip : xvip_device) : bool :=
  match ops xvip with
  | Some o => enable_streams o
  | None => false
  end.

Definition has_disable_streams (xvip : xvip_device) : bool :=
  match ops xvip with
  | Some o => disable_streams o
  | None => false
  end.

(** [streams[i] |= v] on the [u64] array [streams].  An index outside the
    array is undefined in C; the model leaves the array unchanged. *)
Definition streams_or (streams : list Z) (i : Z) (v : Z) : list Z :=
  match streams !! Z.to_nat i with
  | Some old => <[Z.to_nat i := u64 (Z.lor old v)]> streams
  | None => streams
  end.

(** [streams[i] = v]. *)
Definition streams_set (streams : list Z) (i : Z) (v : Z) : list Z :=
  <[Z.to_nat i := v]> streams.

(** One iteration of the route loop of
    [__xvip_enable_connected_streams]. *)
Definition collect_route (pad streams_mask : Z) (streams : list Z)
    (route : v4l2_subdev_route) : list Z :=
  let streams :=
    if (sink_pad route =? pad) &&
       negb (Z.land streams_mask (BIT (sink_stream route)) =? 0)
    then streams_or streams (source_pad route) (BIT (source_stream route))
    else streams in
  if (source_pad route =? pad) &&
     negb (Z.land streams_mask (BIT (source_stream route)) =? 0)
  then streams_or streams (sink_pad route) (BIT (sink_stream route))
  else streams.

(** One iteration of the legacy pad loop. *)
Definition collect_pad (local_pad : media_pad) (streams_mask : Z)
    (streams : list Z) (other_pad : media_pad) : list Z :=
  if Z.lxor (flags local_pad) (flags other_pad) =?
     Z.lor MEDIA_PAD_FL_SINK MEDIA_PAD_FL_SOURCE
  then streams_set streams (index other_pad) streams_mask
  else streams.

(** The [streams] array after the collection phase.  [state] is [None]
    for a sub-device without active state (the legacy case).  In the
    legacy case [&sd->entity.pads[pad]] with [pad] out of range is
    undefined in C; the model collects nothing. *)
Definition collect_streams (xvip : xvip_device)
    (state : option (list v4l2_subdev_route)) (pad streams_mask : Z)
  : list Z :=
  let streams := replicate (length (pads xvip)) 0 in
  match state with
  | Some routing =>
      fold_left (collect_route pad streams_mask) (active_routes routing)
        streams
  | None =>
      match pads xvip !! Z.to_nat pad with
      | Some local_pad =>
          fold_left (collect_pad local_pad streams_mask) (pads xvip)
            streams
      | None => streams
      end
  end.

Definition link_is_enabled_data (link : media_link) : bool :=
  negb (Z.land (link_flags link) MEDIA_LNK_FL_ENABLED =? 0) &&
  (Z.land (link_flags link) MEDIA_LNK_FL_LINK_TYPE =? MEDIA_LNK_FL_DATA_LINK).

(** The local and the remote pad of a link of [xvip]'s entity. *)
Definition link_ends (xvip : xvip_device) (link : media_link)
  : media_pad * media_pad :=
  if Nat.eqb (ent_id (entity (source link))) (ent_id (sd xvip))
  then (source link, sink link)
  else (sink link, source link).

Definition remote_call (enable : bool) (remote_pad : media_pad)
    (link_streams : Z) : event :=
  if enable
  then v4l2_subdev_enable_streams (ent_id (entity remote_pad))
         (index remote_pad) link_streams
  else v4l2_subdev_disable_streams (ent_id (entity remote_pad))
         (index remote_pad) link_streams.

Section WithEnv.

Variable env : environment.

(** The link loop of [__xvip_enable_connected_streams]; the result is
    the final value of [ret].  Reading [streams] outside the array is
    undefined in C; the model skips such a link. *)
Fixpoint propagate_links (xvip : xvip_device) (enable : bool)
    (streams : list Z) (ls : list media_link) : M Z :=
  match ls with
  | [] => ret 0
  | link :: ls' =>
      if negb (link_is_enabled_data link)
      then propagate_links xvip enable streams ls'
      else
        let (local_pad, remote_pad) := link_ends xvip link in
        match streams !! Z.to_nat (index local_pad) with
        | None => propagate_links xvip enable streams ls'
        | Some link_streams =>
            if link_streams =? 0
            then propagate_links xvip enable streams ls'
            else if negb (is_media_entity_v4l2_subdev (entity remote_pad))
            then propagate_links xvip enable streams ls'
            else
              (r <- call env (remote_call enable remote_pad link_streams) ;;
               if r =? 0
               then propagate_links xvip enable streams ls'
               else ret r)%drv
        end
  end.

Definition __xvip_enable_connected_streams (xvip : xvip_device)
    (state : option (list v4l2_subdev_route)) (pad streams_mask : Z)
    (enable : bool) : M Z :=
  fun tr =>
    if kcalloc_ok env tr
    then propagate_links xvip enable
           (collect_streams xvip state pad streams_mask) (links xvip) tr
    else (- ENOMEM, tr).

Definition xvip_enable_connected_streams xvip state pad streams_mask
  : M Z :=
  __xvip_enable_connected_streams xvip state pad streams_mask true.

Definition xvip_disable_connected_streams xvip state pad streams_mask
  : M Z :=
  __xvip_enable_connected_streams xvip state pad streams_mask false.

Definition xvip_enable_streams (xvip : xvip_device)
    (state : option (list v4l2_subdev_route)) (pad streams_mask : Z)
  : M Z :=
  (r <- (if has_enable_streams xvip
         then call env (ops_enable_streams (ent_id (sd xvip)) pad
                          streams_mask)
         else ret 0) ;;
   if negb (r =? 0) then ret r
   else
     r <- xvip_enable_connected_streams xvip state pad streams_mask ;;
     if negb (r =? 0)
     then
       (if has_disable_streams xvip
        then
          _ <- call env (ops_disable_streams (ent_id (sd xvip)) pad
                           streams_mask) ;;
          ret r
        else ret r)
     else ret 0)%drv.

Definition xvip_disable_streams (xvip : xvip_device)
    (state : option (list v4l2_subdev_route)) (pad streams_mask : Z)
  : M Z :=
  (r <- xvip_disable_connected_streams xvip state pad streams_mask ;;
   if negb (r =? 0) then ret r
   else
     if has_disable_streams xvip
     then
       r <- call env (ops_disable_streams (ent_id (sd xvip)) pad
                        streams_mask) ;;
       if negb (r =? 0) then ret r else ret 0
     else ret 0)%drv.

End WithEnv.

End Vip.

(** ** Pipeline stream management of the video DMA driver (xilinx-dma.c) *)

Module Dma.

(** [enum vfl_devnode_direction].  A capture node ([VFL_DIR_RX]) is a DMA
    engine at an output of the pipeline; an output node ([VFL_DIR_TX]) is
    a DMA engine at an input of the pipeline. *)
Inductive vfl_devnode_direction : Type :=
  | VFL_DIR_RX
  | VFL_DIR_TX
  | VFL_DIR_M2M.

Definition dir_eqb (a b : vfl_devnode_direction) : bool :=
  match a, b with
  | VFL_DIR_RX, VFL_DIR_RX => true
  | VFL_DIR_TX, VFL_DIR_TX => true
  | VFL_DIR_M2M, VFL_DIR_M2M => true
  | _, _ => false
  end.

(** [struct xvip_dma]: the DMA channel [dma->dma], the direction of the
    video node, and the pad found by [media_pad_remote_pad_first] on
    [dma->pad] ([None] for [NULL]). *)
Record xvip_dma : Type := mk_dma {
  chan : nat;
  vfl_dir : vfl_devnode_direction;
  remote_pad_first : option media_pad
}.

(** [struct xvip_pipeline]; the counters are [unsigned int]. *)
Record xvip_pipeline : Type := mk_pipe {
  dmas : list xvip_dma;
  num_inputs : Z;
  num_outputs : Z;
  input_stream_count : Z;
  output_stream_count : Z
}.

Definition XVIP_DMA_MULTI_OUT_MODE_SYNC : Z := 0.
Definition XVIP_DMA_MULTI_OUT_MODE_ASYNC : Z := 1.

(** [xvip_dma_remote_subdev]: the remote sub-device and the index of the
    remote pad. *)
Definition xvip_dma_remote_subdev (dma : xvip_dma) : option (nat * Z) :=
  match remote_pad_first dma with
  | None => None
  | Some remote =>
      if negb (is_media_entity_v4l2_subdev (entity remote))
      then None
      else Some (ent_id (entity remote), index remote)
  end.

(** Position of the loop variable [dma] in [pipe->dmas]: on an element, or
    on the list head once an iteration has run off the list. *)
Inductive cursor : Type :=
  | AtHead
  | AtEntry (i : nat).

(** The elements visited by [list_for_each_entry_continue_reverse] started
    from cursor [c]: the predecessors of [c], nearest first.  The list is
    circular, so the predecessor of the head is the last element. *)
Definition continue_reverse (l : list xvip_dma) (c : cursor)
  : list xvip_dma :=
  match c with
  | AtEntry i => rev (firstn i l)
  | AtHead => rev l
  end.

Definition of_type (type : vfl_devnode_direction) (l : list xvip_dma)
  : list xvip_dma :=
  List.filter (fun d => dir_eqb (vfl_dir d) type) l.

Section WithEnv.

Variable env : environment.

Definition xvip_dma_start (dma : xvip_dma) : M Z :=
  (call_void (dma_async_issue_pending (chan dma)) ;;; ret 0)%drv.

Definition xvip_dma_stop (dma : xvip_dma) : M unit :=
  call_void (dmaengine_terminate_all (chan dma)).

Definition xvip_pipeline_enable_branch (dma : xvip_dma) : M Z :=
  match xvip_dma_remote_subdev dma with
  | None => ret (- ENXIO)
  | Some (sd, pad) =>
      (r <- call env (v4l2_subdev_enable_streams sd pad (BIT 0)) ;;
       if negb (r =? 0) then ret r else ret 0)%drv
  end.

Definition xvip_pipeline_disable_branch (dma : xvip_dma) : M Z :=
  match xvip_dma_remote_subdev dma with
  | None => ret (- ENXIO)
  | Some (sd, pad) =>
      (r <- call env (v4l2_subdev_disable_streams sd pad (BIT 0)) ;;
       if negb (r =? 0) then ret r else ret 0)%drv
  end.

(** [xvip_pipeline_for_each_dma(pipe, dma, type) { ret = body(dma);
    if (ret) goto err; }] over the elements [l] that start at position
    [i].  The result is the cursor and the value of [ret] when the loop
    is left: [(AtEntry i, ret)] with [ret <> 0] on the [goto],
    [(AtHead, 0)] when the loop runs to its end. *)
Fixpoint for_each_dma (type : vfl_devnode_direction)
    (body : xvip_dma -> M Z) (l : list xvip_dma) (i : nat)
  : M (cursor * Z) :=
  match l with
  | [] => ret (AtHead, 0)
  | d :: l' =>
      if dir_eqb (vfl_dir d) type
      then
        (r <- body d ;;
         if negb (r =? 0) then ret (AtEntry i, r)
         else for_each_dma type body l' (S i))%drv
      else for_each_dma type body l' (S i)
  end.

(** [xvip_pipeline_for_each_dma_continue_reverse(pipe, dma, type)
    body(dma);] started with [dma] at cursor [c]. *)
Definition for_each_dma_continue_reverse (type : vfl_devnode_direction)
    (body : xvip_dma -> M unit) (l : list xvip_dma) (c : cursor)
  : M unit :=
  iter body (of_type type (continue_reverse l c)).

Definition discard (m : M Z) : M unit := (m ;;; ret tt)%drv.

(** The three error labels of [xvip_pipeline_start]; each falls through
    to the next with [dma] left on the list head. *)
Definition err_output (l : list xvip_dma) (c : cursor) (r : Z) : M Z :=
  (for_each_dma_continue_reverse VFL_DIR_RX xvip_dma_stop l c ;;;
   ret r)%drv.

Definition err_branch (l : list xvip_dma) (c : cursor) (r : Z) : M Z :=
  (for_each_dma_continue_reverse VFL_DIR_RX
     (fun d => discard (xvip_pipeline_disable_branch d)) l c ;;;
   err_output l AtHead r)%drv.

Definition err_input (l : list xvip_dma) (c : cursor) (r : Z) : M Z :=
  (for_each_dma_continue_reverse VFL_DIR_TX xvip_dma_stop l c ;;;
   err_branch l AtHead r)%drv.

Definition xvip_pipeline_start (pipe : xvip_pipeline) : M Z :=
  let l := dmas pipe in
  (o <- for_each_dma VFL_DIR_RX xvip_dma_start l 0 ;;
   if negb (snd o =? 0) then err_output l (fst o) (snd o)
   else
     b <- for_each_dma VFL_DIR_RX xvip_pipeline_enable_branch l 0 ;;
     if negb (snd b =? 0) then err_branch l (fst b) (snd b)
     else
       i <- for_each_dma VFL_DIR_TX xvip_dma_start l 0 ;;
       if negb (snd i =? 0) then err_input l (fst i) (snd i)
       else ret 0)%drv.

Definition xvip_pipeline_stop (pipe : xvip_pipeline) : M unit :=
  let l := dmas pipe in
  (iter xvip_dma_stop (of_type VFL_DIR_TX l) ;;;
   iter (fun d => discard (xvip_pipeline_disable_branch d))
     (of_type VFL_DIR_RX l) ;;;
   iter xvip_dma_stop (of_type VFL_DIR_RX l))%drv.

Definition stream_total (pipe : xvip_pipeline) : Z :=
  u32 (input_stream_count pipe + output_stream_count pipe).

Definition start_threshold (pipe : xvip_pipeline) : Z :=
  u32 (num_inputs pipe + num_outputs pipe - 1).

Definition count_up (pipe : xvip_pipeline) (dma : xvip_dma)
  : xvip_pipeline :=
  match vfl_dir dma with
  | VFL_DIR_RX =>
      mk_pipe (dmas pipe) (num_inputs pipe) (num_outputs pipe)
        (input_stream_count pipe) (u32 (output_stream_count pipe + 1))
  | _ =>
      mk_pipe (dmas pipe) (num_inputs pipe) (num_outputs pipe)
        (u32 (input_stream_count pipe + 1)) (output_stream_count pipe)
  end.

Definition count_down (pipe : xvip_pipeline) (dma : xvip_dma)
  : xvip_pipeline :=
  match vfl_dir dma with
  | VFL_DIR_RX =>
      mk_pipe (dmas pipe) (num_inputs pipe) (num_outputs pipe)
        (input_stream_count pipe) (u32 (output_stream_count pipe - 1))
  | _ =>
      mk_pipe (dmas pipe) (num_inputs pipe) (num_outputs pipe)
        (u32 (input_stream_count pipe - 1)) (output_stream_count pipe)
  end.

(** [xvip_pipeline_start_dma]; [mode] is the module parameter
    [xvip_dma_multi_out_mode].  The result is the return value and the
    pipeline as the call leaves it. *)
Definition xvip_pipeline_start_dma (mode : Z) (pipe : xvip_pipeline)
    (dma : xvip_dma) : M (Z * xvip_pipeline) :=
  if mode =? XVIP_DMA_MULTI_OUT_MODE_ASYNC
  then
    (r <- xvip_dma_start dma ;;
     if negb (r =? 0) then ret (r, pipe)
     else
       r <- xvip_pipeline_enable_branch dma ;;
       if negb (r =? 0)
       then xvip_dma_stop dma ;;; ret (r, pipe)
       else ret (r, pipe))%drv
  else
    (r <- (if stream_total pipe =? start_threshold pipe
           then xvip_pipeline_start pipe
           else ret 0) ;;
     if r <? 0 then ret (r, pipe)
     else ret (r, count_up pipe dma))%drv.

(** [xvip_pipeline_stop_dma]. *)
Definition xvip_pipeline_stop_dma (mode : Z) (pipe : xvip_pipeline)
    (dma : xvip_dma) : M xvip_pipeline :=
  if mode =? XVIP_DMA_MULTI_OUT_MODE_ASYNC
  then
    (discard (xvip_pipeline_disable_branch dma) ;;;
     xvip_dma_stop dma ;;;
     ret pipe)%drv
  else
    let pipe' := count_down pipe dma in
    (if stream_total pipe' =? start_threshold pipe'
     then xvip_pipeline_stop pipe' ;;; ret pipe'
     else ret pipe')%drv.

End WithEnv.

End Dma.

(** ** Routing of the stream switches
    ([xvsw_*] of xilinx-axis-switch.c, [xsw_*] of the video switch) *)

Module Switch.

Import Vip.

Inductive v4l2_subdev_format_whence : Type :=
  | V4L2_SUBDEV_FORMAT_TRY
  | V4L2_SUBDEV_FORMAT_ACTIVE.

(** The bits of [enum v4l2_subdev_routing_restriction]; a restriction
    mask is the list of the bits set in it. *)
Inductive v4l2_subdev_routing_restriction : Type :=
  | V4L2_SUBDEV_ROUTING_NO_1_TO_N
  | V4L2_SUBDEV_ROUTING_NO_N_TO_1
  | V4L2_SUBDEV_ROUTING_NO_STREAM_MIX.

Definition V4L2_SUBDEV_ROUTING_ONLY_1_TO_1
  : list v4l2_subdev_routing_restriction :=
  [V4L2_SUBDEV_ROUTING_NO_1_TO_N; V4L2_SUBDEV_ROUTING_NO_N_TO_1].

(** [struct xvswitch_device] of the AXI4-Stream switch. *)
Record xvswitch_device : Type := mk_xvsw {
  xvsw_xvip : xvip_device;
  tdest_routing : bool
}.

(** [struct xswitch_device] of the video switch. *)
Record xswitch_device : Type := mk_xsw {
  xsw_xvip : xvip_device
}.

(** Modelled from the spec: [media_entity_pipeline] is missing from the
    sources; an entity is part of an active streaming pipeline exactly
    when its pipeline pointer is set. *)
Definition media_entity_pipeline (xvip : xvip_device) : option nat :=
  entity_pipe xvip.

(** Modelled from the spec: [media_entity_is_streaming] is missing from
    the sources; it tells whether the entity is part of an active
    streaming pipeline. *)
Definition media_entity_is_streaming (xvip : xvip_device) : bool :=
  match entity_pipe xvip with
  | Some _ => true
  | None => false
  end.

(** The element written by [kcalloc]: all fields zero. *)
Definition zero_route : v4l2_subdev_route := mk_route 0 0 0 0 0.

(** The body of the loop of [xvsw_init_cfg] and [xsw_init_cfg] run
    [n] more times from index [i]: three fields of [routes[i]] are
    assigned, the stream numbers keep the zero written by [kcalloc]. *)
Fixpoint init_routes (num_sinks : Z) (n : nat) (i : Z)
    (routes : list v4l2_subdev_route) : list v4l2_subdev_route :=
  match n with
  | O => routes
  | S n' =>
      init_routes num_sinks n' (u32 (i + 1))
        (alter (fun r => mk_route i (sink_stream r) (u32 (i + num_sinks))
                           (source_stream r) V4L2_SUBDEV_ROUTE_FL_ACTIVE)
           (Z.to_nat i) routes)
  end.

Section WithFormat.

(** [struct v4l2_mbus_framefmt] and the default formats of the two
    switches; the routing code only passes them on. *)
Variable v4l2_mbus_framefmt : Type.
Variable xvsw_default_format : v4l2_mbus_framefmt.
Variable xsw_default_format : v4l2_mbus_framefmt.

(** [struct v4l2_subdev_state]: the routing table and the format of
    every (pad, stream). *)
Record v4l2_subdev_state : Type := mk_state {
  routing : list v4l2_subdev_route;
  stream_formats : list (Z * Z * v4l2_mbus_framefmt)
}.

(** The V4L2 sub-device helpers and the allocator the switches rely
    on.  [kcalloc_succeeds n] tells whether the allocation of [n]
    routes succeeds. *)
Class v4l2_framework : Type := mk_framework {
  kcalloc_succeeds : nat -> bool;
  v4l2_subdev_routing_validate :
    xvip_device -> list v4l2_subdev_route ->
    list v4l2_subdev_routing_restriction -> Z;
  v4l2_subdev_set_routing_with_fmt :
    xvip_device -> v4l2_subdev_state -> list v4l2_subdev_route ->
    v4l2_mbus_framefmt -> Z * v4l2_subdev_state
}.

(** Modelled from the spec: the contract of the missing
    [v4l2_subdev_set_routing_with_fmt]; on success the routing table
    of the state is replaced by the requested routes. *)
Definition set_routing_contract (fw : v4l2_framework) : Prop :=
  forall xvip state routes fmt,
    fst (v4l2_subdev_set_routing_with_fmt xvip state routes fmt) = 0 ->
    routing (snd (v4l2_subdev_set_routing_with_fmt xvip state routes fmt))
    = routes.

Section WithFramework.

Context {fw : v4l2_framework}.

Definition __xvsw_set_routing (xvsw : xvswitch_device)
    (state : v4l2_subdev_state) (routes : list v4l2_subdev_route)
  : Z * v4l2_subdev_state :=
  let disallow :=
    if tdest_routing xvsw
    then [V4L2_SUBDEV_ROUTING_NO_1_TO_N]
    else V4L2_SUBDEV_ROUTING_ONLY_1_TO_1 ++
         [V4L2_SUBDEV_ROUTING_NO_STREAM_MIX] in
  let r := v4l2_subdev_routing_validate (xvsw_xvip xvsw) routes
             disallow in
  if negb (r =? 0) then (r, state)
  else v4l2_subdev_set_routing_with_fmt (xvsw_xvip xvsw) state routes
         xvsw_default_format.

Definition xvsw_init_cfg (xvsw : xvswitch_device)
    (state : v4l2_subdev_state) : Z * v4l2_subdev_state :=
  let num_routes :=
    Z.min (num_sinks (xvsw_xvip xvsw)) (num_sources (xvsw_xvip xvsw)) in
  if negb (kcalloc_succeeds (Z.to_nat num_routes))
  then (- ENOMEM, state)
  else
    __xvsw_set_routing xvsw state
      (init_routes (num_sinks (xvsw_xvip xvsw)) (Z.to_nat num_routes) 0
         (repeat zero_route (Z.to_nat num_routes))).

Definition xvsw_set_routing (xvsw : xvswitch_device)
    (state : v4l2_subdev_state) (which : v4l2_subdev_format_whence)
    (routes : list v4l2_subdev_route) : Z * v4l2_subdev_state :=
  match which, media_entity_pipeline (xvsw_xvip xvsw) with
  | V4L2_SUBDEV_FORMAT_ACTIVE, Some _ => (- EBUSY, state)
  | _, _ => __xvsw_set_routing xvsw state routes
  end.

Definition __xsw_set_routing (xsw : xswitch_device)
    (state : v4l2_subdev_state) (routes : list v4l2_subdev_route)
  : Z * v4l2_subdev_state :=
  let r := v4l2_subdev_routing_validate (xsw_xvip xsw) routes
             [V4L2_SUBDEV_ROUTING_NO_N_TO_1;
              V4L2_SUBDEV_ROUTING_NO_STREAM_MIX] in
  if negb (r =? 0) then (r, state)
  else v4l2_subdev_set_routing_with_fmt (xsw_xvip xsw) state routes
         xsw_default_format.

Definition xsw_init_cfg (xsw : xswitch_device)
    (state : v4l2_subdev_state) : Z * v4l2_subdev_state :=
  let num_routes :=
    Z.min (num_sinks (xsw_xvip xsw)) (num_sources (xsw_xvip xsw)) in
  if negb (kcalloc_succeeds (Z.to_nat num_routes))
  then (- ENOMEM, state)
  else
    __xsw_set_routing xsw state
      (init_routes (num_sinks (xsw_xvip xsw)) (Z.to_nat num_routes) 0
         (repeat zero_route (Z.to_nat num_routes))).

Definition xsw_set_routing (xsw : xswitch_device)
    (state : v4l2_subdev_state) (which : v4l2_subdev_format_whence)
    (routes : list v4l2_subdev_route) : Z * v4l2_subdev_state :=
  match which with
  | V4L2_SUBDEV_FORMAT_ACTIVE =>
      if media_entity_is_streaming (xsw_xvip xsw)
      then (- EBUSY, state)
      else __xsw_set_routing xsw state routes
  | V4L2_SUBDEV_FORMAT_TRY => __xsw_set_routing xsw state routes
  end.

End WithFramework.

End WithFormat.

End Switch.

(** ** Life cycle of a pipeline and numbering of completed buffers
    ([xvip_pipeline_init], [xvip_pipeline_prepare],
    [xvip_pipeline_cleanup], [xvip_dma_complete] and the pad set-up of
    [xvip_dma_init] in xilinx-dma.c) *)

Module Lifecycle.

Import Errno Media Env Dma.

(** The buffer types [xvip_dma_init] and the format conversions tell
    apart; [V4L2_BUF_TYPE_OTHER] stands for every other value of
    [enum v4l2_buf_type], zero included. *)
Inductive v4l2_buf_type : Type :=
  | V4L2_BUF_TYPE_VIDEO_CAPTURE
  | V4L2_BUF_TYPE_VIDEO_OUTPUT
  | V4L2_BUF_TYPE_VIDEO_CAPTURE_MPLANE
  | V4L2_BUF_TYPE_VIDEO_OUTPUT_MPLANE
  | V4L2_BUF_TYPE_OTHER (n : Z).

Definition is_capture (type : v4l2_buf_type) : bool :=
  match type with
  | V4L2_BUF_TYPE_VIDEO_CAPTURE
  | V4L2_BUF_TYPE_VIDEO_CAPTURE_MPLANE => true
  | _ => false
  end.

(** [xvip_dma_init]: the flags given to [dma->pad] and the direction
    given to [dma->video.vfl_dir] for a node of buffer type [type]. *)
Definition xvip_dma_init_pad_flags (type : v4l2_buf_type) : Z :=
  if is_capture type then MEDIA_PAD_FL_SINK else MEDIA_PAD_FL_SOURCE.

Definition xvip_dma_init_vfl_dir (type : v4l2_buf_type)
  : vfl_devnode_direction :=
  if is_capture type then VFL_DIR_RX else VFL_DIR_TX.

(** An entity returned by [media_graph_walk_next]: a video node
    ([entity->function == MEDIA_ENT_F_IO_V4L]) with its DMA engine and
    the flags of [dma->pad], or an entity with another function. *)
Inductive walk_entity : Type :=
  | video_node (dma : xvip_dma) (pad_flags : Z)
  | other_entity.

(** The media graph as [xvip_pipeline_init] sees it: the value of
    [media_graph_walk_init] and the entities the walk returns, in
    order. *)
Record media_graph : Type := mk_graph {
  walk_init : Z;
  walk_next : list walk_entity
}.

(** The [while] loop of [xvip_pipeline_init] over the entities [es];
    [dl] is [pipe->dmas], the two counters are [unsigned int]. *)
Fixpoint walk_video_nodes (es : list walk_entity) (dl : list xvip_dma)
    (n_in n_out : Z) : list xvip_dma * Z * Z :=
  match es with
  | [] => (dl, n_in, n_out)
  | other_entity :: es' => walk_video_nodes es' dl n_in n_out
  | video_node dma pad_flags :: es' =>
      if negb (Z.land pad_flags MEDIA_PAD_FL_SINK =? 0)
      then walk_video_nodes es' (dl ++ [dma]) n_in (u32 (n_out + 1))
      else walk_video_nodes es' (dl ++ [dma]) (u32 (n_in + 1)) n_out
  end.

Definition set_dmas (pipe : xvip_pipeline) (dl : list xvip_dma)
  : xvip_pipeline :=
  mk_pipe dl (num_inputs pipe) (num_outputs pipe)
    (input_stream_count pipe) (output_stream_count pipe).

Definition set_nums (pipe : xvip_pipeline) (n_in n_out : Z)
  : xvip_pipeline :=
  mk_pipe (dmas pipe) n_in n_out
    (input_stream_count pipe) (output_stream_count pipe).

(** [xvip_pipeline_init]: the return value and the pipeline as the call
    leaves it. *)
Definition xvip_pipeline_init (pipe : xvip_pipeline) (g : media_graph)
  : Z * xvip_pipeline :=
  if negb (walk_init g =? 0) then (walk_init g, pipe)
  else
    let '(dl, n_in, n_out) := walk_video_nodes (walk_next g) (dmas pipe) 0 0 in
    if (n_out =? 0) && (n_in =? 0) then (- EPIPE, set_dmas pipe dl)
    else (0, set_nums (set_dmas pipe dl) n_in n_out).

(** [__xvip_pipeline_cleanup]. *)
Definition __xvip_pipeline_cleanup (pipe : xvip_pipeline) : xvip_pipeline :=
  set_nums (set_dmas pipe []) 0 0.

(** A pipeline with its use count ([pipe->use_count], [unsigned int]). *)
Record xvip_pipeline_users : Type := mk_users {
  pipeline : xvip_pipeline;
  use_count : Z
}.

(** [xvip_pipeline_cleanup]. *)
Definition xvip_pipeline_cleanup (p : xvip_pipeline_users)
  : xvip_pipeline_users :=
  let n := u32 (use_count p - 1) in
  if n =? 0 then mk_users (__xvip_pipeline_cleanup (pipeline p)) n
  else mk_users (pipeline p) n.

(** [xvip_pipeline_prepare]; [g] is the graph walked from the video node
    of the DMA engine. *)
Definition xvip_pipeline_prepare (p : xvip_pipeline_users) (g : media_graph)
  : Z * xvip_pipeline_users :=
  if use_count p =? 0
  then
    let '(r, pipe1) := xvip_pipeline_init (pipeline p) g in
    if r <? 0
    then (r, mk_users (__xvip_pipeline_cleanup pipe1) (use_count p))
    else (0, mk_users pipe1 (u32 (use_count p + 1)))
  else (0, mk_users (pipeline p) (u32 (use_count p + 1))).

(** [enum v4l2_field], as far as the driver tells the values apart. *)
Inductive v4l2_field : Type :=
  | V4L2_FIELD_NONE
  | V4L2_FIELD_TOP
  | V4L2_FIELD_BOTTOM
  | V4L2_FIELD_ALTERNATE
  | V4L2_FIELD_OTHER (n : Z).

Definition is_alternate (f : v4l2_field) : bool :=
  match f with
  | V4L2_FIELD_ALTERNATE => true
  | _ => false
  end.

(** The numbering state of a DMA engine: [dma->sequence] and
    [dma->prev_fid], both [u32]. *)
Record dma_numbering : Type := mk_numbering {
  sequence : Z;
  prev_fid : Z
}.

(** The state [xvip_dma_start_streaming] sets before the first buffer:
    [dma->sequence = 0; dma->prev_fid = ~0]. *)
Definition numbering_at_start : dma_numbering :=
  mk_numbering 0 (u32 (Z.lnot 0)).

(** The stamp [xvip_dma_complete] puts on a buffer: [buf.field] and
    [buf.sequence]. *)
Record buffer_stamp : Type := mk_stamp {
  buf_field : v4l2_field;
  buf_sequence : Z
}.

(** [xvip_dma_complete], the part that numbers the buffer: [field] is
    [dma->format.field]; [status] and [fid] are what
    [xilinx_xdma_get_fid] returns for the descriptor.  The payload
    sizes, the time stamp and the hand-over to videobuf2 are not part
    of the result. *)
Definition xvip_dma_complete (field : v4l2_field) (status fid : Z)
    (dma : dma_numbering) : buffer_stamp * dma_numbering :=
  let seq0 := sequence dma in
  let dma1 := mk_numbering (u32 (seq0 + 1)) (prev_fid dma) in
  if negb (status =? 0) then (mk_stamp V4L2_FIELD_NONE seq0, dma1)
  else if negb (is_alternate field) then (mk_stamp V4L2_FIELD_NONE seq0, dma1)
  else
    let f := if negb (fid =? 0) then V4L2_FIELD_TOP else V4L2_FIELD_BOTTOM in
    let '(seq1, dma2) :=
      if fid =? prev_fid dma1
      then (sequence dma1,
            mk_numbering (u32 (sequence dma1 + 1)) (prev_fid dma1))
      else (seq0, dma1) in
    (mk_stamp f (Z.shiftr seq1 1), mk_numbering (sequence dma2) fid).

End Lifecycle.

(** ** Format helpers of the Video IP core (xilinx-vip.c) and format
    enumeration of the DMA video node ([xvip_dma_enum_format] in
    xilinx-dma.c) *)

Module VipFormats.

Import Formats Lifecycle Switch.

(** include/linux/errno.h *)
Definition ENOIOCTLCMD : Z := 515.

(** [xvip_get_format_by_index]; [index] is [unsigned int]. *)
Definition xvip_get_format_by_index (index : Z) : format_ptr :=
  if index >=? Z.of_nat (length xvip_video_formats)
  then ERR_PTR (- EINVAL)
  else FormatAt (Z.to_nat index).

(** What an [of_property_read_*] call does: it stores the value of the
    property and returns 0, or it stores nothing and returns an error
    number. *)
Inductive of_read (A : Type) : Type :=
  | of_ok (v : A)
  | of_fail (err : Z).

Arguments of_ok {A} v.
Arguments of_fail {A} err.

(** The return value of the read and the variable after the call;
    [initial] is what the variable held before. *)
Definition read_into {A : Type} (r : of_read A) (initial : A) : Z * A :=
  match r with
  | of_ok v => (0, v)
  | of_fail err => (err, initial)
  end.

(** A device tree node, as far as the driver reads it: its name and
    what reading each property gives. *)
Record device_node : Type := mk_node {
  node_name : string;
  video_format : of_read Z;
  video_width : of_read Z;
  cfa_pattern : of_read string;
  reg : of_read Z;
  data_shift : of_read Z
}.

(** [struct v4l2_mbus_framefmt], the fields the helpers use. *)
Record v4l2_mbus_framefmt : Type := mk_framefmt {
  fmt_width : Z;
  fmt_height : Z;
  fmt_code : Z;
  fmt_field : v4l2_field
}.

Definition field_eqb (a b : v4l2_field) : bool :=
  match a, b with
  | V4L2_FIELD_NONE, V4L2_FIELD_NONE => true
  | V4L2_FIELD_TOP, V4L2_FIELD_TOP => true
  | V4L2_FIELD_BOTTOM, V4L2_FIELD_BOTTOM => true
  | V4L2_FIELD_ALTERNATE, V4L2_FIELD_ALTERNATE => true
  | V4L2_FIELD_OTHER n, V4L2_FIELD_OTHER m => n =? m
  | _, _ => false
  end.

(** [clamp_t(unsigned int, val, lo, hi)]. *)
Definition clamp_t (val lo hi : Z) : Z :=
  Z.min (Z.max (u32 val) (u32 lo)) (u32 hi).

(** The sizes [xvip_enum_frame_size] reports. *)
Record frame_size_range : Type := mk_range {
  min_width : Z;
  max_width : Z;
  min_height : Z;
  max_height : Z
}.

Section Values.

(** The numeric values of the media bus codes, of the 4CCs and of the
    video format codes of the device tree are macros of headers; the
    code only compares them. *)
Variable code_value : media_bus_fmt -> Z.
Variable fourcc_value : v4l2_pix_fmt -> Z.
Variable vf_value : xvip_vf_code -> Z.

(** [strcmp(pattern, format->pattern) != 0]; the table entry has no
    pattern when the pointer is [NULL]. *)
Definition strcmp_differs (a : string) (b : option string) : bool :=
  match b with
  | Some s => negb (String.eqb a s)
  | None => true
  end.

(** The body of the loop of [xvip_of_get_format]: [true] when the loop
    returns the entry, [false] when it continues. *)
Definition of_format_hit (vf w : Z) (pat : string) (f : xvip_video_format)
  : bool :=
  if negb (vf_value (vf_code f) =? vf) || negb (width f =? w) then false
  else if (vf =? vf_value XVIP_VF_MONO_SENSOR) &&
          strcmp_differs pat (pattern f) then false
  else true.

(** [xvip_of_get_format]. *)
Definition xvip_of_get_format (node : device_node) : format_ptr :=
  let '(ret, vf) := read_into (video_format node) 0 in
  if ret <? 0 then ERR_PTR ret
  else
    let '(ret, w) := read_into (video_width node) 0 in
    if ret <? 0 then ERR_PTR ret
    else
      let '(ret, pat) :=
        if vf =? vf_value XVIP_VF_MONO_SENSOR
        then read_into (cfa_pattern node) "mono"%string
        else (0, "mono"%string) in
      if ret <? 0 then ERR_PTR ret
      else
        match scan_formats (of_format_hit vf w pat) xvip_video_formats 0 with
        | Some i => FormatAt i
        | None => ERR_PTR (- EINVAL)
        end.

(** The [for] loop of [xvip_dma_enum_format] over the 4CCs of the DMA
    engine: the format at the [break], or [None] when the loop runs to
    [i == fmt_cnt]. *)
Fixpoint enum_scan (mbus_code : Z) (fmts : list Z) : option format_ptr :=
  match fmts with
  | [] => None
  | v :: rest =>
      let fmt := xvip_get_format_by_fourcc fourcc_value v in
      if negb (IS_ERR fmt) &&
         match deref fmt with
         | Some f => code_value (code f) =? mbus_code
         | None => false
         end
      then Some fmt
      else enum_scan mbus_code rest
  end.

(** [xvip_dma_enum_format]: [fmts] is the list of 4CCs that
    [xilinx_xdma_get_v4l2_vid_fmts] gives ([fmt_cnt] is its length),
    [mbus_code] and [index] are the fields of [f].  The result is the
    return value and the value stored in [f->pixelformat], if any. *)
Definition xvip_dma_enum_format (fmts : list Z) (mbus_code index : Z)
  : Z * option v4l2_pix_fmt :=
  let fmt_cnt := Z.of_nat (length fmts) in
  let found : Z + format_ptr :=
    if negb (mbus_code =? 0) then
      if index >? 0 then inl (- EINVAL)
      else if negb (fmt_cnt =? 0) then
        match enum_scan mbus_code fmts with
        | None => inl (- EINVAL)
        | Some fmt => inr fmt
        end
      else inr (xvip_get_format_by_code code_value mbus_code)
    else
      if negb (fmt_cnt =? 0) then
        if index >=? fmt_cnt then inl (- EINVAL)
        else inr (xvip_get_format_by_fourcc fourcc_value
                    (nth (Z.to_nat index) fmts 0))
      else inr (xvip_get_format_by_index index) in
  match found with
  | inl err => (err, None)
  | inr fmt =>
      if IS_ERR fmt then (- EINVAL, None)
      else (0, option_map fourcc (deref fmt))
  end.

(** [format->flavor] as a number; no flavor is 0. *)
Definition flavor_value (f : xvip_video_format) : Z :=
  match flavor f with
  | Some c => code_value c
  | None => 0
  end.

(** The two tests of [xvip_link_validate] that involve the data shift
    [shift] ([unsigned int]) of the sink. *)
Definition link_check (si ki : xvip_video_format) (shift : Z) : Z :=
  if ((flavor_value si =? 0) || (flavor_value ki =? 0) ||
      negb (flavor_value si =? flavor_value ki)) &&
     negb (shift =? 0)
  then - EPIPE
  else if negb (u32 (width si - width ki) =? shift) then - EPIPE
  else 0.

(** [xvip_link_validate]: [mbus_ret] is what the [get_mbus_config] call
    on the sink sub-device returns and [mbus_data_shift] the data shift
    it leaves in the zero-initialised [mbus_config].  The lookups by
    code give an entry of the table or an error pointer, and [deref]
    gives nothing exactly for an error pointer. *)
Definition xvip_link_validate (source_fmt sink_fmt : v4l2_mbus_framefmt)
    (mbus_ret mbus_data_shift : Z) : Z :=
  if negb (fmt_width source_fmt =? fmt_width sink_fmt) ||
     negb (fmt_height source_fmt =? fmt_height sink_fmt)
  then - EPIPE
  else if negb (field_eqb (fmt_field source_fmt) (fmt_field sink_fmt)) &&
          negb (field_eqb (fmt_field sink_fmt) V4L2_FIELD_NONE)
  then - EPIPE
  else
    let source_info := xvip_get_format_by_code code_value (fmt_code source_fmt) in
    let sink_info := xvip_get_format_by_code code_value (fmt_code sink_fmt) in
    match deref source_info, deref sink_info with
    | Some si, Some ki =>
        if mbus_ret =? 0 then link_check si ki mbus_data_shift
        else if mbus_ret =? - ENOIOCTLCMD then link_check si ki 0
        else mbus_ret
    | _, _ => - EPIPE
    end.

End Values.

Section Limits.

(** [XVIP_MIN_WIDTH] and the like, and [XVIP_PAD_SINK], are macros of
    xilinx-vip.h. *)
Variable XVIP_MIN_WIDTH XVIP_MAX_WIDTH : Z.
Variable XVIP_MIN_HEIGHT XVIP_MAX_HEIGHT : Z.
Variable XVIP_PAD_SINK : Z.

(** [xvip_set_format_size]: [format] as the call leaves it. *)
Definition xvip_set_format_size (format fmt : v4l2_mbus_framefmt)
  : v4l2_mbus_framefmt :=
  mk_framefmt
    (clamp_t (fmt_width fmt) XVIP_MIN_WIDTH XVIP_MAX_WIDTH)
    (clamp_t (fmt_height fmt) XVIP_MIN_HEIGHT XVIP_MAX_HEIGHT)
    (fmt_code format) (fmt_field format).

(** [xvip_enum_mbus_code]: [format] is the try format of the pad
    ([v4l2_subdev_get_try_format]); the result is the return value and
    the value stored in [code->code], if any. *)
Definition xvip_enum_mbus_code (which : v4l2_subdev_format_whence)
    (index : Z) (format : v4l2_mbus_framefmt) : Z * option Z :=
  match which with
  | V4L2_SUBDEV_FORMAT_ACTIVE => (- EINVAL, None)
  | V4L2_SUBDEV_FORMAT_TRY =>
      if negb (index =? 0) then (- EINVAL, None)
      else (0, Some (fmt_code format))
  end.

(** [xvip_enum_frame_size]: the return value and the sizes stored in
    [fse], if any. *)
Definition xvip_enum_frame_size (which : v4l2_subdev_format_whence)
    (index code pad : Z) (format : v4l2_mbus_framefmt)
  : Z * option frame_size_range :=
  match which with
  | V4L2_SUBDEV_FORMAT_ACTIVE => (- EINVAL, None)
  | V4L2_SUBDEV_FORMAT_TRY =>
      if negb (index =? 0) || negb (code =? fmt_code format)
      then (- EINVAL, None)
      else if pad =? XVIP_PAD_SINK
      then (0, Some (mk_range XVIP_MIN_WIDTH XVIP_MAX_WIDTH
                       XVIP_MIN_HEIGHT XVIP_MAX_HEIGHT))
      else (0, Some (mk_range (fmt_width format) (fmt_width format)
                       (fmt_height format) (fmt_height format)))
  end.

End Limits.

End VipFormats.

(** ** Register programming and device tree parsing of the AXI4-Stream
    switch ([xvsw_s_stream] and [xvsw_parse_of] in
    xilinx-axis-switch.c) *)

Module SwitchStream.

Import Vip Switch VipFormats.

Definition XVSW_CTRL_REG : Z := 0.
Definition XVSW_CTRL_REG_UPDATE_MASK : Z := BIT 1.
Definition XVSW_MI_MUX_REG_BASE : Z := 64.
Definition XVSW_MI_MUX_DISABLE_MASK : Z := BIT 31.
Definition MIN_VSW_SINKS : Z := 1.
Definition MAX_VSW_SINKS : Z := 16.
Definition MIN_VSW_SRCS : Z := 1.
Definition MAX_VSW_SRCS : Z := 16.

(** A register write: the address and the value, both [u32]. *)
Definition reg_write : Type := (Z * Z)%type.

(** [xvswitch_write(xvsw, addr, value)], as the write it performs. *)
Definition xvswitch_write (addr value : Z) : reg_write :=
  (u32 addr, u32 value).

(** The loop [for (i = 0; i < xvsw->xvip.num_sources; i++)] of the
    disable path. *)
Definition disable_masters (num_sources : Z) : list reg_write :=
  map (fun i => xvswitch_write
                  (XVSW_MI_MUX_REG_BASE + Z.of_nat i * 4)
                  XVSW_MI_MUX_DISABLE_MASK)
    (seq 0 (Z.to_nat num_sources)).

(** The loop [for_each_active_route] of the enable path over the active
    routes [routes]; [unused_sources] is the mask of the outputs not
    written yet.  The result is the writes made and the mask left. *)
Fixpoint configure_routes (routes : list v4l2_subdev_route)
    (unused_sources : Z) : list reg_write * Z :=
  match routes with
  | [] => ([], unused_sources)
  | route :: rest =>
      let source := source_pad route in
      if Z.land unused_sources (BIT source) =? 0
      then configure_routes rest unused_sources
      else
        let r := configure_routes rest
                   (Z.land unused_sources (Z.lnot (BIT source))) in
        (xvswitch_write (XVSW_MI_MUX_REG_BASE + source * 4) (sink_pad route)
           :: fst r, snd r)
  end.

(** [for_each_set_bit(i, &unused_sources, MAX_VSW_SRCS)] with the write
    of its body. *)
Definition disable_unused (unused_sources : Z) : list reg_write :=
  map (fun i => xvswitch_write
                  (XVSW_MI_MUX_REG_BASE + Z.of_nat i * 4)
                  XVSW_MI_MUX_DISABLE_MASK)
    (List.filter (fun i => Z.testbit unused_sources (Z.of_nat i))
       (seq 0 (Z.to_nat MAX_VSW_SRCS))).

(** [xvsw_s_stream]: [routing] is the routing table of the active
    state.  The result is the return value and the register writes, in
    order. *)
Definition xvsw_s_stream (xvsw : xvswitch_device)
    (routing : list v4l2_subdev_route) (enable : Z) : Z * list reg_write :=
  if tdest_routing xvsw then (0, [])
  else if enable =? 0
  then (0, disable_masters (num_sources (xvsw_xvip xvsw)) ++
           [xvswitch_write XVSW_CTRL_REG XVSW_CTRL_REG_UPDATE_MASK])
  else
    let unused_sources := Z.shiftl 1 MAX_VSW_SRCS - 1 in
    let r := configure_routes (active_routes routing) unused_sources in
    (0, fst r ++ disable_unused (snd r) ++
        [xvswitch_write XVSW_CTRL_REG XVSW_CTRL_REG_UPDATE_MASK]).

(** [struct xvip_device_info]. *)
Record xvip_device_info : Type := mk_info {
  has_axi_lite : bool;
  has_port_formats : bool;
  info_num_sinks : Z;
  info_num_sources : Z
}.

(** What [xvsw_parse_of] reads: the three properties of the node and
    the two clocks ([None] for a clock, [Some err] for an error pointer
    with [PTR_ERR] [err]). *)
Record xvsw_node : Type := mk_xvsw_node {
  num_si_slots : of_read Z;
  num_mi_slots : of_read Z;
  routing_mode : of_read Z;
  aclk : option Z;
  s_axi_ctl_clk : option Z
}.

(** The device fields [xvsw_parse_of] writes. *)
Record xvsw_parsed : Type := mk_parsed {
  parsed_info : xvip_device_info;
  parsed_tdest_routing : bool;
  parsed_aclk : bool;
  parsed_saxi_ctlclk : bool
}.

Definition set_num_sinks (info : xvip_device_info) (n : Z)
  : xvip_device_info :=
  mk_info (has_axi_lite info) (has_port_formats info) n
    (info_num_sources info).

Definition set_num_sources (info : xvip_device_info) (n : Z)
  : xvip_device_info :=
  mk_info (has_axi_lite info) (has_port_formats info) (info_num_sinks info) n.

Definition set_has_axi_lite (info : xvip_device_info) (b : bool)
  : xvip_device_info :=
  mk_info b (has_port_formats info) (info_num_sinks info)
    (info_num_sources info).

(** [xvsw_parse_of]: the return value and the fields as the call leaves
    them; [st] holds them as they are before the call (the [aclk] and
    [saxi_ctlclk] flags tell whether the clock pointer is set and
    valid). *)
Definition xvsw_parse_of (node : xvsw_node) (st : xvsw_parsed)
  : Z * xvsw_parsed :=
  let info := parsed_info st in
  let '(ret, n) := read_into (num_si_slots node) (info_num_sinks info) in
  let info := set_num_sinks info n in
  let st1 := mk_parsed info (parsed_tdest_routing st) (parsed_aclk st)
               (parsed_saxi_ctlclk st) in
  if (ret <? 0) || (n <? MIN_VSW_SINKS) || (n >? MAX_VSW_SINKS)
  then (ret, st1)
  else
    let '(ret, m) := read_into (num_mi_slots node) (info_num_sources info) in
    let info := set_num_sources info m in
    let st2 := mk_parsed info (parsed_tdest_routing st) (parsed_aclk st)
                 (parsed_saxi_ctlclk st) in
    if (ret <? 0) || (m <? MIN_VSW_SRCS) || (m >? MAX_VSW_SRCS)
    then (ret, st2)
    else
      let '(ret, mode) := read_into (routing_mode node) 0 in
      if (ret <? 0) || (mode >? 1) then (ret, st2)
      else
        let tdest := if mode =? 0 then true else parsed_tdest_routing st in
        match aclk node with
        | Some err => (err, mk_parsed info tdest false (parsed_saxi_ctlclk st))
        | None =>
            let st3 := mk_parsed info tdest true (parsed_saxi_ctlclk st) in
            let after_ctl (st4 : xvsw_parsed) : Z * xvsw_parsed :=
              if tdest && (info_num_sinks info >? 1) then (- EINVAL, st4)
              else (0, mk_parsed (set_has_axi_lite info (negb tdest)) tdest
                         (parsed_aclk st4) (parsed_saxi_ctlclk st4)) in
            if negb tdest
            then
              match s_axi_ctl_clk node with
              | Some err => (err, mk_parsed info tdest true false)
              | None => after_ctl (mk_parsed info tdest true true)
              end
            else after_ctl st3
        end.

End SwitchStream.

(** ** Ports of a Video IP device ([xvip_device_parse_dt] and
    [xvip_get_mbus_config] in xilinx-vip.c) *)

Module ParseDt.

Import Formats VipFormats.

(** [struct xvip_port]: the format is the index of an entry of
    [xvip_video_formats], [None] for [NULL]. *)
Record xvip_port : Type := mk_port {
  port_format : option nat;
  port_data_shift : Z
}.

Definition set_port_format (i : nat) (p : xvip_port) : xvip_port :=
  mk_port (Some i) (port_data_shift p).

Definition set_port_data_shift (v : Z) (p : xvip_port) : xvip_port :=
  mk_port (port_format p) v.

Section Values.

Variable vf_value : xvip_vf_code -> Z.

(** The body of [for_each_child_of_node(ports, port)] for the children
    [children]; [ports] is the array [xvip->ports], [found_ports] is
    [u32], [num_ports] is [unsigned int].  The result is the value of
    [ret] when the loop is left, the array and [num_ports].  A failed
    read of "reg" leaves the loop with its error number. *)
Fixpoint parse_ports (has_port_formats : bool) (num_pads : Z)
    (children : list device_node) (ports : list xvip_port)
    (found_ports num_ports : Z) : Z * list xvip_port * Z :=
  match children with
  | [] => (0, ports, num_ports)
  | port :: rest =>
      if negb (String.eqb (node_name port) "port")
      then parse_ports has_port_formats num_pads rest ports
             found_ports num_ports
      else
        match reg port with
        | of_fail err => (err, ports, num_ports)
        | of_ok index =>
            if index >=? num_pads then (- EINVAL, ports, num_ports)
            else if negb (Z.land found_ports (BIT index) =? 0)
            then (- EINVAL, ports, num_ports)
            else
              let format :=
                if has_port_formats
                then Some (xvip_of_get_format vf_value port)
                else None in
              match format with
              | Some (ERR_PTR err) => (err, ports, num_ports)
              | _ =>
                  let ports1 :=
                    match format with
                    | Some (FormatAt i) =>
                        alter (set_port_format i) (Z.to_nat index) ports
                    | _ => ports
                    end in
                  let ports2 :=
                    match data_shift port with
                    | of_ok v =>
                        alter (set_port_data_shift v) (Z.to_nat index) ports1
                    | of_fail _ => ports1
                    end in
                  parse_ports has_port_formats num_pads rest ports2
                    (u32 (Z.lor found_ports (BIT index)))
                    (u32 (num_ports + 1))
              end
        end
  end.

(** [xvip_device_parse_dt]: [children] are the children of the "ports"
    node, or of the device node when there is none.  The result is the
    return value and the array [xvip->ports]. *)
Definition xvip_device_parse_dt (num_sinks num_sources : Z)
    (has_port_formats : bool) (children : list device_node)
    (ports : list xvip_port) : Z * list xvip_port :=
  let num_pads := u32 (num_sinks + num_sources) in
  let '(ret, ports', num_ports) :=
    parse_ports has_port_formats num_pads children ports 0 0 in
  if negb (ret =? 0) then (ret, ports')
  else if negb (num_ports =? u32 (num_sinks + num_sources))
  then (- EINVAL, ports')
  else (0, ports').

End Values.

(** A value stored in an [unsigned char]. *)
Definition u8 (x : Z) : Z := x mod 2 ^ 8.

(** [xvip_get_mbus_config]: the return value and the data shift stored
    in [config], if any.  The field [config->bus.parallel.data_shift] is
    an [unsigned char], the data shift of the port an [unsigned int]:
    the assignment keeps the low eight bits. *)
Definition xvip_get_mbus_config (num_sinks num_sources : Z)
    (ports : list xvip_port) (pad : Z) : Z * option Z :=
  if pad >=? u32 (num_sinks + num_sources) then (- EINVAL, None)
  else (0, (fun p => u8 (port_data_shift p)) <$> ports !! Z.to_nat pad).

End ParseDt.

(** ** Formats and selections of the DMA video node
    ([xvip_dma_get_format], the planar conversions and the selection
    handlers in xilinx-dma.c) *)

Module DmaFormats.

Import Lifecycle.

Definition XVIP_DMA_MIN_WIDTH : Z := 1.
Definition XVIP_DMA_MAX_WIDTH : Z := 65535.
Definition XVIP_DMA_MIN_HEIGHT : Z := 1.
Definition XVIP_DMA_MAX_HEIGHT : Z := 8191.

(** [rounddown(x, y)] and [roundup(x, y)] on [unsigned int]. *)
Definition rounddown (x y : Z) : Z := u32 (x - x mod y).

Definition roundup (x y : Z) : Z := u32 (u32 (x + (y - 1)) / y * y).

(** [clamp(val, lo, hi)]: [min(max(val, lo), hi)]. *)
Definition clamp (val lo hi : Z) : Z := Z.min (Z.max val lo) hi.

(** [struct v4l2_plane_pix_format]. *)
Record v4l2_plane_pix_format : Type := mk_plane {
  plane_sizeimage : Z;
  plane_bytesperline : Z
}.

(** [struct v4l2_pix_format_mplane]; the colorimetry fields are only
    copied. *)
Record v4l2_pix_format_mplane : Type := mk_pix_mp {
  mp_width : Z;
  mp_height : Z;
  mp_pixelformat : Z;
  mp_field : v4l2_field;
  mp_colorspace : Z;
  mp_plane_fmt : list v4l2_plane_pix_format;
  mp_num_planes : Z;
  mp_flags : Z;
  mp_ycbcr_enc : Z;
  mp_quantization : Z;
  mp_xfer_func : Z
}.



Record v4l2_format_mp : Type := mk_fmt_mp {
  fmt_mp_type : v4l2_buf_type;
  fmt_pix_mp : v4l2_pix_format_mplane
}.

Definition VIDEO_MAX_PLANES : nat := 8.

(** What [memset(.., 0, ..)] leaves: the value 0 of [enum v4l2_field]
    is [V4L2_FIELD_ANY], the value 0 of [enum v4l2_buf_type] has no
    name. *)
Definition zero_field : v4l2_field := V4L2_FIELD_OTHER 0.


Definition zero_plane : v4l2_plane_pix_format := mk_plane 0 0.



(** [xvip_dma_get_format_mplane]: [dma_format] is [dma->format]. *)
Definition xvip_dma_get_format_mplane (dma_format : v4l2_pix_format_mplane)
    (format : v4l2_format_mp) : Z * v4l2_format_mp :=
  (0, mk_fmt_mp (fmt_mp_type format) dma_format).


(** The selection targets the handlers tell apart. *)
Inductive v4l2_sel_tgt : Type :=
  | V4L2_SEL_TGT_CROP
  | V4L2_SEL_TGT_CROP_DEFAULT
  | V4L2_SEL_TGT_CROP_BOUNDS
  | V4L2_SEL_TGT_COMPOSE
  | V4L2_SEL_TGT_COMPOSE_DEFAULT
  | V4L2_SEL_TGT_COMPOSE_BOUNDS
  | V4L2_SEL_TGT_OTHER (n : Z).

(** [struct v4l2_rect]: [left] and [top] are [__s32], [width] and
    [height] are [__u32]. *)
Record v4l2_rect : Type := mk_rect {
  left : Z;
  top : Z;
  rect_width : Z;
  rect_height : Z
}.

(** [struct v4l2_selection]. *)
Record v4l2_selection : Type := mk_sel {
  sel_type : v4l2_buf_type;
  sel_target : v4l2_sel_tgt;
  sel_r : v4l2_rect
}.

(** The fields of [struct xvip_dma] the selection handlers use:
    [dma->format.width], [dma->format.height], [dma->r] and
    [dma->width_align]. *)
Record dma_geometry : Type := mk_geometry {
  format_width : Z;
  format_height : Z;
  r_width : Z;
  r_height : Z;
  width_align : Z
}.

Definition is_type_capture (t : v4l2_buf_type) : bool :=
  match t with
  | V4L2_BUF_TYPE_VIDEO_CAPTURE => true
  | _ => false
  end.

Definition is_type_output (t : v4l2_buf_type) : bool :=
  match t with
  | V4L2_BUF_TYPE_VIDEO_OUTPUT => true
  | _ => false
  end.

(** [xvip_dma_g_selection]: the return value and [sel] as the call
    leaves it. *)
Definition xvip_dma_g_selection (dma : dma_geometry) (sel : v4l2_selection)
  : Z * v4l2_selection :=
  let fill (crop_frame : bool) : Z * v4l2_selection :=
    (0, mk_sel (sel_type sel) (sel_target sel)
          (if crop_frame
           then mk_rect 0 0 (r_width dma) (r_height dma)
           else mk_rect 0 0 (format_width dma) (format_height dma))) in
  match sel_target sel with
  | V4L2_SEL_TGT_COMPOSE =>
      if negb (is_type_capture (sel_type sel)) then (- EINVAL, sel)
      else fill true
  | V4L2_SEL_TGT_COMPOSE_BOUNDS
  | V4L2_SEL_TGT_COMPOSE_DEFAULT =>
      if negb (is_type_capture (sel_type sel)) then (- EINVAL, sel)
      else fill false
  | V4L2_SEL_TGT_CROP =>
      if negb (is_type_output (sel_type sel)) then (- EINVAL, sel)
      else fill true
  | V4L2_SEL_TGT_CROP_BOUNDS
  | V4L2_SEL_TGT_CROP_DEFAULT =>
      if negb (is_type_output (sel_type sel)) then (- EINVAL, sel)
      else fill false
  | V4L2_SEL_TGT_OTHER _ => (- EINVAL, sel)
  end.

(** [xvip_dma_s_selection]: the return value, [sel] and the engine as
    the call leaves them. *)
Definition xvip_dma_s_selection (dma : dma_geometry) (sel : v4l2_selection)
  : Z * v4l2_selection * dma_geometry :=
  let apply : Z * v4l2_selection * dma_geometry :=
    let width := format_width dma in
    let height := format_height dma in
    let r := sel_r sel in
    if (rect_width r >? width) || (rect_height r >? height) ||
       negb (top r =? 0) || negb (left r =? 0)
    then (- EINVAL, sel, dma)
    else
      let w := rounddown (Z.max XVIP_DMA_MIN_WIDTH (rect_width r))
                 (width_align dma) in
      let h := Z.max XVIP_DMA_MIN_HEIGHT (rect_height r) in
      (0, mk_sel (sel_type sel) (sel_target sel) (mk_rect (left r) (top r) w h),
       mk_geometry (format_width dma) (format_height dma) w h
         (width_align dma)) in
  match sel_target sel with
  | V4L2_SEL_TGT_COMPOSE =>
      if negb (is_type_capture (sel_type sel)) then (- EINVAL, sel, dma)
      else apply
  | V4L2_SEL_TGT_CROP =>
      if negb (is_type_output (sel_type sel)) then (- EINVAL, sel, dma)
      else apply
  | _ => (- EINVAL, sel, dma)
  end.

(** The size check of [xvip_dma_queue_setup], [n] iterations from
    index [i]: [-EINVAL] at the first size below the image size of its
    plane, 0 when the loop runs to its end. *)
Fixpoint check_sizes (planes : list v4l2_plane_pix_format) (sizes : list Z)
    (n i : nat) : Z :=
  match n with
  | O => 0
  | S n' =>
      if default 0 (sizes !! i)
         <? plane_sizeimage (default zero_plane (planes !! i))
      then - EINVAL
      else check_sizes planes sizes n' (S i)
  end.

(** The loop of [xvip_dma_queue_setup] that stores the image sizes,
    [n] iterations from index [i]. *)
Fixpoint fill_sizes (planes : list v4l2_plane_pix_format) (sizes : list Z)
    (n i : nat) : list Z :=
  match n with
  | O => sizes
  | S n' =>
      fill_sizes planes
        (<[i := plane_sizeimage (default zero_plane (planes !! i))]> sizes)
        n' (S i)
  end.

(** [xvip_dma_queue_setup]: [dma_format] is [dma->format],
    [fmtinfo_num_buffers] is [dma->fmtinfo->num_buffers]; the result is
    the return value, [*nplanes] and [sizes] as the call leaves
    them. *)
Definition xvip_dma_queue_setup (dma_format : v4l2_pix_format_mplane)
    (fmtinfo_num_buffers : Z) (nplanes : Z) (sizes : list Z)
  : Z * Z * list Z :=
  if negb (nplanes =? 0)
  then
    if negb (nplanes =? mp_num_planes dma_format)
    then (- EINVAL, nplanes, sizes)
    else (check_sizes (mp_plane_fmt dma_format) sizes (Z.to_nat nplanes) 0,
          nplanes, sizes)
  else
    (0, fmtinfo_num_buffers,
     fill_sizes (mp_plane_fmt dma_format) sizes
       (Z.to_nat fmtinfo_num_buffers) 0).

Section TryFormat.

(** The numeric values of the 4CCs, and the fields of
    [struct xvip_video_format] that this revision of the DMA code
    reads and the format table above does not carry:
    [bytes_per_pixel[i]] as (numerator, denominator) and
    [num_buffers]. *)
Variable fourcc_value : Formats.v4l2_pix_fmt -> Z.
Variable bytes_per_pixel : Formats.xvip_video_format -> nat -> Z * Z.
Variable num_buffers : Formats.xvip_video_format -> Z.

(** [dma->width_align] and [dma->align]. *)
Variable dma_width_align dma_align : Z.

(** The body of the first loop of [__xvip_dma_try_format] for plane
    [i]: the plane as the body leaves it. *)
Definition try_plane (width height : Z) (info : Formats.xvip_video_format)
    (i : nat) (plane : v4l2_plane_pix_format) : v4l2_plane_pix_format :=
  let max_bpl := rounddown XVIP_DMA_MAX_WIDTH dma_align in
  let min_bpl := u32 (width * fst (bytes_per_pixel info i))
                 / snd (bytes_per_pixel info i) in
  let min_bpl := roundup min_bpl dma_align in
  let bpl := rounddown (plane_bytesperline plane) dma_align in
  let bytesperline := clamp bpl min_bpl max_bpl in
  mk_plane
    (u32 (bytesperline * height)
     / (if Nat.eqb i 0 then 1 else Formats.vsub info))
    bytesperline.

(** [for (i = ...; i < info->num_planes; i++)] of the first loop, [n]
    iterations from index [i]. *)
Fixpoint try_planes (width height : Z) (info : Formats.xvip_video_format)
    (n i : nat) (planes : list v4l2_plane_pix_format)
  : list v4l2_plane_pix_format :=
  match n with
  | O => planes
  | S n' =>
      try_planes width height info n' (S i)
        (alter (try_plane width height info i) i planes)
  end.

(** The second loop, [n] iterations from index [i]: the image size of
    plane [i] is added to that of plane 0. *)
Fixpoint add_sizes (n i : nat) (planes : list v4l2_plane_pix_format)
  : list v4l2_plane_pix_format :=
  match n with
  | O => planes
  | S n' =>
      add_sizes n' (S i)
        (alter (fun p0 =>
                  mk_plane
                    (u32 (plane_sizeimage p0 +
                          plane_sizeimage (default zero_plane (planes !! i))))
                    (plane_bytesperline p0))
           0%nat planes)
  end.

(** [__xvip_dma_try_format]: [pix_mp] as the call leaves it and the
    format information selected.  The lookup by 4CC never gives an
    error pointer; [deref] gives nothing only for one. *)
Definition __xvip_dma_try_format (pix_mp : v4l2_pix_format_mplane)
  : v4l2_pix_format_mplane * Formats.format_ptr :=
  let field := if is_alternate (mp_field pix_mp)
               then mp_field pix_mp else V4L2_FIELD_NONE in
  let info := Formats.xvip_get_format_by_fourcc fourcc_value
                (mp_pixelformat pix_mp) in
  let info := if Formats.IS_ERR info
              then Formats.xvip_get_format_by_fourcc fourcc_value
                     (fourcc_value Formats.V4L2_PIX_FMT_YUYV)
              else info in
  let min_width := roundup XVIP_DMA_MIN_WIDTH dma_width_align in
  let max_width := rounddown XVIP_DMA_MAX_WIDTH dma_width_align in
  let width := rounddown (mp_width pix_mp) dma_width_align in
  let width := clamp width min_width max_width in
  let height := clamp (mp_height pix_mp) XVIP_DMA_MIN_HEIGHT
                  XVIP_DMA_MAX_HEIGHT in
  let planes :=
    match Formats.deref info with
    | Some f =>
        let n := Z.to_nat (Formats.num_planes f) in
        let planes := try_planes width height f n 0 (mp_plane_fmt pix_mp) in
        if num_buffers f =? 1 then add_sizes (n - 1) 1 planes else planes
    | None => mp_plane_fmt pix_mp
    end in
  (mk_pix_mp width height (mp_pixelformat pix_mp) field
     (mp_colorspace pix_mp) planes (mp_num_planes pix_mp) (mp_flags pix_mp)
     (mp_ycbcr_enc pix_mp) (mp_quantization pix_mp) (mp_xfer_func pix_mp),
   info).

(** The fields of [struct xvip_dma] that setting a format writes:
    [dma->format], [dma->r.width], [dma->r.height] and
    [dma->fmtinfo]. *)
Record dma_format_state : Type := mk_format_state {
  dma_format : v4l2_pix_format_mplane;
  dma_r_width : Z;
  dma_r_height : Z;
  dma_fmtinfo : Formats.format_ptr
}.

(** [xvip_dma_try_format_mplane]: the return value and [format] as the
    call leaves it. *)
Definition xvip_dma_try_format_mplane (format : v4l2_format_mp)
  : Z * v4l2_format_mp :=
  let '(pix_mp, _) := __xvip_dma_try_format (fmt_pix_mp format) in
  (0, mk_fmt_mp (fmt_mp_type format) pix_mp).

(** [xvip_dma_set_format_mplane]: [busy] is what [vb2_is_busy] returns;
    the result is the return value, [format] and the engine as the call
    leaves them. *)
Definition xvip_dma_set_format_mplane (busy : bool) (dma : dma_format_state)
    (format : v4l2_format_mp) : Z * v4l2_format_mp * dma_format_state :=
  let '(pix_mp, info) := __xvip_dma_try_format (fmt_pix_mp format) in
  let format := mk_fmt_mp (fmt_mp_type format) pix_mp in
  if busy then (- EBUSY, format, dma)
  else (0, format,
        mk_format_state pix_mp (mp_width pix_mp) (mp_height pix_mp) info).



End TryFormat.

End DmaFormats.

(** ** Starting and stopping a DMA video node
    ([xvip_dma_verify_format], [xvip_dma_start_streaming] and
    [xvip_dma_stop_streaming] in xilinx-dma.c) *)

Module Streaming.

Import Dma Lifecycle VipFormats DmaFormats.

(** [enum vb2_buffer_state], the states the driver gives buffers back
    in. *)
Inductive vb2_buffer_state : Type :=
  | VB2_BUF_STATE_QUEUED
  | VB2_BUF_STATE_ERROR
  | VB2_BUF_STATE_DONE.

(** The configuration of a DMA engine that [xvip_dma_verify_format]
    compares with the remote pad: [dma->fmtinfo->code], [dma->r],
    [dma->format.field], and what the [get_fmt] call on a sub-device
    pad gives (return value and format). *)
Record dma_config : Type := mk_config {
  fmtinfo_code : Z;
  geometry : dma_geometry;
  format_field : v4l2_field;
  get_fmt : nat -> Z -> Z * v4l2_mbus_framefmt
}.

(** [xvip_dma_verify_format]. *)
Definition xvip_dma_verify_format (cfg : dma_config) (dma : xvip_dma) : Z :=
  match xvip_dma_remote_subdev dma with
  | None => - EPIPE
  | Some (subdev, pad) =>
      let '(ret, fmt) := get_fmt cfg subdev pad in
      if ret <? 0
      then (if ret =? - ENOIOCTLCMD then - EINVAL else ret)
      else if negb (fmtinfo_code cfg =? fmt_code fmt) then - EINVAL
      else if negb (r_width (geometry cfg) =? fmt_width fmt) ||
              negb (r_height (geometry cfg) =? fmt_height fmt)
      then - EINVAL
      else if negb (field_eqb (fmt_field fmt) (format_field cfg))
      then - EINVAL
      else 0
  end.

(** The state the two queue operations work on: the pipeline with its
    use count, the numbering of the engine, the number of times the
    media pipeline of the video device was started and not yet stopped
    ([video_device_pipeline_start], [video_device_pipeline_stop]), and
    the states [xvip_dma_return_buffers] was called with, oldest
    first. *)
Record stream_node : Type := mk_stream_node {
  node_users : xvip_pipeline_users;
  node_numbering : dma_numbering;
  media_pipeline_starts : Z;
  returned_buffers : list vb2_buffer_state
}.

Section WithEnv.

Variable env : environment.

(** [xvip_dma_start_streaming]: [mode] is [xvip_dma_multi_out_mode],
    [g] the media graph around the video node and [pipeline_start] the
    value [video_device_pipeline_start] returns; [pipe] is the pipeline
    object of the state. *)
Definition xvip_dma_start_streaming (mode : Z) (g : media_graph)
    (pipeline_start : Z) (cfg : dma_config) (st : stream_node)
    (dma : xvip_dma) : M (Z * stream_node) :=
  let numbering := numbering_at_start in
  let err_return_buffers (r : Z) (users : xvip_pipeline_users)
      (starts : Z) : Z * stream_node :=
    (r, mk_stream_node users numbering starts
          (returned_buffers st ++ [VB2_BUF_STATE_QUEUED])) in
  let err_pipe_stop (r : Z) (users : xvip_pipeline_users) (starts : Z)
    : Z * stream_node :=
    err_return_buffers r users (starts - 1) in
  let err_pipe_cleanup (r : Z) (users : xvip_pipeline_users) (starts : Z)
    : Z * stream_node :=
    err_pipe_stop r (xvip_pipeline_cleanup users) starts in
  if pipeline_start <? 0
  then ret (err_return_buffers pipeline_start (node_users st)
              (media_pipeline_starts st))
  else
    let starts := media_pipeline_starts st + 1 in
    let r := xvip_dma_verify_format cfg dma in
    if r <? 0 then ret (err_pipe_stop r (node_users st) starts)
    else
      let '(r, users) := xvip_pipeline_prepare (node_users st) g in
      if r <? 0 then ret (err_pipe_stop r users starts)
      else
        (started <- xvip_pipeline_start_dma env mode (pipeline users) dma ;;
         let users := mk_users (snd started) (use_count users) in
         if fst started <? 0
         then ret (err_pipe_cleanup (fst started) users starts)
         else ret (0, mk_stream_node users numbering starts
                        (returned_buffers st)))%drv.

(** [xvip_dma_stop_streaming]. *)
Definition xvip_dma_stop_streaming (mode : Z) (st : stream_node)
    (dma : xvip_dma) : M stream_node :=
  (pipe <- xvip_pipeline_stop_dma env mode (pipeline (node_users st)) dma ;;
   let users :=
     xvip_pipeline_cleanup (mk_users pipe (use_count (node_users st))) in
   ret (mk_stream_node users (node_numbering st)
          (media_pipeline_starts st - 1)
          (returned_buffers st ++ [VB2_BUF_STATE_ERROR])))%drv.

End WithEnv.

End Streaming.

(** ** Routing word of the video switch ([xsw_enable_streams] in
    xilinx-vip.c) *)

Module VideoSwitch.

Import Vip Switch SwitchStream.

Definition XSW_CORE_CH_CTRL : Z := 256.
Definition XSW_CORE_CH_CTRL_FORCE : Z := Z.shiftl 1 3.

(** [ffs]: the position of the lowest bit set of an [int], counted
    from 1, and 0 when no bit is set. *)
Definition ffs (x : Z) : Z :=
  match List.find (fun i => Z.testbit x (Z.of_nat i)) (seq 0 32) with
  | Some i => Z.of_nat i + 1
  | None => 0
  end.

(** [xvip_write(xvip, addr, value)], as the write it performs. *)
Definition xvip_write (addr value : Z) : reg_write :=
  (u32 addr, u32 value).

(** The three variables the first pass of [xsw_enable_streams]
    updates: [routing] and [unused_inputs] are [u32], [unused_outputs]
    is [unsigned long]. *)
Record xsw_pass : Type := mk_pass {
  routing_word : Z;
  unused_inputs : Z;
  unused_outputs : Z
}.

(** The loop [for_each_active_route] over the active routes [routes].
    The shift by [source_pad * 4] is one of a [u32] value, which C
    defines for amounts below 32 only; clearing a bit keeps a value
    within its type. *)
Fixpoint scan_routes (routes : list v4l2_subdev_route) (s : xsw_pass)
  : xsw_pass :=
  match routes with
  | [] => s
  | route :: rest =>
      scan_routes rest
        (mk_pass
           (u32 (Z.lor (routing_word s)
                   (u32 (Z.shiftl
                           (u32 (Z.lor XSW_CORE_CH_CTRL_FORCE (sink_pad route)))
                           (u32 (source_pad route * 4))))))
           (Z.land (unused_inputs s) (Z.lnot (BIT (sink_pad route))))
           (Z.land (unused_outputs s) (Z.lnot (BIT (source_pad route)))))
  end.

(** [for_each_set_bit(i, &unused_outputs, 8)] with its body. *)
Definition fill_unused (unused_outputs unused_input routing : Z) : Z :=
  fold_left
    (fun acc i =>
       if Z.testbit unused_outputs (Z.of_nat i)
       then u32 (Z.lor acc
                   (u32 (Z.shiftl
                           (u32 (Z.lor XSW_CORE_CH_CTRL_FORCE unused_input))
                           (u32 (Z.of_nat i * 4)))))
       else acc)
    (seq 0 8) routing.

(** [unused_input = unused_inputs ? ffs(unused_inputs) - 1 : 0]. *)
Definition pick_unused_input (unused_inputs : Z) : Z :=
  if negb (unused_inputs =? 0) then u32 (ffs unused_inputs - 1) else 0.

Section Registers.

(** [XVIP_CTRL_CONTROL] and [XVIP_CTRL_CONTROL_SW_ENABLE] are macros of
    xilinx-vip.h. *)
Variable XVIP_CTRL_CONTROL : Z.
Variable XVIP_CTRL_CONTROL_SW_ENABLE : Z.

(** [xsw_enable_streams]: [routing] is the routing table of the state;
    [pad] and [streams_mask] are not used.  The result is the return
    value and the register writes, in order. *)
Definition xsw_enable_streams (xsw : xswitch_device)
    (routing : list v4l2_subdev_route) (pad streams_mask : Z)
  : Z * list reg_write :=
  let start :=
    mk_pass 0 255 (Z.shiftl 1 (num_sources (xsw_xvip xsw)) - 1) in
  let s := scan_routes (active_routes routing) start in
  let unused_input := pick_unused_input (unused_inputs s) in
  let word := fill_unused (unused_outputs s) unused_input (routing_word s) in
  (0, [xvip_write XSW_CORE_CH_CTRL word;
       xvip_write XVIP_CTRL_CONTROL
         (Z.lor (Z.shiftl (Z.shiftl 1 (num_sources (xsw_xvip xsw)) - 1) 4)
            XVIP_CTRL_CONTROL_SW_ENABLE)]).

End Registers.

End VideoSwitch.

(** ** Submitting a buffer to the DMA engine
    ([xvip_dma_submit_vb2_buffer] and [xvip_dma_submit_buffer] in
    xilinx-dma.c) *)

Module Submit.

Import Lifecycle DmaFormats Streaming.

(** [enum dma_transfer_direction], the two values the driver uses. *)
Inductive dma_transfer_direction : Type :=
  | DMA_MEM_TO_DEV
  | DMA_DEV_TO_MEM.

(** [struct data_chunk]: four [size_t] fields. *)
Record data_chunk : Type := mk_chunk {
  sgl_size : Z;
  sgl_icg : Z;
  sgl_dst_icg : Z;
  sgl_src_icg : Z
}.

(** [struct dma_interleaved_template] with its first chunk, [dma->xt]
    and [dma->sgl[0]]. *)
Record dma_interleaved_template : Type := mk_template {
  xt_src_start : Z;
  xt_dst_start : Z;
  xt_dir : dma_transfer_direction;
  xt_src_sgl : bool;
  xt_dst_sgl : bool;
  xt_numf : Z;
  xt_frame_size : Z;
  xt_sgl0 : data_chunk
}.

(** What a call of [xvip_dma_submit_buffer] leaves: the return value,
    the template, the pixel format given to [xilinx_xdma_v4l2_config],
    and the field identifier of the descriptor that was queued and
    submitted, if one was. *)
Record submission : Type := mk_submission {
  submit_ret : Z;
  template : dma_interleaved_template;
  configured_format : Z;
  submitted_fid : option Z
}.

Section Platform.

(** The widths of [size_t] and of [dma_addr_t] depend on the
    platform. *)
Variable BITS_PER_LONG : Z.
Variable dma_addr_bits : Z.

Definition size_t (x : Z) : Z := x mod 2 ^ BITS_PER_LONG.

Definition dma_addr_t (x : Z) : Z := x mod 2 ^ dma_addr_bits.

(** [xvip_dma_submit_buffer]: [xt] is the template as the previous
    submission left it, [prepared] tells whether
    [dmaengine_prep_interleaved_dma] returns a descriptor; [width],
    [height], [bpl], [num_planes] and [fid] are [unsigned int] or
    [u32]. *)
Definition xvip_dma_submit_buffer (xt : dma_interleaved_template)
    (prepared : bool) (dir : dma_transfer_direction) (dma_addrs : Z * Z)
    (format num_planes width height bpl fid : Z) : submission :=
  let xt :=
    match dir with
    | DMA_DEV_TO_MEM =>
        mk_template (xt_src_start xt) (fst dma_addrs) DMA_DEV_TO_MEM
          false true (xt_numf xt) (xt_frame_size xt) (xt_sgl0 xt)
    | DMA_MEM_TO_DEV =>
        mk_template (fst dma_addrs) (xt_dst_start xt) DMA_MEM_TO_DEV
          true false (xt_numf xt) (xt_frame_size xt) (xt_sgl0 xt)
    end in
  let chunk :=
    mk_chunk (size_t width) (size_t (u32 (bpl - width)))
      (if num_planes =? 2
       then size_t (dma_addr_t (snd dma_addrs - fst dma_addrs
                                - u32 (bpl * height)))
       else sgl_dst_icg (xt_sgl0 xt))
      (sgl_src_icg (xt_sgl0 xt)) in
  let xt :=
    mk_template (xt_src_start xt) (xt_dst_start xt) (xt_dir xt)
      (xt_src_sgl xt) (xt_dst_sgl xt) (size_t height) (size_t num_planes)
      chunk in
  if negb prepared then mk_submission (- EINVAL) xt format None
  else mk_submission 0 xt format (Some fid).

Section Format.

(** The fields of [struct xvip_video_format] that this revision of the
    DMA code reads and the format table above does not carry. *)
Variable bytes_per_pixel : Formats.xvip_video_format -> nat -> Z * Z.
Variable num_buffers : Formats.xvip_video_format -> Z.

(** [xvip_dma_submit_vb2_buffer]: [queue_type] is [dma->queue.type],
    [format] is [dma->format], [info] is [dma->fmtinfo], [r_width] and
    [r_height] are [dma->r], [field] is [buf->buf.field] and
    [plane_addr i] is [vb2_dma_contig_plane_dma_addr(vb, i)].  The
    result is the submission and the state the buffer is given back in,
    if it is. *)
Definition xvip_dma_submit_vb2_buffer (xt : dma_interleaved_template)
    (prepared : bool) (queue_type : v4l2_buf_type)
    (format : v4l2_pix_format_mplane) (info : Formats.xvip_video_format)
    (r_width r_height : Z) (field : v4l2_field) (plane_addr : nat -> Z)
  : submission * option vb2_buffer_state :=
  let dir :=
    match queue_type with
    | V4L2_BUF_TYPE_VIDEO_OUTPUT
    | V4L2_BUF_TYPE_VIDEO_OUTPUT_MPLANE => DMA_MEM_TO_DEV
    | _ => DMA_DEV_TO_MEM
    end in
  let bpl :=
    plane_bytesperline (default zero_plane (mp_plane_fmt format !! 0%nat)) in
  let addr0 := plane_addr 0%nat in
  let addr1 :=
    if num_buffers info =? 2 then plane_addr 1%nat
    else if Formats.num_planes info =? 2
    then dma_addr_t (addr0 + u32 (bpl * mp_height format))
    else 0 in
  let fid :=
    match field with
    | V4L2_FIELD_TOP => 1
    | V4L2_FIELD_BOTTOM
    | V4L2_FIELD_NONE => 0
    | _ => u32 (Z.lnot 0)
    end in
  let width :=
    u32 (size_t (size_t r_width * size_t (fst (bytes_per_pixel info 0%nat)))
         / size_t (snd (bytes_per_pixel info 0%nat))) in
  let s := xvip_dma_submit_buffer xt prepared dir (addr0, addr1)
             (mp_pixelformat format) (Formats.num_planes info) width r_height
             bpl fid in
  if submit_ret s <? 0 then (s, Some VB2_BUF_STATE_ERROR) else (s, None).

End Format.

End Platform.

End Submit.

(** ** A reference behaviour of the V4L2 routing helpers *)

Module Framework.

Import Vip Switch.

Definition restriction_eqb (a b : v4l2_subdev_routing_restriction) : bool :=
  match a, b with
  | V4L2_SUBDEV_ROUTING_NO_1_TO_N, V4L2_SUBDEV_ROUTING_NO_1_TO_N => true
  | V4L2_SUBDEV_ROUTING_NO_N_TO_1, V4L2_SUBDEV_ROUTING_NO_N_TO_1 => true
  | V4L2_SUBDEV_ROUTING_NO_STREAM_MIX,
    V4L2_SUBDEV_ROUTING_NO_STREAM_MIX => true
  | _, _ => false
  end.

Definition disallowed (disallow : list v4l2_subdev_routing_restriction)
    (r : v4l2_subdev_routing_restriction) : bool :=
  existsb (restriction_eqb r) disallow.

Definition pad_has_flag (xvip : xvip_device) (pad flag : Z) : bool :=
  match pads xvip !! Z.to_nat pad with
  | Some p => negb (Z.land (flags p) flag =? 0)
  | None => false
  end.

Definition route_in_range (xvip : xvip_device) (r : v4l2_subdev_route)
  : bool :=
  pad_has_flag xvip (sink_pad r) MEDIA_PAD_FL_SINK &&
  pad_has_flag xvip (source_pad r) MEDIA_PAD_FL_SOURCE.

Definition routes_clash (disallow : list v4l2_subdev_routing_restriction)
    (a b : v4l2_subdev_route) : bool :=
  (disallowed disallow V4L2_SUBDEV_ROUTING_NO_1_TO_N &&
   (sink_pad a =? sink_pad b) && (sink_stream a =? sink_stream b) &&
   negb (source_pad a =? source_pad b)) ||
  (disallowed disallow V4L2_SUBDEV_ROUTING_NO_N_TO_1 &&
   (source_pad a =? source_pad b) && (source_stream a =? source_stream b) &&
   negb (sink_pad a =? sink_pad b)).

Definition route_mixes (disallow : list v4l2_subdev_routing_restriction)
    (r : v4l2_subdev_route) : bool :=
  disallowed disallow V4L2_SUBDEV_ROUTING_NO_STREAM_MIX &&
  negb (sink_stream r =? source_stream r).

(** Modelled from the spec: [v4l2_subdev_routing_validate] is missing
    from the sources.  A request is rejected with [-EINVAL] when a route
    names a pad that is out of range or of the wrong direction, when two
    active routes share a sink (pad, stream) with different source pads
    while 1-to-N is disallowed, when two active routes share a source
    (pad, stream) with different sink pads while N-to-1 is disallowed, or
    when a route changes the stream number while stream mixing is
    disallowed. *)
Definition routing_validate (xvip : xvip_device)
    (routes : list v4l2_subdev_route)
    (disallow : list v4l2_subdev_routing_restriction) : Z :=
  if forallb (route_in_range xvip) routes &&
     forallb (fun r => negb (route_mixes disallow r)) routes &&
     forallb (fun a =>
                forallb (fun b => negb (routes_clash disallow a b))
                  (active_routes routes))
       (active_routes routes)
  then 0
  else - EINVAL.

(** Modelled from the spec: [v4l2_subdev_set_routing_with_fmt] is missing
    from the sources.  It replaces the routing table by the requested
    routes and gives every stream of the new table the default format. *)
Definition set_routing_with_fmt {F : Type} (xvip : xvip_device)
    (state : v4l2_subdev_state F) (routes : list v4l2_subdev_route)
    (fmt : F) : Z * v4l2_subdev_state F :=
  (0,
   mk_state F routes
     (flat_map (fun r => [(sink_pad r, sink_stream r, fmt);
                          (source_pad r, source_stream r, fmt)])
        (active_routes routes))).

Definition reference_framework (F : Type) : v4l2_framework F :=
  mk_framework F (fun _ => true) routing_validate set_routing_with_fmt.

End Framework.

(** ** Sample configurations *)

Module Samples.

Import Vip Dma Switch.

Definition subdev (id : nat) : media_entity :=
  mk_entity id MEDIA_ENTITY_TYPE_V4L2_SUBDEV.

Definition video_node (id : nat) : media_entity :=
  mk_entity id MEDIA_ENTITY_TYPE_VIDEO_DEVICE.

(** A switch with two sinks and three sources, idle or streaming. *)
Definition switch_2x3 (pipe : option nat) : xvip_device :=
  mk_xvip (subdev 1) (xvip_device_init_pads (subdev 1) 2 3) []
    (Some (mk_ops true true)) 2 3 pipe.

Definition empty_state : v4l2_subdev_state unit := mk_state unit [] [].

Definition crossed_routes : list v4l2_subdev_route :=
  [mk_route 0 0 3 0 V4L2_SUBDEV_ROUTE_FL_ACTIVE;
   mk_route 1 0 2 0 V4L2_SUBDEV_ROUTE_FL_ACTIVE].

(** A legacy sub-device (no active state) with two sinks, fed by
    sub-devices 20 and 21, and one source feeding the video node 30; a
    second, disabled link joins sub-device 22 to sink 1. *)
Definition merger : xvip_device :=
  mk_xvip (subdev 1) (xvip_device_init_pads (subdev 1) 2 1)
    [mk_link (mk_pad (subdev 20) 1 MEDIA_PAD_FL_SOURCE)
       (mk_pad (subdev 1) 0 MEDIA_PAD_FL_SINK) MEDIA_LNK_FL_ENABLED;
     mk_link (mk_pad (subdev 22) 1 MEDIA_PAD_FL_SOURCE)
       (mk_pad (subdev 1) 1 MEDIA_PAD_FL_SINK) 0;
     mk_link (mk_pad (subdev 21) 3 MEDIA_PAD_FL_SOURCE)
       (mk_pad (subdev 1) 1 MEDIA_PAD_FL_SINK) MEDIA_LNK_FL_ENABLED;
     mk_link (mk_pad (subdev 1) 2 MEDIA_PAD_FL_SOURCE)
       (mk_pad (video_node 30) 0 MEDIA_PAD_FL_SINK) MEDIA_LNK_FL_ENABLED]
    (Some (mk_ops true true)) 2 1 None.

(** A switch with two sinks (pads 0, 1) and two sources (pads 2, 3).
    Sub-devices 20 and 21 feed the sinks; source 2 feeds sub-device 23;
    source 3 feeds the video node 30, sub-device 24 over a disabled link
    and sub-device 25. *)
Definition crossbar : xvip_device :=
  mk_xvip (subdev 1) (xvip_device_init_pads (subdev 1) 2 2)
    [mk_link (mk_pad (subdev 20) 1 MEDIA_PAD_FL_SOURCE)
       (mk_pad (subdev 1) 0 MEDIA_PAD_FL_SINK) MEDIA_LNK_FL_ENABLED;
     mk_link (mk_pad (subdev 21) 1 MEDIA_PAD_FL_SOURCE)
       (mk_pad (subdev 1) 1 MEDIA_PAD_FL_SINK) MEDIA_LNK_FL_ENABLED;
     mk_link (mk_pad (subdev 1) 2 MEDIA_PAD_FL_SOURCE)
       (mk_pad (subdev 23) 0 MEDIA_PAD_FL_SINK) MEDIA_LNK_FL_ENABLED;
     mk_link (mk_pad (subdev 1) 3 MEDIA_PAD_FL_SOURCE)
       (mk_pad (video_node 30) 0 MEDIA_PAD_FL_SINK) MEDIA_LNK_FL_ENABLED;
     mk_link (mk_pad (subdev 1) 3 MEDIA_PAD_FL_SOURCE)
       (mk_pad (subdev 24) 0 MEDIA_PAD_FL_SINK) 0;
     mk_link (mk_pad (subdev 1) 3 MEDIA_PAD_FL_SOURCE)
       (mk_pad (subdev 25) 0 MEDIA_PAD_FL_SINK) MEDIA_LNK_FL_ENABLED]
    (Some (mk_ops true true)) 2 2 None.

(** Streams 0 and 1 of sink 0 leave on source 3 as streams 0 and 5;
    stream 0 of sink 1 leaves on source 2; a fourth route is inactive. *)
Definition crossbar_routing : list v4l2_subdev_route :=
  [mk_route 0 0 3 0 V4L2_SUBDEV_ROUTE_FL_ACTIVE;
   mk_route 1 0 2 0 V4L2_SUBDEV_ROUTE_FL_ACTIVE;
   mk_route 1 1 2 1 0;
   mk_route 0 1 3 5 V4L2_SUBDEV_ROUTE_FL_ACTIVE].

(** A pipeline with two capture engines (outputs) around one output
    engine (input), each next to a sub-device. *)
Definition capture0 : xvip_dma :=
  mk_dma 0 VFL_DIR_RX (Some (mk_pad (subdev 10) 1 MEDIA_PAD_FL_SOURCE)).

Definition output1 : xvip_dma :=
  mk_dma 1 VFL_DIR_TX (Some (mk_pad (subdev 11) 0 MEDIA_PAD_FL_SINK)).

Definition capture2 : xvip_dma :=
  mk_dma 2 VFL_DIR_RX (Some (mk_pad (subdev 12) 1 MEDIA_PAD_FL_SOURCE)).

Definition pipeline3 (started_inputs started_outputs : Z) : xvip_pipeline :=
  mk_pipe [capture0; output1; capture2] 1 2 started_inputs started_outputs.

(** Every call succeeds. *)
Definition env_ok : environment := mk_env (fun _ _ => 0) (fun _ => true).

(** Every stream call on sub-device [bad] fails with [-EPIPE]. *)
Definition env_failing (bad : nat) : environment :=
  mk_env
    (fun _ e =>
       match e with
       | v4l2_subdev_enable_streams sd _ _
       | v4l2_subdev_disable_streams sd _ _ =>
           if Nat.eqb sd bad then - EPIPE else 0
       | _ => 0
       end)
    (fun _ => true).


(** A numbering of the media bus codes and of the 4CCs, standing for
    the values of the UAPI macros. *)
Definition code_number (x : Formats.media_bus_fmt) : Z :=
  match x with
  | Formats.MEDIA_BUS_FMT_VYYUYY8_1X24 => 1
  | Formats.MEDIA_BUS_FMT_VYYUYY10_4X20 => 2
  | Formats.MEDIA_BUS_FMT_UYYVYY12_4X24 => 3
  | Formats.MEDIA_BUS_FMT_UYYVYY16_4X32 => 4
  | Formats.MEDIA_BUS_FMT_UYVY8_1X16 => 5
  | Formats.MEDIA_BUS_FMT_UYVY10_1X20 => 6
  | Formats.MEDIA_BUS_FMT_UYVY12_1X24 => 7
  | Formats.MEDIA_BUS_FMT_UYVY16_2X32 => 8
  | Formats.MEDIA_BUS_FMT_VUY8_1X24 => 9
  | Formats.MEDIA_BUS_FMT_VUY10_1X30 => 10
  | Formats.MEDIA_BUS_FMT_VUY12_1X36 => 11
  | Formats.MEDIA_BUS_FMT_VUY16_1X48 => 12
  | Formats.MEDIA_BUS_FMT_RBG888_1X24 => 13
  | Formats.MEDIA_BUS_FMT_RBG101010_1X30 => 14
  | Formats.MEDIA_BUS_FMT_RBG121212_1X36 => 15
  | Formats.MEDIA_BUS_FMT_RBG161616_1X48 => 16
  | Formats.MEDIA_BUS_FMT_Y8_1X8 => 17
  | Formats.MEDIA_BUS_FMT_Y10_1X10 => 18
  | Formats.MEDIA_BUS_FMT_Y12_1X12 => 19
  | Formats.MEDIA_BUS_FMT_Y16_1X16 => 20
  | Formats.MEDIA_BUS_FMT_SRGGB8_1X8 => 21
  | Formats.MEDIA_BUS_FMT_SGRBG8_1X8 => 22
  | Formats.MEDIA_BUS_FMT_SGBRG8_1X8 => 23
  | Formats.MEDIA_BUS_FMT_SBGGR8_1X8 => 24
  | Formats.MEDIA_BUS_FMT_SRGGB10_1X10 => 25
  | Formats.MEDIA_BUS_FMT_SGRBG10_1X10 => 26
  | Formats.MEDIA_BUS_FMT_SGBRG10_1X10 => 27
  | Formats.MEDIA_BUS_FMT_SBGGR10_1X10 => 28
  | Formats.MEDIA_BUS_FMT_SRGGB12_1X12 => 29
  | Formats.MEDIA_BUS_FMT_SGRBG12_1X12 => 30
  | Formats.MEDIA_BUS_FMT_SGBRG12_1X12 => 31
  | Formats.MEDIA_BUS_FMT_SBGGR12_1X12 => 32
  | Formats.MEDIA_BUS_FMT_SRGGB16_1X16 => 33
  | Formats.MEDIA_BUS_FMT_SGRBG16_1X16 => 34
  | Formats.MEDIA_BUS_FMT_SGBRG16_1X16 => 35
  | Formats.MEDIA_BUS_FMT_SBGGR16_1X16 => 36
  end.

Definition fourcc_number (x : Formats.v4l2_pix_fmt) : Z :=
  match x with
  | Formats.V4L2_PIX_FMT_NV12 => 1
  | Formats.V4L2_PIX_FMT_NV12M => 2
  | Formats.V4L2_PIX_FMT_XV15 => 3
  | Formats.V4L2_PIX_FMT_XV15M => 4
  | Formats.V4L2_PIX_FMT_X012 => 5
  | Formats.V4L2_PIX_FMT_X012M => 6
  | Formats.V4L2_PIX_FMT_X016 => 7
  | Formats.V4L2_PIX_FMT_X016M => 8
  | Formats.V4L2_PIX_FMT_NV16 => 9
  | Formats.V4L2_PIX_FMT_NV16M => 10
  | Formats.V4L2_PIX_FMT_YUYV => 11
  | Formats.V4L2_PIX_FMT_UYVY => 12
  | Formats.V4L2_PIX_FMT_XV20 => 13
  | Formats.V4L2_PIX_FMT_XV20M => 14
  | Formats.V4L2_PIX_FMT_X212 => 15
  | Formats.V4L2_PIX_FMT_X212M => 16
  | Formats.V4L2_PIX_FMT_X216 => 17
  | Formats.V4L2_PIX_FMT_X216M => 18
  | Formats.V4L2_PIX_FMT_VUY24 => 19
  | Formats.V4L2_PIX_FMT_XVUY32 => 20
  | Formats.V4L2_PIX_FMT_XVUY10 => 21
  | Formats.V4L2_PIX_FMT_X412 => 22
  | Formats.V4L2_PIX_FMT_X412M => 23
  | Formats.V4L2_PIX_FMT_X416 => 24
  | Formats.V4L2_PIX_FMT_X416M => 25
  | Formats.V4L2_PIX_FMT_BGR24 => 26
  | Formats.V4L2_PIX_FMT_RGB24 => 27
  | Formats.V4L2_PIX_FMT_BGRX32 => 28
  | Formats.V4L2_PIX_FMT_XBGR32 => 29
  | Formats.V4L2_PIX_FMT_XBGR30 => 30
  | Formats.V4L2_PIX_FMT_XBGR40 => 31
  | Formats.V4L2_PIX_FMT_BGR48 => 32
  | Formats.V4L2_PIX_FMT_GREY => 33
  | Formats.V4L2_PIX_FMT_XY10 => 34
  | Formats.V4L2_PIX_FMT_XY12 => 35
  | Formats.V4L2_PIX_FMT_Y16 => 36
  | Formats.V4L2_PIX_FMT_SGRBG8 => 37
  | Formats.V4L2_PIX_FMT_SGBRG8 => 38
  | Formats.V4L2_PIX_FMT_SBGGR8 => 39
  | Formats.V4L2_PIX_FMT_SRGGB10 => 40
  | Formats.V4L2_PIX_FMT_SGRBG10 => 41
  | Formats.V4L2_PIX_FMT_SGBRG10 => 42
  | Formats.V4L2_PIX_FMT_SBGGR10 => 43
  | Formats.V4L2_PIX_FMT_SRGGB12 => 44
  | Formats.V4L2_PIX_FMT_SGRBG12 => 45
  | Formats.V4L2_PIX_FMT_SGBRG12 => 46
  | Formats.V4L2_PIX_FMT_SBGGR12 => 47
  | Formats.V4L2_PIX_FMT_SRGGB16 => 48
  | Formats.V4L2_PIX_FMT_SGRBG16 => 49
  | Formats.V4L2_PIX_FMT_SGBRG16 => 50
  | Formats.V4L2_PIX_FMT_SBGGR16 => 51
  end.

End Samples.

(** ** Vocabulary of the properties *)

(** *** Default routing of the switches *)

Module SwitchSpec.

Import Vip Switch.

(** The default table in the words of the specification: route [i] maps
    sink pad [i], stream 0 to source pad [i + num_sinks], stream 0, for
    [i] below the smaller of the two pad counts. *)
Definition default_routes (nsinks nsources : Z) : list v4l2_subdev_route :=
  map (fun i => mk_route (Z.of_nat i) 0 (Z.of_nat i + nsinks) 0
                  V4L2_SUBDEV_ROUTE_FL_ACTIVE)
    (seq 0 (Z.to_nat (Z.min nsinks nsources))).

End SwitchSpec.

(** *** Calls of the pipeline coordinator *)

Module DmaSpec.

Import Dma.

(** The calls a pipeline makes for one DMA engine. *)
Definition start_call (d : xvip_dma) : event :=
  dma_async_issue_pending (chan d).

Definition stop_call (d : xvip_dma) : event :=
  dmaengine_terminate_all (chan d).

(** Enabling (disabling) the branch of [d] calls the sub-device next to
    [d] with stream 0 of its pad; nothing is called when [d] has no
    remote sub-device. *)
Definition enable_calls (d : xvip_dma) : list event :=
  match xvip_dma_remote_subdev d with
  | Some (sd, pad) => [v4l2_subdev_enable_streams sd pad (BIT 0)]
  | None => []
  end.

Definition disable_calls (d : xvip_dma) : list event :=
  match xvip_dma_remote_subdev d with
  | Some (sd, pad) => [v4l2_subdev_disable_streams sd pad (BIT 0)]
  | None => []
  end.

(** The value [xvip_pipeline_enable_branch] returns for [d] after the
    calls [h]. *)
Definition enable_result (env : environment) (h : list event)
    (d : xvip_dma) : Z :=
  match xvip_dma_remote_subdev d with
  | Some (sd, pad) => returns env h (v4l2_subdev_enable_streams sd pad (BIT 0))
  | None => - ENXIO
  end.

Definition outputs (pipe : xvip_pipeline) : list xvip_dma :=
  of_type VFL_DIR_RX (dmas pipe).

Definition inputs (pipe : xvip_pipeline) : list xvip_dma :=
  of_type VFL_DIR_TX (dmas pipe).

(** The kernel convention for status codes: zero or a negative errno. *)
Definition errno_convention (env : environment) : Prop :=
  forall h e, returns env h e <= 0.

End DmaSpec.

(** *** Calls and selections of the stream propagation *)

Module VipSpec.

Import Vip.

(** The call the link loop makes for one link when it reaches it, if
    any. *)
Definition link_call (xvip : xvip_device) (enable : bool)
    (streams : list Z) (link : media_link) : option event :=
  if negb (link_is_enabled_data link) then None
  else
    let (local_pad, remote_pad) := link_ends xvip link in
    match streams !! Z.to_nat (index local_pad) with
    | None => None
    | Some link_streams =>
        if link_streams =? 0 then None
        else if negb (is_media_entity_v4l2_subdev (entity remote_pad))
        then None
        else Some (remote_call enable remote_pad link_streams)
    end.

(** The calls the link loop makes when none of them fails. *)
Definition link_calls (xvip : xvip_device) (enable : bool)
    (streams : list Z) (ls : list media_link) : list event :=
  omap (link_call xvip enable streams) ls.

Definition enable_hook (xvip : xvip_device) (pad streams_mask : Z) : event :=
  ops_enable_streams (ent_id (sd xvip)) pad streams_mask.

Definition disable_hook (xvip : xvip_device) (pad streams_mask : Z) : event :=
  ops_disable_streams (ent_id (sd xvip)) pad streams_mask.

(** Every call of [calls], made in order after [tr], returns 0. *)
Definition all_succeed (env : environment) (tr calls : list event) : Prop :=
  forall pre c post, calls = pre ++ c :: post -> returns env (tr ++ pre) c = 0.

(** The remote calls a propagation request makes when none fails. *)
Definition selected_calls (xvip : xvip_device)
    (state : option (list v4l2_subdev_route)) (pad streams_mask : Z)
    (enable : bool) : list event :=
  link_calls xvip enable (collect_streams xvip state pad streams_mask)
    (links xvip).

Definition is_u64 (x : Z) : Prop := 0 <= x < 2 ^ 64.

(** A route the C code handles without leaving the [streams] array or
    shifting by 64 or more. *)
Definition route_wf (npads : Z) (r : v4l2_subdev_route) : Prop :=
  0 <= sink_pad r < npads /\ 0 <= source_pad r < npads /\
  0 <= sink_stream r < 64 /\ 0 <= source_stream r < 64.

(** What one active route selects on pad [p] for a request on
    ([pad], [streams_mask]): the stream at its other end when one of its
    ends is on [pad] with a stream of the mask and the other end is on
    [p]. *)
Definition route_selection (pad streams_mask p : Z)
    (r : v4l2_subdev_route) : Z :=
  Z.lor
    (if (sink_pad r =? pad) && Z.testbit streams_mask (sink_stream r) &&
        (source_pad r =? p)
     then BIT (source_stream r) else 0)
    (if (source_pad r =? pad) && Z.testbit streams_mask (source_stream r) &&
        (sink_pad r =? p)
     then BIT (sink_stream r) else 0).

Definition pad_is_sink (p : media_pad) : bool :=
  negb (Z.land (flags p) MEDIA_PAD_FL_SINK =? 0).

Definition pad_is_source (p : media_pad) : bool :=
  negb (Z.land (flags p) MEDIA_PAD_FL_SOURCE =? 0).

Definition opposite_polarity (a b : media_pad) : bool :=
  (pad_is_sink a && pad_is_source b) || (pad_is_source a && pad_is_sink b).

(** The streams selected on pad [p], in the words of the specification:
    with a routing table, the union of what the active routes select;
    without one, the whole mask on every pad of the polarity opposite to
    that of [pad]. *)
Definition selected_streams (xvip : xvip_device)
    (state : option (list v4l2_subdev_route)) (pad streams_mask p : Z)
  : Z :=
  match state with
  | Some routing =>
      fold_right Z.lor 0
        (map (route_selection pad streams_mask p) (active_routes routing))
  | None =>
      match pads xvip !! Z.to_nat pad, pads xvip !! Z.to_nat p with
      | Some local_pad, Some other_pad =>
          if opposite_polarity local_pad other_pad then streams_mask else 0
      | _, _ => 0
      end
  end.

(** The links followed, in the words of the specification: the enabled
    data links whose local pad has a non-empty selection and whose remote
    entity is a V4L2 sub-device; each is called on its remote pad with
    the selection of its local pad. *)
Definition followed_links (xvip : xvip_device)
    (state : option (list v4l2_subdev_route)) (pad streams_mask : Z)
    (enable : bool) : list event :=
  flat_map
    (fun link =>
       let sel := selected_streams xvip state pad streams_mask
                    (index (fst (link_ends xvip link))) in
       if link_is_enabled_data link && negb (sel =? 0) &&
          is_media_entity_v4l2_subdev (entity (snd (link_ends xvip link)))
       then [remote_call enable (snd (link_ends xvip link)) sel]
       else [])
    (links xvip).

Definition pads_differ (local_pad other_pad : media_pad) : bool :=
  Z.lxor (flags local_pad) (flags other_pad) =?
  Z.lor MEDIA_PAD_FL_SINK MEDIA_PAD_FL_SOURCE.

(** The requests on which the C code is defined: a legacy entity has the
    pads set up by [xvip_device_init], the requested pad exists, the mask
    is a [u64], the active routes stay inside the pad array and below
    stream 64, and the local pad of every link followed is a pad of the
    entity. *)
Definition request_wf (xvip : xvip_device)
    (state : option (list v4l2_subdev_route)) (pad streams_mask : Z)
  : Prop :=
  (state = None ->
   exists nsinks nsources,
     pads xvip = xvip_device_init_pads (sd xvip) nsinks nsources) /\
  0 <= pad < Z.of_nat (length (pads xvip)) /\
  is_u64 streams_mask /\
  (forall routing, state = Some routing ->
     Forall (route_wf (Z.of_nat (length (pads xvip))))
       (active_routes routing)) /\
  Forall (fun link =>
            link_is_enabled_data link = true ->
            0 <= index (fst (link_ends xvip link))
              < Z.of_nat (length (pads xvip)))
    (links xvip).

End VipSpec.

(** *** Sequences of pipeline calls and of completed buffers *)

Module LifecycleSpec.

Import Env Dma Lifecycle.

(** The DMA engines of the video nodes among the entities [es]. *)
Definition video_dmas (es : list walk_entity) : list xvip_dma :=
  omap (fun e => match e with
                 | video_node d _ => Some d
                 | other_entity => None
                 end) es.

(** A video node as [xvip_dma_init] sets it up: pad flags and direction
    come from the same buffer type. *)
Definition initialised_node (e : walk_entity) : Prop :=
  match e with
  | video_node d pad_flags =>
      exists type, pad_flags = xvip_dma_init_pad_flags type /\
                   vfl_dir d = xvip_dma_init_vfl_dir type
  | other_entity => True
  end.

(** A pipeline nobody uses: no DMA engine listed, counts at zero. *)
Definition idle (p : xvip_pipeline_users) : Prop :=
  use_count p = 0 /\ dmas (pipeline p) = [] /\
  num_inputs (pipeline p) = 0 /\ num_outputs (pipeline p) = 0.

(** The number of engines of [ds] of direction RX, and of the others. *)
Definition count_rx (ds : list xvip_dma) : Z :=
  Z.of_nat (length (of_type VFL_DIR_RX ds)).

Definition count_other (ds : list xvip_dma) : Z :=
  Z.of_nat (length ds) - count_rx ds.

Section WithEnv.

Variable env : environment.
Variable mode : Z.

(** [xvip_pipeline_start_dma] called for the engines [ds] one after the
    other; the result lists the return values. *)
Fixpoint start_each (pipe : xvip_pipeline) (ds : list xvip_dma)
  : M (list Z * xvip_pipeline) :=
  match ds with
  | [] => ret ([], pipe)
  | d :: ds' =>
      (r <- xvip_pipeline_start_dma env mode pipe d ;;
       rs <- start_each (snd r) ds' ;;
       ret (fst r :: fst rs, snd rs))%drv
  end.

(** [xvip_pipeline_stop_dma] called for the engines [ds] one after the
    other. *)
Fixpoint stop_each (pipe : xvip_pipeline) (ds : list xvip_dma)
  : M xvip_pipeline :=
  match ds with
  | [] => ret pipe
  | d :: ds' =>
      (p <- xvip_pipeline_stop_dma env mode pipe d ;;
       stop_each p ds')%drv
  end.

End WithEnv.

(** A field identifier: the DMA engine reports 0 or 1. *)
Definition binary (x : Z) : Prop := x = 0 \/ x = 1.

(** [xvip_dma_complete] called for the buffers whose descriptors report
    [(status, fid)] as listed; the result lists the stamps. *)
Fixpoint complete_each (field : v4l2_field) (fids : list (Z * Z))
    (dma : dma_numbering) : list buffer_stamp * dma_numbering :=
  match fids with
  | [] => ([], dma)
  | (status, fid) :: fids' =>
      let r := xvip_dma_complete field status fid dma in
      let rs := complete_each field fids' (snd r) in
      (fst r :: fst rs, snd rs)
  end.

(** The frame numbers of fields that alternate: a field with the
    identifier [f0] of the first field opens a frame, the other field
    that follows it closes the frame; [last_fid] and [last_seq] are the
    identifier and the number of the field before. *)
Fixpoint frame_numbers (f0 last_fid last_seq : Z) (fids : list Z) : list Z :=
  match fids with
  | [] => []
  | g :: rest =>
      let s := if (last_fid =? f0) && negb (g =? f0)
               then last_seq else last_seq + 1 in
      s :: frame_numbers f0 g s rest
  end.

End LifecycleSpec.

(** *** Matching a device tree node against the format table *)

Module VipFormatsSpec.

Import Formats VipFormats.

(** The table entry [f] is the format a node describes by the video
    format code [vf], the width [w] and, for a mono sensor, the colour
    filter pattern [pat]. *)
Definition of_matches (vf_value : xvip_vf_code -> Z) (vf w : Z)
    (pat : string) (f : xvip_video_format) : Prop :=
  vf_value (vf_code f) = vf /\ width f = w /\
  (vf = vf_value XVIP_VF_MONO_SENSOR -> pattern f = Some pat).

(** A numbering of the video format codes, standing for the values of
    the macros of xilinx-vip.h. *)
Definition vf_number (x : xvip_vf_code) : Z :=
  match x with
  | XVIP_VF_YUV_420 => 1
  | XVIP_VF_YUV_422 => 2
  | XVIP_VF_VUY_422 => 3
  | XVIP_VF_YUV_444 => 4
  | XVIP_VF_YUVX => 5
  | XVIP_VF_RBG => 6
  | XVIP_VF_BGRX => 7
  | XVIP_VF_XRGB => 8
  | XVIP_VF_XBGR => 9
  | XVIP_VF_MONO_SENSOR => 10
  | XVIP_VF_Y_GREY => 11
  end.

(** A port node of a 10-bit "gbrg" Bayer sensor, pad 1, no data
    shift. *)
Definition bayer_port : device_node :=
  mk_node "port" (of_ok 10) (of_ok 10) (of_ok "gbrg"%string) (of_ok 1)
    (of_fail (- EINVAL)).

(** A port node of 8-bit YUV 4:2:2, pad 0, data shift 2. *)
Definition yuv_port : device_node :=
  mk_node "port" (of_ok 2) (of_ok 8) (of_fail (- EINVAL)) (of_ok 0)
    (of_ok 2).

End VipFormatsSpec.

(** *** Register writes of the AXI4-Stream switch *)

Module SwitchStreamSpec.

Import Vip Switch SwitchStream.

(** The address of the multiplexer register of output [i]. *)
Definition mux_addr (i : Z) : Z := XVSW_MI_MUX_REG_BASE + i * 4.

(** The values written to the register at [addr], in order. *)
Definition writes_to (addr : Z) (ws : list reg_write) : list Z :=
  map snd (List.filter (fun w => fst w =? addr) ws).

(** The first active route of [routing] whose source pad is [i]. *)
Definition first_route_to (routing : list v4l2_subdev_route) (i : Z)
  : option v4l2_subdev_route :=
  List.find (fun r => source_pad r =? i) (active_routes routing).

(** The value output [i] is to be programmed with: the sink pad of the
    first active route to [i], or the disable bit. *)
Definition mux_value (routing : list v4l2_subdev_route) (i : Z) : Z :=
  match first_route_to routing i with
  | Some r => sink_pad r
  | None => XVSW_MI_MUX_DISABLE_MASK
  end.

(** The pad numbers of a route are [u32] values, and the source pad is
    below the width of [unsigned long], as [BIT] requires. *)
Definition route_pads_wf (r : v4l2_subdev_route) : Prop :=
  0 <= source_pad r < 64 /\ 0 <= sink_pad r < 2 ^ 32.

(** An error pointer returned for a clock carries a negative error
    number. *)
Definition clk_errors_negative (node : xvsw_node) : Prop :=
  (forall err, aclk node = Some err -> err < 0) /\
  (forall err, s_axi_ctl_clk node = Some err -> err < 0).

(** A 2x2 switch in register routing mode and the routing table
    [xvsw_init_cfg] gives it. *)
Definition switch_2x2 : xvswitch_device :=
  mk_xvsw (mk_xvip (mk_entity 20 MEDIA_ENTITY_TYPE_V4L2_SUBDEV)
             (xvip_device_init_pads
                (mk_entity 20 MEDIA_ENTITY_TYPE_V4L2_SUBDEV) 2 2)
             [] None 2 2 None) false.

Definition routing_2x2 : list v4l2_subdev_route :=
  [mk_route 0 0 2 0 V4L2_SUBDEV_ROUTE_FL_ACTIVE;
   mk_route 1 0 3 0 V4L2_SUBDEV_ROUTE_FL_ACTIVE].

End SwitchStreamSpec.

(** *** Port nodes of a device *)

Module ParseDtSpec.

Import Formats VipFormats ParseDt.

(** The children the loop of [xvip_device_parse_dt] does not skip. *)
Definition port_children (children : list device_node) : list device_node :=
  List.filter (fun c => String.eqb (node_name c) "port") children.

(** The array [devm_kcalloc] gives for [n] ports. *)
Definition zeroed_ports (n : nat) : list xvip_port :=
  replicate n (mk_port None 0).

(** The element of [xvip->ports] after the loop body ran for the
    port node [c] on the element [p0] without leaving the loop. *)
Definition updated_port (vf_value : xvip_vf_code -> Z)
    (has_port_formats : bool) (c : device_node) (p0 : xvip_port)
  : xvip_port :=
  mk_port
    (if has_port_formats
     then match xvip_of_get_format vf_value c with
          | FormatAt i => Some i
          | ERR_PTR _ => port_format p0
          end
     else port_format p0)
    (match data_shift c with
     | of_ok v => v
     | of_fail _ => port_data_shift p0
     end).

(** The "reg" properties are [u32] values, and a read that fails
    returns a non-zero error number. *)
Definition regs_wf (children : list device_node) : Prop :=
  Forall (fun c => (forall i, reg c = of_ok i -> 0 <= i < 2 ^ 32) /\
                   (forall err, reg c = of_fail err -> err <> 0))
    children.

(** A port node of 8-bit YUV 4:2:2, pad 0, whose data shift does not
    fit eight bits. *)
Definition wide_shift_port : device_node :=
  mk_node "port" (of_ok 2) (of_ok 8) (of_fail (- EINVAL)) (of_ok 0)
    (of_ok 300).

End ParseDtSpec.

(** *** The routing word of the video switch *)

Module VideoSwitchSpec.

Import Vip Switch SwitchStream VideoSwitch.

(** The four bits of output [i] in the routing word [w]. *)
Definition nibble (i w : Z) : Z := Z.land (Z.shiftr w (4 * i)) 15.

(** The active routes of [routing] whose source pad is [i]. *)
Definition routes_to (routing : list v4l2_subdev_route) (i : Z)
  : list v4l2_subdev_route :=
  List.filter (fun r => source_pad r =? i) (active_routes routing).

(** The bitwise or of the sink pads of [rs]. *)
Definition sinks_or (rs : list v4l2_subdev_route) : Z :=
  fold_right Z.lor 0 (map sink_pad rs).

(** What the routes [rs] that lead to one output make of its four
    bits: nothing without a route, else the force bit and the sink
    pads. *)
Definition forced (rs : list v4l2_subdev_route) : Z :=
  match rs with
  | [] => 0
  | _ => Z.lor XSW_CORE_CH_CTRL_FORCE (sinks_or rs)
  end.

(** No active route of [routing] starts at input [k]. *)
Definition input_free (routing : list v4l2_subdev_route) (k : Z) : bool :=
  forallb (fun r => negb (sink_pad r =? k)) (active_routes routing).

(** The lowest input among 0..7 that no active route uses, and 0 when
    all eight are used. *)
Definition lowest_free_input (routing : list v4l2_subdev_route) : Z :=
  match List.find (fun k => input_free routing (Z.of_nat k)) (seq 0 8) with
  | Some k => Z.of_nat k
  | None => 0
  end.

(** The pads of the active routes are within the eight inputs and the
    eight four-bit positions of the routing word. *)
Definition route_in_word (r : v4l2_subdev_route) : Prop :=
  0 <= sink_pad r < 8 /\ 0 <= source_pad r < 8.

(** A 2x2 video switch and the routing table [xsw_init_cfg] gives it. *)
Definition video_switch_2x2 : xswitch_device :=
  mk_xsw (mk_xvip (mk_entity 21 MEDIA_ENTITY_TYPE_V4L2_SUBDEV)
            (xvip_device_init_pads
               (mk_entity 21 MEDIA_ENTITY_TYPE_V4L2_SUBDEV) 2 2)
            [] None 2 2 None).

End VideoSwitchSpec.

(** *** The engine after a format was set *)

Module DmaFormatsSpec.

Import DmaFormats.

(** The fields the selection handlers read, for an engine whose format
    fields are [dma] and whose width alignment is [width_align]. *)
Definition geometry_of (width_align : Z) (dma : dma_format_state)
  : dma_geometry :=
  mk_geometry (mp_width (dma_format dma)) (mp_height (dma_format dma))
    (dma_r_width dma) (dma_r_height dma) width_align.

(** A selection that [xvip_dma_g_selection] answers with the current
    rectangle: the crop of an output or the composition of a capture
    queue. *)
Definition current_rectangle (sel : v4l2_selection) : Prop :=
  (sel_target sel = V4L2_SEL_TGT_CROP /\
   sel_type sel = Lifecycle.V4L2_BUF_TYPE_VIDEO_OUTPUT) \/
  (sel_target sel = V4L2_SEL_TGT_COMPOSE /\
   sel_type sel = Lifecycle.V4L2_BUF_TYPE_VIDEO_CAPTURE).

End DmaFormatsSpec.
(** * Properties *)

(** ** Format lookups *)

Module FormatsFacts.

Import Formats.

Lemma scan_formats_none hit fs i :
  scan_formats hit fs i = None <-> (forall f, In f fs -> hit f = false).
Proof.
  revert i; induction fs as [|f fs IH]; intros i; simpl.
  - split; [intros _ f [] | reflexivity].
  - destruct (hit f) eqn:Hf.
    + split; [discriminate |].
      intros H. rewrite (H f) in Hf by (left; reflexivity). discriminate.
    + rewrite IH. split.
      * intros H g [<- | Hg]; [assumption | apply H, Hg].
      * intros H g Hg. apply H. right; assumption.
Qed.

Lemma scan_formats_some hit fs i j :
  scan_formats hit fs i = Some j ->
  exists f, fs !! (j - i)%nat = Some f /\ hit f = true /\ (i <= j)%nat.
Proof.
  revert i; induction fs as [|f fs IH]; intros i; simpl; [discriminate |].
  destruct (hit f) eqn:Hf.
  - intros [= <-]. exists f. rewrite Nat.sub_diag. auto.
  - intros H. destruct (IH _ H) as (g & Hg & Hhit & Hle).
    exists g. replace (j - i)%nat with (S (j - S i)) by lia.
    simpl. repeat split; [assumption | assumption | lia].
Qed.

(** C10: the lookup by 4CC always yields an element of the table, never
    an error pointer; when no element carries the requested 4CC it yields
    element 0, whose 4CC is NV12 and not the YUYV announced by the
    function's comment.  The lookup by media bus code yields
    [ERR_PTR(-EINVAL)] when no element carries the requested code. *)
Theorem xvip_get_format_by_fourcc_never_fails
    (code_value : media_bus_fmt -> Z) (fourcc_value : v4l2_pix_fmt -> Z)
    (v c : Z) :
  (IS_ERR (xvip_get_format_by_fourcc fourcc_value v) = false /\
   exists f,
     deref (xvip_get_format_by_fourcc fourcc_value v) = Some f /\
     (fourcc_value (fourcc f) = v \/
      xvip_get_format_by_fourcc fourcc_value v = FormatAt 0)) /\
  ((forall g, In g xvip_video_formats -> fourcc_value (fourcc g) <> v) ->
   xvip_get_format_by_fourcc fourcc_value v = FormatAt 0 /\
   fourcc <$> deref (FormatAt 0) = Some V4L2_PIX_FMT_NV12 /\
   V4L2_PIX_FMT_NV12 <> V4L2_PIX_FMT_YUYV) /\
  ((forall g, In g xvip_video_formats -> code_value (code g) <> c) ->
   xvip_get_format_by_code code_value c = ERR_PTR (- EINVAL) /\
   IS_ERR (xvip_get_format_by_code code_value c) = true).
Proof.
  split; [| split].
  - unfold xvip_get_format_by_fourcc.
    destruct (scan_formats _ xvip_video_formats 0) as [j|] eqn:Hscan.
    + split; [reflexivity |].
      destruct (scan_formats_some _ _ _ _ Hscan) as (f & Hf & Hhit & _).
      exists f. rewrite Nat.sub_0_r in Hf. simpl. split; [exact Hf |].
      left. apply Z.eqb_eq, Hhit.
    + split; [reflexivity |].
      eexists. split; [reflexivity | right; reflexivity].
  - intros Hnone. unfold xvip_get_format_by_fourcc.
    assert (scan_formats (fun f => fourcc_value (fourcc f) =? v)
              xvip_video_formats 0 = None) as ->.
    { apply scan_formats_none. intros g Hg. apply Z.eqb_neq, Hnone, Hg. }
    repeat split. discriminate.
  - intros Hnone. unfold xvip_get_format_by_code.
    assert (scan_formats (fun f => code_value (code f) =? c)
              xvip_video_formats 0 = None) as ->.
    { apply scan_formats_none. intros g Hg. apply Z.eqb_neq, Hnone, Hg. }
    split; reflexivity.
Qed.

Lemma xvip_get_format_by_fourcc_never_fails_witness :
  xvip_get_format_by_fourcc Samples.fourcc_number 11 = FormatAt 10 /\
  xvip_get_format_by_fourcc Samples.fourcc_number 1000 = FormatAt 0 /\
  xvip_get_format_by_code Samples.code_number 1000 = ERR_PTR (- EINVAL).
Proof.
  split; [reflexivity |]. split.
  - apply (proj1 (proj2 (xvip_get_format_by_fourcc_never_fails
                           Samples.code_number Samples.fourcc_number
                           1000 1000))).
    intros g Hg. cbn in Hg.
    repeat (destruct Hg as [<- | Hg]; [discriminate |]). destruct Hg.
  - apply (proj2 (proj2 (xvip_get_format_by_fourcc_never_fails
                           Samples.code_number Samples.fourcc_number
                           1000 1000))).
    intros g Hg. cbn in Hg.
    repeat (destruct Hg as [<- | Hg]; [discriminate |]). destruct Hg.
Defined.

End FormatsFacts.

(** ** Switch routing *)

Module SwitchFacts.

Import Vip Switch.
Import SwitchSpec.

Lemma u32_small x : 0 <= x < 2 ^ 32 -> u32 x = x.
Proof. intros H. unfold u32. apply Z.mod_small, H. Qed.

Lemma init_routes_spec nsinks n :
  forall (m : nat) (done : list v4l2_subdev_route),
    length done = m ->
    Z.of_nat m + Z.of_nat n < 2 ^ 32 ->
    init_routes nsinks n (Z.of_nat m) (done ++ repeat zero_route n) =
    done ++
    map (fun i => mk_route (Z.of_nat i) 0 (u32 (Z.of_nat i + nsinks)) 0
                    V4L2_SUBDEV_ROUTE_FL_ACTIVE)
      (seq m n).
Proof.
  induction n as [|n IH]; intros m done Hlen Hbound; simpl.
  - reflexivity.
  - rewrite Nat2Z.id.
    rewrite alter_app_r_alt by lia.
    replace (m - length done)%nat with 0%nat by lia. simpl.
    rewrite u32_small by lia.
    replace (Z.of_nat m + 1) with (Z.of_nat (S m)) by lia.
    set (r := mk_route (Z.of_nat m) 0 (u32 (Z.of_nat m + nsinks)) 0
                V4L2_SUBDEV_ROUTE_FL_ACTIVE).
    change (done ++ r :: repeat zero_route n)
      with (done ++ [r] ++ repeat zero_route n).
    rewrite app_assoc.
    rewrite IH by (rewrite ?length_app; simpl; lia).
    rewrite <- app_assoc. reflexivity.
Qed.

Lemma init_routes_default nsinks nsources :
  0 <= nsinks -> 0 <= nsources -> nsinks + nsources < 2 ^ 32 ->
  init_routes nsinks (Z.to_nat (Z.min nsinks nsources)) 0
    (repeat zero_route (Z.to_nat (Z.min nsinks nsources))) =
  default_routes nsinks nsources.
Proof.
  intros Hs Hd Hsum.
  pose proof (init_routes_spec nsinks (Z.to_nat (Z.min nsinks nsources))
                0 [] eq_refl) as H.
  change (Z.of_nat 0) with 0 in H. rewrite !app_nil_l in H.
  rewrite H by lia. unfold default_routes.
  apply map_ext_in. intros i Hi. apply in_seq in Hi.
  rewrite u32_small by lia. reflexivity.
Qed.

Lemma default_routes_active nsinks nsources :
  active_routes (default_routes nsinks nsources) =
  default_routes nsinks nsources.
Proof.
  unfold active_routes, default_routes.
  induction (seq 0 (Z.to_nat (Z.min nsinks nsources))) as [|i l IH];
    simpl; [reflexivity | now rewrite IH].
Qed.

Lemma reference_framework_contract (F : Type) :
  set_routing_contract F (Framework.reference_framework F).
Proof. intros xvip state routes fmt _. reflexivity. Qed.

(** The reference behaviour of the routing helpers accepts the default
    table of every switch whose pads were set up by [xvip_device_init], so
    that the initialisation of such a switch succeeds. *)
Lemma init_pads_sink e nsinks nsources i :
  (i < nsinks)%nat ->
  xvip_device_init_pads e nsinks nsources !! i =
  Some (mk_pad e (Z.of_nat i) MEDIA_PAD_FL_SINK).
Proof.
  intros Hi. unfold xvip_device_init_pads.
  rewrite lookup_app_l by (rewrite length_map, length_seq; lia).
  now rewrite list_lookup_fmap, lookup_seq_lt by lia.
Qed.

Lemma init_pads_source e nsinks nsources i :
  (i < nsources)%nat ->
  xvip_device_init_pads e nsinks nsources !! (nsinks + i)%nat =
  Some (mk_pad e (Z.of_nat (nsinks + i)) MEDIA_PAD_FL_SOURCE).
Proof.
  intros Hi. unfold xvip_device_init_pads.
  rewrite lookup_app_r by (rewrite length_map, length_seq; lia).
  rewrite length_map, length_seq.
  replace (nsinks + i - nsinks)%nat with i by lia.
  now rewrite list_lookup_fmap, lookup_seq_lt by lia.
Qed.

Lemma default_routes_in xvip r :
  In r (default_routes (num_sinks xvip) (num_sources xvip)) ->
  exists i : nat,
    (i < Z.to_nat (Z.min (num_sinks xvip) (num_sources xvip)))%nat /\
    r = mk_route (Z.of_nat i) 0 (Z.of_nat i + num_sinks xvip) 0
          V4L2_SUBDEV_ROUTE_FL_ACTIVE.
Proof.
  unfold default_routes. intros H.
  apply in_map_iff in H as (i & <- & Hi). apply in_seq in Hi.
  exists i. split; [lia | reflexivity].
Qed.

Lemma reference_validate_default xvip nsinks nsources disallow :
  pads xvip = xvip_device_init_pads (sd xvip) nsinks nsources ->
  num_sinks xvip = Z.of_nat nsinks ->
  num_sources xvip = Z.of_nat nsources ->
  Framework.routing_validate xvip
    (default_routes (num_sinks xvip) (num_sources xvip)) disallow = 0.
Proof.
  intros Hpads Hs Hd. unfold Framework.routing_validate.
  rewrite default_routes_active.
  assert (forallb (Framework.route_in_range xvip)
            (default_routes (num_sinks xvip) (num_sources xvip)) = true)
    as ->.
  { apply forallb_forall. intros r Hr.
    apply default_routes_in in Hr as (i & Hi & ->).
    unfold Framework.route_in_range, Framework.pad_has_flag. cbn.
    rewrite Hpads, Hs, Nat2Z.id.
    rewrite init_pads_sink by lia.
    replace (Z.to_nat (Z.of_nat i + Z.of_nat nsinks)) with (nsinks + i)%nat
      by lia.
    rewrite init_pads_source by lia. reflexivity. }
  assert (forallb (fun r => negb (Framework.route_mixes disallow r))
            (default_routes (num_sinks xvip) (num_sources xvip)) = true)
    as ->.
  { apply forallb_forall. intros r Hr.
    apply default_routes_in in Hr as (i & Hi & ->).
    unfold Framework.route_mixes. cbn. now rewrite andb_false_r. }
  assert (forallb
            (fun a =>
               forallb (fun b => negb (Framework.routes_clash disallow a b))
                 (default_routes (num_sinks xvip) (num_sources xvip)))
            (default_routes (num_sinks xvip) (num_sources xvip)) = true)
    as ->; [| reflexivity].
  apply forallb_forall. intros a Ha. apply forallb_forall. intros b Hb.
  apply default_routes_in in Ha as (i & Hi & ->).
  apply default_routes_in in Hb as (j & Hj & ->).
  unfold Framework.routes_clash. cbn.
  destruct (Z.of_nat i =? Z.of_nat j) eqn:E.
  - apply Z.eqb_eq in E. rewrite E, Z.eqb_refl. cbn.
    now rewrite !andb_false_r.
  - assert ((Z.of_nat i + num_sinks xvip =? Z.of_nat j + num_sinks xvip)
            = false) as ->
        by (apply Z.eqb_neq; apply Z.eqb_neq in E; lia).
    cbn. now rewrite !andb_false_r.
Qed.

Lemma reference_init_cfg_succeeds (F : Type) (dfl_xvsw dfl_xsw : F)
    xvip nsinks nsources tdest state :
  pads xvip = xvip_device_init_pads (sd xvip) nsinks nsources ->
  num_sinks xvip = Z.of_nat nsinks ->
  num_sources xvip = Z.of_nat nsources ->
  num_sinks xvip + num_sources xvip < 2 ^ 32 ->
  fst (xvsw_init_cfg F dfl_xvsw (fw := Framework.reference_framework F)
         (mk_xvsw xvip tdest) state) = 0 /\
  fst (xsw_init_cfg F dfl_xsw (fw := Framework.reference_framework F)
         (mk_xsw xvip) state) = 0.
Proof.
  intros Hpads Hs Hd Hsum.
  assert (0 <= num_sinks xvip) by lia.
  assert (0 <= num_sources xvip) by lia.
  unfold xvsw_init_cfg, xsw_init_cfg, __xvsw_set_routing, __xsw_set_routing.
  cbn [xvsw_xvip xsw_xvip kcalloc_succeeds Framework.reference_framework
       v4l2_subdev_routing_validate v4l2_subdev_set_routing_with_fmt negb].
  rewrite !init_routes_default by assumption.
  rewrite !(reference_validate_default xvip nsinks nsources) by assumption.
  split; reflexivity.
Qed.

(** C9: the routing table a switch is initialised with.  For a switch
    with [num_sinks] sink pads and [num_sources] source pads the default
    table holds exactly min(num_sinks, num_sources) routes, all active,
    and route [i] maps sink pad [i], stream 0 to source pad
    [i + num_sinks], stream 0.  [xvsw_init_cfg] (in both routing modes)
    and [xsw_init_cfg] build this table and hand it to the V4L2 helpers:
    with any implementation of the helpers that installs the routes it
    accepts, a return value of 0 means the state holds the table; when
    the allocation succeeds and the helpers accept the table, both
    calls return 0 and the state holds the table; and with the
    reference behaviour of the helpers, on pads set up by
    [xvip_device_init], both calls return 0 and the state holds the
    table. *)
Theorem init_cfg_default_routing {F : Type} (dfl_xvsw dfl_xsw : F)
    (fw : v4l2_framework F) (xvip : xvip_device) (tdest : bool)
    (state : v4l2_subdev_state F) :
  set_routing_contract F fw ->
  0 <= num_sinks xvip -> 0 <= num_sources xvip ->
  num_sinks xvip + num_sources xvip < 2 ^ 32 ->
  let table := default_routes (num_sinks xvip) (num_sources xvip) in
  (Z.of_nat (length table) = Z.min (num_sinks xvip) (num_sources xvip) /\
   active_routes table = table /\
   forall i, 0 <= i < Z.min (num_sinks xvip) (num_sources xvip) ->
     table !! Z.to_nat i =
     Some (mk_route i 0 (i + num_sinks xvip) 0
             V4L2_SUBDEV_ROUTE_FL_ACTIVE)) /\
  (fst (xvsw_init_cfg F dfl_xvsw (mk_xvsw xvip tdest) state) = 0 ->
   routing F (snd (xvsw_init_cfg F dfl_xvsw (mk_xvsw xvip tdest) state))
   = table) /\
  (fst (xsw_init_cfg F dfl_xsw (mk_xsw xvip) state) = 0 ->
   routing F (snd (xsw_init_cfg F dfl_xsw (mk_xsw xvip) state)) = table) /\
  (kcalloc_succeeds F
     (Z.to_nat (Z.min (num_sinks xvip) (num_sources xvip))) = true ->
   (forall disallow,
      v4l2_subdev_routing_validate F xvip table disallow = 0) ->
   (forall fmt,
      fst (v4l2_subdev_set_routing_with_fmt F xvip state table fmt) = 0) ->
   fst (xvsw_init_cfg F dfl_xvsw (mk_xvsw xvip tdest) state) = 0 /\
   routing F (snd (xvsw_init_cfg F dfl_xvsw (mk_xvsw xvip tdest) state))
   = table /\
   fst (xsw_init_cfg F dfl_xsw (mk_xsw xvip) state) = 0 /\
   routing F (snd (xsw_init_cfg F dfl_xsw (mk_xsw xvip) state)) = table) /\
  (forall nsinks nsources,
     pads xvip = xvip_device_init_pads (sd xvip) nsinks nsources ->
     num_sinks xvip = Z.of_nat nsinks ->
     num_sources xvip = Z.of_nat nsources ->
     fst (xvsw_init_cfg F dfl_xvsw (fw := Framework.reference_framework F)
            (mk_xvsw xvip tdest) state) = 0 /\
     routing F
       (snd (xvsw_init_cfg F dfl_xvsw
               (fw := Framework.reference_framework F)
               (mk_xvsw xvip tdest) state)) = table /\
     fst (xsw_init_cfg F dfl_xsw (fw := Framework.reference_framework F)
            (mk_xsw xvip) state) = 0 /\
     routing F
       (snd (xsw_init_cfg F dfl_xsw (fw := Framework.reference_framework F)
               (mk_xsw xvip) state)) = table).
Proof.
  intros Hfw Hs Hd Hsum table.
  assert (Hxvsw : forall fw' : v4l2_framework F,
            set_routing_contract F fw' ->
            fst (xvsw_init_cfg F dfl_xvsw (fw := fw') (mk_xvsw xvip tdest)
                   state) = 0 ->
            routing F (snd (xvsw_init_cfg F dfl_xvsw (fw := fw')
                              (mk_xvsw xvip tdest) state)) = table).
  { intros fw' Hfw'. unfold xvsw_init_cfg. simpl.
    destruct (kcalloc_succeeds _); simpl; [| discriminate].
    rewrite init_routes_default by assumption. fold table.
    unfold __xvsw_set_routing. simpl.
    match goal with
    | |- context [negb (?r =? 0)] => destruct (r =? 0) eqn:Hv
    end; simpl.
    + apply Hfw'.
    + intros H. apply Z.eqb_neq in Hv. contradiction. }
  assert (Hxsw : forall fw' : v4l2_framework F,
            set_routing_contract F fw' ->
            fst (xsw_init_cfg F dfl_xsw (fw := fw') (mk_xsw xvip) state) = 0 ->
            routing F (snd (xsw_init_cfg F dfl_xsw (fw := fw')
                              (mk_xsw xvip) state)) = table).
  { intros fw' Hfw'. unfold xsw_init_cfg. simpl.
    destruct (kcalloc_succeeds _); simpl; [| discriminate].
    rewrite init_routes_default by assumption. fold table.
    unfold __xsw_set_routing. simpl.
    match goal with
    | |- context [negb (?r =? 0)] => destruct (r =? 0) eqn:Hv
    end; simpl.
    + apply Hfw'.
    + intros H. apply Z.eqb_neq in Hv. contradiction. }
  split; [| split; [| split; [| split]]].
  - split; [| split].
    + unfold table, default_routes. rewrite length_map, length_seq. lia.
    + apply default_routes_active.
    + intros i Hi. unfold table, default_routes.
      rewrite list_lookup_fmap, lookup_seq_lt by lia. simpl.
      rewrite Z2Nat.id by lia. reflexivity.
  - apply Hxvsw, Hfw.
  - apply Hxsw, Hfw.
  - intros Halloc Hvalid Hset.
    assert (Hok1 : fst (xvsw_init_cfg F dfl_xvsw (mk_xvsw xvip tdest) state)
                   = 0).
    { unfold xvsw_init_cfg, __xvsw_set_routing.
      cbn [xvsw_xvip]. rewrite Halloc. cbn [negb].
      rewrite init_routes_default by assumption. fold table.
      rewrite Hvalid. cbn [Z.eqb negb]. apply Hset. }
    assert (Hok2 : fst (xsw_init_cfg F dfl_xsw (mk_xsw xvip) state) = 0).
    { unfold xsw_init_cfg, __xsw_set_routing.
      cbn [xsw_xvip]. rewrite Halloc. cbn [negb].
      rewrite init_routes_default by assumption. fold table.
      rewrite Hvalid. cbn [Z.eqb negb]. apply Hset. }
    split; [exact Hok1 |]. split; [exact (Hxvsw fw Hfw Hok1) |].
    split; [exact Hok2 | exact (Hxsw fw Hfw Hok2)].
  - intros nsinks nsources Hpads Hns Hnd.
    destruct (reference_init_cfg_succeeds F dfl_xvsw dfl_xsw xvip nsinks
                nsources tdest state Hpads Hns Hnd Hsum) as [Hok1 Hok2].
    split; [exact Hok1 |].
    split; [exact (Hxvsw _ (reference_framework_contract F) Hok1) |].
    split; [exact Hok2 |].
    exact (Hxsw _ (reference_framework_contract F) Hok2).
Qed.

Lemma init_cfg_default_routing_witness :
  xvsw_init_cfg unit tt (fw := Framework.reference_framework unit)
    (mk_xvsw (Samples.switch_2x3 None) false) Samples.empty_state
  = (0, mk_state unit
          [mk_route 0 0 2 0 V4L2_SUBDEV_ROUTE_FL_ACTIVE;
           mk_route 1 0 3 0 V4L2_SUBDEV_ROUTE_FL_ACTIVE]
          [(0, 0, tt); (2, 0, tt); (1, 0, tt); (3, 0, tt)]) /\
  xsw_init_cfg unit tt (fw := Framework.reference_framework unit)
    (mk_xsw (Samples.switch_2x3 None)) Samples.empty_state
  = (0, mk_state unit
          [mk_route 0 0 2 0 V4L2_SUBDEV_ROUTE_FL_ACTIVE;
           mk_route 1 0 3 0 V4L2_SUBDEV_ROUTE_FL_ACTIVE]
          [(0, 0, tt); (2, 0, tt); (1, 0, tt); (3, 0, tt)]) /\
  fst (xvsw_init_cfg unit tt (fw := Framework.reference_framework unit)
         (mk_xvsw (Samples.switch_2x3 None) false) Samples.empty_state) = 0 /\
  routing unit
    (snd (xvsw_init_cfg unit tt (fw := Framework.reference_framework unit)
            (mk_xvsw (Samples.switch_2x3 None) false)
            Samples.empty_state))
  = default_routes 2 3 /\
  fst (xsw_init_cfg unit tt (fw := Framework.reference_framework unit)
         (mk_xsw (Samples.switch_2x3 None)) Samples.empty_state) = 0 /\
  routing unit
    (snd (xsw_init_cfg unit tt (fw := Framework.reference_framework unit)
            (mk_xsw (Samples.switch_2x3 None)) Samples.empty_state))
  = default_routes 2 3.
Proof.
  split; [reflexivity |]. split; [reflexivity |].
  apply (proj1 (proj2 (proj2 (proj2
           (init_cfg_default_routing tt tt
              (Framework.reference_framework unit)
              (Samples.switch_2x3 None) false Samples.empty_state
              (reference_framework_contract unit)
              ltac:(simpl; lia) ltac:(simpl; lia) ltac:(simpl; lia)))))).
  - reflexivity.
  - intros disallow.
    apply (reference_validate_default (Samples.switch_2x3 None) 2 3);
      reflexivity.
  - intros fmt. reflexivity.
Defined.

(** C8: on the active configuration, a routing request to a switch whose
    entity is part of a streaming pipeline is refused with [-EBUSY]
    whatever the requested routes, and the state, routing table included,
    is the one the call was given.  This holds for the AXI4-Stream switch
    and for the video switch. *)
Theorem set_routing_busy {F : Type} (dfl_xvsw dfl_xsw : F)
    (fw : v4l2_framework F) (xvip : xvip_device) (tdest : bool)
    (state : v4l2_subdev_state F) (routes : list v4l2_subdev_route) :
  entity_pipe xvip <> None ->
  xvsw_set_routing F dfl_xvsw (mk_xvsw xvip tdest) state
    V4L2_SUBDEV_FORMAT_ACTIVE routes = (- EBUSY, state) /\
  xsw_set_routing F dfl_xsw (mk_xsw xvip) state
    V4L2_SUBDEV_FORMAT_ACTIVE routes = (- EBUSY, state).
Proof.
  intros Hpipe.
  unfold xvsw_set_routing, xsw_set_routing, media_entity_pipeline,
    media_entity_is_streaming; simpl.
  destruct (entity_pipe xvip); [split; reflexivity | contradiction].
Qed.

Lemma set_routing_busy_witness :
  Samples.crossed_routes <> [] /\
  xvsw_set_routing unit tt (fw := Framework.reference_framework unit)
    (mk_xvsw (Samples.switch_2x3 None) false) Samples.empty_state
    V4L2_SUBDEV_FORMAT_ACTIVE Samples.crossed_routes
  = Framework.set_routing_with_fmt (Samples.switch_2x3 None)
      Samples.empty_state Samples.crossed_routes tt /\
  xvsw_set_routing unit tt (fw := Framework.reference_framework unit)
    (mk_xvsw (Samples.switch_2x3 (Some 7%nat)) false) Samples.empty_state
    V4L2_SUBDEV_FORMAT_ACTIVE Samples.crossed_routes
  = (- EBUSY, Samples.empty_state) /\
  xsw_set_routing unit tt (fw := Framework.reference_framework unit)
    (mk_xsw (Samples.switch_2x3 (Some 7%nat))) Samples.empty_state
    V4L2_SUBDEV_FORMAT_ACTIVE Samples.crossed_routes
  = (- EBUSY, Samples.empty_state).
Proof.
  split; [discriminate |]. split; [reflexivity |].
  apply (set_routing_busy tt tt (Framework.reference_framework unit)
           (Samples.switch_2x3 (Some 7%nat)) false Samples.empty_state
           Samples.crossed_routes).
  simpl. discriminate.
Defined.

End SwitchFacts.

(** ** Pipeline start and stop *)

Module DmaFacts.

Import Dma.
Import DmaSpec.

Ltac run := unfold discard; unfold bind, ret, call, call_void; simpl.

Lemma iter_stop l tr :
  iter xvip_dma_stop l tr = (tt, tr ++ map stop_call l).
Proof.
  revert tr; induction l as [|d l IH]; intros tr; simpl.
  - unfold ret. now rewrite app_nil_r.
  - unfold bind, xvip_dma_stop, call_void at 1. rewrite IH.
    now rewrite <- app_assoc.
Qed.

Lemma enable_branch_run env d tr :
  xvip_pipeline_enable_branch env d tr =
  (enable_result env tr d, tr ++ enable_calls d).
Proof.
  unfold xvip_pipeline_enable_branch, enable_result, enable_calls.
  destruct (xvip_dma_remote_subdev d) as [[s p]|]; run.
  - match goal with
    | |- context [negb (?r =? 0)] => destruct (r =? 0) eqn:H
    end; simpl; [| reflexivity].
    apply Z.eqb_eq in H. now rewrite H.
  - now rewrite app_nil_r.
Qed.

Lemma disable_branch_run env d tr :
  discard (xvip_pipeline_disable_branch env d) tr =
  (tt, tr ++ disable_calls d).
Proof.
  unfold xvip_pipeline_disable_branch, disable_calls.
  destruct (xvip_dma_remote_subdev d) as [[s p]|]; run.
  - match goal with
    | |- context [negb (?r =? 0)] => now destruct (r =? 0)
    end.
  - now rewrite app_nil_r.
Qed.

Lemma iter_disable env l tr :
  iter (fun d => discard (xvip_pipeline_disable_branch env d)) l tr =
  (tt, tr ++ flat_map disable_calls l).
Proof.
  revert tr; induction l as [|d l IH]; intros tr; simpl.
  - unfold ret. now rewrite app_nil_r.
  - unfold bind at 1. rewrite disable_branch_run, IH.
    now rewrite <- app_assoc.
Qed.

Lemma for_each_start type l i tr :
  for_each_dma type xvip_dma_start l i tr =
  ((AtHead, 0), tr ++ map start_call (of_type type l)).
Proof.
  revert i tr; induction l as [|d l IH]; intros i tr; simpl.
  - unfold ret. now rewrite app_nil_r.
  - destruct (dir_eqb (vfl_dir d) type); simpl; [| apply IH].
    unfold bind at 1, xvip_dma_start, bind, call_void, ret. simpl.
    rewrite IH. now rewrite <- app_assoc.
Qed.

Lemma for_each_dma_hit type body d l i tr :
  dir_eqb (vfl_dir d) type = true ->
  for_each_dma type body (d :: l) i tr =
  (if negb (fst (body d tr) =? 0)
   then ((AtEntry i, fst (body d tr)), snd (body d tr))
   else for_each_dma type body l (S i) (snd (body d tr))).
Proof.
  intros Hdir. simpl. rewrite Hdir. unfold bind, ret.
  destruct (body d tr) as [r tr1]. simpl. now destruct (r =? 0).
Qed.

Lemma for_each_dma_miss type body d l i tr :
  dir_eqb (vfl_dir d) type = false ->
  for_each_dma type body (d :: l) i tr = for_each_dma type body l (S i) tr.
Proof. intros Hdir. simpl. now rewrite Hdir. Qed.

Lemma dir_eqb_eq a b : dir_eqb a b = true -> a = b.
Proof. destruct a, b; simpl; congruence. Qed.

(** The branch loop either enables every branch of the given direction,
    or stops at the first engine whose branch fails. *)
Lemma for_each_enable env type l :
  forall i tr,
    (for_each_dma type (xvip_pipeline_enable_branch env) l i tr =
       ((AtHead, 0), tr ++ flat_map enable_calls (of_type type l)) /\
     Forall (fun d => xvip_dma_remote_subdev d <> None) (of_type type l)) \/
    (exists pre d post,
       l = pre ++ d :: post /\ vfl_dir d = type /\
       let h := tr ++ flat_map enable_calls (of_type type pre) in
       enable_result env h d <> 0 /\
       for_each_dma type (xvip_pipeline_enable_branch env) l i tr =
         ((AtEntry (i + length pre), enable_result env h d),
          h ++ enable_calls d)).
Proof.
  induction l as [|d l IH]; intros i tr.
  - left. simpl. unfold ret. rewrite app_nil_r. auto.
  - destruct (dir_eqb (vfl_dir d) type) eqn:Hdir.
    + rewrite for_each_dma_hit, enable_branch_run by assumption.
      cbn [fst snd of_type List.filter]. fold (of_type type l).
      rewrite Hdir.
      destruct (enable_result env tr d =? 0) eqn:Hres; cbn [negb].
      * apply Z.eqb_eq in Hres.
        destruct (IH (S i) (tr ++ enable_calls d))
          as [[Hrun Hall] | (pre & e & post & -> & He & Hne & Hrun)].
        -- left. rewrite Hrun. cbn [flat_map]. rewrite <- app_assoc.
           split; [reflexivity |].
           constructor; [| assumption].
           unfold enable_result in Hres.
           destruct (xvip_dma_remote_subdev d); [discriminate |].
           unfold ENXIO in Hres. lia.
        -- right. exists (d :: pre), e, post.
           cbn [of_type List.filter flat_map length app].
           fold (of_type type pre). rewrite Hdir. cbn [flat_map].
           rewrite <- !app_assoc in Hne, Hrun.
           rewrite !app_assoc in Hne, Hrun. rewrite !app_assoc.
           repeat split; try assumption.
           rewrite Hrun.
           replace (i + S (length pre))%nat with (S i + length pre)%nat
             by lia.
           reflexivity.
      * right. exists [], d, l. cbn [app of_type List.filter flat_map length].
        rewrite app_nil_r, Nat.add_0_r.
        apply Z.eqb_neq in Hres. apply dir_eqb_eq in Hdir.
        repeat split; assumption.
    + rewrite for_each_dma_miss by assumption.
      cbn [of_type List.filter]. fold (of_type type l). rewrite Hdir.
      destruct (IH (S i) tr)
        as [[Hrun Hall] | (pre & e & post & -> & He & Hne & Hrun)].
      * left. auto.
      * right. exists (d :: pre), e, post.
        cbn [of_type List.filter flat_map length app].
        fold (of_type type pre). rewrite Hdir.
        repeat split; try assumption.
        rewrite Hrun.
           replace (i + S (length pre))%nat with (S i + length pre)%nat
             by lia.
           reflexivity.
Qed.

Lemma of_type_rev type l : of_type type (rev l) = rev (of_type type l).
Proof. apply filter_rev. Qed.

Lemma pipeline_start_unfold env pipe tr :
  xvip_pipeline_start env pipe tr =
  (let b := for_each_dma VFL_DIR_RX (xvip_pipeline_enable_branch env)
              (dmas pipe) 0 (tr ++ map start_call (outputs pipe)) in
   if negb (snd (fst b) =? 0)
   then err_branch env (dmas pipe) (fst (fst b)) (snd (fst b)) (snd b)
   else (0, snd b ++ map start_call (inputs pipe))).
Proof.
  unfold xvip_pipeline_start, outputs, inputs.
  unfold bind at 1. rewrite for_each_start. cbn [snd fst Z.eqb negb].
  unfold bind at 1. cbv zeta.
  destruct (for_each_dma VFL_DIR_RX _ _ _ _) as [[c r] tr1].
  cbn [snd fst]. destruct (negb (r =? 0)); [reflexivity |].
  unfold bind at 1. rewrite for_each_start. reflexivity.
Qed.

Lemma err_branch_run env l c r tr :
  err_branch env l c r tr =
  (r, tr ++ flat_map disable_calls
              (of_type VFL_DIR_RX (continue_reverse l c)) ++
      map stop_call (rev (of_type VFL_DIR_RX l))).
Proof.
  unfold err_branch, err_output, for_each_dma_continue_reverse.
  unfold bind. rewrite iter_disable. cbn [continue_reverse].
  rewrite of_type_rev, iter_stop. unfold ret.
  now rewrite <- app_assoc.
Qed.

(** [xvip_pipeline_start] either runs its three loops to the end, or
    leaves through [err_branch] at the first output engine whose branch
    cannot be enabled. *)
Lemma pipeline_start_run env pipe tr :
  (xvip_pipeline_start env pipe tr =
     (0, tr ++ map start_call (outputs pipe) ++
         flat_map enable_calls (outputs pipe) ++
         map start_call (inputs pipe)) /\
   Forall (fun d => xvip_dma_remote_subdev d <> None) (outputs pipe)) \/
  (exists pre d post,
     dmas pipe = pre ++ d :: post /\ vfl_dir d = VFL_DIR_RX /\
     let h := tr ++ map start_call (outputs pipe) ++
              flat_map enable_calls (of_type VFL_DIR_RX pre) in
     enable_result env h d <> 0 /\
     xvip_pipeline_start env pipe tr =
       (enable_result env h d,
        h ++ enable_calls d ++
        flat_map disable_calls (rev (of_type VFL_DIR_RX pre)) ++
        map stop_call (rev (outputs pipe)))).
Proof.
  rewrite pipeline_start_unfold. cbv zeta.
  destruct (for_each_enable env VFL_DIR_RX (dmas pipe) 0
              (tr ++ map start_call (outputs pipe)))
    as [[Hrun Hall] | (pre & d & post & Hl & Hd & Hne & Hrun)].
  - left. rewrite Hrun. cbn [snd fst Z.eqb negb].
    fold (outputs pipe). rewrite <- !app_assoc. auto.
  - right. exists pre, d, post. cbv zeta in Hne, Hrun.
    rewrite <- !app_assoc in Hne, Hrun.
    repeat split; try assumption.
    rewrite Hrun. cbn [snd fst].
    apply Z.eqb_neq in Hne. rewrite Hne. cbn [negb].
    rewrite err_branch_run. cbn [continue_reverse Nat.add].
    rewrite Hl at 1.
    rewrite firstn_app, firstn_all, Nat.sub_diag, firstn_0, app_nil_r.
    rewrite of_type_rev. fold (outputs pipe).
    rewrite <- !app_assoc. reflexivity.
Qed.

(** C3: in synchronous mode [xvip_pipeline_start_dma] makes no call at
    all unless the sum of the two streaming counters, before it is
    incremented, equals [num_inputs + num_outputs - 1]; when it does and
    the start succeeds, the calls are, in this order, the DMA start of
    every output engine, the branch enable of every output engine, and
    the DMA start of every input engine. *)
Theorem sync_start_threshold_and_order env mode pipe dma tr :
  mode <> XVIP_DMA_MULTI_OUT_MODE_ASYNC ->
  (stream_total pipe <> start_threshold pipe ->
   xvip_pipeline_start_dma env mode pipe dma tr =
     ((0, count_up pipe dma), tr)) /\
  (stream_total pipe = start_threshold pipe ->
   fst (fst (xvip_pipeline_start_dma env mode pipe dma tr)) = 0 ->
   xvip_pipeline_start_dma env mode pipe dma tr =
     ((0, count_up pipe dma),
      tr ++ map start_call (outputs pipe) ++
      flat_map enable_calls (outputs pipe) ++
      map start_call (inputs pipe)) /\
   Forall (fun d => exists sd pad,
             enable_calls d = [v4l2_subdev_enable_streams sd pad (BIT 0)])
     (outputs pipe)).
Proof.
  intros Hmode. apply Z.eqb_neq in Hmode.
  unfold xvip_pipeline_start_dma. rewrite Hmode. split.
  - intros Hthr. apply Z.eqb_neq in Hthr. rewrite Hthr. reflexivity.
  - intros Hthr. apply Z.eqb_eq in Hthr. rewrite Hthr.
    unfold bind at 1 2.
    destruct (pipeline_start_run env pipe tr)
      as [[Hrun Hall] | (pre & d & post & Hl & Hd & Hne & Hrun)].
    + rewrite Hrun. cbn. intros _. split; [reflexivity |].
      eapply Forall_impl; [exact Hall |].
      intros e He. cbv beta in He. unfold enable_calls.
      destruct (xvip_dma_remote_subdev e) as [[s q]|]; [eauto | contradiction].
    + rewrite Hrun. cbv zeta in Hne.
      destruct (_ <? 0); cbn; intros H; contradiction.
Qed.

Lemma sync_start_threshold_and_order_witness :
  xvip_pipeline_start_dma Samples.env_ok XVIP_DMA_MULTI_OUT_MODE_SYNC
    (Samples.pipeline3 0 1) Samples.output1 []
  = ((0, Samples.pipeline3 1 1), []) /\
  xvip_pipeline_start_dma Samples.env_ok XVIP_DMA_MULTI_OUT_MODE_SYNC
    (Samples.pipeline3 1 1) Samples.capture2 []
  = ((0, Samples.pipeline3 1 2),
     [dma_async_issue_pending 0; dma_async_issue_pending 2;
      v4l2_subdev_enable_streams 10 1 1; v4l2_subdev_enable_streams 12 1 1;
      dma_async_issue_pending 1]).
Proof.
  split.
  - apply (proj1 (sync_start_threshold_and_order Samples.env_ok
                    XVIP_DMA_MULTI_OUT_MODE_SYNC (Samples.pipeline3 0 1)
                    Samples.output1 [] ltac:(discriminate))).
    vm_compute. discriminate.
  - apply (proj2 (sync_start_threshold_and_order Samples.env_ok
                    XVIP_DMA_MULTI_OUT_MODE_SYNC (Samples.pipeline3 1 1)
                    Samples.capture2 [] ltac:(discriminate)));
      reflexivity.
Defined.

(** The rollback of a failed synchronous start when the failing call
    follows the kernel convention and returns a negative code: the
    failing step is the branch enable of some output engine [d]; the call
    then disables, nearest first, the branches enabled before [d], stops
    every output engine in reverse order, returns the error code of the
    failed step and leaves the pipeline, streaming counters included, as
    it found it. *)
Theorem sync_start_failure_rolls_back env mode pipe dma tr :
  mode <> XVIP_DMA_MULTI_OUT_MODE_ASYNC ->
  errno_convention env ->
  stream_total pipe = start_threshold pipe ->
  fst (fst (xvip_pipeline_start_dma env mode pipe dma tr)) <> 0 ->
  exists pre d post,
    dmas pipe = pre ++ d :: post /\ vfl_dir d = VFL_DIR_RX /\
    let h := tr ++ map start_call (outputs pipe) ++
             flat_map enable_calls (of_type VFL_DIR_RX pre) in
    enable_result env h d < 0 /\
    xvip_pipeline_start_dma env mode pipe dma tr =
      ((enable_result env h d, pipe),
       h ++ enable_calls d ++
       flat_map disable_calls (rev (of_type VFL_DIR_RX pre)) ++
       map stop_call (rev (outputs pipe))).
Proof.
  intros Hmode Henv Hthr. apply Z.eqb_neq in Hmode. apply Z.eqb_eq in Hthr.
  unfold xvip_pipeline_start_dma. rewrite Hmode, Hthr.
  unfold bind at 1 2.
  destruct (pipeline_start_run env pipe tr)
    as [[Hrun Hall] | (pre & d & post & Hl & Hd & Hne & Hrun)].
  - rewrite Hrun. cbn. intros H. contradiction.
  - intros _. exists pre, d, post. cbv zeta in Hne. cbv zeta.
    rewrite Hrun.
    set (h := tr ++ map start_call (outputs pipe) ++
              flat_map enable_calls (of_type VFL_DIR_RX pre)) in *.
    assert (enable_result env h d < 0) as Hneg.
    { unfold enable_result in *.
      destruct (xvip_dma_remote_subdev d) as [[s q]|].
      - specialize (Henv h (v4l2_subdev_enable_streams s q (BIT 0))). lia.
      - unfold ENXIO. lia. }
    repeat split; try assumption.
    apply Z.ltb_lt in Hneg. rewrite Hneg. reflexivity.
Qed.

Lemma env_failing_convention bad : errno_convention (Samples.env_failing bad).
Proof.
  intros h e. destruct e; simpl; try lia;
    destruct (Nat.eqb _ _); unfold EPIPE; lia.
Qed.

Lemma sync_start_failure_rolls_back_witness :
  xvip_pipeline_start_dma (Samples.env_failing 12)
    XVIP_DMA_MULTI_OUT_MODE_SYNC (Samples.pipeline3 1 1) Samples.capture2 []
  = ((- EPIPE, Samples.pipeline3 1 1),
     [dma_async_issue_pending 0; dma_async_issue_pending 2;
      v4l2_subdev_enable_streams 10 1 1; v4l2_subdev_enable_streams 12 1 1;
      v4l2_subdev_disable_streams 10 1 1;
      dmaengine_terminate_all 2; dmaengine_terminate_all 0]) /\
  exists pre d post,
    dmas (Samples.pipeline3 1 1) = pre ++ d :: post /\
    vfl_dir d = VFL_DIR_RX /\
    let h := [] ++ map start_call (outputs (Samples.pipeline3 1 1)) ++
             flat_map enable_calls (of_type VFL_DIR_RX pre) in
    enable_result (Samples.env_failing 12) h d < 0 /\
    xvip_pipeline_start_dma (Samples.env_failing 12)
      XVIP_DMA_MULTI_OUT_MODE_SYNC (Samples.pipeline3 1 1)
      Samples.capture2 [] =
      ((enable_result (Samples.env_failing 12) h d, Samples.pipeline3 1 1),
       h ++ enable_calls d ++
       flat_map disable_calls (rev (of_type VFL_DIR_RX pre)) ++
       map stop_call (rev (outputs (Samples.pipeline3 1 1)))).
Proof.
  split; [reflexivity |].
  apply (sync_start_failure_rolls_back (Samples.env_failing 12)
           XVIP_DMA_MULTI_OUT_MODE_SYNC (Samples.pipeline3 1 1)
           Samples.capture2 []).
  - discriminate.
  - apply env_failing_convention.
  - reflexivity.
  - vm_compute. discriminate.
Defined.

Lemma stop_dma_sync env mode pipe dma tr :
  mode <> XVIP_DMA_MULTI_OUT_MODE_ASYNC ->
  xvip_pipeline_stop_dma env mode pipe dma tr =
  (count_down pipe dma,
   if stream_total (count_down pipe dma) =?
      start_threshold (count_down pipe dma)
   then tr ++ map stop_call (inputs pipe) ++
        flat_map disable_calls (outputs pipe) ++
        map stop_call (outputs pipe)
   else tr).
Proof.
  intros Hmode. apply Z.eqb_neq in Hmode.
  unfold xvip_pipeline_stop_dma. rewrite Hmode. cbv zeta.
  destruct (stream_total (count_down pipe dma) =?
            start_threshold (count_down pipe dma)); [| reflexivity].
  unfold xvip_pipeline_stop, bind.
  rewrite iter_stop, iter_disable, iter_stop. unfold ret.
  replace (dmas (count_down pipe dma)) with (dmas pipe)
    by (unfold count_down; now destruct (vfl_dir dma)).
  unfold inputs, outputs. now rewrite <- !app_assoc.
Qed.

(** C5: in synchronous mode [xvip_pipeline_stop_dma] first decrements the
    streaming counter of the direction of [dma]; exactly when the
    decremented total equals [num_inputs + num_outputs - 1] it stops
    every input engine, then disables the branch of every output engine,
    then stops every output engine.  It returns the pipeline only, no
    status, and the calls made do not depend on what the branch disables
    return. *)
Theorem sync_stop_order env mode pipe dma tr :
  mode <> XVIP_DMA_MULTI_OUT_MODE_ASYNC ->
  let pipe' := count_down pipe dma in
  fst (xvip_pipeline_stop_dma env mode pipe dma tr) = pipe' /\
  (output_stream_count pipe', input_stream_count pipe') =
    (if dir_eqb (vfl_dir dma) VFL_DIR_RX
     then (u32 (output_stream_count pipe - 1), input_stream_count pipe)
     else (output_stream_count pipe, u32 (input_stream_count pipe - 1))) /\
  (stream_total pipe' = start_threshold pipe' ->
   snd (xvip_pipeline_stop_dma env mode pipe dma tr) =
     tr ++ map stop_call (inputs pipe) ++
     flat_map disable_calls (outputs pipe) ++
     map stop_call (outputs pipe)) /\
  (stream_total pipe' <> start_threshold pipe' ->
   snd (xvip_pipeline_stop_dma env mode pipe dma tr) = tr) /\
  (forall env',
     xvip_pipeline_stop_dma env' mode pipe dma tr =
     xvip_pipeline_stop_dma env mode pipe dma tr).
Proof.
  intros Hmode pipe'. rewrite stop_dma_sync by assumption. fold pipe'.
  cbn [fst snd]. split; [reflexivity |].
  split; [unfold pipe', count_down; now destruct (vfl_dir dma) |].
  repeat split.
  - intros H. apply Z.eqb_eq in H. now rewrite H.
  - intros H. apply Z.eqb_neq in H. now rewrite H.
  - intros env'. now rewrite stop_dma_sync by assumption.
Qed.

Lemma sync_stop_order_witness :
  xvip_pipeline_stop_dma (Samples.env_failing 10)
    XVIP_DMA_MULTI_OUT_MODE_SYNC (Samples.pipeline3 1 2) Samples.capture0 []
  = (Samples.pipeline3 1 1,
     [dmaengine_terminate_all 1;
      v4l2_subdev_disable_streams 10 1 1; v4l2_subdev_disable_streams 12 1 1;
      dmaengine_terminate_all 0; dmaengine_terminate_all 2]) /\
  snd (xvip_pipeline_stop_dma (Samples.env_failing 10)
         XVIP_DMA_MULTI_OUT_MODE_SYNC (Samples.pipeline3 1 1)
         Samples.output1 []) = [].
Proof.
  split; [reflexivity |].
  apply (proj1 (proj2 (proj2 (proj2
           (sync_stop_order (Samples.env_failing 10)
              XVIP_DMA_MULTI_OUT_MODE_SYNC (Samples.pipeline3 1 1)
              Samples.output1 [] ltac:(discriminate)))))).
  vm_compute. discriminate.
Defined.

(** C7: in asynchronous mode [xvip_pipeline_start_dma] starts the channel
    of [dma], then enables the branch of [dma]; when that fails it stops
    the channel of [dma] again and returns the error.
    [xvip_pipeline_stop_dma] disables the branch of [dma], then stops its
    channel.  No other engine or branch is called, the pipeline is left
    unchanged, and neither call depends on the pipeline or its
    counters. *)
Theorem async_start_stop_local env pipe dma tr :
  let r := enable_result env (tr ++ [start_call dma]) dma in
  xvip_pipeline_start_dma env XVIP_DMA_MULTI_OUT_MODE_ASYNC pipe dma tr =
    ((r, pipe),
     tr ++ [start_call dma] ++ enable_calls dma ++
     (if r =? 0 then [] else [stop_call dma])) /\
  xvip_pipeline_stop_dma env XVIP_DMA_MULTI_OUT_MODE_ASYNC pipe dma tr =
    (pipe, tr ++ disable_calls dma ++ [stop_call dma]) /\
  (forall pipe2,
     fst (fst (xvip_pipeline_start_dma env XVIP_DMA_MULTI_OUT_MODE_ASYNC
                 pipe2 dma tr)) = r /\
     snd (xvip_pipeline_start_dma env XVIP_DMA_MULTI_OUT_MODE_ASYNC
            pipe2 dma tr) =
     snd (xvip_pipeline_start_dma env XVIP_DMA_MULTI_OUT_MODE_ASYNC
            pipe dma tr) /\
     snd (xvip_pipeline_stop_dma env XVIP_DMA_MULTI_OUT_MODE_ASYNC
            pipe2 dma tr) =
     snd (xvip_pipeline_stop_dma env XVIP_DMA_MULTI_OUT_MODE_ASYNC
            pipe dma tr)).
Proof.
  intros r.
  assert (forall p,
    xvip_pipeline_start_dma env XVIP_DMA_MULTI_OUT_MODE_ASYNC p dma tr =
    ((r, p),
     tr ++ [start_call dma] ++ enable_calls dma ++
     (if r =? 0 then [] else [stop_call dma]))) as Hstart.
  { intros p. unfold xvip_pipeline_start_dma. cbn [Z.eqb
      XVIP_DMA_MULTI_OUT_MODE_ASYNC Pos.eqb].
    unfold bind at 1. unfold xvip_dma_start, bind at 1, call_void, ret.
    cbn [Z.eqb negb]. unfold bind at 1. rewrite enable_branch_run.
    fold (start_call dma). fold r.
    destruct (r =? 0); cbn [negb].
    - rewrite app_nil_r, <- app_assoc. reflexivity.
    - unfold bind, xvip_dma_stop, call_void. fold (stop_call dma).
      rewrite <- !app_assoc. reflexivity. }
  assert (forall p,
    xvip_pipeline_stop_dma env XVIP_DMA_MULTI_OUT_MODE_ASYNC p dma tr =
    (p, tr ++ disable_calls dma ++ [stop_call dma])) as Hstop.
  { intros p. unfold xvip_pipeline_stop_dma. cbn [Z.eqb
      XVIP_DMA_MULTI_OUT_MODE_ASYNC Pos.eqb].
    unfold bind at 1. rewrite disable_branch_run.
    unfold bind, xvip_dma_stop, call_void, ret. fold (stop_call dma).
    rewrite <- app_assoc. reflexivity. }
  split; [apply Hstart | split; [apply Hstop |]].
  intros pipe2. rewrite !Hstart, !Hstop. auto.
Qed.

Lemma async_start_stop_local_witness :
  xvip_pipeline_start_dma Samples.env_ok XVIP_DMA_MULTI_OUT_MODE_ASYNC
    (Samples.pipeline3 0 0) Samples.capture2 []
  = ((0, Samples.pipeline3 0 0),
     [dma_async_issue_pending 2; v4l2_subdev_enable_streams 12 1 1]) /\
  xvip_pipeline_start_dma (Samples.env_failing 12)
    XVIP_DMA_MULTI_OUT_MODE_ASYNC (Samples.pipeline3 0 0)
    Samples.capture2 []
  = ((- EPIPE, Samples.pipeline3 0 0),
     [dma_async_issue_pending 2; v4l2_subdev_enable_streams 12 1 1;
      dmaengine_terminate_all 2]) /\
  xvip_pipeline_stop_dma Samples.env_ok XVIP_DMA_MULTI_OUT_MODE_ASYNC
    (Samples.pipeline3 0 0) Samples.capture2 []
  = (Samples.pipeline3 0 0,
     [v4l2_subdev_disable_streams 12 1 1; dmaengine_terminate_all 2]).
Proof.
  split; [| split].
  - exact (proj1 (async_start_stop_local Samples.env_ok
                    (Samples.pipeline3 0 0) Samples.capture2 [])).
  - exact (proj1 (async_start_stop_local (Samples.env_failing 12)
                    (Samples.pipeline3 0 0) Samples.capture2 [])).
  - exact (proj1 (proj2 (async_start_stop_local Samples.env_ok
                           (Samples.pipeline3 0 0) Samples.capture2 []))).
Defined.


End DmaFacts.

(** ** Stream dispatch and propagation *)

Module VipFacts.

Import Vip.
Import VipSpec.

Lemma propagate_links_step env xvip enable streams link ls tr :
  propagate_links env xvip enable streams (link :: ls) tr =
  match link_call xvip enable streams link with
  | None => propagate_links env xvip enable streams ls tr
  | Some c =>
      if returns env tr c =? 0
      then propagate_links env xvip enable streams ls (tr ++ [c])
      else (returns env tr c, tr ++ [c])
  end.
Proof.
  cbn [propagate_links]. unfold link_call.
  destruct (negb (link_is_enabled_data link)); [reflexivity |].
  destruct (link_ends xvip link) as [local_pad remote_pad].
  destruct (streams !! Z.to_nat (index local_pad)) as [v|]; [| reflexivity].
  destruct (v =? 0); [reflexivity |].
  destruct (negb (is_media_entity_v4l2_subdev (entity remote_pad)));
    [reflexivity |].
  unfold bind, call, ret.
  destruct (returns env tr _ =? 0); reflexivity.
Qed.

Lemma all_succeed_cons env tr c calls :
  returns env tr c = 0 -> all_succeed env (tr ++ [c]) calls ->
  all_succeed env tr (c :: calls).
Proof.
  intros Hc Hrest pre d post Heq. destruct pre as [|e pre]; cbn in Heq.
  - injection Heq as <- _. now rewrite app_nil_r.
  - injection Heq as <- Heq. specialize (Hrest pre d post Heq).
    now rewrite <- app_assoc in Hrest.
Qed.

(** The link loop makes the calls of [link_calls] in order and stops
    after the first one that fails, whose code it returns. *)
Lemma propagate_links_run env xvip enable streams ls :
  forall tr,
    (all_succeed env tr (link_calls xvip enable streams ls) /\
     propagate_links env xvip enable streams ls tr =
       (0, tr ++ link_calls xvip enable streams ls)) \/
    (exists pre c post,
       link_calls xvip enable streams ls = pre ++ c :: post /\
       all_succeed env tr pre /\
       returns env (tr ++ pre) c <> 0 /\
       propagate_links env xvip enable streams ls tr =
         (returns env (tr ++ pre) c, tr ++ pre ++ [c])).
Proof.
  induction ls as [|link ls IH]; intros tr.
  - left. cbn. unfold ret. rewrite app_nil_r. split; [| reflexivity].
    intros [|] c post Heq; discriminate.
  - rewrite propagate_links_step. unfold link_calls. cbn [omap list_omap].
    fold (link_calls xvip enable streams ls).
    destruct (link_call xvip enable streams link) as [c|]; [| apply IH].
    destruct (returns env tr c =? 0) eqn:Hc.
    + apply Z.eqb_eq in Hc.
      destruct (IH (tr ++ [c]))
        as [[Hall Hrun] | (pre & c' & post & Hl & Hall & Hne & Hrun)].
      * left. rewrite Hrun, <- app_assoc.
        split; [now apply all_succeed_cons | reflexivity].
      * right. exists (c :: pre), c', post.
        rewrite Hl. rewrite <- !app_assoc in Hne, Hrun.
        cbn [app] in Hne, Hrun. cbn [app].
        split; [reflexivity |].
        split; [now apply all_succeed_cons |].
        split; [assumption |].
        rewrite Hrun, <- app_assoc. reflexivity.
    + right. exists [], c, (link_calls xvip enable streams ls).
      apply Z.eqb_neq in Hc. rewrite app_nil_r.
      split; [reflexivity |].
      split; [intros [|] d post Heq; discriminate |].
      split; [assumption | reflexivity].
Qed.

Lemma connected_streams_run env xvip state pad streams_mask enable tr :
  kcalloc_ok env tr = true ->
  let calls := selected_calls xvip state pad streams_mask enable in
  let run := __xvip_enable_connected_streams env xvip state pad
               streams_mask enable tr in
  (all_succeed env tr calls /\ run = (0, tr ++ calls)) \/
  (exists pre c post,
     calls = pre ++ c :: post /\ all_succeed env tr pre /\
     returns env (tr ++ pre) c <> 0 /\
     run = (returns env (tr ++ pre) c, tr ++ pre ++ [c])).
Proof.
  intros Hmem calls run. unfold run, __xvip_enable_connected_streams.
  rewrite Hmem. apply propagate_links_run.
Qed.

(** C1, as the code has it: [xvip_disable_streams] first propagates the
    disable to the connected sub-devices.  The device's own disable hook
    is called after that only when the allocation and every propagated
    call succeeded; when the propagation fails, its error code is
    returned at once and the hook is not called. *)
Theorem disable_streams_hook_after_propagation env xvip state pad
    streams_mask tr :
  let calls := selected_calls xvip state pad streams_mask false in
  let hook := disable_hook xvip pad streams_mask in
  let run := xvip_disable_streams env xvip state pad streams_mask tr in
  (kcalloc_ok env tr = false /\ run = (- ENOMEM, tr)) \/
  (kcalloc_ok env tr = true /\ all_succeed env tr calls /\
   run = if has_disable_streams xvip
         then (returns env (tr ++ calls) hook, tr ++ calls ++ [hook])
         else (0, tr ++ calls)) \/
  (kcalloc_ok env tr = true /\
   exists pre c post,
     calls = pre ++ c :: post /\ all_succeed env tr pre /\
     returns env (tr ++ pre) c <> 0 /\
     run = (returns env (tr ++ pre) c, tr ++ pre ++ [c])).
Proof.
  intros calls hook run.
  assert (run =
          let p := __xvip_enable_connected_streams env xvip state pad
                     streams_mask false tr in
          if negb (fst p =? 0) then p
          else if has_disable_streams xvip
               then (returns env (snd p) hook, snd p ++ [hook])
               else (0, snd p)) as Hrun.
  { unfold run, xvip_disable_streams, xvip_disable_connected_streams.
    unfold bind at 1. cbv zeta.
    destruct (__xvip_enable_connected_streams _ _ _ _ _ _ _) as [r tr1].
    cbn [fst snd]. destruct (negb (r =? 0)); [reflexivity |].
    destruct (has_disable_streams xvip); [| reflexivity].
    unfold bind, call, ret.
    change (ops_disable_streams (ent_id (sd xvip)) pad streams_mask)
      with hook.
    destruct (returns env tr1 hook =? 0) eqn:Hh; cbn [negb];
      [| reflexivity].
    apply Z.eqb_eq in Hh. now rewrite Hh. }
  rewrite Hrun. clear Hrun. cbv zeta.
  destruct (kcalloc_ok env tr) eqn:Hmem.
  - right.
    destruct (connected_streams_run env xvip state pad streams_mask false
                tr Hmem)
      as [[Hall Hp] | (pre & c & post & Hl & Hall & Hne & Hp)];
      cbv zeta in Hp; rewrite Hp; cbn [fst snd].
    + left. cbn [Z.eqb negb]. fold calls.
      split; [reflexivity |]. split; [assumption |].
      destruct (has_disable_streams xvip); [| reflexivity].
      now rewrite <- app_assoc.
    + right. split; [reflexivity |]. exists pre, c, post.
      apply Z.eqb_neq in Hne. rewrite Hne. cbn [negb].
      apply Z.eqb_neq in Hne. auto.
  - left. split; [reflexivity |].
    unfold __xvip_enable_connected_streams. rewrite Hmem. reflexivity.
Qed.

(** C2: [xvip_enable_streams] calls the device's own enable hook before
    any propagation, and propagates only when the hook succeeded.  The
    propagation makes the selected remote calls in link order and stops
    after the first one that fails; the device's disable hook is then
    called and the code of the failed call is returned.  A failed
    allocation is rolled back in the same way. *)
Theorem enable_streams_hook_then_propagation env xvip state pad
    streams_mask tr :
  let hook := enable_hook xvip pad streams_mask in
  let tr1 := if has_enable_streams xvip then tr ++ [hook] else tr in
  let r1 := if has_enable_streams xvip then returns env tr hook else 0 in
  let calls := selected_calls xvip state pad streams_mask true in
  let undo := if has_disable_streams xvip
              then [disable_hook xvip pad streams_mask] else [] in
  let run := xvip_enable_streams env xvip state pad streams_mask tr in
  (r1 <> 0 /\ run = (r1, tr1)) \/
  (r1 = 0 /\ kcalloc_ok env tr1 = false /\ run = (- ENOMEM, tr1 ++ undo)) \/
  (r1 = 0 /\ kcalloc_ok env tr1 = true /\ all_succeed env tr1 calls /\
   run = (0, tr1 ++ calls)) \/
  (r1 = 0 /\ kcalloc_ok env tr1 = true /\
   exists pre c post,
     calls = pre ++ c :: post /\ all_succeed env tr1 pre /\
     returns env (tr1 ++ pre) c <> 0 /\
     run = (returns env (tr1 ++ pre) c, tr1 ++ pre ++ [c] ++ undo)).
Proof.
  intros hook tr1 r1 calls undo run.
  assert (run =
          if negb (r1 =? 0) then (r1, tr1)
          else
            let p := __xvip_enable_connected_streams env xvip state pad
                       streams_mask true tr1 in
            if negb (fst p =? 0) then (fst p, snd p ++ undo)
            else (0, snd p)) as Hrun.
  { unfold run, xvip_enable_streams, xvip_enable_connected_streams,
      r1, tr1, undo.
    unfold bind at 1.
    destruct (has_enable_streams xvip); unfold call, ret;
      change (ops_enable_streams (ent_id (sd xvip)) pad streams_mask)
        with hook.
    - destruct (negb (returns env tr hook =? 0)); [reflexivity |].
      unfold bind at 1. cbv zeta.
      destruct (__xvip_enable_connected_streams _ _ _ _ _ _ _)
        as [r tr2]. cbn [fst snd].
      destruct (negb (r =? 0)); [| reflexivity].
      destruct (has_disable_streams xvip); unfold bind; cbn;
        [reflexivity | now rewrite app_nil_r].
    - cbn [Z.eqb negb]. unfold bind at 1. cbv zeta.
      destruct (__xvip_enable_connected_streams _ _ _ _ _ _ _)
        as [r tr2]. cbn [fst snd].
      destruct (negb (r =? 0)); [| reflexivity].
      destruct (has_disable_streams xvip); unfold bind; cbn;
        [reflexivity | now rewrite app_nil_r]. }
  rewrite Hrun. clear Hrun.
  destruct (r1 =? 0) eqn:Hr1; cbn [negb].
  - apply Z.eqb_eq in Hr1. right. cbv zeta.
    destruct (kcalloc_ok env tr1) eqn:Hmem.
    + right.
      destruct (connected_streams_run env xvip state pad streams_mask true
                  tr1 Hmem)
        as [[Hall Hp] | (pre & c & post & Hl & Hall & Hne & Hp)];
        cbv zeta in Hp; rewrite Hp; cbn [fst snd].
      * left. cbn [Z.eqb negb]. auto.
      * right. apply Z.eqb_neq in Hne. rewrite Hne. cbn [negb].
        apply Z.eqb_neq in Hne.
        repeat split; try assumption.
        exists pre, c, post. rewrite <- !app_assoc. auto.
    + left. unfold __xvip_enable_connected_streams. rewrite Hmem.
      cbn. auto.
  - apply Z.eqb_neq in Hr1. left. auto.
Qed.

(** C1 does not hold as stated: on the sample merger, whose device has
    a disable hook, the first propagated disable fails; the call returns
    that error with the hook never called (and the second neighbour
    never reached). *)
Lemma disable_streams_skips_hook_counterexample :
  has_disable_streams Samples.merger = true /\
  xvip_disable_connected_streams (Samples.env_failing 20) Samples.merger
    None 2 1 [] = (- EPIPE, [v4l2_subdev_disable_streams 20 1 1]) /\
  xvip_disable_streams (Samples.env_failing 20) Samples.merger None 2 1 []
    = (- EPIPE, [v4l2_subdev_disable_streams 20 1 1]) /\
  ~ In (disable_hook Samples.merger 2 1)
      (snd (xvip_disable_streams (Samples.env_failing 20) Samples.merger
              None 2 1 [])).
Proof.
  repeat split; try reflexivity.
  cbn. intros [H | []]. discriminate.
Qed.

Lemma disable_streams_hook_after_propagation_witness :
  xvip_disable_streams Samples.env_ok Samples.merger None 2 1 []
  = (0, [v4l2_subdev_disable_streams 20 1 1;
         v4l2_subdev_disable_streams 21 3 1;
         ops_disable_streams 1 2 1]).
Proof.
  destruct (disable_streams_hook_after_propagation Samples.env_ok
              Samples.merger None 2 1 [])
    as [[Hmem _] | [(_ & _ & Hrun) | (_ & pre & c & post & _ & _ & Hne & _)]].
  - discriminate Hmem.
  - exact Hrun.
  - exfalso. apply Hne. reflexivity.
Defined.

Lemma enable_streams_hook_then_propagation_witness :
  xvip_enable_streams Samples.env_ok Samples.merger None 2 1 []
  = (0, [ops_enable_streams 1 2 1;
         v4l2_subdev_enable_streams 20 1 1;
         v4l2_subdev_enable_streams 21 3 1]) /\
  xvip_enable_streams (Samples.env_failing 20) Samples.merger None 2 1 []
  = (- EPIPE, [ops_enable_streams 1 2 1;
               v4l2_subdev_enable_streams 20 1 1;
               ops_disable_streams 1 2 1]).
Proof.
  split.
  - destruct (enable_streams_hook_then_propagation Samples.env_ok
                Samples.merger None 2 1 [])
      as [[Hr _] | [(_ & Hmem & _) | [(_ & _ & _ & Hrun) |
          (_ & _ & pre & c & post & _ & _ & Hne & _)]]].
    + exfalso. apply Hr. reflexivity.
    + discriminate Hmem.
    + exact Hrun.
    + exfalso. apply Hne. reflexivity.
  - reflexivity.
Defined.

(** *** Selection of remote pads and streams *)

Lemma testbit_BIT k s : 0 <= k -> 0 <= s -> Z.testbit (BIT k) s = (k =? s).
Proof.
  intros Hk Hs. unfold BIT. rewrite Z.shiftl_spec by assumption.
  destruct (k =? s) eqn:E.
  - apply Z.eqb_eq in E. subst. now rewrite Z.sub_diag.
  - apply Z.eqb_neq in E. destruct (s - k) eqn:D; try reflexivity; lia.
Qed.

Lemma BIT_pos k : 0 <= k -> 0 < BIT k.
Proof.
  intros Hk. unfold BIT. rewrite Z.shiftl_1_l. now apply Z.pow_pos_nonneg.
Qed.

Lemma land_BIT a k :
  0 <= k -> Z.land a (BIT k) = if Z.testbit a k then BIT k else 0.
Proof.
  intros Hk. apply Z.bits_inj'. intros n Hn.
  rewrite Z.land_spec, testbit_BIT by assumption.
  destruct (k =? n) eqn:E.
  - apply Z.eqb_eq in E. subst n. rewrite andb_true_r.
    destruct (Z.testbit a k); [now rewrite testbit_BIT, Z.eqb_refl |].
    now rewrite Z.bits_0.
  - rewrite andb_false_r.
    destruct (Z.testbit a k); [now rewrite testbit_BIT, E |].
    now rewrite Z.bits_0.
Qed.

Lemma mask_has_stream a k :
  0 <= k -> negb (Z.land a (BIT k) =? 0) = Z.testbit a k.
Proof.
  intros Hk. rewrite land_BIT by assumption.
  destruct (Z.testbit a k); [| reflexivity].
  pose proof (BIT_pos k Hk). destruct (BIT k =? 0) eqn:E; [| reflexivity].
  apply Z.eqb_eq in E. lia.
Qed.

Lemma u64_id x : is_u64 x -> u64 x = x.
Proof. intros H. apply Z.mod_small, H. Qed.

Lemma is_u64_lor a b : is_u64 a -> is_u64 b -> is_u64 (Z.lor a b).
Proof.
  intros [Ha Ha'] [Hb Hb']. split; [now apply Z.lor_nonneg |].
  destruct (Z.eq_dec (Z.lor a b) 0) as [-> | Hne]; [reflexivity |].
  apply Z.log2_lt_pow2; [pose proof (Z.lor_nonneg a b); lia |].
  rewrite Z.log2_lor by assumption.
  apply Z.max_lub_lt.
  - destruct (Z.eq_dec a 0) as [-> | ?]; [reflexivity |].
    apply Z.log2_lt_pow2; lia.
  - destruct (Z.eq_dec b 0) as [-> | ?]; [reflexivity |].
    apply Z.log2_lt_pow2; lia.
Qed.

Lemma is_u64_BIT k : 0 <= k < 64 -> is_u64 (BIT k).
Proof.
  intros Hk. unfold is_u64, BIT. rewrite Z.shiftl_1_l. split.
  - apply Z.pow_nonneg. lia.
  - apply Z.pow_lt_mono_r; lia.
Qed.

Lemma is_u64_0 : is_u64 0.
Proof. unfold is_u64. lia. Qed.

Lemma streams_or_length streams j v :
  length (streams_or streams j v) = length streams.
Proof.
  unfold streams_or. destruct (streams !! Z.to_nat j); [| reflexivity].
  apply length_insert.
Qed.

Lemma streams_or_u64 streams j v :
  Forall is_u64 streams -> is_u64 v -> Forall is_u64 (streams_or streams j v).
Proof.
  intros Hs Hv. unfold streams_or.
  destruct (streams !! Z.to_nat j) as [old|] eqn:E; [| assumption].
  apply Forall_insert; [assumption |].
  rewrite u64_id; apply is_u64_lor; try assumption;
    eapply Forall_lookup_1; eassumption.
Qed.

Lemma streams_or_lookup streams j v i :
  Forall is_u64 streams -> is_u64 v -> 0 <= j ->
  (i < length streams)%nat ->
  streams_or streams j v !!! i =
  Z.lor (streams !!! i) (if j =? Z.of_nat i then v else 0).
Proof.
  intros Hs Hv Hj Hi. unfold streams_or.
  destruct (streams !! Z.to_nat j) as [old|] eqn:E.
  - destruct (Nat.eq_dec (Z.to_nat j) i) as [<- | Hne].
    + rewrite list_lookup_total_insert_eq by assumption.
      rewrite Z2Nat.id, Z.eqb_refl by assumption.
      rewrite (list_lookup_total_correct _ _ _ E).
      apply u64_id, is_u64_lor; [| assumption].
      eapply Forall_lookup_1; eassumption.
    + rewrite list_lookup_total_insert_ne by assumption.
      destruct (j =? Z.of_nat i) eqn:Hji;
        [apply Z.eqb_eq in Hji; lia | now rewrite Z.lor_0_r].
  - apply lookup_ge_None_1 in E.
    destruct (j =? Z.of_nat i) eqn:Hji;
      [apply Z.eqb_eq in Hji; lia | now rewrite Z.lor_0_r].
Qed.

Lemma collect_route_length pad streams_mask streams r :
  length (collect_route pad streams_mask streams r) = length streams.
Proof.
  unfold collect_route.
  repeat match goal with
         | |- context [if ?b then _ else _] => destruct b
         end; rewrite ?streams_or_length; reflexivity.
Qed.

Lemma collect_route_u64 npads pad streams_mask streams r :
  route_wf npads r -> Forall is_u64 streams ->
  Forall is_u64 (collect_route pad streams_mask streams r).
Proof.
  intros (_ & _ & Hss & Hds) Hs. unfold collect_route.
  repeat match goal with
         | |- context [if ?b then _ else _] => destruct b
         end; repeat apply streams_or_u64; auto using is_u64_BIT.
Qed.

Lemma collect_route_lookup npads pad streams_mask streams r i :
  route_wf npads r -> Forall is_u64 streams ->
  (i < length streams)%nat ->
  collect_route pad streams_mask streams r !!! i =
  Z.lor (streams !!! i) (route_selection pad streams_mask (Z.of_nat i) r).
Proof.
  intros (Hsp & Hdp & Hss & Hds) Hs Hi.
  unfold collect_route, route_selection.
  rewrite !mask_has_stream by lia.
  destruct ((sink_pad r =? pad) && Z.testbit streams_mask (sink_stream r));
    destruct ((source_pad r =? pad) &&
              Z.testbit streams_mask (source_stream r));
    cbn [andb];
    rewrite ?streams_or_lookup
      by (rewrite ?streams_or_length;
          auto using streams_or_u64, is_u64_BIT; lia);
    rewrite ?Z.lor_0_r, ?Z.lor_0_l, ?Z.lor_assoc; reflexivity.
Qed.

Lemma collect_routes_lookup npads pad streams_mask routes :
  forall streams i,
    Forall (route_wf npads) routes -> Forall is_u64 streams ->
    (i < length streams)%nat ->
    fold_left (collect_route pad streams_mask) routes streams !!! i =
    Z.lor (streams !!! i)
      (fold_right Z.lor 0
         (map (route_selection pad streams_mask (Z.of_nat i)) routes)).
Proof.
  induction routes as [|r routes IH]; intros streams i Hwf Hs Hi;
    cbn [fold_left map fold_right].
  - now rewrite Z.lor_0_r.
  - inversion Hwf as [|? ? Hr Hrest]; subst.
    rewrite IH by (rewrite ?collect_route_length;
                   eauto using collect_route_u64).
    rewrite (collect_route_lookup npads) by assumption.
    now rewrite Z.lor_assoc.
Qed.

Lemma collect_pads_lookup local_pad streams_mask l :
  forall streams i,
    (i < length streams)%nat ->
    fold_left (collect_pad local_pad streams_mask) l streams !!! i =
    if existsb (fun p => pads_differ local_pad p &&
                         Nat.eqb (Z.to_nat (index p)) i) l
    then streams_mask else streams !!! i.
Proof.
  induction l as [|p l IH]; intros streams i Hi;
    cbn [fold_left existsb]; [reflexivity |].
  unfold collect_pad at 2. fold (pads_differ local_pad p).
  destruct (pads_differ local_pad p); cbn [andb orb].
  - unfold streams_set. rewrite IH by (rewrite length_insert; assumption).
    destruct (Nat.eqb (Z.to_nat (index p)) i) eqn:E; cbn [orb].
    + apply Nat.eqb_eq in E. subst i.
      rewrite list_lookup_total_insert_eq by assumption.
      now destruct (existsb _ l).
    + apply Nat.eqb_neq in E.
      now rewrite list_lookup_total_insert_ne by assumption.
  - now apply IH.
Qed.

Lemma init_pads_length e nsinks nsources :
  length (xvip_device_init_pads e nsinks nsources) = (nsinks + nsources)%nat.
Proof.
  unfold xvip_device_init_pads.
  now rewrite length_app, !length_map, !length_seq.
Qed.

Lemma init_pads_lookup e nsinks nsources i p :
  xvip_device_init_pads e nsinks nsources !! i = Some p ->
  index p = Z.of_nat i /\
  (flags p = MEDIA_PAD_FL_SINK \/ flags p = MEDIA_PAD_FL_SOURCE).
Proof.
  unfold xvip_device_init_pads. intros H.
  apply lookup_app_Some in H as [H | [Hlen H]].
  - rewrite list_lookup_fmap in H.
    destruct (seq 0 nsinks !! i) as [k|] eqn:E; [| discriminate].
    apply lookup_seq in E as [-> _]. injection H as <-. cbn. auto.
  - rewrite length_map, length_seq in Hlen, H.
    rewrite list_lookup_fmap in H.
    destruct (seq nsinks nsources !! (i - nsinks)%nat) as [k|] eqn:E;
      [| discriminate].
    apply lookup_seq in E as [-> _]. injection H as <-. cbn.
    split; [lia | auto].
Qed.

Lemma pads_differ_opposite a b :
  (flags a = MEDIA_PAD_FL_SINK \/ flags a = MEDIA_PAD_FL_SOURCE) ->
  (flags b = MEDIA_PAD_FL_SINK \/ flags b = MEDIA_PAD_FL_SOURCE) ->
  pads_differ a b = opposite_polarity a b.
Proof.
  unfold pads_differ, opposite_polarity, pad_is_sink, pad_is_source.
  intros [-> | ->] [-> | ->]; reflexivity.
Qed.

Lemma fold_collect_route_length pad streams_mask routes :
  forall streams,
    length (fold_left (collect_route pad streams_mask) routes streams) =
    length streams.
Proof.
  induction routes as [|r routes IH]; intros streams; cbn; [reflexivity |].
  now rewrite IH, collect_route_length.
Qed.

Lemma fold_collect_pad_length local_pad streams_mask l :
  forall streams,
    length (fold_left (collect_pad local_pad streams_mask) l streams) =
    length streams.
Proof.
  induction l as [|p l IH]; intros streams; cbn; [reflexivity |].
  rewrite IH. unfold collect_pad, streams_set.
  destruct (_ =? _); [apply length_insert | reflexivity].
Qed.

Lemma collect_streams_length xvip state pad streams_mask :
  length (collect_streams xvip state pad streams_mask) =
  length (pads xvip).
Proof.
  unfold collect_streams. destruct state as [routing|].
  - now rewrite fold_collect_route_length, length_replicate.
  - destruct (pads xvip !! Z.to_nat pad);
      now rewrite ?fold_collect_pad_length, length_replicate.
Qed.

(** The array computed by the collection loops holds, for every pad, the
    selection of the specification. *)
Lemma collect_streams_selected xvip state pad streams_mask i :
  request_wf xvip state pad streams_mask ->
  (i < length (pads xvip))%nat ->
  collect_streams xvip state pad streams_mask !!! i =
  selected_streams xvip state pad streams_mask (Z.of_nat i).
Proof.
  intros (Hinit & Hpad & Hmask & Hroutes & _) Hi.
  unfold collect_streams, selected_streams. destruct state as [routing|];
    [| destruct (Hinit eq_refl) as (nsinks & nsources & Hpads)].
  - rewrite (collect_routes_lookup (Z.of_nat (length (pads xvip))));
      [| now apply Hroutes | apply Forall_replicate, is_u64_0
       | now rewrite length_replicate].
    rewrite lookup_total_replicate_2 by assumption.
    apply Z.lor_0_l.
  - rewrite Nat2Z.id.
    destruct (lookup_lt_is_Some_2 (pads xvip) (Z.to_nat pad)) as [lp Hlp];
      [lia |].
    destruct (lookup_lt_is_Some_2 (pads xvip) i Hi) as [op Hop].
    rewrite Hlp, Hop.
    rewrite collect_pads_lookup by now rewrite length_replicate.
    rewrite lookup_total_replicate_2 by assumption.
    assert (Hlp' := Hlp). assert (Hop' := Hop).
    rewrite Hpads in Hlp', Hop'.
    apply init_pads_lookup in Hlp' as [_ Hlf].
    apply init_pads_lookup in Hop' as [Hoi Hof].
    rewrite <- (pads_differ_opposite lp op) by assumption.
    destruct (pads_differ lp op) eqn:D.
    + assert (existsb (fun p => pads_differ lp p &&
                                Nat.eqb (Z.to_nat (index p)) i)
                (pads xvip) = true) as ->; [| reflexivity].
      apply existsb_exists. exists op. split.
      * apply list_elem_of_In. eapply list_elem_of_lookup_2. exact Hop.
      * rewrite D, Hoi, Nat2Z.id. apply Nat.eqb_refl.
    + destruct (existsb _ (pads xvip)) eqn:E; [| reflexivity].
      apply existsb_exists in E as (x & Hin & Hx).
      apply list_elem_of_In, list_elem_of_lookup_1 in Hin as [k Hk].
      apply andb_true_iff in Hx as [Hd Hidx]. apply Nat.eqb_eq in Hidx.
      assert (Hk' := Hk). rewrite Hpads in Hk'.
      apply init_pads_lookup in Hk' as [Hxi _].
      rewrite Hxi, Nat2Z.id in Hidx. subst k.
      rewrite Hop in Hk. injection Hk as <-. congruence.
Qed.

(** The calls of the link loop are those of the specification. *)
Lemma selected_calls_followed xvip state pad streams_mask enable :
  request_wf xvip state pad streams_mask ->
  selected_calls xvip state pad streams_mask enable =
  followed_links xvip state pad streams_mask enable.
Proof.
  intros Hwf. pose proof Hwf as (_ & _ & _ & _ & Hlinks).
  unfold selected_calls, followed_links, link_calls.
  induction (links xvip) as [|link ls IH]; [reflexivity |].
  inversion Hlinks as [|? ? Hlink Hrest]; subst.
  cbn [omap list_omap flat_map]. rewrite <- (IH Hrest). clear IH.
  unfold link_call.
  destruct (link_is_enabled_data link) eqn:Hen; cbn [negb andb];
    [| reflexivity].
  specialize (Hlink eq_refl).
  destruct (link_ends xvip link) as [local_pad remote_pad]. cbn [fst snd] in *.
  destruct (lookup_lt_is_Some_2
              (collect_streams xvip state pad streams_mask)
              (Z.to_nat (index local_pad))) as [v Hv];
    [rewrite collect_streams_length; lia |].
  rewrite Hv.
  apply list_lookup_total_correct in Hv.
  rewrite collect_streams_selected in Hv by (assumption || lia).
  rewrite Z2Nat.id in Hv by lia. rewrite Hv.
  destruct (v =? 0); cbn [negb andb]; [reflexivity |].
  destruct (is_media_entity_v4l2_subdev (entity remote_pad)); reflexivity.
Qed.

Lemma testbit_fold_lor l s :
  Z.testbit (fold_right Z.lor 0 l) s = existsb (fun v => Z.testbit v s) l.
Proof.
  induction l as [|v l IH]; cbn [fold_right existsb].
  - apply Z.bits_0.
  - now rewrite Z.lor_spec, IH.
Qed.

Lemma testbit_selection (c : bool) k s :
  0 <= k -> 0 <= s ->
  Z.testbit (if c then BIT k else 0) s = c && (k =? s).
Proof.
  intros Hk Hs. destruct c; [now apply testbit_BIT | apply Z.bits_0].
Qed.

(** Bit [s] of the selection on pad [p] is set exactly when some active
    route has one end on ([pad], a stream of the mask) and the other end
    on ([p], [s]). *)
Lemma selected_streams_bit xvip npads routing pad streams_mask p s :
  Forall (route_wf npads) (active_routes routing) -> 0 <= s ->
  Z.testbit (selected_streams xvip (Some routing) pad streams_mask p) s
    = true <->
  exists r,
    In r routing /\ route_is_active r = true /\
    ((sink_pad r = pad /\ Z.testbit streams_mask (sink_stream r) = true /\
      source_pad r = p /\ source_stream r = s) \/
     (source_pad r = pad /\ Z.testbit streams_mask (source_stream r) = true /\
      sink_pad r = p /\ sink_stream r = s)).
Proof.
  intros Hwf Hs. cbn [selected_streams]. rewrite testbit_fold_lor.
  rewrite existsb_exists. split.
  - intros (v & Hin & Hbit). apply in_map_iff in Hin as (r & <- & Hr).
    pose proof Hr as Hr'. apply filter_In in Hr' as [Hin Hact].
    apply list_elem_of_In in Hr.
    pose proof (proj1 (Forall_forall _ _) Hwf r Hr) as (_ & _ & Hss & Hds).
    exists r. split; [assumption |]. split; [assumption |].
    unfold route_selection in Hbit.
    rewrite Z.lor_spec, !testbit_selection in Hbit by lia.
    apply orb_true_iff in Hbit as [H | H];
      repeat (apply andb_true_iff in H as [H ?]);
      repeat match goal with
             | E : (_ =? _) = true |- _ => apply Z.eqb_eq in E
             end;
      [left | right]; auto.
  - intros (r & Hin & Hact & Hsel).
    assert (In r (active_routes routing)) as Hr
        by (apply filter_In; auto).
    pose proof Hr as Hr'. apply list_elem_of_In in Hr'.
    pose proof (proj1 (Forall_forall _ _) Hwf r Hr') as (_ & _ & Hss & Hds).
    exists (route_selection pad streams_mask p r). split.
    + apply in_map_iff. exists r. auto.
    + unfold route_selection.
      rewrite Z.lor_spec, !testbit_selection by lia.
      destruct Hsel as [(-> & -> & -> & ->) | (-> & -> & -> & ->)];
        rewrite !Z.eqb_refl; cbn; auto using orb_true_r.
Qed.

(** C6: on a well-formed request for which the allocation succeeds,
    the remote calls of [__xvip_enable_connected_streams] are those of
    [followed_links], in link order, up to and including the first one
    that fails: one call per enabled data link whose local pad has a
    non-empty selection and whose remote entity is a sub-device, on the
    remote pad, with the selection of the local pad.  With a routing
    table the selection is the one of the active routes through the
    requested pad and streams; without one it is the whole mask on every
    pad of opposite polarity. *)
Theorem propagation_follows_selection env xvip state pad streams_mask
    enable tr :
  request_wf xvip state pad streams_mask ->
  kcalloc_ok env tr = true ->
  let calls := followed_links xvip state pad streams_mask enable in
  let run := __xvip_enable_connected_streams env xvip state pad
               streams_mask enable tr in
  ((all_succeed env tr calls /\ run = (0, tr ++ calls)) \/
   (exists pre c post,
      calls = pre ++ c :: post /\ all_succeed env tr pre /\
      returns env (tr ++ pre) c <> 0 /\
      run = (returns env (tr ++ pre) c, tr ++ pre ++ [c]))) /\
  (forall routing p s,
     state = Some routing -> 0 <= s ->
     (Z.testbit (selected_streams xvip state pad streams_mask p) s = true
      <->
      exists r,
        In r routing /\ route_is_active r = true /\
        ((sink_pad r = pad /\
          Z.testbit streams_mask (sink_stream r) = true /\
          source_pad r = p /\ source_stream r = s) \/
         (source_pad r = pad /\
          Z.testbit streams_mask (source_stream r) = true /\
          sink_pad r = p /\ sink_stream r = s)))) /\
  (forall local_pad other_pad p,
     state = None ->
     pads xvip !! Z.to_nat pad = Some local_pad ->
     pads xvip !! Z.to_nat p = Some other_pad ->
     selected_streams xvip state pad streams_mask p =
     if opposite_polarity local_pad other_pad then streams_mask else 0).
Proof.
  intros Hwf Hmem calls run. split; [| split].
  - unfold calls, run.
    rewrite <- (selected_calls_followed xvip state pad streams_mask enable)
      by assumption.
    now apply connected_streams_run.
  - intros routing p s -> Hs.
    destruct Hwf as (_ & _ & _ & Hroutes & _).
    eapply selected_streams_bit; [now apply Hroutes | assumption].
  - intros local_pad other_pad p -> Hl Ho. cbn [selected_streams].
    now rewrite Hl, Ho.
Qed.

Lemma crossbar_request_wf pad streams_mask :
  0 <= pad < 4 -> is_u64 streams_mask ->
  request_wf Samples.crossbar (Some Samples.crossbar_routing) pad
    streams_mask.
Proof.
  intros Hpad Hmask. unfold request_wf. split; [| split; [| split; [| split]]].
  - discriminate.
  - cbn. lia.
  - assumption.
  - intros routing [= <-].
    let l := eval vm_compute in (active_routes Samples.crossbar_routing) in
    change (active_routes Samples.crossbar_routing) with l.
    repeat (apply Forall_cons_2; [unfold route_wf; cbn; lia |]).
    apply Forall_nil_2.
  - cbn. repeat (apply Forall_cons_2; [intros _; cbn; lia |]).
    apply Forall_nil_2.
Defined.

Lemma merger_request_wf pad streams_mask :
  0 <= pad < 3 -> is_u64 streams_mask ->
  request_wf Samples.merger None pad streams_mask.
Proof.
  intros Hpad Hmask. unfold request_wf. split; [| split; [| split; [| split]]].
  - intros _. exists 2%nat, 1%nat. reflexivity.
  - cbn. lia.
  - assumption.
  - discriminate.
  - cbn. repeat (apply Forall_cons_2; [intros _; cbn; lia |]).
    apply Forall_nil_2.
Defined.

Lemma propagation_follows_selection_witness :
  __xvip_enable_connected_streams (Samples.env_failing 21) Samples.merger
    None 2 5 true []
  = (- EPIPE, [v4l2_subdev_enable_streams 20 1 5;
               v4l2_subdev_enable_streams 21 3 5]) /\
  __xvip_enable_connected_streams Samples.env_ok Samples.crossbar
    (Some Samples.crossbar_routing) 0 3 true []
  = (0, [v4l2_subdev_enable_streams 25 0 33]) /\
  __xvip_enable_connected_streams Samples.env_ok Samples.crossbar
    (Some Samples.crossbar_routing) 3 33 false []
  = (0, [v4l2_subdev_disable_streams 20 1 3]).
Proof.
  split; [| split].
  - destruct (proj1 (propagation_follows_selection (Samples.env_failing 21)
                       Samples.merger None 2 5 true []
                       (merger_request_wf 2 5 ltac:(lia)
                          ltac:(unfold is_u64; lia))
                       eq_refl))
      as [[Hall _] | (pre & c & post & Hcalls & _ & _ & Hrun)].
    + exfalso.
      specialize (Hall [v4l2_subdev_enable_streams 20 1 5]
                    (v4l2_subdev_enable_streams 21 3 5) [] eq_refl).
      discriminate Hall.
    + destruct pre as [|c1 [|c2 [|c3 pre]]]; try discriminate Hcalls;
        injection Hcalls as <-; subst; try discriminate.
      exact Hrun.
  - destruct (proj1 (propagation_follows_selection Samples.env_ok
                       Samples.crossbar (Some Samples.crossbar_routing)
                       0 3 true []
                       (crossbar_request_wf 0 3 ltac:(lia)
                          ltac:(unfold is_u64; lia))
                       eq_refl))
      as [[_ Hrun] | (pre & c & post & _ & _ & Hne & _)].
    + exact Hrun.
    + exfalso. apply Hne. reflexivity.
  - destruct (proj1 (propagation_follows_selection Samples.env_ok
                       Samples.crossbar (Some Samples.crossbar_routing)
                       3 33 false []
                       (crossbar_request_wf 3 33 ltac:(lia)
                          ltac:(unfold is_u64; lia))
                       eq_refl))
      as [[_ Hrun] | (pre & c & post & _ & _ & Hne & _)].
    + exact Hrun.
    + exfalso. apply Hne. reflexivity.
Defined.

End VipFacts.

(** ** Life cycle of a pipeline and numbering of completed buffers *)

Module LifecycleFacts.

Import Dma DmaSpec Lifecycle LifecycleSpec.

Lemma init_flags_sink type :
  negb (Z.land (xvip_dma_init_pad_flags type) MEDIA_PAD_FL_SINK =? 0)
  = is_capture type.
Proof. unfold xvip_dma_init_pad_flags. now destruct (is_capture type). Qed.

Lemma of_type_cons type d l :
  of_type type (d :: l) =
  if dir_eqb (vfl_dir d) type then d :: of_type type l else of_type type l.
Proof. reflexivity. Qed.

Lemma walk_video_nodes_spec es :
  forall dl n_in n_out,
    Forall initialised_node es ->
    0 <= n_in -> 0 <= n_out ->
    n_in + n_out + Z.of_nat (length es) < 2 ^ 32 ->
    walk_video_nodes es dl n_in n_out =
    (dl ++ video_dmas es,
     n_in + Z.of_nat (length (of_type VFL_DIR_TX (video_dmas es))),
     n_out + Z.of_nat (length (of_type VFL_DIR_RX (video_dmas es)))).
Proof.
  induction es as [|e es IH]; intros dl n_in n_out Hes Hin Hout Hlen.
  - simpl. now rewrite app_nil_r, !Z.add_0_r.
  - apply Forall_cons in Hes as [He Hes].
    change (length (e :: es)) with (S (length es)) in Hlen.
    destruct e as [d fl|].
    + destruct He as [type [-> Hdir]].
      cbn [walk_video_nodes]. rewrite init_flags_sink.
      change (video_dmas (video_node d (xvip_dma_init_pad_flags type) :: es))
        with (d :: video_dmas es).
      rewrite !of_type_cons, Hdir. unfold xvip_dma_init_vfl_dir.
      destruct (is_capture type); cbn [dir_eqb].
      * rewrite SwitchFacts.u32_small by lia.
        rewrite IH by (try assumption; lia).
        rewrite <- app_assoc. cbn [app length]. rewrite Nat2Z.inj_succ.
        repeat (f_equal; try lia).
      * rewrite SwitchFacts.u32_small by lia.
        rewrite IH by (try assumption; lia).
        rewrite <- app_assoc. cbn [app length]. rewrite Nat2Z.inj_succ.
        repeat (f_equal; try lia).
    + cbn [walk_video_nodes].
      change (video_dmas (other_entity :: es)) with (video_dmas es).
      apply IH; try assumption; lia.
Qed.

Lemma video_dmas_length es :
  (length (video_dmas es) <= length es)%nat.
Proof.
  induction es as [|[d fl|] es IH]; simpl; [lia | |];
    change (omap _ es) with (video_dmas es); simpl; lia.
Qed.

(** Engines set up by [xvip_dma_init] are capture (RX) or output (TX)
    engines: the two kinds partition the list. *)
Lemma rx_tx_partition es :
  Forall initialised_node es ->
  (length (of_type VFL_DIR_TX (video_dmas es)) +
   length (of_type VFL_DIR_RX (video_dmas es)))%nat
  = length (video_dmas es).
Proof.
  induction es as [|e es IH]; intros Hes; [reflexivity |].
  apply Forall_cons in Hes as [He Hes]. specialize (IH Hes).
  destruct e as [d fl|]; [| exact IH].
  destruct He as [type [_ Hdir]].
  change (video_dmas (video_node d fl :: es)) with (d :: video_dmas es).
  rewrite !of_type_cons, Hdir. unfold xvip_dma_init_vfl_dir.
  destruct (is_capture type); cbn [dir_eqb length]; lia.
Qed.

Lemma set_dmas_same pipe : set_dmas pipe (dmas pipe) = pipe.
Proof. now destruct pipe. Qed.

(** X1: [xvip_pipeline_init] on a pipeline with an empty engine list,
    when the graph walk can be set up and the video nodes were set up by
    [xvip_dma_init]: the engine list becomes the engines of the video
    nodes in walk order; without any video node the call fails with
    [-EPIPE] and leaves the pipeline as it was; otherwise it returns 0,
    [num_outputs] is the number of capture engines listed, [num_inputs]
    the number of output engines listed, and the two add up to the
    length of the list. *)
Theorem pipeline_init_counts pipe g :
  walk_init g = 0 ->
  dmas pipe = [] ->
  Forall initialised_node (walk_next g) ->
  Z.of_nat (length (walk_next g)) < 2 ^ 32 ->
  let r := xvip_pipeline_init pipe g in
  dmas (snd r) = video_dmas (walk_next g) /\
  (video_dmas (walk_next g) = [] -> fst r = - EPIPE /\ snd r = pipe) /\
  (video_dmas (walk_next g) <> [] ->
   fst r = 0 /\
   num_outputs (snd r) = Z.of_nat (length (outputs (snd r))) /\
   num_inputs (snd r) = Z.of_nat (length (inputs (snd r))) /\
   num_inputs (snd r) + num_outputs (snd r)
   = Z.of_nat (length (dmas (snd r)))).
Proof.
  intros Hinit Hempty Hnodes Hlen r. subst r.
  unfold xvip_pipeline_init. rewrite Hinit. cbn [Z.eqb negb].
  rewrite walk_video_nodes_spec by (try assumption; lia).
  rewrite Hempty. cbn [app]. rewrite !Z.add_0_l.
  pose proof (rx_tx_partition _ Hnodes) as Hpart.
  set (l := video_dmas (walk_next g)) in *.
  destruct l as [|d l'] eqn:Hl.
  - cbn. split; [reflexivity |]. split; [| congruence].
    intros _. split; [reflexivity |].
    rewrite <- Hempty. apply set_dmas_same.
  - assert (Hnz : (Z.of_nat (length (of_type VFL_DIR_RX (d :: l'))) =? 0) &&
                  (Z.of_nat (length (of_type VFL_DIR_TX (d :: l'))) =? 0)
                  = false).
    { apply andb_false_iff. cbn [length] in Hpart.
      destruct (length (of_type VFL_DIR_RX (d :: l'))) eqn:E.
      - right. apply Z.eqb_neq. lia.
      - left. apply Z.eqb_neq. lia. }
    rewrite Hnz. cbn [fst snd set_nums set_dmas dmas num_inputs num_outputs].
    split; [reflexivity |]. split; [congruence |].
    intros _. unfold outputs, inputs. cbn [dmas].
    repeat split. rewrite <- Hpart. lia.
Qed.

Lemma pipeline_init_counts_witness :
  let g := mk_graph 0 [other_entity;
                       video_node Samples.capture0 MEDIA_PAD_FL_SINK;
                       video_node Samples.output1 MEDIA_PAD_FL_SOURCE;
                       other_entity;
                       video_node Samples.capture2 MEDIA_PAD_FL_SINK] in
  xvip_pipeline_init (mk_pipe [] 0 0 0 0) g = (0, Samples.pipeline3 0 0) /\
  num_inputs (snd (xvip_pipeline_init (mk_pipe [] 0 0 0 0) g)) +
  num_outputs (snd (xvip_pipeline_init (mk_pipe [] 0 0 0 0) g)) = 3.
Proof.
  intros g. split; [reflexivity |].
  assert (Hnodes : Forall initialised_node (walk_next g)).
  { repeat apply Forall_cons_2; try exact I; try apply Forall_nil_2.
    - now exists V4L2_BUF_TYPE_VIDEO_CAPTURE.
    - now exists V4L2_BUF_TYPE_VIDEO_OUTPUT.
    - now exists V4L2_BUF_TYPE_VIDEO_CAPTURE_MPLANE. }
  assert (Hlen : Z.of_nat (length (walk_next g)) < 2 ^ 32) by (simpl; lia).
  assert (Hne : video_dmas (walk_next g) <> []) by discriminate.
  exact (proj2 (proj2 (proj2 (proj2 (proj2
           (pipeline_init_counts (mk_pipe [] 0 0 0 0) g
              eq_refl eq_refl Hnodes Hlen)) Hne)))).
Defined.

Lemma cleanup_after_init pipe g :
  __xvip_pipeline_cleanup (snd (xvip_pipeline_init pipe g))
  = __xvip_pipeline_cleanup pipe.
Proof.
  unfold xvip_pipeline_init.
  destruct (negb (walk_init g =? 0)); [reflexivity |].
  destruct (walk_video_nodes (walk_next g) (dmas pipe) 0 0) as [[dl n_in] n_out].
  now destruct ((n_out =? 0) && (n_in =? 0)).
Qed.

Lemma cleanup_idle p : idle p -> __xvip_pipeline_cleanup (pipeline p) = pipeline p.
Proof.
  intros (_ & Hd & Hi & Ho). destruct p as [[dl ni no ic oc] uc].
  cbn in *. now subst.
Qed.

(** X2: [xvip_pipeline_prepare] and [xvip_pipeline_cleanup] balance.
    For a pipeline that is idle (use count zero, no engine listed) or
    in use (use count below the largest [unsigned int]), a prepare that
    fails leaves the pipeline exactly as it was, use count included; a
    prepare that does not fail returns 0, raises the use count by one,
    and the cleanup that follows gives back the pipeline as it was
    before the prepare: the first user builds the engine list, the last
    user empties it again. *)
Theorem prepare_then_cleanup p g :
  0 <= use_count p < 2 ^ 32 - 1 ->
  (use_count p = 0 -> idle p) ->
  let r := xvip_pipeline_prepare p g in
  (fst r < 0 -> snd r = p) /\
  (~ fst r < 0 ->
   fst r = 0 /\ use_count (snd r) = use_count p + 1 /\
   xvip_pipeline_cleanup (snd r) = p).
Proof.
  intros Hrange Hidle r. subst r. unfold xvip_pipeline_prepare.
  destruct (use_count p =? 0) eqn:Hzero.
  - apply Z.eqb_eq in Hzero. specialize (Hidle Hzero).
    pose proof (cleanup_after_init (pipeline p) g) as Hclean.
    rewrite (cleanup_idle p Hidle) in Hclean.
    destruct (xvip_pipeline_init (pipeline p) g) as [r1 pipe1].
    cbn [snd] in Hclean.
    destruct (r1 <? 0) eqn:Hr1; cbn [fst snd].
    + split; [| intros H; apply Z.ltb_lt in Hr1; contradiction].
      intros _. rewrite Hclean. now destruct p.
    + split; [lia |]. intros _. split; [reflexivity |].
      rewrite Hzero. cbn [use_count].
      split; [reflexivity |].
      unfold xvip_pipeline_cleanup. cbn [use_count pipeline].
      change (u32 (u32 (0 + 1) - 1) =? 0) with true. cbv iota.
      rewrite Hclean. destruct p as [pp uc]. cbn in *. now subst.
  - apply Z.eqb_neq in Hzero. cbn [fst snd use_count pipeline].
    split; [lia |]. intros _. split; [reflexivity |].
    rewrite SwitchFacts.u32_small by lia. split; [reflexivity |].
    unfold xvip_pipeline_cleanup. cbn [use_count pipeline].
    replace (use_count p + 1 - 1) with (use_count p) by lia.
    rewrite SwitchFacts.u32_small by lia.
    apply Z.eqb_neq in Hzero. rewrite Hzero. now destruct p.
Qed.

Lemma prepare_then_cleanup_witness :
  let p := mk_users (mk_pipe [] 0 0 0 0) 0 in
  let g := mk_graph 0 [video_node Samples.capture0 MEDIA_PAD_FL_SINK;
                       video_node Samples.output1 MEDIA_PAD_FL_SOURCE;
                       video_node Samples.capture2 MEDIA_PAD_FL_SINK] in
  xvip_pipeline_prepare p g = (0, mk_users (Samples.pipeline3 0 0) 1) /\
  xvip_pipeline_cleanup (snd (xvip_pipeline_prepare p g)) = p.
Proof.
  intros p g. split; [reflexivity |].
  assert (Hrange : 0 <= use_count p < 2 ^ 32 - 1) by (cbn; lia).
  assert (Hidle : use_count p = 0 -> idle p) by (intros _; now repeat split).
  assert (Hok : ~ fst (xvip_pipeline_prepare p g) < 0)
    by (vm_compute; discriminate).
  exact (proj2 (proj2 (proj2 (prepare_then_cleanup p g Hrange Hidle) Hok))).
Defined.

End LifecycleFacts.

(** ** Engines started and stopped one after the other *)

Module SequenceFacts.

Import Dma DmaSpec Lifecycle LifecycleSpec.

Ltac u32_simpl :=
  repeat match goal with
         | |- context [u32 ?x] => rewrite (SwitchFacts.u32_small x) by lia
         end.

Lemma start_dma_sync_below env mode pipe dma tr :
  mode <> XVIP_DMA_MULTI_OUT_MODE_ASYNC ->
  stream_total pipe <> start_threshold pipe ->
  xvip_pipeline_start_dma env mode pipe dma tr = ((0, count_up pipe dma), tr).
Proof.
  intros Hmode Hbelow. apply Z.eqb_neq in Hmode, Hbelow.
  unfold xvip_pipeline_start_dma. now rewrite Hmode, Hbelow.
Qed.

Lemma count_rx_cons d ds :
  count_rx (d :: ds) =
  (if dir_eqb (vfl_dir d) VFL_DIR_RX then 1 else 0) + count_rx ds.
Proof.
  unfold count_rx. rewrite LifecycleFacts.of_type_cons.
  destruct (dir_eqb (vfl_dir d) VFL_DIR_RX); cbn [length]; lia.
Qed.

Lemma count_other_cons d ds :
  count_other (d :: ds) =
  (if dir_eqb (vfl_dir d) VFL_DIR_RX then 0 else 1) + count_other ds.
Proof.
  unfold count_other. rewrite count_rx_cons. cbn [length].
  destruct (dir_eqb (vfl_dir d) VFL_DIR_RX); lia.
Qed.

Lemma count_rx_nonneg ds : 0 <= count_rx ds.
Proof. unfold count_rx. lia. Qed.

Lemma count_other_nonneg ds : 0 <= count_other ds.
Proof.
  induction ds as [|d ds IH]; [now vm_compute |].
  rewrite count_other_cons. destruct (dir_eqb (vfl_dir d) VFL_DIR_RX); lia.
Qed.

Lemma start_each_below env mode ds :
  forall pipe tr,
    mode <> XVIP_DMA_MULTI_OUT_MODE_ASYNC ->
    0 <= input_stream_count pipe -> 0 <= output_stream_count pipe ->
    input_stream_count pipe + output_stream_count pipe +
    Z.of_nat (length ds) < num_inputs pipe + num_outputs pipe ->
    num_inputs pipe + num_outputs pipe <= 2 ^ 32 ->
    start_each env mode pipe ds tr =
    ((replicate (length ds) 0,
      mk_pipe (dmas pipe) (num_inputs pipe) (num_outputs pipe)
        (input_stream_count pipe + count_other ds)
        (output_stream_count pipe + count_rx ds)), tr).
Proof.
  induction ds as [|d ds IH]; intros pipe tr Hmode Hin Hout Hlt Hmax.
  - cbn. rewrite !Z.add_0_r. now destruct pipe.
  - change (length (d :: ds)) with (S (length ds)) in *.
    cbn [start_each]. unfold bind at 1.
    rewrite start_dma_sync_below; [| assumption |].
    + cbn [fst snd]. unfold bind at 1.
      pose proof (count_rx_nonneg ds). pose proof (count_other_nonneg ds).
      rewrite IH; try assumption.
      * unfold ret. cbn [fst snd replicate].
        rewrite count_rx_cons, count_other_cons.
        unfold count_up.
        destruct (vfl_dir d); cbn [dir_eqb dmas num_inputs num_outputs
          input_stream_count output_stream_count];
          rewrite SwitchFacts.u32_small by lia; repeat (f_equal; try lia).
      * unfold count_up. destruct (vfl_dir d); cbn; try assumption;
          rewrite SwitchFacts.u32_small; lia.
      * unfold count_up. destruct (vfl_dir d); cbn; try assumption;
          rewrite SwitchFacts.u32_small; lia.
      * unfold count_up. destruct (vfl_dir d); cbn;
          rewrite SwitchFacts.u32_small; lia.
      * unfold count_up. now destruct (vfl_dir d).
    + unfold stream_total, start_threshold.
      rewrite !SwitchFacts.u32_small by lia. lia.
Qed.

(** X3: in synchronous mode the pipeline waits for its last engine.
    On a pipeline of [n = num_inputs + num_outputs] engines of which
    some have asked to start, further engines asking to start one after
    the other, as long as fewer than [n] have asked in all, each get 0
    and cause no call at all: no DMA channel is started and no
    sub-device enabled; each request is only counted, under the
    direction of its engine. *)
Theorem sync_start_waits_for_all env mode pipe ds tr :
  mode <> XVIP_DMA_MULTI_OUT_MODE_ASYNC ->
  0 <= input_stream_count pipe -> 0 <= output_stream_count pipe ->
  input_stream_count pipe + output_stream_count pipe +
  Z.of_nat (length ds) < num_inputs pipe + num_outputs pipe ->
  num_inputs pipe + num_outputs pipe <= 2 ^ 32 ->
  let r := start_each env mode pipe ds tr in
  snd r = tr /\
  fst (fst r) = replicate (length ds) 0 /\
  dmas (snd (fst r)) = dmas pipe /\
  input_stream_count (snd (fst r)) = input_stream_count pipe + count_other ds /\
  output_stream_count (snd (fst r)) = output_stream_count pipe + count_rx ds.
Proof.
  intros Hmode Hin Hout Hlt Hmax r. subst r.
  rewrite start_each_below by assumption. now cbn.
Qed.

Lemma sync_start_waits_for_all_witness :
  start_each (Samples.env_failing 10) XVIP_DMA_MULTI_OUT_MODE_SYNC
    (Samples.pipeline3 0 0) [Samples.capture2; Samples.output1] []
  = (([0; 0], Samples.pipeline3 1 1), []) /\
  snd (start_each (Samples.env_failing 10) XVIP_DMA_MULTI_OUT_MODE_SYNC
         (Samples.pipeline3 0 0) [Samples.capture2; Samples.output1] [])
  = [].
Proof.
  split; [reflexivity |].
  apply (sync_start_waits_for_all (Samples.env_failing 10)
           XVIP_DMA_MULTI_OUT_MODE_SYNC (Samples.pipeline3 0 0)
           [Samples.capture2; Samples.output1] []);
    cbn; (discriminate || lia).
Defined.

Lemma stop_each_below env mode ds :
  forall pipe tr,
    mode <> XVIP_DMA_MULTI_OUT_MODE_ASYNC ->
    count_other ds <= input_stream_count pipe ->
    count_rx ds <= output_stream_count pipe ->
    input_stream_count pipe + output_stream_count pipe
    < num_inputs pipe + num_outputs pipe ->
    num_inputs pipe + num_outputs pipe < 2 ^ 32 ->
    stop_each env mode pipe ds tr =
    (mk_pipe (dmas pipe) (num_inputs pipe) (num_outputs pipe)
       (input_stream_count pipe - count_other ds)
       (output_stream_count pipe - count_rx ds), tr).
Proof.
  induction ds as [|d ds IH]; intros pipe tr Hmode Hin Hout Hlt Hmax.
  - cbn. rewrite !Z.sub_0_r. now destruct pipe.
  - rewrite count_rx_cons in *. rewrite count_other_cons in *.
    pose proof (count_rx_nonneg ds). pose proof (count_other_nonneg ds).
    cbn [stop_each]. unfold bind at 1.
    rewrite DmaFacts.stop_dma_sync by assumption.
    assert (Hno : (stream_total (count_down pipe d) =?
                   start_threshold (count_down pipe d)) = false).
    { apply Z.eqb_neq. unfold stream_total, start_threshold, count_down.
      destruct (vfl_dir d); cbn [dir_eqb] in *;
        cbn [num_inputs num_outputs input_stream_count output_stream_count];
        u32_simpl; lia. }
    rewrite Hno.
    rewrite IH; try assumption.
    + unfold count_down.
      destruct (vfl_dir d); cbn [dir_eqb dmas num_inputs num_outputs
        input_stream_count output_stream_count];
        rewrite SwitchFacts.u32_small by (cbn [dir_eqb] in *; lia);
        repeat (f_equal; try lia).
    + unfold count_down. destruct (vfl_dir d); cbn [dir_eqb] in *; cbn;
        try rewrite SwitchFacts.u32_small; lia.
    + unfold count_down. destruct (vfl_dir d); cbn [dir_eqb] in *; cbn;
        try rewrite SwitchFacts.u32_small; lia.
    + unfold count_down. destruct (vfl_dir d); cbn [dir_eqb] in *; cbn;
        rewrite SwitchFacts.u32_small; lia.
    + unfold count_down. now destruct (vfl_dir d).
Qed.

(** X4: in synchronous mode a running pipeline is stopped once, by the
    first engine that stops.  On a pipeline whose [n] engines have all
    asked to start, engines stopping one after the other (no more of a
    direction than were counted in) cause exactly one pipeline stop, at
    the first of them: every input engine is terminated, then the
    branch of every output engine is disabled, then every output engine
    is terminated; the stops that follow make no call and are only
    counted out. *)
Theorem sync_stop_happens_once env mode pipe d ds tr :
  mode <> XVIP_DMA_MULTI_OUT_MODE_ASYNC ->
  num_inputs pipe + num_outputs pipe < 2 ^ 32 ->
  input_stream_count pipe + output_stream_count pipe
  = num_inputs pipe + num_outputs pipe ->
  count_other (d :: ds) <= input_stream_count pipe ->
  count_rx (d :: ds) <= output_stream_count pipe ->
  stop_each env mode pipe (d :: ds) tr =
  (mk_pipe (dmas pipe) (num_inputs pipe) (num_outputs pipe)
     (input_stream_count pipe - count_other (d :: ds))
     (output_stream_count pipe - count_rx (d :: ds)),
   tr ++ map stop_call (inputs pipe) ++
   flat_map disable_calls (outputs pipe) ++
   map stop_call (outputs pipe)).
Proof.
  intros Hmode Hmax Hall Hin Hout.
  rewrite count_rx_cons in *. rewrite count_other_cons in *.
  pose proof (count_rx_nonneg ds). pose proof (count_other_nonneg ds).
  cbn [stop_each]. unfold bind at 1.
  rewrite DmaFacts.stop_dma_sync by assumption.
  assert (Hyes : (stream_total (count_down pipe d) =?
                  start_threshold (count_down pipe d)) = true).
  { apply Z.eqb_eq. unfold stream_total, start_threshold, count_down.
    destruct (vfl_dir d); cbn [dir_eqb] in *;
      cbn [num_inputs num_outputs input_stream_count output_stream_count];
      u32_simpl; lia. }
  rewrite Hyes.
  rewrite stop_each_below; try assumption.
  - unfold count_down.
    destruct (vfl_dir d); cbn [dir_eqb dmas num_inputs num_outputs
      input_stream_count output_stream_count] in *;
      u32_simpl; repeat (f_equal; try lia).
  - unfold count_down. destruct (vfl_dir d); cbn [dir_eqb] in *; cbn;
      u32_simpl; lia.
  - unfold count_down. destruct (vfl_dir d); cbn [dir_eqb] in *; cbn;
      u32_simpl; lia.
  - unfold count_down. destruct (vfl_dir d); cbn [dir_eqb] in *; cbn;
      u32_simpl; lia.
  - unfold count_down. now destruct (vfl_dir d).
Qed.

Lemma sync_stop_happens_once_witness :
  stop_each (Samples.env_failing 10) XVIP_DMA_MULTI_OUT_MODE_SYNC
    (Samples.pipeline3 1 2)
    [Samples.output1; Samples.capture0; Samples.capture2] []
  = (Samples.pipeline3 0 0,
     [dmaengine_terminate_all 1;
      v4l2_subdev_disable_streams 10 1 1; v4l2_subdev_disable_streams 12 1 1;
      dmaengine_terminate_all 0; dmaengine_terminate_all 2]).
Proof.
  apply (sync_stop_happens_once (Samples.env_failing 10)
           XVIP_DMA_MULTI_OUT_MODE_SYNC (Samples.pipeline3 1 2)
           Samples.output1 [Samples.capture0; Samples.capture2] []);
    vm_compute; congruence.
Defined.

End SequenceFacts.

(** ** Numbering of completed buffers *)

Module CompleteFacts.

Import Lifecycle LifecycleSpec.

Lemma map_lookup {A B} (f : A -> B) (l : list A) (i : nat) :
  map f l !! i = option_map f (l !! i).
Proof.
  revert i; induction l as [|x l IH]; intros [|i]; try reflexivity.
  apply IH.
Qed.

Lemma complete_alternate_step f0 g last m dma :
  binary f0 -> binary g -> binary last ->
  prev_fid dma = last ->
  sequence dma = (if last =? f0 then 2 * m + 1 else 2 * m + 2) ->
  0 <= m -> 2 * m + 4 < 2 ^ 32 ->
  let s := if (last =? f0) && negb (g =? f0) then m else m + 1 in
  xvip_dma_complete V4L2_FIELD_ALTERNATE 0 g dma =
  (mk_stamp (if g =? 0 then V4L2_FIELD_BOTTOM else V4L2_FIELD_TOP) s,
   mk_numbering (if g =? f0 then 2 * s + 1 else 2 * s + 2) g).
Proof.
  intros Hf0 Hg Hlast Hprev Hseq Hm Hmax s. subst s.
  unfold xvip_dma_complete. cbn [Z.eqb negb is_alternate prev_fid sequence].
  rewrite Hprev, Hseq.
  change (2 ^ 32) with 4294967296 in Hmax.
  destruct Hf0 as [-> | ->], Hg as [-> | ->], Hlast as [-> | ->];
    cbn [Z.eqb Pos.eqb negb andb prev_fid sequence];
    unfold u32; rewrite ?Z.shiftr_div_pow2 by lia;
    change (2 ^ 1) with 2; change (2 ^ 32) with 4294967296;
    (f_equal; [f_equal | f_equal]); Z.div_mod_to_equations; lia.
Qed.

Lemma complete_each_alternate f0 fids :
  forall last m dma,
    binary f0 -> Forall binary fids -> binary last ->
    prev_fid dma = last ->
    sequence dma = (if last =? f0 then 2 * m + 1 else 2 * m + 2) ->
    0 <= m -> 2 * (m + Z.of_nat (length fids)) + 2 < 2 ^ 32 ->
    let stamps :=
      fst (complete_each V4L2_FIELD_ALTERNATE (map (pair 0) fids) dma) in
    map buf_sequence stamps = frame_numbers f0 last m fids /\
    map buf_field stamps =
    map (fun g => if g =? 0 then V4L2_FIELD_BOTTOM else V4L2_FIELD_TOP) fids.
Proof.
  induction fids as [|g fids IH];
    intros last m dma Hf0 Hfids Hlast Hprev Hseq Hm Hmax stamps; subst stamps.
  - now cbn.
  - apply Forall_cons in Hfids as [Hg Hfids].
    change (length (g :: fids)) with (S (length fids)) in Hmax.
    cbn [map complete_each fst snd frame_numbers].
    rewrite (complete_alternate_step f0 g last m dma) by (try assumption; lia).
    cbn [fst snd buf_sequence buf_field].
    set (s := if (last =? f0) && negb (g =? f0) then m else m + 1).
    assert (Hs : m <= s <= m + 1)
      by (subst s; destruct ((last =? f0) && negb (g =? f0)); lia).
    destruct (IH g s (mk_numbering (if g =? f0 then 2 * s + 1 else 2 * s + 2) g))
      as [IHseq IHfield]; try assumption; try reflexivity; try lia.
    now rewrite IHseq, IHfield.
Qed.

Lemma frame_numbers_lookup f0 fids :
  forall last m i x y a b,
    (last :: fids) !! i = Some x ->
    (last :: fids) !! S i = Some y ->
    (m :: frame_numbers f0 last m fids) !! i = Some a ->
    (m :: frame_numbers f0 last m fids) !! S i = Some b ->
    b = if (x =? f0) && negb (y =? f0) then a else a + 1.
Proof.
  induction fids as [|g fids IH]; intros last m i x y a b Hx Hy Ha Hb.
  - destruct i; discriminate.
  - destruct i as [|i].
    + simpl in Hx, Hy, Ha, Hb.
      injection Hx as <-. injection Hy as <-. injection Ha as <-.
      now injection Hb as <-.
    + exact (IH g _ i x y a b Hx Hy Ha Hb).
Qed.

(** X5: frames of alternating fields.  With the format field set to
    [V4L2_FIELD_ALTERNATE], for the buffers completed since the start
    of streaming whose field identifiers (0 or 1) are all reported: a
    buffer is stamped [V4L2_FIELD_BOTTOM] for identifier 0 and
    [V4L2_FIELD_TOP] for identifier 1; the first buffer gets sequence
    number 0; a buffer gets the sequence number of the buffer before it
    when that one carried the identifier of the very first buffer and
    this one carries the other identifier (the two fields of one
    frame), and the next sequence number in every other case, so that a
    missing field never makes fields of different frames share a
    number. *)
Theorem alternate_fields_share_frame_number f0 fids :
  binary f0 -> Forall binary fids ->
  2 * Z.of_nat (length fids) + 2 < 2 ^ 32 ->
  let stamps :=
    fst (complete_each V4L2_FIELD_ALTERNATE (map (pair 0) (f0 :: fids))
           numbering_at_start) in
  map buf_field stamps =
  map (fun g => if g =? 0 then V4L2_FIELD_BOTTOM else V4L2_FIELD_TOP)
    (f0 :: fids) /\
  option_map buf_sequence (stamps !! 0%nat) = Some 0 /\
  forall i x y a b,
    (f0 :: fids) !! i = Some x -> (f0 :: fids) !! S i = Some y ->
    stamps !! i = Some a -> stamps !! S i = Some b ->
    buf_sequence b =
    if (x =? f0) && negb (y =? f0) then buf_sequence a
    else buf_sequence a + 1.
Proof.
  intros Hf0 Hfids Hmax stamps.
  assert (Hfirst : xvip_dma_complete V4L2_FIELD_ALTERNATE 0 f0
                     numbering_at_start
                   = (mk_stamp (if f0 =? 0 then V4L2_FIELD_BOTTOM
                                else V4L2_FIELD_TOP) 0,
                      mk_numbering 1 f0))
    by (destruct Hf0 as [-> | ->]; reflexivity).
  destruct (complete_each_alternate f0 fids f0 0 (mk_numbering 1 f0))
    as [Hseq Hfield]; try assumption; try lia.
  { reflexivity. }
  { now rewrite Z.eqb_refl. }
  assert (Hstamps : map buf_sequence stamps = 0 :: frame_numbers f0 f0 0 fids).
  { subst stamps. cbn [map complete_each fst snd]. rewrite Hfirst.
    cbn [fst snd buf_sequence]. now rewrite Hseq. }
  split; [| split].
  - subst stamps. cbn [map complete_each fst snd]. rewrite Hfirst.
    cbn [fst snd buf_field]. now rewrite Hfield.
  - rewrite <- map_lookup, Hstamps. reflexivity.
  - intros i x y a b Hx Hy Ha Hb.
    apply (frame_numbers_lookup f0 fids f0 0 i x y); try assumption.
    + rewrite <- Hstamps, map_lookup, Ha. reflexivity.
    + rewrite <- Hstamps, map_lookup, Hb. reflexivity.
Qed.

Lemma alternate_fields_share_frame_number_witness :
  map buf_sequence
    (fst (complete_each V4L2_FIELD_ALTERNATE
            (map (pair 0) [1; 0; 1; 1; 0; 0; 1; 0]) numbering_at_start))
  = [0; 0; 1; 2; 2; 3; 4; 4] /\
  map buf_field
    (fst (complete_each V4L2_FIELD_ALTERNATE
            (map (pair 0) [1; 0; 1; 1; 0; 0; 1; 0]) numbering_at_start))
  = map (fun g => if g =? 0 then V4L2_FIELD_BOTTOM else V4L2_FIELD_TOP)
      [1; 0; 1; 1; 0; 0; 1; 0].
Proof.
  split; [reflexivity |].
  apply (alternate_fields_share_frame_number 1 [0; 1; 1; 0; 0; 1; 0]).
  - now right.
  - repeat apply Forall_cons_2; try apply Forall_nil_2;
      (now left) || (now right).
  - cbn. lia.
Defined.

Lemma complete_progressive field fids :
  forall dma (i : nat),
    Forall (fun sf => is_alternate field = false \/ fst sf <> 0) fids ->
    0 <= sequence dma < 2 ^ 32 ->
    (i < length fids)%nat ->
    fst (complete_each field fids dma) !! i
    = Some (mk_stamp V4L2_FIELD_NONE (u32 (sequence dma + Z.of_nat i))).
Proof.
  induction fids as [|[status fid] fids IH]; intros dma i Hall Hseq Hi.
  - cbn in Hi. lia.
  - apply Forall_cons in Hall as [Hone Hall]. cbn [fst] in Hone.
    assert (Hstep : xvip_dma_complete field status fid dma =
                    (mk_stamp V4L2_FIELD_NONE (sequence dma),
                     mk_numbering (u32 (sequence dma + 1)) (prev_fid dma))).
    { unfold xvip_dma_complete.
      destruct (status =? 0) eqn:Hst; [| reflexivity].
      apply Z.eqb_eq in Hst. destruct Hone as [-> | Hne]; [| contradiction].
      reflexivity. }
    cbn [complete_each fst snd]. rewrite Hstep. cbn [fst snd].
    destruct i as [|i].
    + simpl. rewrite Z.add_0_r, SwitchFacts.u32_small by assumption.
      reflexivity.
    + simpl lookup. cbn [length] in Hi.
      rewrite IH; try assumption; try lia.
      * cbn [sequence]. do 2 f_equal. unfold u32.
        change (2 ^ 32) with 4294967296.
        Z.div_mod_to_equations; lia.
      * cbn [sequence]. unfold u32. apply Z.mod_pos_bound. lia.
Qed.

(** X6: progressive numbering.  When the format field is not
    [V4L2_FIELD_ALTERNATE], or the DMA engine reports no field
    identifier, the buffers completed one after the other are stamped
    [V4L2_FIELD_NONE] and numbered consecutively from the sequence
    counter, wrapping around at 2^32; after the start of streaming the
    i-th buffer (from zero) carries the number i. *)
Theorem progressive_buffers_numbered field fids dma (i : nat) :
  Forall (fun sf => is_alternate field = false \/ fst sf <> 0) fids ->
  0 <= sequence dma < 2 ^ 32 ->
  (i < length fids)%nat ->
  fst (complete_each field fids dma) !! i
  = Some (mk_stamp V4L2_FIELD_NONE (u32 (sequence dma + Z.of_nat i))) /\
  (Z.of_nat i < 2 ^ 32 ->
   fst (complete_each field fids numbering_at_start) !! i
   = Some (mk_stamp V4L2_FIELD_NONE (Z.of_nat i))).
Proof.
  intros Hall Hseq Hi. split.
  - now apply complete_progressive.
  - intros Hsmall. rewrite complete_progressive; try assumption.
    + cbn [numbering_at_start sequence]. rewrite Z.add_0_l.
      rewrite SwitchFacts.u32_small by lia. reflexivity.
    + cbn. lia.
Qed.

Lemma progressive_buffers_numbered_witness :
  fst (complete_each V4L2_FIELD_NONE [(0, 1); (0, 1); (-5, 0)]
         (mk_numbering (2 ^ 32 - 2) 0)) !! 2%nat
  = Some (mk_stamp V4L2_FIELD_NONE 0).
Proof.
  refine (proj1 (progressive_buffers_numbered V4L2_FIELD_NONE
                   [(0, 1); (0, 1); (-5, 0)] (mk_numbering (2 ^ 32 - 2) 0)
                   2 _ _ _)).
  - repeat apply Forall_cons_2; try apply Forall_nil_2; now left.
  - cbn. lia.
  - cbn. lia.
Defined.

End CompleteFacts.

(** ** Format helpers of the Video IP core *)

Module VipFormatsFacts.

Import Formats VipFormats VipFormatsSpec.

Lemma scan_formats_first hit fs :
  forall i j,
    scan_formats hit fs i = Some j ->
    forall k g, (k < j - i)%nat -> fs !! k = Some g -> hit g = false.
Proof.
  induction fs as [|f fs IH]; intros i j Hscan k g Hk Hg; [discriminate |].
  cbn [scan_formats] in Hscan. destruct (hit f) eqn:Hf.
  - injection Hscan as <-. lia.
  - destruct k as [|k].
    + simpl in Hg. now injection Hg as <-.
    + simpl in Hg. apply (IH (S i) j Hscan k g); [lia | exact Hg].
Qed.

Lemma scan_formats_ext hit hit' fs :
  (forall f, In f fs -> hit f = hit' f) ->
  forall i, scan_formats hit fs i = scan_formats hit' fs i.
Proof.
  induction fs as [|f fs IH]; intros Hext i; [reflexivity |].
  cbn [scan_formats]. rewrite (Hext f) by now left.
  rewrite IH; [reflexivity |]. intros g Hg. apply Hext. now right.
Qed.

Lemma scan_formats_bound hit fs :
  forall i j, scan_formats hit fs i = Some j -> (j < i + length fs)%nat.
Proof.
  induction fs as [|f fs IH]; intros i j Hscan; [discriminate |].
  cbn [scan_formats] in Hscan. destruct (hit f).
  - injection Hscan as <-. cbn [length]. lia.
  - apply IH in Hscan. cbn [length]. lia.
Qed.

Lemma fourcc_number_inj a b :
  Samples.fourcc_number a = Samples.fourcc_number b -> a = b.
Proof. destruct a, b; intros H; try reflexivity; discriminate H. Qed.

Lemma code_number_inj a b :
  Samples.code_number a = Samples.code_number b -> a = b.
Proof. destruct a, b; intros H; try reflexivity; discriminate H. Qed.

Lemma eqb_by_number {A : Type} (value number : A -> Z) :
  (forall a b, value a = value b -> a = b) ->
  (forall a b, number a = number b -> a = b) ->
  forall a b, (value a =? value b) = (number a =? number b).
Proof.
  intros Hv Hn a b.
  destruct (value a =? value b) eqn:E1, (number a =? number b) eqn:E2;
    try reflexivity.
  - apply Z.eqb_eq, Hv in E1. subst. now rewrite Z.eqb_refl in E2.
  - apply Z.eqb_eq, Hn in E2. subst. now rewrite Z.eqb_refl in E1.
Qed.

(** X7: looking a table entry up by its own 4CC.  When distinct 4CCs
    have distinct values, [xvip_get_format_by_fourcc] applied to the
    4CC of the entry that [xvip_get_format_by_index] gives for a valid
    index returns that same entry, for every index but 37: entry 37
    (8-bit "grbg" Bayer) carries the 4CC of entry 36 (8-bit "rggb"
    Bayer, [V4L2_PIX_FMT_SGRBG8]), so its 4CC leads to entry 36 and
    entry 37 cannot be reached by 4CC. *)
Theorem fourcc_lookup_round_trip (fourcc_value : v4l2_pix_fmt -> Z)
    (index : Z) (f : xvip_video_format) :
  (forall a b, fourcc_value a = fourcc_value b -> a = b) ->
  0 <= index ->
  deref (xvip_get_format_by_index index) = Some f ->
  xvip_get_format_by_fourcc fourcc_value (fourcc_value (fourcc f)) =
  if index =? 37 then FormatAt 36 else xvip_get_format_by_index index.
Proof.
  intros Hinj Hindex Hderef.
  unfold xvip_get_format_by_fourcc.
  rewrite (scan_formats_ext _
             (fun g => Samples.fourcc_number (fourcc g) =?
                       Samples.fourcc_number (fourcc f)))
    by (intros g _; apply eqb_by_number;
        [exact Hinj | exact fourcc_number_inj]).
  unfold xvip_get_format_by_index in *.
  destruct (index >=? Z.of_nat (length xvip_video_formats)) eqn:Hrange;
    [discriminate |].
  cbn [deref] in Hderef.
  rewrite <- (Z2Nat.id index Hindex) at 1.
  destruct (Z.to_nat index) as [|n]; [injection Hderef as <-; reflexivity |].
  do 51 (destruct n as [|n]; [injection Hderef as <-; reflexivity |]).
  discriminate Hderef.
Qed.

Lemma fourcc_lookup_round_trip_witness :
  xvip_get_format_by_fourcc Samples.fourcc_number
    (Samples.fourcc_number V4L2_PIX_FMT_SGRBG8) = FormatAt 36 /\
  option_map code (xvip_video_formats !! 36%nat)
  = Some MEDIA_BUS_FMT_SRGGB8_1X8.
Proof.
  split; [| reflexivity].
  apply (fourcc_lookup_round_trip Samples.fourcc_number 37
           (mk_format XVIP_VF_MONO_SENSOR 8 (Some "grbg"%string)
              MEDIA_BUS_FMT_SGRBG8_1X8 (Some MEDIA_BUS_FMT_SGRBG8_1X8)
              1 8 (1, 1) V4L2_PIX_FMT_SGRBG8 1 1 1 1)).
  - exact fourcc_number_inj.
  - lia.
  - reflexivity.
Defined.

Lemma lookup_In {A : Type} (l : list A) (i : nat) (x : A) :
  l !! i = Some x -> In x l.
Proof.
  revert i; induction l as [|y l IH]; intros [|i] H; try discriminate.
  - simpl in H. injection H as ->. now left.
  - right. exact (IH i H).
Qed.

Lemma In_lookup {A : Type} (l : list A) (x : A) :
  In x l -> exists i, l !! i = Some x.
Proof.
  induction l as [|y l IH]; intros H; [destruct H |].
  destruct H as [-> | H]; [now exists 0%nat |].
  destruct (IH H) as [i Hi]. now exists (S i).
Qed.

Lemma of_format_hit_matches vf_value vf w pat f :
  of_format_hit vf_value vf w pat f = true <-> of_matches vf_value vf w pat f.
Proof.
  unfold of_format_hit, of_matches.
  destruct (vf_value (vf_code f) =? vf) eqn:Hvf; cbn [negb orb].
  2: { apply Z.eqb_neq in Hvf. split; [discriminate | tauto]. }
  destruct (width f =? w) eqn:Hw; cbn [negb].
  2: { apply Z.eqb_neq in Hw. split; [discriminate | tauto]. }
  apply Z.eqb_eq in Hvf, Hw.
  destruct (vf =? vf_value XVIP_VF_MONO_SENSOR) eqn:Hmono; cbn [andb].
  - apply Z.eqb_eq in Hmono. unfold strcmp_differs.
    destruct (pattern f) as [s|].
    + destruct (String.eqb pat s) eqn:Hs; cbn [negb].
      * apply String.eqb_eq in Hs. subst s. tauto.
      * apply String.eqb_neq in Hs. split; [discriminate |].
        intros (_ & _ & H). specialize (H Hmono). congruence.
    + split; [discriminate |]. intros (_ & _ & H). now specialize (H Hmono).
  - apply Z.eqb_neq in Hmono. tauto.
Qed.

Lemma scan_formats_first_match hit fs :
  match scan_formats hit fs 0 with
  | Some i =>
      exists f, fs !! i = Some f /\ hit f = true /\
                forall k g, (k < i)%nat -> fs !! k = Some g -> hit g = false
  | None => forall g, In g fs -> hit g = false
  end.
Proof.
  destruct (scan_formats hit fs 0) as [i|] eqn:Hscan.
  - destruct (FormatsFacts.scan_formats_some _ _ _ _ Hscan) as (f & Hf & Hhit & _).
    rewrite Nat.sub_0_r in Hf. exists f. repeat split; try assumption.
    intros k g Hk. apply (scan_formats_first _ _ _ _ Hscan). lia.
  - exact (proj1 (FormatsFacts.scan_formats_none _ _ _) Hscan).
Qed.

(** X8: [xvip_of_get_format] returns the first entry of the table that
    matches the node.  When the node has the properties the function
    reads (the pattern only for a mono sensor), the result is the entry
    of lowest index whose video format code and width are those of the
    node and, for a mono sensor, whose pattern is the node's pattern;
    it is [ERR_PTR(-EINVAL)] exactly when no entry matches.  The
    pattern comparison is never given a [NULL] table pattern when
    distinct format codes have distinct values: every mono sensor entry
    has a pattern. *)
Theorem of_get_format_first_match (vf_value : xvip_vf_code -> Z)
    (node : device_node) (vf w : Z) (pat : string) :
  video_format node = of_ok vf ->
  video_width node = of_ok w ->
  (vf = vf_value XVIP_VF_MONO_SENSOR -> cfa_pattern node = of_ok pat) ->
  match xvip_of_get_format vf_value node with
  | FormatAt i =>
      exists f, xvip_video_formats !! i = Some f /\
                of_matches vf_value vf w pat f /\
                forall k g, (k < i)%nat -> xvip_video_formats !! k = Some g ->
                            ~ of_matches vf_value vf w pat g
  | ERR_PTR err =>
      err = - EINVAL /\
      forall g, In g xvip_video_formats -> ~ of_matches vf_value vf w pat g
  end /\
  ((forall a b, vf_value a = vf_value b -> a = b) ->
   forall g, In g xvip_video_formats ->
             vf_value (vf_code g) = vf_value XVIP_VF_MONO_SENSOR ->
             pattern g <> None).
Proof.
  intros Hvf Hw Hpat. split.
  - unfold xvip_of_get_format. rewrite Hvf, Hw. cbn [read_into].
    change (0 <? 0) with false. cbv iota.
    assert (Hscan :
      (let '(ret, pat0) :=
         if vf =? vf_value XVIP_VF_MONO_SENSOR
         then read_into (cfa_pattern node) "mono"%string
         else (0, "mono"%string) in
       if ret <? 0 then ERR_PTR ret
       else match scan_formats (of_format_hit vf_value vf w pat0)
                    xvip_video_formats 0 with
            | Some i => FormatAt i
            | None => ERR_PTR (- EINVAL)
            end) =
      match scan_formats (of_format_hit vf_value vf w pat)
              xvip_video_formats 0 with
      | Some i => FormatAt i
      | None => ERR_PTR (- EINVAL)
      end).
    { destruct (vf =? vf_value XVIP_VF_MONO_SENSOR) eqn:Hmono.
      - apply Z.eqb_eq in Hmono. rewrite (Hpat Hmono). reflexivity.
      - change (0 <? 0) with false. cbv iota.
        rewrite (scan_formats_ext _ (of_format_hit vf_value vf w pat));
          [reflexivity |].
        intros f _. unfold of_format_hit. now rewrite Hmono. }
    rewrite Hscan.
    pose proof (scan_formats_first_match (of_format_hit vf_value vf w pat)
                  xvip_video_formats) as Hfirst.
    destruct (scan_formats (of_format_hit vf_value vf w pat)
                xvip_video_formats 0) as [i|].
    + destruct Hfirst as (f & Hf & Hhit & Hbefore).
      exists f. split; [exact Hf |].
      split; [now apply of_format_hit_matches |].
      intros k g Hk Hg Hm. apply of_format_hit_matches in Hm.
      rewrite (Hbefore k g Hk Hg) in Hm. discriminate.
    + split; [reflexivity |]. intros g Hg Hm.
      apply of_format_hit_matches in Hm. rewrite (Hfirst g Hg) in Hm.
      discriminate.
  - intros Hinj g Hg Hmono. apply Hinj in Hmono.
    cbn in Hg.
    repeat (destruct Hg as [<- | Hg]; [cbn in Hmono |- *; congruence |]).
    destruct Hg.
Qed.

Lemma of_get_format_first_match_witness :
  xvip_of_get_format vf_number bayer_port = FormatAt 42 /\
  exists f, xvip_video_formats !! 42%nat = Some f /\
            of_matches vf_number 10 10 "gbrg" f.
Proof.
  split; [reflexivity |].
  destruct (proj1 (of_get_format_first_match vf_number bayer_port 10 10
                     "gbrg"%string eq_refl eq_refl (fun _ => eq_refl)))
    as (f & Hf & Hm & _).
  exists f. split; assumption.
Defined.

Lemma by_fourcc_entry fourcc_value v :
  exists i f,
    xvip_get_format_by_fourcc fourcc_value v = FormatAt i /\
    xvip_video_formats !! i = Some f /\
    (fourcc_value (fourcc f) = v \/
     (fourcc f = V4L2_PIX_FMT_NV12 /\
      forall g, In g xvip_video_formats -> fourcc_value (fourcc g) <> v)).
Proof.
  unfold xvip_get_format_by_fourcc.
  pose proof (scan_formats_first_match
                (fun f => fourcc_value (fourcc f) =? v) xvip_video_formats)
    as Hfirst.
  destruct (scan_formats _ xvip_video_formats 0) as [i|].
  - destruct Hfirst as (f & Hf & Hhit & _). exists i, f.
    repeat split; [assumption |]. left. now apply Z.eqb_eq.
  - eexists 0%nat, _. split; [reflexivity |]. split; [reflexivity |].
    right. split; [reflexivity |]. intros g Hg. apply Z.eqb_neq.
    exact (Hfirst g Hg).
Qed.

Lemma by_code_entry code_value c :
  match xvip_get_format_by_code code_value c with
  | FormatAt i =>
      exists f, xvip_video_formats !! i = Some f /\ code_value (code f) = c
  | ERR_PTR err =>
      err = - EINVAL /\
      forall g, In g xvip_video_formats -> code_value (code g) <> c
  end.
Proof.
  unfold xvip_get_format_by_code.
  pose proof (scan_formats_first_match
                (fun f => code_value (code f) =? c) xvip_video_formats)
    as Hfirst.
  destruct (scan_formats _ xvip_video_formats 0) as [i|].
  - destruct Hfirst as (f & Hf & Hhit & _). exists f.
    split; [assumption |]. now apply Z.eqb_eq.
  - split; [reflexivity |]. intros g Hg. apply Z.eqb_neq.
    exact (Hfirst g Hg).
Qed.

Lemma enum_scan_some code_value fourcc_value c fmts fmt :
  enum_scan code_value fourcc_value c fmts = Some fmt ->
  exists f, deref fmt = Some f /\ IS_ERR fmt = false /\
            code_value (code f) = c.
Proof.
  induction fmts as [|v fmts IH]; [discriminate |].
  cbn [enum_scan].
  destruct (IS_ERR (xvip_get_format_by_fourcc fourcc_value v)) eqn:Herr;
    cbn [negb andb]; [exact IH |].
  destruct (deref (xvip_get_format_by_fourcc fourcc_value v)) as [f|] eqn:Hf;
    [| exact IH].
  destruct (code_value (code f) =? c) eqn:Hc; [| exact IH].
  intros [= <-]. exists f. repeat split; try assumption.
  now apply Z.eqb_eq.
Qed.

(** X9: what [xvip_dma_enum_format] reports.  The call returns 0 or
    [-EINVAL] and stores a pixel format only when it returns 0.  The
    format stored is the 4CC of an entry of the format table; when a
    media bus code is asked for, the index is 0 and that entry carries
    the code; without a media bus code and without a list from the DMA
    engine it is the entry at the index; with a list from the DMA
    engine every index below the length of the list succeeds, and a
    4CC of the list that the table does not know is reported as
    [V4L2_PIX_FMT_NV12], not as the 4CC the engine gave. *)
Theorem dma_enum_format_reports (code_value : media_bus_fmt -> Z)
    (fourcc_value : v4l2_pix_fmt -> Z) (fmts : list Z)
    (mbus_code index : Z) :
  0 <= index ->
  let r := xvip_dma_enum_format code_value fourcc_value fmts mbus_code index in
  (fst r = 0 \/ fst r = - EINVAL) /\
  (fst r <> 0 -> snd r = None) /\
  (fst r = 0 ->
   exists g,
     In g xvip_video_formats /\ snd r = Some (fourcc g) /\
     (mbus_code <> 0 -> index = 0 /\ code_value (code g) = mbus_code) /\
     (mbus_code = 0 -> fmts = [] ->
      xvip_video_formats !! Z.to_nat index = Some g) /\
     (mbus_code = 0 -> fmts <> [] ->
      fourcc_value (fourcc g) = nth (Z.to_nat index) fmts 0 \/
      (fourcc g = V4L2_PIX_FMT_NV12 /\
       forall h, In h xvip_video_formats ->
                 fourcc_value (fourcc h) <> nth (Z.to_nat index) fmts 0))) /\
  (mbus_code = 0 -> fmts <> [] -> index < Z.of_nat (length fmts) ->
   fst r = 0).
Proof.
  intros Hindex r. subst r. unfold xvip_dma_enum_format.
  assert (Hcnt : (Z.of_nat (length fmts) =? 0) = true <-> fmts = []).
  { rewrite Z.eqb_eq. destruct fmts; cbn [length]; split;
      try reflexivity; try discriminate; lia. }
  destruct (mbus_code =? 0) eqn:Hcode; cbn [negb].
  - apply Z.eqb_eq in Hcode.
    destruct (Z.of_nat (length fmts) =? 0) eqn:Hzero; cbn [negb].
    + (* the table by index *)
      apply proj1 in Hcnt. specialize (Hcnt eq_refl).
      unfold xvip_get_format_by_index.
      destruct (index >=? Z.of_nat (length xvip_video_formats)) eqn:Hge;
        cbn [IS_ERR fst snd].
      * repeat split; try (now right); try discriminate; try tauto.
      * destruct (xvip_video_formats !! Z.to_nat index) as [g|] eqn:Hg.
        2: { apply lookup_ge_None in Hg. cbn [length] in Hg, Hge. lia. }
        cbn [deref option_map]. rewrite Hg.
        split; [now left |]. split; [tauto |]. split; [| tauto].
        intros _. exists g. split; [exact (lookup_In _ _ _ Hg) |].
        split; [reflexivity |]. tauto.
    + (* the list of the DMA engine by index *)
      assert (Hne : fmts <> []) by (intros H; apply Hcnt in H; congruence).
      destruct (index >=? Z.of_nat (length fmts)) eqn:Hge;
        cbn [IS_ERR fst snd].
      * repeat split; try (now right); try discriminate; try tauto. lia.
      * destruct (by_fourcc_entry fourcc_value (nth (Z.to_nat index) fmts 0))
          as (i & g & -> & Hg & Hwhich).
        cbn [IS_ERR deref fst snd]. rewrite Hg. cbn [option_map].
        split; [now left |]. split; [tauto |]. split; [| tauto].
        intros _. exists g. split; [exact (lookup_In _ _ _ Hg) |].
        split; [reflexivity |]. tauto.
  - apply Z.eqb_neq in Hcode.
    destruct (index >? 0) eqn:Hpos; cbn [fst snd].
    { repeat split; try (now right); try discriminate; try tauto. }
    assert (Hzero : index = 0) by lia.
    destruct (Z.of_nat (length fmts) =? 0) eqn:Hlen; cbn [negb].
    + pose proof (by_code_entry code_value mbus_code) as Hentry.
      destruct (xvip_get_format_by_code code_value mbus_code) as [i|err];
        cbn [IS_ERR fst snd].
      * destruct Hentry as (g & Hg & Hgc). cbn [deref]. rewrite Hg.
        cbn [option_map].
        split; [now left |]. split; [tauto |]. split; [| tauto].
        intros _. exists g. split; [exact (lookup_In _ _ _ Hg) |].
        split; [reflexivity |]. tauto.
      * repeat split; try (now right); try discriminate; try tauto.
    + destruct (enum_scan code_value fourcc_value mbus_code fmts)
        as [fmt|] eqn:Hscan; cbn [fst snd].
      * destruct (enum_scan_some _ _ _ _ _ Hscan) as (g & Hg & Herr & Hgc).
        rewrite Herr, Hg. cbn [option_map fst snd].
        split; [now left |]. split; [tauto |]. split; [| tauto].
        intros _. exists g. split.
        { destruct fmt as [i|]; [exact (lookup_In _ _ _ Hg) | discriminate]. }
        split; [reflexivity |]. tauto.
      * repeat split; try (now right); try discriminate; try tauto.
Qed.

Lemma dma_enum_format_reports_witness :
  xvip_dma_enum_format Samples.code_number Samples.fourcc_number
    [Samples.fourcc_number V4L2_PIX_FMT_UYVY; 4000] 0 1
  = (0, Some V4L2_PIX_FMT_NV12) /\
  fst (xvip_dma_enum_format Samples.code_number Samples.fourcc_number
         [Samples.fourcc_number V4L2_PIX_FMT_UYVY; 4000] 0 1) = 0.
Proof.
  split; [reflexivity |].
  apply (dma_enum_format_reports Samples.code_number Samples.fourcc_number
           [Samples.fourcc_number V4L2_PIX_FMT_UYVY; 4000] 0 1);
    [lia | reflexivity | discriminate | cbn; lia].
Defined.

(** In the table the media bus code determines the width and the
    flavor: the first entry with the code of an entry has its width and
    its flavor. *)
Lemma code_determines_width s :
  In s xvip_video_formats ->
  exists j f,
    xvip_get_format_by_code Samples.code_number
      (Samples.code_number (code s)) = FormatAt j /\
    xvip_video_formats !! j = Some f /\
    width f = width s /\ flavor f = flavor s.
Proof.
  intros Hs. cbn in Hs.
  repeat (destruct Hs as [<- | Hs];
          [eexists _, _; repeat split; reflexivity |]).
  destruct Hs.
Qed.

Lemma by_code_of_entry code_value s :
  (forall a b, code_value a = code_value b -> a = b) ->
  In s xvip_video_formats ->
  exists j f,
    xvip_get_format_by_code code_value (code_value (code s)) = FormatAt j /\
    xvip_video_formats !! j = Some f /\
    width f = width s /\ flavor f = flavor s.
Proof.
  intros Hinj Hs.
  destruct (code_determines_width s Hs) as (j & f & Hj & Hf & Hw & Hfl).
  exists j, f. repeat split; try assumption.
  rewrite <- Hj. unfold xvip_get_format_by_code.
  rewrite (scan_formats_ext _
             (fun g => Samples.code_number (code g) =?
                       Samples.code_number (code s))); [reflexivity |].
  intros g _. apply eqb_by_number; [exact Hinj | exact code_number_inj].
Qed.

Lemma field_eqb_eq a b : field_eqb a b = true -> a = b.
Proof.
  destruct a, b; try discriminate; try reflexivity.
  cbn. intros H. apply Z.eqb_eq in H. now subst.
Qed.

Lemma link_check_ok code_value si ki shift :
  link_check code_value si ki shift = 0 ->
  u32 (width si - width ki) = shift /\
  (shift <> 0 ->
   flavor_value code_value si = flavor_value code_value ki /\
   flavor_value code_value si <> 0).
Proof.
  unfold link_check. intros H. destruct (shift =? 0) eqn:Hs.
  - rewrite andb_false_r in H. apply Z.eqb_eq in Hs.
    destruct (u32 (width si - width ki) =? shift) eqn:Hd; [| discriminate].
    apply Z.eqb_eq in Hd. split; [assumption | intros; contradiction].
  - cbn [negb] in H. rewrite andb_true_r in H.
    destruct ((flavor_value code_value si =? 0) ||
              (flavor_value code_value ki =? 0) ||
              negb (flavor_value code_value si =?
                    flavor_value code_value ki)) eqn:Hf; [discriminate |].
    destruct (u32 (width si - width ki) =? shift) eqn:Hd; [| discriminate].
    apply Z.eqb_eq in Hd. split; [assumption |]. intros _.
    apply orb_false_iff in Hf as [Hf Hsame].
    apply orb_false_iff in Hf as [Hs0 Hk0].
    apply negb_false_iff, Z.eqb_eq in Hsame. apply Z.eqb_neq in Hs0.
    split; assumption.
Qed.

(** X10: what an accepted link guarantees.  When distinct media bus
    codes have distinct values and [xvip_link_validate] returns 0: the
    [get_mbus_config] call returned 0 or [-ENOIOCTLCMD]; the two
    formats have the same width and height; the fields are equal or the
    sink field is [V4L2_FIELD_NONE]; both media bus codes are in the
    format table; and for every table entry [s] with the source code
    and [k] with the sink code, the bus width of [s] exceeds that of
    [k] by exactly the data shift (0 without [get_mbus_config]), and a
    non-zero shift is accepted only between entries of one and the same
    flavor. *)
Theorem link_validate_accepts (code_value : media_bus_fmt -> Z)
    (source_fmt sink_fmt : v4l2_mbus_framefmt) (mbus_ret mbus_data_shift : Z) :
  (forall a b, code_value a = code_value b -> a = b) ->
  xvip_link_validate code_value source_fmt sink_fmt mbus_ret mbus_data_shift
  = 0 ->
  let shift := if mbus_ret =? 0 then mbus_data_shift else 0 in
  (mbus_ret = 0 \/ mbus_ret = - ENOIOCTLCMD) /\
  fmt_width source_fmt = fmt_width sink_fmt /\
  fmt_height source_fmt = fmt_height sink_fmt /\
  (fmt_field source_fmt = fmt_field sink_fmt \/
   fmt_field sink_fmt = Lifecycle.V4L2_FIELD_NONE) /\
  (exists s k, In s xvip_video_formats /\ In k xvip_video_formats /\
               code_value (code s) = fmt_code source_fmt /\
               code_value (code k) = fmt_code sink_fmt) /\
  forall s k,
    In s xvip_video_formats -> In k xvip_video_formats ->
    code_value (code s) = fmt_code source_fmt ->
    code_value (code k) = fmt_code sink_fmt ->
    u32 (width s - width k) = shift /\
    (shift <> 0 -> flavor s = flavor k /\ flavor s <> None).
Proof.
  intros Hinj Hok shift. unfold xvip_link_validate in Hok.
  destruct (fmt_width source_fmt =? fmt_width sink_fmt) eqn:Hw;
    cbn [negb orb] in Hok; [| discriminate].
  destruct (fmt_height source_fmt =? fmt_height sink_fmt) eqn:Hh;
    cbn [negb] in Hok; [| discriminate].
  apply Z.eqb_eq in Hw, Hh.
  assert (Hfield : fmt_field source_fmt = fmt_field sink_fmt \/
                   fmt_field sink_fmt = Lifecycle.V4L2_FIELD_NONE).
  { destruct (field_eqb (fmt_field source_fmt) (fmt_field sink_fmt)) eqn:E1.
    - left. now apply field_eqb_eq.
    - destruct (field_eqb (fmt_field sink_fmt) Lifecycle.V4L2_FIELD_NONE)
        eqn:E2.
      + right. now apply field_eqb_eq.
      + discriminate Hok. }
  assert (Hrest :
    match deref (xvip_get_format_by_code code_value (fmt_code source_fmt)),
          deref (xvip_get_format_by_code code_value (fmt_code sink_fmt)) with
    | Some si, Some ki =>
        (mbus_ret = 0 \/ mbus_ret = - ENOIOCTLCMD) /\
        u32 (width si - width ki) = shift /\
        (shift <> 0 ->
         flavor_value code_value si = flavor_value code_value ki /\
         flavor_value code_value si <> 0)
    | _, _ => False
    end).
  { assert (Hok' :
      match deref (xvip_get_format_by_code code_value (fmt_code source_fmt)),
            deref (xvip_get_format_by_code code_value (fmt_code sink_fmt)) with
      | Some si, Some ki =>
          if mbus_ret =? 0
          then link_check code_value si ki mbus_data_shift
          else if mbus_ret =? - ENOIOCTLCMD
               then link_check code_value si ki 0
               else mbus_ret
      | _, _ => - EPIPE
      end = 0).
    { destruct (field_eqb (fmt_field source_fmt) (fmt_field sink_fmt)),
               (field_eqb (fmt_field sink_fmt) Lifecycle.V4L2_FIELD_NONE);
        cbn [negb andb] in Hok; try discriminate; exact Hok. }
    clear Hok.
    destruct (deref (xvip_get_format_by_code code_value
                       (fmt_code source_fmt))) as [si|]; [| discriminate].
    destruct (deref (xvip_get_format_by_code code_value
                       (fmt_code sink_fmt))) as [ki|]; [| discriminate].
    subst shift. destruct (mbus_ret =? 0) eqn:Hret.
    - apply Z.eqb_eq in Hret. split; [now left |].
      now apply link_check_ok.
    - destruct (mbus_ret =? - ENOIOCTLCMD) eqn:Hret'.
      + apply Z.eqb_eq in Hret'. split; [now right |].
        now apply link_check_ok.
      + apply Z.eqb_neq in Hret. contradiction. }
  pose proof (by_code_entry code_value (fmt_code source_fmt)) as Hsrc.
  pose proof (by_code_entry code_value (fmt_code sink_fmt)) as Hsnk.
  destruct (xvip_get_format_by_code code_value (fmt_code source_fmt))
    as [i|] eqn:Hi; [| destruct Hrest].
  destruct (xvip_get_format_by_code code_value (fmt_code sink_fmt))
    as [j|] eqn:Hj;
    [| cbn [deref] in Hrest; destruct (xvip_video_formats !! i);
       destruct Hrest].
  destruct Hsrc as (si & Hsi & Hsic). destruct Hsnk as (ki & Hki & Hkic).
  cbn [deref] in Hrest. rewrite Hsi, Hki in Hrest.
  destruct Hrest as (Hret & Hdiff & Hflavor).
  split; [exact Hret |]. split; [exact Hw |]. split; [exact Hh |].
  split; [exact Hfield |]. split.
  { exists si, ki. repeat split; try assumption;
      eapply lookup_In; eassumption. }
  intros s k Hs Hk Hsc Hkc.
  destruct (by_code_of_entry code_value s Hinj Hs)
    as (i' & f & Hi' & Hf & Hfw & Hff).
  destruct (by_code_of_entry code_value k Hinj Hk)
    as (j' & g & Hj' & Hg & Hgw & Hgf).
  rewrite Hsc, Hi in Hi'. rewrite Hkc, Hj in Hj'.
  injection Hi' as <-. injection Hj' as <-.
  rewrite Hsi in Hf. rewrite Hki in Hg.
  injection Hf as <-. injection Hg as <-.
  rewrite <- Hfw, <- Hgw, <- Hff, <- Hgf.
  split; [exact Hdiff |]. intros Hnz.
  destruct (Hflavor Hnz) as [Hsame Hnonzero].
  unfold flavor_value in Hsame, Hnonzero.
  destruct (flavor si) as [a|], (flavor ki) as [b|]; try contradiction.
  apply Hinj in Hsame. subst b. split; [reflexivity | discriminate].
Qed.

Lemma link_validate_accepts_witness :
  let source_fmt := mk_framefmt 640 480
                      (Samples.code_number MEDIA_BUS_FMT_Y10_1X10)
                      Lifecycle.V4L2_FIELD_ALTERNATE in
  let sink_fmt := mk_framefmt 640 480
                    (Samples.code_number MEDIA_BUS_FMT_Y8_1X8)
                    Lifecycle.V4L2_FIELD_NONE in
  xvip_link_validate Samples.code_number source_fmt sink_fmt 0 2 = 0 /\
  fmt_width source_fmt = fmt_width sink_fmt /\
  fmt_height source_fmt = fmt_height sink_fmt.
Proof.
  intros source_fmt sink_fmt. split; [reflexivity |].
  pose proof (link_validate_accepts Samples.code_number source_fmt sink_fmt
                0 2 code_number_inj eq_refl) as H.
  split; [exact (proj1 (proj2 H)) | exact (proj1 (proj2 (proj2 H)))].
Defined.

Lemma clamp_t_range val lo hi :
  0 <= lo <= hi -> hi < 2 ^ 32 ->
  lo <= clamp_t val lo hi <= hi /\
  (clamp_t val lo hi = u32 val <-> lo <= u32 val <= hi).
Proof.
  intros Hlo Hhi. unfold clamp_t.
  rewrite (SwitchFacts.u32_small lo), (SwitchFacts.u32_small hi) by lia.
  lia.
Qed.

(** X11: sizes kept by [xvip_set_format_size].  With limits that are
    ordered [unsigned int] values, the size stored lies within the
    limits, the code and the field of the format are not touched, and
    storing the result again changes nothing.  A requested size is
    stored unchanged exactly when it lies in the range that
    [xvip_enum_frame_size] reports for the sink pad. *)
Theorem set_format_size_within_enumerated_range
    (XVIP_MIN_WIDTH XVIP_MAX_WIDTH XVIP_MIN_HEIGHT XVIP_MAX_HEIGHT : Z)
    (XVIP_PAD_SINK : Z) (format fmt : v4l2_mbus_framefmt) :
  0 <= XVIP_MIN_WIDTH <= XVIP_MAX_WIDTH -> XVIP_MAX_WIDTH < 2 ^ 32 ->
  0 <= XVIP_MIN_HEIGHT <= XVIP_MAX_HEIGHT -> XVIP_MAX_HEIGHT < 2 ^ 32 ->
  let set := xvip_set_format_size XVIP_MIN_WIDTH XVIP_MAX_WIDTH
               XVIP_MIN_HEIGHT XVIP_MAX_HEIGHT in
  let r := set format fmt in
  XVIP_MIN_WIDTH <= fmt_width r <= XVIP_MAX_WIDTH /\
  XVIP_MIN_HEIGHT <= fmt_height r <= XVIP_MAX_HEIGHT /\
  fmt_code r = fmt_code format /\ fmt_field r = fmt_field format /\
  set r r = r /\
  exists range,
    xvip_enum_frame_size XVIP_MIN_WIDTH XVIP_MAX_WIDTH
      XVIP_MIN_HEIGHT XVIP_MAX_HEIGHT XVIP_PAD_SINK
      Switch.V4L2_SUBDEV_FORMAT_TRY 0 (fmt_code format) XVIP_PAD_SINK format
    = (0, Some range) /\
    (fmt_width r = u32 (fmt_width fmt) /\ fmt_height r = u32 (fmt_height fmt)
     <->
     min_width range <= u32 (fmt_width fmt) <= max_width range /\
     min_height range <= u32 (fmt_height fmt) <= max_height range).
Proof.
  intros Hw Hwmax Hh Hhmax set r. subst r set.
  unfold xvip_set_format_size. cbn [fmt_width fmt_height fmt_code fmt_field].
  pose proof (clamp_t_range (fmt_width fmt) _ _ Hw Hwmax) as [Hwr Hwfix].
  pose proof (clamp_t_range (fmt_height fmt) _ _ Hh Hhmax) as [Hhr Hhfix].
  split; [exact Hwr |]. split; [exact Hhr |].
  split; [reflexivity |]. split; [reflexivity |]. split.
  - f_equal.
    + rewrite (proj2 (proj2 (clamp_t_range
                 (clamp_t (fmt_width fmt) XVIP_MIN_WIDTH XVIP_MAX_WIDTH)
                 _ _ Hw Hwmax)));
        rewrite SwitchFacts.u32_small by lia; [reflexivity | lia].
    + rewrite (proj2 (proj2 (clamp_t_range
                 (clamp_t (fmt_height fmt) XVIP_MIN_HEIGHT XVIP_MAX_HEIGHT)
                 _ _ Hh Hhmax)));
        rewrite SwitchFacts.u32_small by lia; [reflexivity | lia].
  - eexists. unfold xvip_enum_frame_size.
    rewrite !Z.eqb_refl. cbn [negb orb].
    split; [reflexivity |]. cbn [min_width max_width min_height max_height].
    tauto.
Qed.

Lemma set_format_size_within_enumerated_range_witness :
  xvip_set_format_size 32 7680 32 7680
    (mk_framefmt 0 0 5 Lifecycle.V4L2_FIELD_NONE)
    (mk_framefmt 10000 16 0 Lifecycle.V4L2_FIELD_TOP)
  = mk_framefmt 7680 32 5 Lifecycle.V4L2_FIELD_NONE /\
  32 <= fmt_width
          (xvip_set_format_size 32 7680 32 7680
             (mk_framefmt 0 0 5 Lifecycle.V4L2_FIELD_NONE)
             (mk_framefmt 10000 16 0 Lifecycle.V4L2_FIELD_TOP)) <= 7680.
Proof.
  split; [reflexivity |].
  apply (set_format_size_within_enumerated_range 32 7680 32 7680 0
           (mk_framefmt 0 0 5 Lifecycle.V4L2_FIELD_NONE)
           (mk_framefmt 10000 16 0 Lifecycle.V4L2_FIELD_TOP)); lia.
Defined.

End VipFormatsFacts.

(** ** Register programming of the AXI4-Stream switch *)

Module SwitchStreamFacts.

Import Vip Switch VipFormats SwitchStream SwitchStreamSpec.

Lemma writes_to_app addr ws ws' :
  writes_to addr (ws ++ ws') = writes_to addr ws ++ writes_to addr ws'.
Proof. unfold writes_to. now rewrite List.filter_app, map_app. Qed.

Lemma writes_to_cons addr w ws :
  writes_to addr (w :: ws) =
  (if fst w =? addr then [snd w] else []) ++ writes_to addr ws.
Proof. unfold writes_to. cbn [List.filter]. now destruct (fst w =? addr). Qed.

Lemma mux_write_addr (s i v : Z) :
  0 <= s < 16 -> 0 <= i < 16 ->
  (fst (xvswitch_write (XVSW_MI_MUX_REG_BASE + s * 4) v) =? mux_addr i)
  = (s =? i).
Proof.
  intros Hs Hi. unfold xvswitch_write, mux_addr, XVSW_MI_MUX_REG_BASE.
  cbn [fst]. rewrite SwitchFacts.u32_small by lia.
  destruct (s =? i) eqn:E.
  - apply Z.eqb_eq in E. subst. apply Z.eqb_refl.
  - apply Z.eqb_neq in E. apply Z.eqb_neq. lia.
Qed.

Lemma existsb_find {A : Type} (p : A -> bool) (l : list A) :
  existsb p l = match List.find p l with Some _ => true | None => false end.
Proof.
  induction l as [|x l IH]; [reflexivity |].
  cbn [existsb List.find]. now destruct (p x).
Qed.

Lemma testbit_clear a s i :
  0 <= s -> 0 <= i ->
  Z.testbit (Z.land a (Z.lnot (BIT s))) i = Z.testbit a i && negb (s =? i).
Proof.
  intros Hs Hi.
  rewrite Z.land_spec, Z.lnot_spec, VipFacts.testbit_BIT by assumption.
  reflexivity.
Qed.

(** The route loop: what it writes to the register of output [i], and
    the mask it leaves. *)
Lemma configure_routes_spec routes :
  forall unused,
    (forall b, 0 <= b -> Z.testbit unused b = true -> b < 16) ->
    Forall route_pads_wf routes ->
    (forall i, 0 <= i < 16 ->
       writes_to (mux_addr i) (fst (configure_routes routes unused)) =
       if Z.testbit unused i
       then match List.find (fun r => source_pad r =? i) routes with
            | Some r => [sink_pad r]
            | None => []
            end
       else []) /\
    (forall i, 0 <= i ->
       Z.testbit (snd (configure_routes routes unused)) i =
       Z.testbit unused i &&
       negb (existsb (fun r => source_pad r =? i) routes)) /\
    Forall (fun w => exists i, 0 <= i < 16 /\ fst w = mux_addr i)
      (fst (configure_routes routes unused)).
Proof.
  induction routes as [|route routes IH]; intros unused Hbits Hwf.
  - cbn. repeat split.
    + intros i _. now destruct (Z.testbit unused i).
    + intros i _. now rewrite andb_true_r.
    + constructor.
  - apply Forall_cons in Hwf as [[Hsrc Hsink] Hwf].
    cbn [configure_routes].
    pose proof (VipFacts.mask_has_stream unused (source_pad route)
                  (proj1 Hsrc)) as Hmask.
    destruct (Z.land unused (BIT (source_pad route)) =? 0) eqn:Hzero;
      cbn [negb] in Hmask; symmetry in Hmask.
    + (* the output was written before, or is not an output: skipped *)
      destruct (IH unused Hbits Hwf) as (IHw & IHb & IHa).
      repeat split.
      * intros i Hi. rewrite (IHw i Hi). cbn [List.find].
        destruct (source_pad route =? i) eqn:E; [| reflexivity].
        apply Z.eqb_eq in E. subst i. now rewrite Hmask.
      * intros i Hi. rewrite (IHb i Hi). cbn [existsb].
        destruct (source_pad route =? i) eqn:E; [| reflexivity].
        apply Z.eqb_eq in E. subst i. now rewrite Hmask.
      * exact IHa.
    + assert (Hlow : source_pad route < 16)
        by (apply Hbits; [lia | exact Hmask]).
      assert (Hbits' : forall b, 0 <= b ->
                Z.testbit (Z.land unused (Z.lnot (BIT (source_pad route)))) b
                = true -> b < 16).
      { intros b Hb. rewrite testbit_clear by lia.
        intros H. apply andb_true_iff in H as [H _]. now apply Hbits. }
      destruct (IH _ Hbits' Hwf) as (IHw & IHb & IHa).
      cbn [fst snd]. repeat split.
      * intros i Hi. rewrite writes_to_cons, (IHw i Hi).
        rewrite mux_write_addr by lia. rewrite testbit_clear by lia.
        cbn [List.find].
        destruct (source_pad route =? i) eqn:E.
        -- apply Z.eqb_eq in E. subst i. rewrite Hmask.
           cbn [negb andb app snd xvswitch_write].
           now rewrite SwitchFacts.u32_small by lia.
        -- cbn [negb]. now rewrite andb_true_r.
      * intros i Hi. rewrite (IHb i Hi), testbit_clear by lia.
        cbn [existsb].
        destruct (source_pad route =? i); cbn [negb orb];
          now rewrite ?andb_true_r, ?andb_false_r.
      * constructor; [| exact IHa].
        exists (source_pad route). split; [lia |].
        unfold xvswitch_write, mux_addr, XVSW_MI_MUX_REG_BASE. cbn [fst].
        apply SwitchFacts.u32_small. lia.
Qed.

Ltac nat_cases :=
  repeat match goal with
         | |- context [(?a <=? ?b)%nat] => destruct (Nat.leb_spec a b)
         | |- context [(?a <? ?b)%nat] => destruct (Nat.ltb_spec a b)
         end.

Lemma disable_range_writes (p : nat -> bool) (k : nat) :
  forall n a,
    (a + n <= 16)%nat -> (k < 16)%nat ->
    writes_to (mux_addr (Z.of_nat k))
      (map (fun i => xvswitch_write (XVSW_MI_MUX_REG_BASE + Z.of_nat i * 4)
                       XVSW_MI_MUX_DISABLE_MASK)
         (List.filter p (seq a n))) =
    if p k && (a <=? k)%nat && (k <? a + n)%nat
    then [XVSW_MI_MUX_DISABLE_MASK] else [].
Proof.
  induction n as [|n IH]; intros a Ha Hk.
  - cbn [seq List.filter map]. change (writes_to _ []) with (@nil Z).
    destruct (p k); nat_cases; cbn [andb]; try reflexivity; lia.
  - cbn [seq List.filter]. destruct (p a) eqn:Hpa.
    + cbn [map]. rewrite writes_to_cons, mux_write_addr by lia.
      rewrite IH by lia.
      destruct (Z.of_nat a =? Z.of_nat k) eqn:E.
      * apply Z.eqb_eq in E. apply Nat2Z.inj in E. subst k. rewrite Hpa.
        nat_cases; cbn [andb app]; try lia; reflexivity.
      * apply Z.eqb_neq in E.
        destruct (p k); nat_cases; cbn [andb app]; try reflexivity; lia.
    + rewrite IH by lia.
      destruct (p k) eqn:Hpk; nat_cases; cbn [andb]; try reflexivity;
        try lia.
      assert (a = k) by lia. subst. congruence.
Qed.

Lemma all_sources_unused b :
  0 <= b ->
  Z.testbit (Z.shiftl 1 MAX_VSW_SRCS - 1) b = (b <? 16).
Proof.
  intros Hb. change (Z.shiftl 1 MAX_VSW_SRCS - 1) with (Z.ones 16).
  destruct (b <? 16) eqn:E.
  - apply Z.ltb_lt in E. apply Z.ones_spec_low. lia.
  - apply Z.ltb_ge in E. apply Z.ones_spec_high. lia.
Qed.

Lemma active_routes_wf routing :
  Forall route_pads_wf routing -> Forall route_pads_wf (active_routes routing).
Proof.
  intros H. apply List.Forall_forall. intros r Hr.
  apply List.filter_In in Hr as [Hr _].
  exact (proj1 (List.Forall_forall _ _) H r Hr).
Qed.

(** What the enable path writes to the register of output [i]. *)
Lemma enable_writes_to xvsw routing enable i :
  tdest_routing xvsw = false -> enable <> 0 ->
  Forall route_pads_wf routing -> 0 <= i < 16 ->
  writes_to (mux_addr i) (snd (xvsw_s_stream xvsw routing enable))
  = [mux_value routing i].
Proof.
  intros Htdest Henable Hwf Hi. unfold xvsw_s_stream. rewrite Htdest.
  apply Z.eqb_neq in Henable. rewrite Henable. cbn [snd].
  rewrite !writes_to_app.
  destruct (configure_routes_spec (active_routes routing)
              (Z.shiftl 1 MAX_VSW_SRCS - 1)) as (Hw & Hb & _).
  { intros b Hb0 H. rewrite all_sources_unused in H by assumption.
    now apply Z.ltb_lt. }
  { now apply active_routes_wf. }
  rewrite (Hw i Hi), all_sources_unused by lia.
  replace (i <? 16) with true by (symmetry; apply Z.ltb_lt; lia).
  assert (Hdis : forall u,
            writes_to (mux_addr i) (disable_unused u) =
            if Z.testbit u i then [XVSW_MI_MUX_DISABLE_MASK] else []).
  { intros u. unfold disable_unused.
    change (Z.to_nat MAX_VSW_SRCS) with 16%nat.
    pose proof (disable_range_writes
                  (fun k => Z.testbit u (Z.of_nat k)) (Z.to_nat i) 16 0)
      as H.
    cbn beta in H. rewrite !Z2Nat.id in H by lia. rewrite H by lia.
    destruct (Z.testbit u i); nat_cases; cbn [andb]; try reflexivity; lia. }
  rewrite Hdis, (Hb i) by lia.
  rewrite all_sources_unused by lia.
  replace (i <? 16) with true by (symmetry; apply Z.ltb_lt; lia).
  rewrite existsb_find. unfold mux_value, first_route_to.
  assert (Hctrl : writes_to (mux_addr i)
                    [xvswitch_write XVSW_CTRL_REG XVSW_CTRL_REG_UPDATE_MASK]
                  = []).
  { unfold writes_to, mux_addr. cbn [List.filter xvswitch_write fst].
    change (u32 XVSW_CTRL_REG) with 0.
    replace (0 =? XVSW_MI_MUX_REG_BASE + i * 4) with false; [reflexivity |].
    symmetry. apply Z.eqb_neq. unfold XVSW_MI_MUX_REG_BASE. lia. }
  rewrite Hctrl.
  now destruct (List.find (fun r => source_pad r =? i)
                 (active_routes routing)).
Qed.

(** X12: what [xvsw_s_stream] programs when streaming is enabled in
    register routing mode.  For routes with pad numbers in range, the
    call returns 0; every one of the 16 multiplexer registers is written
    exactly once, with the sink pad of the first active route whose
    [source_pad] equals the number of the register, or with the disable
    bit when there is no such route; the last write sets the update bit
    of the control register and every write before it goes to a
    multiplexer register.  The register is selected by the pad number
    [source_pad] itself: active routes to a pad number of 16 or more
    program nothing. *)
Theorem s_stream_programs_each_output xvsw routing enable :
  tdest_routing xvsw = false -> enable <> 0 ->
  Forall route_pads_wf routing ->
  let r := xvsw_s_stream xvsw routing enable in
  fst r = 0 /\
  (forall i, 0 <= i < 16 ->
     writes_to (mux_addr i) (snd r) = [mux_value routing i]) /\
  exists body,
    snd r = body ++ [(XVSW_CTRL_REG, XVSW_CTRL_REG_UPDATE_MASK)] /\
    Forall (fun w => exists i, 0 <= i < 16 /\ fst w = mux_addr i) body.
Proof.
  intros Htdest Henable Hwf r. subst r. split; [| split].
  - unfold xvsw_s_stream. rewrite Htdest.
    now destruct (enable =? 0).
  - intros i Hi. now apply enable_writes_to.
  - unfold xvsw_s_stream. rewrite Htdest.
    apply Z.eqb_neq in Henable. rewrite Henable. cbn [snd].
    eexists. rewrite app_assoc. split; [reflexivity |].
    apply Forall_app. split.
    + apply (configure_routes_spec (active_routes routing)).
      * intros b Hb0 H. rewrite all_sources_unused in H by assumption.
        now apply Z.ltb_lt.
      * now apply active_routes_wf.
    + unfold disable_unused. apply List.Forall_forall. intros w Hw.
      apply List.in_map_iff in Hw as (k & <- & Hk).
      apply List.filter_In in Hk as [Hk _]. apply List.in_seq in Hk.
      change (Z.to_nat MAX_VSW_SRCS) with 16%nat in Hk.
      exists (Z.of_nat k). split; [lia |].
      unfold xvswitch_write, mux_addr, XVSW_MI_MUX_REG_BASE. cbn [fst].
      apply SwitchFacts.u32_small. lia.
Qed.

Lemma s_stream_programs_each_output_witness :
  snd (xvsw_s_stream switch_2x2 Samples.crossed_routes 1)
  = [(mux_addr 3, 0); (mux_addr 2, 1);
     (mux_addr 0, XVSW_MI_MUX_DISABLE_MASK);
     (mux_addr 1, XVSW_MI_MUX_DISABLE_MASK)] ++
    map (fun i => (mux_addr (Z.of_nat i), XVSW_MI_MUX_DISABLE_MASK))
      (seq 4 12) ++
    [(XVSW_CTRL_REG, XVSW_CTRL_REG_UPDATE_MASK)] /\
  writes_to (mux_addr 3) (snd (xvsw_s_stream switch_2x2 Samples.crossed_routes 1))
  = [mux_value Samples.crossed_routes 3].
Proof.
  split; [reflexivity |].
  apply (s_stream_programs_each_output switch_2x2 Samples.crossed_routes 1);
    [reflexivity | discriminate | | lia].
  repeat apply Forall_cons_2; try apply Forall_nil_2;
    unfold route_pads_wf; cbn; lia.
Defined.

(** X13: the multiplexer registers of the first [num_sinks] outputs are
    always disabled.  The pads of the device number the sinks first, so
    every route to a source pad has [source_pad >= num_sinks]; as
    [xvsw_s_stream] selects the register by [source_pad], enabling the
    stream writes the disable bit to the registers 0 to
    [num_sinks - 1], whatever the routing, and with 16 sinks it
    disables all 16 outputs. *)
Theorem s_stream_low_outputs_disabled xvsw routing enable i :
  tdest_routing xvsw = false -> enable <> 0 ->
  Forall route_pads_wf routing ->
  Forall (fun r => num_sinks (xvsw_xvip xvsw) <= source_pad r)
    (active_routes routing) ->
  0 <= i < 16 -> i < num_sinks (xvsw_xvip xvsw) ->
  writes_to (mux_addr i) (snd (xvsw_s_stream xvsw routing enable))
  = [XVSW_MI_MUX_DISABLE_MASK].
Proof.
  intros Htdest Henable Hwf Hsrc Hi Hlow.
  rewrite enable_writes_to by assumption.
  unfold mux_value, first_route_to.
  destruct (List.find (fun r => source_pad r =? i) (active_routes routing))
    as [r|] eqn:Hfind; [| reflexivity].
  apply List.find_some in Hfind as [Hin Heq]. apply Z.eqb_eq in Heq.
  pose proof (proj1 (List.Forall_forall _ _) Hsrc r Hin) as Hge.
  cbn beta in Hge. lia.
Qed.

Lemma s_stream_low_outputs_disabled_witness :
  writes_to (mux_addr 0) (snd (xvsw_s_stream switch_2x2 routing_2x2 1))
  = [XVSW_MI_MUX_DISABLE_MASK] /\
  writes_to (mux_addr 2) (snd (xvsw_s_stream switch_2x2 routing_2x2 1))
  = [0].
Proof.
  split; [| reflexivity].
  apply (s_stream_low_outputs_disabled switch_2x2 routing_2x2 1 0);
    try reflexivity; try discriminate; try lia.
  - repeat apply Forall_cons_2; try apply Forall_nil_2;
      unfold route_pads_wf; cbn; lia.
  - repeat apply Forall_cons_2; try apply Forall_nil_2; cbn; lia.
Defined.

Ltac z_cases :=
  repeat match goal with
         | |- context [?a >? ?b] => rewrite (Z.gtb_ltb a b)
         | |- context [?a <? ?b] => destruct (Z.ltb_spec a b)
         | |- context [?a =? ?b] => destruct (Z.eqb_spec a b)
         end.

(** X14: what a return value of 0 of [xvsw_parse_of] means.  When the
    three properties can be read on a freshly allocated device: if a
    slot count lies outside 1..16, or the routing mode is above 1, the
    call still returns 0 (the status of the successful read), having
    set neither [tdest_routing] nor [has_axi_lite] nor the clocks; if
    the values are in range and the call returns 0, the counts are
    stored, [tdest_routing] is set exactly for routing mode 0,
    [has_axi_lite] is its negation, there is a single sink in TDEST
    mode, and the clocks the mode needs were obtained (an error pointer
    carries a negative error number). *)
Theorem parse_of_returns_zero node st s m mode :
  num_si_slots node = of_ok s -> num_mi_slots node = of_ok m ->
  routing_mode node = of_ok mode ->
  parsed_tdest_routing st = false ->
  clk_errors_negative node ->
  let r := xvsw_parse_of node st in
  (s < 1 \/ 16 < s \/ m < 1 \/ 16 < m \/ 1 < mode ->
   fst r = 0 /\
   parsed_tdest_routing (snd r) = false /\
   has_axi_lite (parsed_info (snd r)) = has_axi_lite (parsed_info st) /\
   parsed_aclk (snd r) = parsed_aclk st /\
   parsed_saxi_ctlclk (snd r) = parsed_saxi_ctlclk st) /\
  (1 <= s <= 16 -> 1 <= m <= 16 -> mode <= 1 -> fst r = 0 ->
   info_num_sinks (parsed_info (snd r)) = s /\
   info_num_sources (parsed_info (snd r)) = m /\
   parsed_tdest_routing (snd r) = (mode =? 0) /\
   has_axi_lite (parsed_info (snd r)) = negb (mode =? 0) /\
   (mode = 0 -> s = 1) /\
   parsed_aclk (snd r) = true /\
   (mode <> 0 -> parsed_saxi_ctlclk (snd r) = true)).
Proof.
  intros Hs Hm Hmode Htdest [Hclk Hctl] r. subst r. unfold xvsw_parse_of.
  rewrite Hs, Hm, Hmode, Htdest. cbn [read_into].
  unfold MIN_VSW_SINKS, MAX_VSW_SINKS, MIN_VSW_SRCS, MAX_VSW_SRCS.
  cbn [set_num_sinks set_num_sources info_num_sinks info_num_sources
       has_axi_lite has_port_formats].
  change (0 <? 0) with false. cbn [orb].
  split.
  - intros Hout.
    destruct (s <? 1) eqn:E1; [cbn; tauto |].
    destruct (s >? 16) eqn:E2; [cbn; tauto |].
    cbn [orb].
    destruct (m <? 1) eqn:E3; [cbn; tauto |].
    destruct (m >? 16) eqn:E4; [cbn; tauto |].
    cbn [orb].
    destruct (mode >? 1) eqn:E5; [cbn; tauto |].
    exfalso. rewrite Z.gtb_ltb in E2, E4, E5.
    apply Z.ltb_ge in E1, E2, E3, E4, E5. lia.
  - intros Hsr Hmr Hmoder.
    replace (s <? 1) with false by (symmetry; apply Z.ltb_ge; lia).
    replace (s >? 16) with false
      by (symmetry; rewrite Z.gtb_ltb; apply Z.ltb_ge; lia).
    replace (m <? 1) with false by (symmetry; apply Z.ltb_ge; lia).
    replace (m >? 16) with false
      by (symmetry; rewrite Z.gtb_ltb; apply Z.ltb_ge; lia).
    replace (mode >? 1) with false
      by (symmetry; rewrite Z.gtb_ltb; apply Z.ltb_ge; lia).
    cbn [orb].
    destruct (aclk node) as [err|]; cbn [fst snd].
    { intros ->. specialize (Hclk 0 eq_refl). lia. }
    destruct (mode =? 0) eqn:E; cbn [negb].
    + apply Z.eqb_eq in E. cbn [andb].
      destruct (s >? 1) eqn:E1; cbn [fst snd]; [discriminate |].
      rewrite Z.gtb_ltb in E1. apply Z.ltb_ge in E1.
      intros _. cbn. repeat split; try reflexivity; try lia.
    + apply Z.eqb_neq in E.
      destruct (s_axi_ctl_clk node) as [err|]; cbn [fst snd andb].
      * intros ->. specialize (Hctl 0 eq_refl). lia.
      * intros _. cbn. repeat split; try reflexivity; try tauto.
Qed.

Lemma parse_of_returns_zero_witness :
  let node := mk_xvsw_node (of_ok 40) (of_ok 2) (of_ok 1) None None in
  let st := mk_parsed (mk_info false false 0 0) false false false in
  xvsw_parse_of node st
  = (0, mk_parsed (mk_info false false 40 0) false false false) /\
  fst (xvsw_parse_of node st) = 0.
Proof.
  intros node st. split; [reflexivity |].
  assert (Hclk : clk_errors_negative node) by (split; discriminate).
  assert (Hout : 40 < 1 \/ 16 < 40 \/ 2 < 1 \/ 16 < 2 \/ 1 < 1)
    by (right; left; lia).
  exact (proj1 (proj1 (parse_of_returns_zero node st 40 2 1
                         eq_refl eq_refl eq_refl eq_refl Hclk) Hout)).
Defined.

End SwitchStreamFacts.

(** ** Ports of a Video IP device *)

Module ParseDtFacts.

Import Formats VipFormats VipFormatsSpec ParseDt ParseDtSpec.

Lemma testbit_u32 x i :
  0 <= i -> Z.testbit (u32 x) i = (i <? 32) && Z.testbit x i.
Proof.
  intros Hi. unfold u32. destruct (i <? 32) eqn:E.
  - apply Z.ltb_lt in E. now rewrite Z.mod_pow2_bits_low by lia.
  - apply Z.ltb_ge in E. now rewrite Z.mod_pow2_bits_high by lia.
Qed.

Lemma bounded_nodup_length (l : list Z) (n : Z) :
  List.NoDup l -> Forall (fun i => 0 <= i < n) l ->
  (length l <= Z.to_nat n)%nat.
Proof.
  intros Hnd Hall.
  replace (Z.to_nat n)
    with (length (map Z.of_nat (seq 0 (Z.to_nat n))))
    by (now rewrite List.length_map, List.length_seq).
  apply List.NoDup_incl_length; [exact Hnd |].
  intros x Hx. pose proof (proj1 (List.Forall_forall _ _) Hall x Hx) as Hr.
  cbn beta in Hr. apply List.in_map_iff. exists (Z.to_nat x).
  split; [lia |]. apply List.in_seq. lia.
Qed.

Lemma updated_port_alter vf_value (has_port_formats : bool) c (i : nat)
    (ports ports1 ports2 : list xvip_port) p0 :
  ports !! i = Some p0 ->
  ports1 = match (if has_port_formats
                  then Some (xvip_of_get_format vf_value c) else None) with
           | Some (FormatAt j) => alter (set_port_format j) i ports
           | _ => ports
           end ->
  ports2 = match data_shift c with
           | of_ok v => alter (set_port_data_shift v) i ports1
           | of_fail _ => ports1
           end ->
  ports2 !! i = Some (updated_port vf_value has_port_formats c p0).
Proof.
  intros Hp0 -> ->. unfold updated_port.
  destruct has_port_formats;
    [destruct (xvip_of_get_format vf_value c) as [j|err] |];
    destruct (data_shift c) as [v|err'];
    rewrite ?list_lookup_alter, ?Hp0;
    repeat (rewrite decide_True by reflexivity);
    destruct p0; reflexivity.
Qed.

Lemma alter_twice_frame vf_value (has_port_formats : bool) c (i k : nat)
    (ports : list xvip_port) :
  i <> k ->
  match data_shift c with
  | of_ok v =>
      alter (set_port_data_shift v) i
        match (if has_port_formats
               then Some (xvip_of_get_format vf_value c) else None) with
        | Some (FormatAt j) => alter (set_port_format j) i ports
        | _ => ports
        end
  | of_fail _ =>
      match (if has_port_formats
             then Some (xvip_of_get_format vf_value c) else None) with
      | Some (FormatAt j) => alter (set_port_format j) i ports
      | _ => ports
      end
  end !! k = ports !! k.
Proof.
  intros Hne.
  destruct has_port_formats;
    [destruct (xvip_of_get_format vf_value c) as [j|err] |];
    destruct (data_shift c) as [v|err'];
    now rewrite ?list_lookup_alter_ne by assumption.
Qed.

Lemma alter_twice_length vf_value (has_port_formats : bool) c (i : nat)
    (ports : list xvip_port) :
  length
    match data_shift c with
    | of_ok v =>
        alter (set_port_data_shift v) i
          match (if has_port_formats
                 then Some (xvip_of_get_format vf_value c) else None) with
          | Some (FormatAt j) => alter (set_port_format j) i ports
          | _ => ports
          end
    | of_fail _ =>
        match (if has_port_formats
               then Some (xvip_of_get_format vf_value c) else None) with
        | Some (FormatAt j) => alter (set_port_format j) i ports
        | _ => ports
        end
    end = length ports.
Proof.
  destruct has_port_formats;
    [destruct (xvip_of_get_format vf_value c) as [j|err] |];
    destruct (data_shift c) as [v|err'];
    now rewrite ?length_alter.
Qed.

Lemma of_get_format_err vf_value c err :
  xvip_of_get_format vf_value c = ERR_PTR err -> err < 0.
Proof.
  unfold xvip_of_get_format.
  destruct (read_into (video_format c) 0) as [ret vf].
  destruct (ret <? 0) eqn:E1.
  { intros [= <-]. now apply Z.ltb_lt. }
  destruct (read_into (video_width c) 0) as [ret' w].
  destruct (ret' <? 0) eqn:E2.
  { intros [= <-]. now apply Z.ltb_lt. }
  destruct (if vf =? vf_value XVIP_VF_MONO_SENSOR
            then read_into (cfa_pattern c) "mono"%string
            else (0, "mono"%string)) as [ret'' pat].
  destruct (ret'' <? 0) eqn:E3.
  { intros [= <-]. now apply Z.ltb_lt. }
  destruct (scan_formats _ xvip_video_formats 0); [discriminate |].
  intros [= <-]. reflexivity.
Qed.

Lemma In_regs (l : list device_node) (regs : list Z) c i :
  map reg l = map of_ok regs -> In c l -> reg c = of_ok i -> In i regs.
Proof.
  revert regs; induction l as [|d l IH]; intros regs Hmap Hc Hi;
    [destruct Hc |].
  destruct regs as [|r regs]; [discriminate |].
  cbn [map] in Hmap. injection Hmap as Hd Hmap.
  destruct Hc as [-> | Hc].
  - rewrite Hi in Hd. injection Hd as ->. now left.
  - right. exact (IH regs Hmap Hc Hi).
Qed.

Ltac failed_run H :=
  exfalso; apply (f_equal fst) in H; apply (f_equal fst) in H;
  cbn [fst] in H; try (vm_compute in H; discriminate H).

(** The loop over the children, when it runs to its end: the port
    nodes carry pairwise distinct pad numbers, none seen before, and
    every port node has left its mark on its own array element. *)
Lemma parse_ports_ok vf_value (has_port_formats : bool) num_pads children :
  forall (ports : list xvip_port) found num seen ports' num',
    num_pads <= 32 ->
    regs_wf children ->
    (forall i, 0 <= i -> Z.testbit found i = true <-> In i seen) ->
    List.NoDup seen ->
    Forall (fun i => 0 <= i < num_pads) seen ->
    num = Z.of_nat (length seen) ->
    parse_ports vf_value has_port_formats num_pads children ports found num
    = (0, ports', num') ->
    exists regs,
      map reg (port_children children) = map of_ok regs /\
      List.NoDup (seen ++ regs) /\
      Forall (fun i => 0 <= i < num_pads) regs /\
      num' = Z.of_nat (length seen + length regs) /\
      length ports' = length ports /\
      (has_port_formats = true ->
       forall c, In c (port_children children) ->
                 IS_ERR (xvip_of_get_format vf_value c) = false) /\
      (forall k, ~ In (Z.of_nat k) regs -> ports' !! k = ports !! k) /\
      (forall c i p0,
         In c (port_children children) -> reg c = of_ok i ->
         ports !! Z.to_nat i = Some p0 ->
         ports' !! Z.to_nat i
         = Some (updated_port vf_value has_port_formats c p0)).
Proof.
  induction children as [|c children IH];
    intros ports found num seen ports' num' Hpads Hwf Hbits Hnd Hseen Hnum
      Hrun.
  - cbn in Hrun. injection Hrun as <- <-. exists [].
    rewrite app_nil_r, Nat.add_0_r. cbn [port_children List.filter map].
    repeat split; try assumption; try constructor; try reflexivity;
      intros; contradiction.
  - apply Forall_cons in Hwf as [[Hreg_ok Hreg_fail] Hwf].
    cbn [parse_ports] in Hrun. unfold port_children. cbn [List.filter].
    fold (port_children children).
    destruct (String.eqb (node_name c) "port") eqn:Hname; cbn [negb] in Hrun.
    2: { exact (IH _ _ _ _ _ _ Hpads Hwf Hbits Hnd Hseen Hnum Hrun). }
    destruct (reg c) as [index|err] eqn:Hreg.
    2: { exfalso. injection Hrun as -> _ _. now apply (Hreg_fail 0). }
    specialize (Hreg_ok index eq_refl).
    destruct (index >=? num_pads) eqn:Hrange; [failed_run Hrun |].
    assert (Hindex : 0 <= index < num_pads) by lia.
    pose proof (VipFacts.mask_has_stream found index (proj1 Hindex)) as Hfree.
    destruct (Z.land found (BIT index) =? 0); cbn [negb] in Hrun, Hfree;
      [| failed_run Hrun].
    assert (Hnew : ~ In index seen).
    { intros Hin. apply Hbits in Hin; [congruence | lia]. }
    assert (Hformat : has_port_formats = true ->
                      IS_ERR (xvip_of_get_format vf_value c) = false).
    { intros ->. destruct (xvip_of_get_format vf_value c) as [j|err] eqn:Hfmt;
        [reflexivity |].
      exfalso. injection Hrun as -> _ _.
      apply of_get_format_err in Hfmt. lia. }
    assert (Hrun' :
      parse_ports vf_value has_port_formats num_pads children
        match data_shift c with
        | of_ok v =>
            alter (set_port_data_shift v) (Z.to_nat index)
              match (if has_port_formats
                     then Some (xvip_of_get_format vf_value c) else None) with
              | Some (FormatAt j) =>
                  alter (set_port_format j) (Z.to_nat index) ports
              | _ => ports
              end
        | of_fail _ =>
            match (if has_port_formats
                   then Some (xvip_of_get_format vf_value c) else None) with
            | Some (FormatAt j) =>
                alter (set_port_format j) (Z.to_nat index) ports
            | _ => ports
            end
        end
        (u32 (Z.lor found (BIT index))) (u32 (num + 1))
      = (0, ports', num')).
    { destruct has_port_formats; [| exact Hrun].
      specialize (Hformat eq_refl).
      destruct (xvip_of_get_format vf_value c); [exact Hrun | discriminate]. }
    clear Hrun.
    pose proof (bounded_nodup_length seen num_pads Hnd Hseen) as Hlen.
    apply (IH _ _ _ (index :: seen)) in Hrun'; try assumption.
    + destruct Hrun' as (regs & Hmap & Hnd' & Hregs & Hnum' & Hlen' & Herr
                         & Hframe & Hupd).
      exists (index :: regs).
      assert (Hfresh : ~ In index regs).
      { cbn [app] in Hnd'. apply List.NoDup_cons_iff in Hnd' as [Hnot _].
        intros H. apply Hnot. apply List.in_or_app. now right. }
      split; [cbn [map]; now rewrite Hreg, Hmap |].
      split.
      { apply (Permutation_NoDup (Permutation_middle seen regs index)).
        exact Hnd'. }
      split; [now constructor |].
      split; [cbn [length] in Hnum' |- *; lia |].
      split; [now rewrite Hlen', alter_twice_length |].
      split.
      { intros Hpf c' [<- | Hc']; [now apply Hformat | now apply Herr]. }
      split.
      { intros k Hk. rewrite Hframe by (intros H; apply Hk; now right).
        apply alter_twice_frame. intros H. apply Hk. left. lia. }
      intros c' i p0 [<- | Hc'] Hi Hp0.
      * rewrite Hreg in Hi. injection Hi as <-.
        rewrite Hframe by (rewrite Z2Nat.id by lia; exact Hfresh).
        now apply (updated_port_alter vf_value has_port_formats c
                     (Z.to_nat index) ports _ _ p0 Hp0 eq_refl).
      * pose proof (In_regs _ _ _ _ Hmap Hc' Hi) as Hin.
        pose proof (proj1 (List.Forall_forall _ _) Hregs i Hin) as Hi'.
        cbn beta in Hi'.
        apply Hupd; try assumption.
        rewrite alter_twice_frame; [exact Hp0 |].
        intros H. apply Hfresh.
        replace index with i by lia. exact Hin.
    + intros i Hi. rewrite testbit_u32, Z.lor_spec, VipFacts.testbit_BIT
        by lia.
      split.
      * intros H. apply andb_true_iff in H as [_ H].
        apply orb_true_iff in H as [H | H].
        -- right. now apply Hbits.
        -- left. now apply Z.eqb_eq in H.
      * intros [<- | H].
        -- rewrite Z.eqb_refl, orb_true_r.
           replace (index <? 32) with true
             by (symmetry; apply Z.ltb_lt; lia).
           reflexivity.
        -- pose proof (proj1 (List.Forall_forall _ _) Hseen i H) as Hb.
           cbn beta in Hb.
           replace (i <? 32) with true by (symmetry; apply Z.ltb_lt; lia).
           apply Hbits in H; [| lia]. now rewrite H.
    + now constructor.
    + now constructor.
    + subst num. cbn [length]. rewrite SwitchFacts.u32_small; lia.
Qed.

Lemma parse_dt_run vf_value num_sinks num_sources
    (has_port_formats : bool) children (ports : list xvip_port) :
  fst (xvip_device_parse_dt vf_value num_sinks num_sources has_port_formats
         children ports) = 0 ->
  parse_ports vf_value has_port_formats (u32 (num_sinks + num_sources))
    children ports 0 0
  = (0, snd (xvip_device_parse_dt vf_value num_sinks num_sources
               has_port_formats children ports),
     u32 (num_sinks + num_sources)).
Proof.
  unfold xvip_device_parse_dt.
  destruct (parse_ports vf_value has_port_formats
              (u32 (num_sinks + num_sources)) children ports 0 0)
    as [[ret ports'] num'].
  destruct (ret =? 0) eqn:Hret; cbn [negb fst snd].
  - apply Z.eqb_eq in Hret. subst ret.
    destruct (num' =? u32 (num_sinks + num_sources)) eqn:Hnum;
      cbn [negb fst snd].
    + apply Z.eqb_eq in Hnum. now subst num'.
    + intros H. vm_compute in H. discriminate H.
  - apply Z.eqb_neq in Hret. intros H. contradiction.
Qed.

Lemma no_port_seen i : 0 <= i -> Z.testbit 0 i = true <-> In i [].
Proof. intros _. rewrite Z.bits_0. split; [discriminate | intros []]. Qed.

(** X15: a device whose ports parse has one port node per pad.  For a
    device with at most 32 pads (the width of [found_ports]), when
    [xvip_device_parse_dt] returns 0 every child node named "port" has
    a "reg" property, and the "reg" values of the port nodes, in node
    order, are a permutation of the pad numbers 0 to
    [num_sinks + num_sources - 1]: no pad is described twice and none
    is left out. *)
Theorem parse_dt_ports_cover_pads vf_value num_sinks num_sources
    (has_port_formats : bool) children (ports : list xvip_port) :
  u32 (num_sinks + num_sources) <= 32 ->
  regs_wf children ->
  fst (xvip_device_parse_dt vf_value num_sinks num_sources has_port_formats
         children ports) = 0 ->
  exists regs,
    map reg (port_children children) = map of_ok regs /\
    Permutation regs
      (map Z.of_nat (seq 0 (Z.to_nat (u32 (num_sinks + num_sources))))).
Proof.
  intros Hpads Hwf Hok. apply parse_dt_run in Hok.
  destruct (parse_ports_ok _ _ _ _ _ _ _ [] _ _ Hpads Hwf no_port_seen
              (List.NoDup_nil _) (Forall_nil_2 _) eq_refl Hok)
    as (regs & Hmap & Hnd & Hregs & Hnum & _).
  exists regs. split; [exact Hmap |].
  cbn [app length] in Hnd, Hnum.
  apply Stdlib.Sorting.Permutation.NoDup_Permutation_bis; [exact Hnd | |].
  - rewrite List.length_map, List.length_seq. lia.
  - intros x Hx.
    pose proof (proj1 (List.Forall_forall _ _) Hregs x Hx) as Hr.
    cbn beta in Hr. apply List.in_map_iff. exists (Z.to_nat x).
    split; [lia |]. apply List.in_seq. lia.
Qed.

Lemma parse_dt_ports_cover_pads_witness :
  exists regs,
    map reg (port_children
               [bayer_port; mk_node "endpoint" (of_fail (-22)) (of_fail (-22))
                              (of_fail (-22)) (of_fail (-22)) (of_fail (-22));
                yuv_port])
    = map of_ok regs /\
    Permutation regs [0; 1].
Proof.
  apply (parse_dt_ports_cover_pads vf_number 1 1 true
           [bayer_port; mk_node "endpoint" (of_fail (-22)) (of_fail (-22))
                          (of_fail (-22)) (of_fail (-22)) (of_fail (-22));
            yuv_port]
           (zeroed_ports 2)).
  - vm_compute. discriminate.
  - repeat apply Forall_cons_2; try apply Forall_nil_2;
      (split; [intros i [= <-]; lia | intros err [= <-]; lia]) ||
      (split; [discriminate | intros err [= <-]; lia]).
  - reflexivity.
Defined.

(** X16: the data shift of a pad is the one its port node gives, cut
    to eight bits.  For a device with at most 32 pads whose port array
    starts zeroed, when [xvip_device_parse_dt] returns 0,
    [xvip_get_mbus_config] on the pad that a port node names in "reg"
    returns 0 with the low eight bits of the node's "data-shift"
    property (the property itself when it is below 256), or 0 when the
    node has none; and when ports have formats the format stored for
    the pad is the table entry [xvip_of_get_format] returns for that
    node. *)
Theorem parse_dt_then_get_mbus_config vf_value num_sinks num_sources
    (has_port_formats : bool) children c i :
  u32 (num_sinks + num_sources) <= 32 ->
  regs_wf children ->
  let r := xvip_device_parse_dt vf_value num_sinks num_sources
             has_port_formats children
             (zeroed_ports (Z.to_nat (u32 (num_sinks + num_sources)))) in
  fst r = 0 ->
  In c (port_children children) -> reg c = of_ok i ->
  xvip_get_mbus_config num_sinks num_sources (snd r) i
  = (0, Some match data_shift c with
             | of_ok v => u8 v
             | of_fail _ => 0
             end) /\
  (forall v, data_shift c = of_ok v -> 0 <= v < 256 ->
             xvip_get_mbus_config num_sinks num_sources (snd r) i
             = (0, Some v)) /\
  (has_port_formats = true ->
   exists j, xvip_of_get_format vf_value c = FormatAt j /\
             port_format <$> snd r !! Z.to_nat i = Some (Some j)).
Proof.
  intros Hpads Hwf r Hok Hc Hi. subst r. apply parse_dt_run in Hok.
  destruct (parse_ports_ok _ _ _ _ _ _ _ [] _ _ Hpads Hwf no_port_seen
              (List.NoDup_nil _) (Forall_nil_2 _) eq_refl Hok)
    as (regs & Hmap & _ & Hregs & _ & _ & Herr & _ & Hupd).
  pose proof (In_regs _ _ _ _ Hmap Hc Hi) as Hin.
  pose proof (proj1 (List.Forall_forall _ _) Hregs i Hin) as Hr.
  cbn beta in Hr.
  assert (Hzero : zeroed_ports (Z.to_nat (u32 (num_sinks + num_sources)))
                  !! Z.to_nat i = Some (mk_port None 0)).
  { unfold zeroed_ports. apply lookup_replicate_2. lia. }
  specialize (Hupd c i _ Hc Hi Hzero).
  assert (Hget : xvip_get_mbus_config num_sinks num_sources
                   (snd (xvip_device_parse_dt vf_value num_sinks num_sources
                           has_port_formats children
                           (zeroed_ports
                              (Z.to_nat (u32 (num_sinks + num_sources))))))
                   i
                 = (0, Some match data_shift c with
                            | of_ok v => u8 v
                            | of_fail _ => 0
                            end)).
  { unfold xvip_get_mbus_config.
    replace (i >=? u32 (num_sinks + num_sources)) with false
      by (symmetry; rewrite Z.geb_leb; apply Z.leb_gt; lia).
    rewrite Hupd. unfold updated_port. cbn [fmap option_fmap option_map
                                            port_data_shift].
    now destruct (data_shift c). }
  split; [exact Hget |]. split.
  - intros v Hv Hsmall. rewrite Hget, Hv. unfold u8.
    now rewrite Z.mod_small by lia.
  - intros ->. specialize (Herr eq_refl c Hc).
    rewrite Hupd. unfold updated_port.
    destruct (xvip_of_get_format vf_value c) as [j|]; [| discriminate].
    exists j. split; reflexivity.
Qed.

Lemma parse_dt_then_get_mbus_config_witness :
  let children := [bayer_port; wide_shift_port] in
  let r := xvip_device_parse_dt vf_number 1 1 true children (zeroed_ports 2) in
  r = (0, [mk_port (Some 8%nat) 300; mk_port (Some 42%nat) 0]) /\
  xvip_get_mbus_config 1 1 (snd r) 0 = (0, Some 44) /\
  xvip_get_mbus_config 1 1 (snd r) 1 = (0, Some 0).
Proof.
  intros children r. split; [reflexivity |]. split.
  - refine (proj1 (parse_dt_then_get_mbus_config vf_number 1 1 true children
                     wide_shift_port 0 _ _ eq_refl _ eq_refl)).
    + vm_compute. discriminate.
    + repeat apply Forall_cons_2; try apply Forall_nil_2;
        (split; [intros i [= <-]; lia | intros err [= <-]; lia]).
    + right. now left.
  - refine (proj1 (parse_dt_then_get_mbus_config vf_number 1 1 true children
                     bayer_port 1 _ _ eq_refl _ eq_refl)).
    + vm_compute. discriminate.
    + repeat apply Forall_cons_2; try apply Forall_nil_2;
        (split; [intros i [= <-]; lia | intros err [= <-]; lia]).
    + now left.
Defined.

End ParseDtFacts.

(** ** Formats and selections of the DMA video node *)

Module DmaFormatsFacts.

Import Lifecycle DmaFormats.

Lemma rounddown_spec x y :
  0 <= x < 2 ^ 32 -> 1 <= y ->
  rounddown x y = y * (x / y) /\
  0 <= rounddown x y <= x /\
  rounddown x y mod y = 0 /\
  (rounddown x y = 0 <-> x < y) /\
  (x mod y = 0 -> rounddown x y = x).
Proof.
  intros Hx Hy. unfold rounddown.
  pose proof (Z.div_mod x y ltac:(lia)) as Hdiv.
  pose proof (Z.mod_pos_bound x y ltac:(lia)) as Hmod.
  assert (Heq : x - x mod y = y * (x / y)) by lia.
  assert (Hq : 0 <= x / y) by (apply Z.div_pos; lia).
  assert (Hprod : 0 <= y * (x / y)) by nia.
  rewrite SwitchFacts.u32_small by lia.
  split; [exact Heq |]. split; [lia |]. split.
  - rewrite Heq, Z.mul_comm. apply Z.mod_mul. lia.
  - split.
    + split.
      * intros H0. rewrite Heq in H0.
        assert (x / y = 0) by nia. apply Z.div_small_iff in H; lia.
      * intros Hlt. rewrite Z.mod_small; lia.
    + intros H0. lia.
Qed.


Lemma neg_einval_nonzero : - EINVAL <> 0.
Proof. vm_compute. discriminate. Qed.

(** What an accepted [xvip_dma_s_selection] has checked, and what it
    stores. *)
Lemma s_selection_ok dma sel :
  fst (fst (xvip_dma_s_selection dma sel)) = 0 ->
  (sel_target sel = V4L2_SEL_TGT_COMPOSE /\
   is_type_capture (sel_type sel) = true \/
   sel_target sel = V4L2_SEL_TGT_CROP /\
   is_type_output (sel_type sel) = true) /\
  rect_width (sel_r sel) <= format_width dma /\
  rect_height (sel_r sel) <= format_height dma /\
  top (sel_r sel) = 0 /\ left (sel_r sel) = 0 /\
  xvip_dma_s_selection dma sel =
  (0,
   mk_sel (sel_type sel) (sel_target sel)
     (mk_rect (left (sel_r sel)) (top (sel_r sel))
        (rounddown (Z.max XVIP_DMA_MIN_WIDTH (rect_width (sel_r sel)))
           (width_align dma))
        (Z.max XVIP_DMA_MIN_HEIGHT (rect_height (sel_r sel)))),
   mk_geometry (format_width dma) (format_height dma)
     (rounddown (Z.max XVIP_DMA_MIN_WIDTH (rect_width (sel_r sel)))
        (width_align dma))
     (Z.max XVIP_DMA_MIN_HEIGHT (rect_height (sel_r sel)))
     (width_align dma)).
Proof.
  unfold xvip_dma_s_selection.
  assert (Hcheck :
    fst (fst (if (rect_width (sel_r sel) >? format_width dma) ||
                 (rect_height (sel_r sel) >? format_height dma) ||
                 negb (top (sel_r sel) =? 0) || negb (left (sel_r sel) =? 0)
              then (- EINVAL, sel, dma)
              else
                (0,
                 mk_sel (sel_type sel) (sel_target sel)
                   (mk_rect (left (sel_r sel)) (top (sel_r sel))
                      (rounddown
                         (Z.max XVIP_DMA_MIN_WIDTH (rect_width (sel_r sel)))
                         (width_align dma))
                      (Z.max XVIP_DMA_MIN_HEIGHT (rect_height (sel_r sel)))),
                 mk_geometry (format_width dma) (format_height dma)
                   (rounddown
                      (Z.max XVIP_DMA_MIN_WIDTH (rect_width (sel_r sel)))
                      (width_align dma))
                   (Z.max XVIP_DMA_MIN_HEIGHT (rect_height (sel_r sel)))
                   (width_align dma)))) = 0 ->
    rect_width (sel_r sel) <= format_width dma /\
    rect_height (sel_r sel) <= format_height dma /\
    top (sel_r sel) = 0 /\ left (sel_r sel) = 0 /\
    (rect_width (sel_r sel) >? format_width dma) ||
    (rect_height (sel_r sel) >? format_height dma) ||
    negb (top (sel_r sel) =? 0) || negb (left (sel_r sel) =? 0) = false).
  { destruct ((rect_width (sel_r sel) >? format_width dma) ||
              (rect_height (sel_r sel) >? format_height dma) ||
              negb (top (sel_r sel) =? 0) || negb (left (sel_r sel) =? 0))
      eqn:Hc; cbn [fst].
    - intros H. exfalso. exact (neg_einval_nonzero H).
    - intros _.
      apply orb_false_iff in Hc as [Hc Hl].
      apply orb_false_iff in Hc as [Hc Ht].
      apply orb_false_iff in Hc as [Hcw Hch].
      apply negb_false_iff, Z.eqb_eq in Hl, Ht.
      rewrite Z.gtb_ltb in Hcw, Hch. apply Z.ltb_ge in Hcw, Hch.
      repeat split; assumption. }
  destruct (sel_target sel) eqn:Htarget;
    try (cbn [fst]; intros H; exfalso; exact (neg_einval_nonzero H)).
  - destruct (is_type_output (sel_type sel)) eqn:Htype; cbn [negb].
    + intros H. destruct (Hcheck H) as (Hcw & Hch & Ht & Hl & ->).
      repeat split; try assumption. right. now split.
    + cbn [fst]. intros H. exfalso. exact (neg_einval_nonzero H).
  - destruct (is_type_capture (sel_type sel)) eqn:Htype; cbn [negb].
    + intros H. destruct (Hcheck H) as (Hcw & Hch & Ht & Hl & ->).
      repeat split; try assumption. left. now split.
    + cbn [fst]. intros H. exfalso. exact (neg_einval_nonzero H).
Qed.

(** X18: a selection that is accepted can be read back.  When
    [xvip_dma_s_selection] returns 0 (the width alignment being at
    least 1), [xvip_dma_g_selection] for the same target and type
    returns 0 and exactly the rectangle that was stored; the format of
    the engine is not touched; the stored height is the requested
    height, raised to 1 when it is 0; the stored width is the requested
    width (taken as 1 when it is 0) rounded down to a multiple of the
    width alignment, hence at most the format width, and it is 0,
    below [XVIP_DMA_MIN_WIDTH], exactly when the requested width is
    smaller than the alignment. *)
Theorem selection_set_then_get dma sel :
  1 <= width_align dma ->
  0 <= rect_width (sel_r sel) < 2 ^ 32 ->
  0 <= rect_height (sel_r sel) < 2 ^ 32 ->
  let r := xvip_dma_s_selection dma sel in
  let sel' := snd (fst r) in
  let dma' := snd r in
  fst (fst r) = 0 ->
  xvip_dma_g_selection dma' sel' = (0, sel') /\
  format_width dma' = format_width dma /\
  format_height dma' = format_height dma /\
  rect_height (sel_r sel') = Z.max 1 (rect_height (sel_r sel)) /\
  rect_width (sel_r sel') mod width_align dma = 0 /\
  rect_width (sel_r sel') <= Z.max 1 (rect_width (sel_r sel)) /\
  (1 <= format_width dma -> rect_width (sel_r sel') <= format_width dma) /\
  (rect_width (sel_r sel') = 0 <->
   Z.max 1 (rect_width (sel_r sel)) < width_align dma).
Proof.
  intros Halign Hw Hh r sel' dma' Hok. subst sel' dma' r.
  destruct (s_selection_ok dma sel Hok) as (Htarget & Hcw & Hch & Ht & Hl & ->).
  cbn [fst snd sel_r rect_width rect_height format_width format_height].
  assert (Hmax : 0 <= Z.max XVIP_DMA_MIN_WIDTH (rect_width (sel_r sel))
                 < 2 ^ 32)
    by (unfold XVIP_DMA_MIN_WIDTH; lia).
  pose proof (rounddown_spec (Z.max XVIP_DMA_MIN_WIDTH (rect_width (sel_r sel)))
                (width_align dma) Hmax Halign)
    as (_ & Hle & Hmod & Hzero & _).
  unfold XVIP_DMA_MIN_WIDTH, XVIP_DMA_MIN_HEIGHT in *.
  split.
  { unfold xvip_dma_g_selection.
    cbn [sel_target sel_type r_width r_height].
    rewrite Ht, Hl.
    destruct Htarget as [[-> ->] | [-> ->]]; reflexivity. }
  repeat split; try reflexivity; try assumption; try lia;
    try (apply Hzero); try (intros H; apply Hzero in H; lia).
Qed.

Lemma selection_set_then_get_witness :
  let dma := mk_geometry 1920 1080 1920 1080 8 in
  let sel := mk_sel V4L2_BUF_TYPE_VIDEO_CAPTURE V4L2_SEL_TGT_COMPOSE
               (mk_rect 0 0 5 0) in
  xvip_dma_s_selection dma sel
  = (0, mk_sel V4L2_BUF_TYPE_VIDEO_CAPTURE V4L2_SEL_TGT_COMPOSE
          (mk_rect 0 0 0 1),
     mk_geometry 1920 1080 0 1 8) /\
  xvip_dma_g_selection (snd (xvip_dma_s_selection dma sel))
    (snd (fst (xvip_dma_s_selection dma sel)))
  = (0, snd (fst (xvip_dma_s_selection dma sel))).
Proof.
  intros dma sel. split; [reflexivity |].
  apply (selection_set_then_get dma sel); cbn; lia.
Defined.

Lemma clamp_idem x lo hi : clamp (clamp x lo hi) lo hi = clamp x lo hi.
Proof. unfold clamp. lia. Qed.

Lemma clamp_cases x lo hi :
  clamp x lo hi = x \/ clamp x lo hi = lo \/ clamp x lo hi = hi.
Proof. unfold clamp. lia. Qed.

Lemma roundup_spec x y :
  1 <= y -> 0 <= roundup x y < 2 ^ 32 /\ roundup x y mod y = 0.
Proof.
  intros Hy. unfold roundup.
  assert (Hu : 0 <= u32 (x + (y - 1)) < 2 ^ 32)
    by (unfold u32; apply Z.mod_pos_bound; lia).
  pose proof (Z.div_mod (u32 (x + (y - 1))) y ltac:(lia)) as Hdiv.
  pose proof (Z.mod_pos_bound (u32 (x + (y - 1))) y ltac:(lia)) as Hmod.
  assert (Hq : 0 <= u32 (x + (y - 1)) / y) by (apply Z.div_pos; lia).
  assert (Hprod : 0 <= u32 (x + (y - 1)) / y * y) by nia.
  rewrite (SwitchFacts.u32_small (u32 (x + (y - 1)) / y * y)) by lia.
  split; [lia |]. apply Z.mod_mul. lia.
Qed.

Lemma roundup_one y : 1 <= y < 2 ^ 32 -> roundup 1 y = y.
Proof.
  intros Hy. unfold roundup.
  replace (1 + (y - 1)) with y by lia.
  rewrite (SwitchFacts.u32_small y) by lia.
  rewrite Z.div_same by lia. rewrite Z.mul_1_l.
  apply SwitchFacts.u32_small. lia.
Qed.

(** A value the clamping of a size leaves alone: a multiple of the
    alignment, rounded down and clamped to itself. *)
Lemma clamp_rounddown_stable x lo hi y :
  1 <= y -> 0 <= x < 2 ^ 32 ->
  0 <= lo < 2 ^ 32 -> lo mod y = 0 ->
  0 <= hi < 2 ^ 32 -> hi mod y = 0 ->
  let c := clamp (rounddown x y) lo hi in
  0 <= c < 2 ^ 32 /\ c mod y = 0 /\ clamp (rounddown c y) lo hi = c.
Proof.
  intros Hy Hx Hlo Hlom Hhi Hhim c.
  destruct (rounddown_spec x y Hx Hy) as (_ & Hr & Hrm & _ & _).
  assert (Hc : 0 <= c < 2 ^ 32) by (subst c; unfold clamp; lia).
  assert (Hcm : c mod y = 0).
  { subst c. destruct (clamp_cases (rounddown x y) lo hi) as [-> | [-> | ->]];
      assumption. }
  split; [exact Hc |]. split; [exact Hcm |].
  rewrite (proj2 (proj2 (proj2 (proj2 (rounddown_spec c y Hc Hy)))) Hcm).
  subst c. apply clamp_idem.
Qed.

Section TryFormatFacts.

Variable fourcc_value : Formats.v4l2_pix_fmt -> Z.
Variable bytes_per_pixel : Formats.xvip_video_format -> nat -> Z * Z.
Variable num_buffers : Formats.xvip_video_format -> Z.
Variable dma_width_align dma_align : Z.
Hypothesis Hwidth_align : 1 <= dma_width_align.
Hypothesis Halign : 1 <= dma_align.

Lemma try_plane_stable width height info i plane q :
  0 <= plane_bytesperline plane < 2 ^ 32 ->
  plane_bytesperline q
  = plane_bytesperline
      (try_plane bytes_per_pixel dma_align width height info i plane) ->
  try_plane bytes_per_pixel dma_align width height info i q
  = try_plane bytes_per_pixel dma_align width height info i plane.
Proof.
  intros Hb Hq. unfold try_plane in *.
  cbn [plane_bytesperline] in Hq. rewrite Hq.
  set (min_bpl := roundup (u32 (width * fst (bytes_per_pixel info i))
                           / snd (bytes_per_pixel info i)) dma_align) in *.
  set (max_bpl := rounddown XVIP_DMA_MAX_WIDTH dma_align) in *.
  destruct (roundup_spec (u32 (width * fst (bytes_per_pixel info i))
                          / snd (bytes_per_pixel info i)) dma_align Halign)
    as [Hmin Hminm].
  assert (Hmax : 0 <= XVIP_DMA_MAX_WIDTH < 2 ^ 32) by (vm_compute; split; congruence).
  destruct (rounddown_spec XVIP_DMA_MAX_WIDTH dma_align Hmax Halign)
    as (_ & Hmaxr & Hmaxm & _ & _).
  destruct (clamp_rounddown_stable (plane_bytesperline plane) min_bpl max_bpl
              dma_align Halign Hb Hmin Hminm) as (_ & _ & Hstable);
    [fold max_bpl; lia | exact Hmaxm |].
  fold min_bpl max_bpl in Hstable. now rewrite Hstable.
Qed.

Lemma try_plane_range width height info i plane :
  0 <= plane_bytesperline plane < 2 ^ 32 ->
  0 <= plane_bytesperline
         (try_plane bytes_per_pixel dma_align width height info i plane)
  < 2 ^ 32.
Proof.
  intros Hb. unfold try_plane. cbn [plane_bytesperline].
  destruct (roundup_spec (u32 (width * fst (bytes_per_pixel info i))
                          / snd (bytes_per_pixel info i)) dma_align Halign)
    as [Hmin Hminm].
  assert (Hmax : 0 <= XVIP_DMA_MAX_WIDTH < 2 ^ 32)
    by (vm_compute; split; congruence).
  destruct (rounddown_spec XVIP_DMA_MAX_WIDTH dma_align Hmax Halign)
    as (_ & Hmaxr & Hmaxm & _ & _).
  refine (proj1 (clamp_rounddown_stable _ _ _ dma_align Halign Hb Hmin Hminm
                   _ Hmaxm)).
  lia.
Qed.

Lemma try_planes_lookup width height info n :
  forall i planes k,
    try_planes bytes_per_pixel dma_align width height info n i planes !! k =
    if (i <=? k)%nat && (k <? i + n)%nat
    then try_plane bytes_per_pixel dma_align width height info k
           <$> planes !! k
    else planes !! k.
Proof.
  induction n as [|n IH]; intros i planes k; cbn [try_planes].
  - SwitchStreamFacts.nat_cases; cbn [andb]; try reflexivity; lia.
  - rewrite IH. rewrite list_lookup_alter.
    destruct (decide (i = k)) as [-> | Hne].
    + SwitchStreamFacts.nat_cases; cbn [andb]; try reflexivity; lia.
    + SwitchStreamFacts.nat_cases; cbn [andb]; try reflexivity; lia.
Qed.

Lemma add_sizes_lookup n :
  forall i planes,
    (forall k, k <> 0%nat -> add_sizes n i planes !! k = planes !! k) /\
    plane_bytesperline <$> add_sizes n i planes !! 0%nat
    = plane_bytesperline <$> planes !! 0%nat.
Proof.
  induction n as [|n IH]; intros i planes; cbn [add_sizes];
    [split; reflexivity |].
  destruct (IH (S i)
              (alter (fun p0 =>
                        mk_plane
                          (u32 (plane_sizeimage p0 +
                                plane_sizeimage
                                  (default zero_plane (planes !! i))))
                          (plane_bytesperline p0)) 0%nat planes))
    as [Hother Hzero].
  split.
  - intros k Hk. rewrite Hother by assumption.
    rewrite list_lookup_alter. now rewrite decide_False by congruence.
  - rewrite Hzero, list_lookup_alter, decide_True by reflexivity.
    now destruct (planes !! 0%nat).
Qed.

(** Running the first loop again on its own result, or on that result
    with other image sizes in plane 0, changes nothing. *)
Lemma try_planes_again width height info n planes again :
  Forall (fun p => 0 <= plane_bytesperline p < 2 ^ 32) planes ->
  let done :=
    try_planes bytes_per_pixel dma_align width height info n 0 planes in
  (n = 0%nat -> again = done) ->
  (forall k, k <> 0%nat -> again !! k = done !! k) ->
  plane_bytesperline <$> again !! 0%nat
  = plane_bytesperline <$> done !! 0%nat ->
  try_planes bytes_per_pixel dma_align width height info n 0 again = done.
Proof.
  intros Hwf done Hnone Hother Hzero. apply list_eq. intros k.
  rewrite try_planes_lookup.
  destruct n as [|n]; [now rewrite (Hnone eq_refl) |].
  assert (Hdone : done !! k =
                  if (0 <=? k)%nat && (k <? 0 + S n)%nat
                  then try_plane bytes_per_pixel dma_align width height info k
                         <$> planes !! k
                  else planes !! k)
    by (subst done; apply try_planes_lookup).
  destruct ((0 <=? k)%nat && (k <? 0 + S n)%nat) eqn:Hin.
  - destruct k as [|k].
    + rewrite Hdone in Hzero |- *.
      destruct (planes !! 0%nat) as [p|] eqn:Hp;
        destruct (again !! 0%nat) as [a|]; try discriminate; [| reflexivity].
      cbn in Hzero |- *. injection Hzero as Hzero. f_equal.
      apply try_plane_stable; [| exact Hzero].
      exact (proj1 (List.Forall_forall _ _) Hwf p (VipFormatsFacts.lookup_In _ _ _ Hp)).
    + rewrite Hother by discriminate. rewrite Hdone.
      destruct (planes !! S k) as [p|] eqn:Hp; [| reflexivity].
      cbn. f_equal. apply try_plane_stable; [| reflexivity].
      exact (proj1 (List.Forall_forall _ _) Hwf p (VipFormatsFacts.lookup_In _ _ _ Hp)).
  - destruct k as [|k]; [cbn in Hin; discriminate |].
    now rewrite Hother by discriminate.
Qed.

(** X19: [__xvip_dma_try_format] is idempotent and keeps the size in
    range.  With alignments of at least 1 and a request made of [u32]
    values, trying the format that a first try returned gives back
    that same format and the same format information: the adjusted
    width, height, field, line sizes and image sizes are a fixed point.
    The adjusted width is a multiple of the width alignment and, when
    the alignment is at most 65535, lies between the alignment and
    65535; the height lies between 1 and 8191; the field is
    [V4L2_FIELD_ALTERNATE] when that was asked for and
    [V4L2_FIELD_NONE] otherwise; the pixel format asked for is left
    as it is, even when the table does not know it. *)
Theorem try_format_idempotent pix_mp :
  0 <= mp_width pix_mp < 2 ^ 32 ->
  0 <= mp_height pix_mp < 2 ^ 32 ->
  Forall (fun p => 0 <= plane_bytesperline p < 2 ^ 32)
    (mp_plane_fmt pix_mp) ->
  let try := __xvip_dma_try_format fourcc_value bytes_per_pixel num_buffers
               dma_width_align dma_align in
  let r := fst (try pix_mp) in
  try r = try pix_mp /\
  mp_width r mod dma_width_align = 0 /\
  (dma_width_align <= 65535 -> dma_width_align <= mp_width r <= 65535) /\
  1 <= mp_height r <= 8191 /\
  mp_field r = (if is_alternate (mp_field pix_mp)
                then V4L2_FIELD_ALTERNATE else V4L2_FIELD_NONE) /\
  mp_pixelformat r = mp_pixelformat pix_mp.
Proof.
  intros Hw Hh Hplanes try r. subst r try.
  assert (Hmaxw : 0 <= XVIP_DMA_MAX_WIDTH < 2 ^ 32)
    by (vm_compute; split; congruence).
  destruct (roundup_spec XVIP_DMA_MIN_WIDTH dma_width_align Hwidth_align)
    as [Hmin Hminm].
  destruct (rounddown_spec XVIP_DMA_MAX_WIDTH dma_width_align Hmaxw
              Hwidth_align) as (_ & Hmaxr & Hmaxm & _ & _).
  destruct (clamp_rounddown_stable (mp_width pix_mp)
              (roundup XVIP_DMA_MIN_WIDTH dma_width_align)
              (rounddown XVIP_DMA_MAX_WIDTH dma_width_align)
              dma_width_align Hwidth_align Hw Hmin Hminm)
    as (Hwr & Hwm & Hwstable); [lia | exact Hmaxm |].
  split; [| split; [| split; [| split; [| split]]]].
  - unfold __xvip_dma_try_format.
    cbn [fst mp_width mp_height mp_pixelformat mp_field mp_colorspace
         mp_plane_fmt mp_num_planes mp_flags mp_ycbcr_enc mp_quantization
         mp_xfer_func].
    rewrite Hwstable, clamp_idem.
    set (width := clamp (rounddown (mp_width pix_mp) dma_width_align)
                    (roundup XVIP_DMA_MIN_WIDTH dma_width_align)
                    (rounddown XVIP_DMA_MAX_WIDTH dma_width_align)).
    set (height := clamp (mp_height pix_mp) XVIP_DMA_MIN_HEIGHT
                     XVIP_DMA_MAX_HEIGHT).
    set (info := if Formats.IS_ERR _ then _ else _).
    f_equal. f_equal.
    + now destruct (mp_field pix_mp).
    + destruct (Formats.deref info) as [f|]; [| reflexivity].
      set (n := Z.to_nat (Formats.num_planes f)).
      set (done := try_planes bytes_per_pixel dma_align width height f n 0
                     (mp_plane_fmt pix_mp)).
      assert (Hagain :
        forall again,
          (n = 0%nat -> again = done) ->
          (forall k, k <> 0%nat -> again !! k = done !! k) ->
          plane_bytesperline <$> again !! 0%nat
          = plane_bytesperline <$> done !! 0%nat ->
          try_planes bytes_per_pixel dma_align width height f n 0 again
          = done).
      { intros again. now apply try_planes_again. }
      destruct (num_buffers f =? 1).
      * rewrite Hagain; [reflexivity | | |].
        -- intros ->. reflexivity.
        -- apply add_sizes_lookup.
        -- apply add_sizes_lookup.
      * now rewrite Hagain.
  - exact Hwm.
  - intros Hsmall. cbn [fst mp_width]. unfold __xvip_dma_try_format.
    cbn [fst mp_width].
    rewrite roundup_one by (unfold XVIP_DMA_MAX_WIDTH in *; lia).
    assert (Hfit : dma_width_align
                   <= rounddown XVIP_DMA_MAX_WIDTH dma_width_align).
    { destruct (rounddown_spec XVIP_DMA_MAX_WIDTH dma_width_align Hmaxw
                  Hwidth_align) as (Heq & _ & _ & Hzero & _).
      unfold XVIP_DMA_MAX_WIDTH in *.
      destruct (Z.eq_dec (rounddown 65535 dma_width_align) 0) as [H0 | H0].
      - apply Hzero in H0. lia.
      - assert (0 < 65535 / dma_width_align) by nia. nia. }
    unfold clamp, XVIP_DMA_MAX_WIDTH in *. lia.
  - unfold __xvip_dma_try_format. cbn [fst mp_height].
    unfold clamp, XVIP_DMA_MIN_HEIGHT, XVIP_DMA_MAX_HEIGHT. lia.
  - unfold __xvip_dma_try_format. cbn [fst mp_field].
    now destruct (mp_field pix_mp).
  - reflexivity.
Qed.

End TryFormatFacts.

Lemma try_format_idempotent_witness :
  let try := __xvip_dma_try_format Samples.fourcc_number
               (fun f i => (Formats.bpl_factor f, 1)) Formats.buffers 2 64 in
  let pix_mp := mk_pix_mp 1921 0
                  (Samples.fourcc_number Formats.V4L2_PIX_FMT_NV12)
                  V4L2_FIELD_TOP 0 (replicate VIDEO_MAX_PLANES zero_plane)
                  0 0 0 0 0 in
  fst (try pix_mp)
  = mk_pix_mp 1920 1 (Samples.fourcc_number Formats.V4L2_PIX_FMT_NV12)
      V4L2_FIELD_NONE 0
      (mk_plane 2880 1920 :: mk_plane 960 1920 ::
       replicate 6 zero_plane) 0 0 0 0 0 /\
  try (fst (try pix_mp)) = try pix_mp.
Proof.
  intros try pix_mp. split; [vm_compute; reflexivity |].
  apply (try_format_idempotent Samples.fourcc_number
           (fun f i => (Formats.bpl_factor f, 1)) Formats.buffers 2 64).
  - lia.
  - lia.
  - cbn. lia.
  - cbn. lia.
  - repeat apply Forall_cons_2; try apply Forall_nil_2; cbn; lia.
Defined.

Lemma fill_sizes_lookup planes n :
  forall i sizes k,
    (i + n <= length sizes)%nat ->
    fill_sizes planes sizes n i !! k =
    if (i <=? k)%nat && (k <? i + n)%nat
    then Some (plane_sizeimage (default zero_plane (planes !! k)))
    else sizes !! k.
Proof.
  induction n as [|n IH]; intros i sizes k Hlen; cbn [fill_sizes].
  - SwitchStreamFacts.nat_cases; cbn [andb]; try reflexivity; lia.
  - rewrite IH by (rewrite length_insert; lia).
    destruct (decide (i = k)) as [-> | Hne].
    + rewrite list_lookup_insert.
      rewrite decide_True by (split; [reflexivity | lia]).
      SwitchStreamFacts.nat_cases; cbn [andb]; try reflexivity; lia.
    + rewrite list_lookup_insert_ne by assumption.
      SwitchStreamFacts.nat_cases; cbn [andb]; try reflexivity; lia.
Qed.

Lemma check_sizes_ok planes sizes n :
  forall i,
    (forall k, (i <= k < i + n)%nat ->
       sizes !! k = Some (plane_sizeimage (default zero_plane (planes !! k)))) ->
    check_sizes planes sizes n i = 0.
Proof.
  induction n as [|n IH]; intros i Hsizes; [reflexivity |].
  cbn [check_sizes]. rewrite (Hsizes i) by lia. cbn [default].
  rewrite Z.ltb_irrefl. apply IH. intros k Hk. apply Hsizes. lia.
Qed.

(** X20: the sizes [xvip_dma_queue_setup] reports and the sizes it
    accepts.  Asked with [*nplanes] 0, the call returns 0, sets the
    plane count to [fmtinfo->num_buffers] and stores the image size of
    the format in [sizes] for each of these planes, leaving the other
    entries alone.  Asked again with the count and the sizes it has
    just reported (a non-zero count), it accepts them exactly when
    [dma->format.num_planes] equals [fmtinfo->num_buffers], and returns
    [-EINVAL] otherwise. *)
Theorem queue_setup_reports_what_it_accepts dma_format num_buffers sizes :
  1 <= num_buffers ->
  (Z.to_nat num_buffers <= length sizes)%nat ->
  let r := xvip_dma_queue_setup dma_format num_buffers 0 sizes in
  let nplanes := snd (fst r) in
  let sizes' := snd r in
  fst (fst r) = 0 /\ nplanes = num_buffers /\
  (forall k,
     sizes' !! k =
     if (k <? Z.to_nat num_buffers)%nat
     then Some (plane_sizeimage
                  (default zero_plane (mp_plane_fmt dma_format !! k)))
     else sizes !! k) /\
  xvip_dma_queue_setup dma_format num_buffers nplanes sizes' =
  (if mp_num_planes dma_format =? num_buffers then 0 else - EINVAL,
   nplanes, sizes').
Proof.
  intros Hnb Hlen r nplanes sizes'. subst sizes' nplanes r.
  unfold xvip_dma_queue_setup at 1 2 3 4 5. cbn [Z.eqb negb fst snd].
  assert (Hlookup : forall k,
            fill_sizes (mp_plane_fmt dma_format) sizes
              (Z.to_nat num_buffers) 0 !! k =
            if (k <? Z.to_nat num_buffers)%nat
            then Some (plane_sizeimage
                         (default zero_plane (mp_plane_fmt dma_format !! k)))
            else sizes !! k).
  { intros k. rewrite fill_sizes_lookup by lia.
    SwitchStreamFacts.nat_cases; cbn [andb]; try reflexivity; lia. }
  split; [reflexivity |]. split; [reflexivity |]. split; [exact Hlookup |].
  unfold xvip_dma_queue_setup.
  replace (num_buffers =? 0) with false by (symmetry; apply Z.eqb_neq; lia).
  cbn [negb]. rewrite (Z.eqb_sym num_buffers).
  destruct (mp_num_planes dma_format =? num_buffers); cbn [negb];
    [| reflexivity].
  rewrite check_sizes_ok; [reflexivity |].
  intros k Hk. rewrite Hlookup.
  SwitchStreamFacts.nat_cases; try reflexivity; lia.
Qed.

Lemma queue_setup_reports_what_it_accepts_witness :
  let dma_format := mk_pix_mp 1920 1080 0 V4L2_FIELD_NONE 0
                      (mk_plane 2073600 1920 :: mk_plane 1036800 1920 ::
                       replicate 6 zero_plane) 1 0 0 0 0 in
  xvip_dma_queue_setup dma_format 2 0 (replicate 8 0)
  = (0, 2, 2073600 :: 1036800 :: replicate 6 0) /\
  xvip_dma_queue_setup dma_format 2 2 (2073600 :: 1036800 :: replicate 6 0)
  = (- EINVAL, 2, 2073600 :: 1036800 :: replicate 6 0).
Proof.
  intros dma_format. split; [reflexivity |].
  refine (proj2 (proj2 (proj2 (queue_setup_reports_what_it_accepts
                                 dma_format 2 (replicate 8 0) _ _)))).
  - lia.
  - cbn. lia.
Defined.

End DmaFormatsFacts.

(** ** Starting and stopping a DMA video node *)

Module StreamingFacts.

Import Dma DmaSpec Lifecycle LifecycleSpec Streaming.

Lemma start_dma_keeps_or_counts env mode pipe dma tr :
  let r := xvip_pipeline_start_dma env mode pipe dma tr in
  (fst (fst r) < 0 -> snd (fst r) = pipe) /\
  (snd (fst r) = pipe \/ snd (fst r) = count_up pipe dma).
Proof.
  unfold xvip_pipeline_start_dma.
  destruct (mode =? XVIP_DMA_MULTI_OUT_MODE_ASYNC).
  - unfold xvip_dma_start. DmaFacts.run.
    destruct (xvip_pipeline_enable_branch env dma
                (tr ++ [dma_async_issue_pending (chan dma)])) as [r tr'].
    destruct (negb (r =? 0)); cbn; auto.
  - unfold bind.
    destruct ((if stream_total pipe =? start_threshold pipe
               then xvip_pipeline_start env pipe else ret 0) tr) as [r tr'].
    destruct (r <? 0) eqn:Hr; cbn.
    + auto.
    + apply Z.ltb_ge in Hr. split; [lia | auto].
Qed.

Lemma stop_dma_pipe env mode pipe dma tr :
  fst (xvip_pipeline_stop_dma env mode pipe dma tr) =
  if mode =? XVIP_DMA_MULTI_OUT_MODE_ASYNC then pipe
  else count_down pipe dma.
Proof.
  destruct (mode =? XVIP_DMA_MULTI_OUT_MODE_ASYNC) eqn:Hmode.
  - unfold xvip_pipeline_stop_dma. rewrite Hmode. DmaFacts.run.
    destruct (xvip_pipeline_disable_branch env dma tr) as [r tr'].
    reflexivity.
  - apply Z.eqb_neq in Hmode.
    now rewrite DmaFacts.stop_dma_sync by assumption.
Qed.

Lemma start_dma_mode env mode pipe dma tr :
  fst (fst (xvip_pipeline_start_dma env mode pipe dma tr)) >= 0 ->
  snd (fst (xvip_pipeline_start_dma env mode pipe dma tr)) =
  if mode =? XVIP_DMA_MULTI_OUT_MODE_ASYNC then pipe
  else count_up pipe dma.
Proof.
  unfold xvip_pipeline_start_dma.
  destruct (mode =? XVIP_DMA_MULTI_OUT_MODE_ASYNC).
  - intros _. unfold xvip_dma_start. DmaFacts.run.
    destruct (xvip_pipeline_enable_branch env dma
                (tr ++ [dma_async_issue_pending (chan dma)])) as [r tr'].
    now destruct (negb (r =? 0)).
  - unfold bind.
    destruct ((if stream_total pipe =? start_threshold pipe
               then xvip_pipeline_start env pipe else ret 0) tr) as [r tr'].
    destruct (r <? 0) eqn:Hr; cbn; [| reflexivity].
    apply Z.ltb_lt in Hr. lia.
Qed.

Lemma count_down_up pipe dma :
  0 <= input_stream_count pipe < 2 ^ 32 ->
  0 <= output_stream_count pipe < 2 ^ 32 ->
  count_down (count_up pipe dma) dma = pipe.
Proof.
  intros Hin Hout. unfold count_down, count_up.
  destruct pipe as [dl ni no ic oc]. cbn in Hin, Hout.
  destruct (vfl_dir dma); cbn; f_equal; unfold u32;
    change (2 ^ 32) with 4294967296 in *; Z.div_mod_to_equations; lia.
Qed.

Lemma init_keeps_counts pipe g :
  input_stream_count (snd (xvip_pipeline_init pipe g))
  = input_stream_count pipe /\
  output_stream_count (snd (xvip_pipeline_init pipe g))
  = output_stream_count pipe.
Proof.
  unfold xvip_pipeline_init.
  destruct (negb (walk_init g =? 0)); [split; reflexivity |].
  destruct (walk_video_nodes (walk_next g) (dmas pipe) 0 0) as [[dl n_in] n_out].
  destruct ((n_out =? 0) && (n_in =? 0)); split; reflexivity.
Qed.

(** What [xvip_pipeline_prepare] leaves, for a pipeline that is idle or
    in use. *)
Lemma prepare_cases p g :
  0 <= use_count p < 2 ^ 32 - 1 ->
  (use_count p = 0 -> idle p) ->
  let r := xvip_pipeline_prepare p g in
  (fst r < 0 /\ snd r = p) \/
  (fst r = 0 /\ use_count (snd r) = use_count p + 1 /\
   xvip_pipeline_cleanup (snd r) = p /\
   input_stream_count (pipeline (snd r)) = input_stream_count (pipeline p) /\
   output_stream_count (pipeline (snd r)) = output_stream_count (pipeline p)).
Proof.
  intros Hrange Hidle r. subst r. unfold xvip_pipeline_prepare.
  destruct (use_count p =? 0) eqn:Hzero.
  - apply Z.eqb_eq in Hzero. specialize (Hidle Hzero).
    pose proof (LifecycleFacts.cleanup_after_init (pipeline p) g) as Hclean.
    rewrite (LifecycleFacts.cleanup_idle p Hidle) in Hclean.
    pose proof (init_keeps_counts (pipeline p) g) as [Hic Hoc].
    destruct (xvip_pipeline_init (pipeline p) g) as [r1 pipe1].
    cbn [snd] in Hclean, Hic, Hoc.
    destruct (r1 <? 0) eqn:Hr1; cbn [fst snd].
    + left. apply Z.ltb_lt in Hr1. split; [exact Hr1 |].
      rewrite Hclean. now destruct p.
    + right. split; [reflexivity |]. rewrite Hzero.
      cbn [use_count pipeline].
      split; [reflexivity |]. split; [| now split].
      unfold xvip_pipeline_cleanup. cbn [use_count pipeline].
      change (u32 (u32 (0 + 1) - 1) =? 0) with true. cbv iota.
      rewrite Hclean. destruct p as [pp uc]. cbn in *. now subst.
  - apply Z.eqb_neq in Hzero. cbn [fst snd use_count pipeline].
    right. split; [reflexivity |].
    rewrite SwitchFacts.u32_small by lia. split; [reflexivity |].
    split; [| now split].
    unfold xvip_pipeline_cleanup. cbn [use_count pipeline].
    replace (use_count p + 1 - 1) with (use_count p) by lia.
    rewrite SwitchFacts.u32_small by lia.
    apply Z.eqb_neq in Hzero. rewrite Hzero. now destruct p.
Qed.

(** X21: [xvip_dma_start_streaming] always restarts the numbering of the
    engine.  When it fails, at whichever step, it returns a negative
    value, leaves the pipeline with its use count and the count of media
    pipeline starts as they were, and gives the queued buffers back in
    state QUEUED; when it succeeds it returns 0, holds one more use of
    the pipeline and one more start of the media pipeline, and gives no
    buffer back. *)
Theorem start_streaming_all_or_nothing env mode g pipeline_start cfg st dma tr :
  0 <= use_count (node_users st) < 2 ^ 32 - 1 ->
  (use_count (node_users st) = 0 -> idle (node_users st)) ->
  let r := xvip_dma_start_streaming env mode g pipeline_start cfg st dma tr in
  let code := fst (fst r) in
  let st' := snd (fst r) in
  node_numbering st' = numbering_at_start /\
  ((code < 0 /\
    node_users st' = node_users st /\
    media_pipeline_starts st' = media_pipeline_starts st /\
    returned_buffers st' = returned_buffers st ++ [VB2_BUF_STATE_QUEUED]) \/
   (code = 0 /\
    use_count (node_users st') = use_count (node_users st) + 1 /\
    media_pipeline_starts st' = media_pipeline_starts st + 1 /\
    returned_buffers st' = returned_buffers st)).
Proof.
  intros Hrange Hidle. cbv zeta. unfold xvip_dma_start_streaming.
  destruct (pipeline_start <? 0) eqn:Hps.
  { apply Z.ltb_lt in Hps. cbn. split; [reflexivity | left]. auto. }
  destruct (xvip_dma_verify_format cfg dma <? 0) eqn:Hver.
  { apply Z.ltb_lt in Hver. cbn. split; [reflexivity | left].
    repeat split; [exact Hver | lia]. }
  pose proof (prepare_cases (node_users st) g Hrange Hidle) as Hprep.
  cbv zeta in Hprep.
  destruct (xvip_pipeline_prepare (node_users st) g) as [r1 users1].
  cbn [fst snd] in Hprep.
  destruct (r1 <? 0) eqn:Hr1.
  { apply Z.ltb_lt in Hr1. cbn. split; [reflexivity | left].
    destruct Hprep as [[_ Hsame] | [Hzero _]]; [| lia].
    repeat split; [exact Hr1 | exact Hsame | lia]. }
  apply Z.ltb_ge in Hr1.
  destruct Hprep as [[Hneg _] | (_ & Hcount & Hclean & _)]; [lia |].
  unfold bind.
  pose proof (start_dma_keeps_or_counts env mode (pipeline users1) dma tr)
    as [Hkeep _].
  destruct (xvip_pipeline_start_dma env mode (pipeline users1) dma tr)
    as [[r2 pipe2] tr2].
  cbn [fst snd] in Hkeep |- *.
  destruct (r2 <? 0) eqn:Hr2; cbn; (split; [reflexivity |]).
  - apply Z.ltb_lt in Hr2. left. rewrite (Hkeep Hr2).
    repeat split; [exact Hr2 | | lia].
    rewrite <- Hclean. now destruct users1.
  - right. repeat split. exact Hcount.
Qed.

Lemma start_streaming_all_or_nothing_witness :
  let st := mk_stream_node (mk_users (mk_pipe [] 0 0 0 0) 0)
              (mk_numbering 7 1) 0 [] in
  let g := mk_graph 0 [video_node Samples.capture0 MEDIA_PAD_FL_SINK] in
  let cfg := mk_config 0 (DmaFormats.mk_geometry 0 0 0 0 1) V4L2_FIELD_NONE
               (fun _ _ => (- EPIPE,
                            VipFormats.mk_framefmt 0 0 0 V4L2_FIELD_NONE)) in
  let r := xvip_dma_start_streaming Samples.env_ok 0 g 0 cfg st
             Samples.capture0 [] in
  fst (fst r) = - EPIPE /\
  node_numbering (snd (fst r)) = numbering_at_start /\
  node_users (snd (fst r)) = node_users st /\
  media_pipeline_starts (snd (fst r)) = 0 /\
  returned_buffers (snd (fst r)) = [VB2_BUF_STATE_QUEUED].
Proof.
  intros st g cfg r.
  assert (Hrange : 0 <= use_count (node_users st) < 2 ^ 32 - 1)
    by (cbn; lia).
  assert (Hidle : use_count (node_users st) = 0 -> idle (node_users st))
    by (intros _; now repeat split).
  split; [reflexivity |].
  destruct (start_streaming_all_or_nothing Samples.env_ok 0 g 0 cfg st
              Samples.capture0 [] Hrange Hidle)
    as [Hnum [(_ & Husers & Hstarts & Hbufs) | (Hcode & _)]].
  - repeat split; assumption.
  - vm_compute in Hcode. discriminate Hcode.
Defined.

(** The state a successful [xvip_dma_start_streaming] leaves. *)
Lemma start_streaming_ok env mode g pipeline_start cfg st dma tr :
  0 <= use_count (node_users st) < 2 ^ 32 - 1 ->
  (use_count (node_users st) = 0 -> idle (node_users st)) ->
  fst (fst (xvip_dma_start_streaming env mode g pipeline_start cfg st dma tr))
  = 0 ->
  exists users1,
    xvip_pipeline_cleanup users1 = node_users st /\
    input_stream_count (pipeline users1)
    = input_stream_count (pipeline (node_users st)) /\
    output_stream_count (pipeline users1)
    = output_stream_count (pipeline (node_users st)) /\
    snd (fst (xvip_dma_start_streaming env mode g pipeline_start cfg st dma tr))
    = mk_stream_node
        (mk_users (if mode =? XVIP_DMA_MULTI_OUT_MODE_ASYNC
                   then pipeline users1
                   else count_up (pipeline users1) dma)
           (use_count users1))
        numbering_at_start (media_pipeline_starts st + 1)
        (returned_buffers st).
Proof.
  intros Hrange Hidle. unfold xvip_dma_start_streaming.
  destruct (pipeline_start <? 0) eqn:Hps.
  { apply Z.ltb_lt in Hps. cbn. lia. }
  destruct (xvip_dma_verify_format cfg dma <? 0) eqn:Hver.
  { apply Z.ltb_lt in Hver. cbn. lia. }
  pose proof (prepare_cases (node_users st) g Hrange Hidle) as Hprep.
  cbv zeta in Hprep.
  destruct (xvip_pipeline_prepare (node_users st) g) as [r1 users1].
  cbn [fst snd] in Hprep.
  destruct (r1 <? 0) eqn:Hr1.
  { apply Z.ltb_lt in Hr1. cbn. lia. }
  apply Z.ltb_ge in Hr1.
  destruct Hprep as [[Hneg _] | (_ & Hcount & Hclean & Hic & Hoc)]; [lia |].
  unfold bind.
  pose proof (start_dma_mode env mode (pipeline users1) dma tr) as Hmode.
  destruct (xvip_pipeline_start_dma env mode (pipeline users1) dma tr)
    as [[r2 pipe2] tr2].
  cbn [fst snd] in Hmode |- *.
  destruct (r2 <? 0) eqn:Hr2.
  { apply Z.ltb_lt in Hr2. cbn. lia. }
  apply Z.ltb_ge in Hr2. intros _. exists users1. cbn [ret fst snd].
  rewrite <- Hmode by lia. auto.
Qed.

(** X22: after a successful [xvip_dma_start_streaming], a call of
    [xvip_dma_stop_streaming] puts the pipeline, its use count and the
    count of media pipeline starts back to what they were before the
    start, and gives the buffers back in state ERROR. *)
Theorem stop_streaming_undoes_start env mode g pipeline_start cfg st dma tr :
  0 <= use_count (node_users st) < 2 ^ 32 - 1 ->
  (use_count (node_users st) = 0 -> idle (node_users st)) ->
  0 <= input_stream_count (pipeline (node_users st)) < 2 ^ 32 ->
  0 <= output_stream_count (pipeline (node_users st)) < 2 ^ 32 ->
  let r := xvip_dma_start_streaming env mode g pipeline_start cfg st dma tr in
  fst (fst r) = 0 ->
  let st' := fst (xvip_dma_stop_streaming env mode (snd (fst r)) dma (snd r)) in
  node_users st' = node_users st /\
  media_pipeline_starts st' = media_pipeline_starts st /\
  returned_buffers st' = returned_buffers st ++ [VB2_BUF_STATE_ERROR].
Proof.
  intros Hrange Hidle Hin Hout r Hcode st'.
  destruct (start_streaming_ok env mode g pipeline_start cfg st dma tr
              Hrange Hidle Hcode) as (users1 & Hclean & Hic & Hoc & Hst).
  fold r in Hst. subst st'. unfold xvip_dma_stop_streaming, bind.
  rewrite Hst.
  cbn [node_users pipeline use_count media_pipeline_starts returned_buffers
       node_numbering].
  match goal with
  | |- context [xvip_pipeline_stop_dma env mode ?p dma ?t] =>
      pose proof (stop_dma_pipe env mode p dma t) as Hstop;
      destruct (xvip_pipeline_stop_dma env mode p dma t) as [pipe3 tr3]
  end.
  cbn [fst snd] in Hstop.
  assert (Hback : pipe3 = pipeline users1).
  { rewrite Hstop.
    destruct (mode =? XVIP_DMA_MULTI_OUT_MODE_ASYNC); [reflexivity |].
    apply count_down_up; [rewrite Hic | rewrite Hoc]; assumption. }
  cbn [ret fst node_users media_pipeline_starts returned_buffers].
  repeat split; [| lia].
  rewrite Hback, <- Hclean. now destruct users1.
Qed.

Lemma stop_streaming_undoes_start_witness :
  let st := mk_stream_node (mk_users (mk_pipe [] 0 0 0 0) 0)
              (mk_numbering 7 1) 0 [] in
  let g := mk_graph 0 [video_node Samples.capture0 MEDIA_PAD_FL_SINK] in
  let cfg := mk_config 0 (DmaFormats.mk_geometry 0 0 0 0 1) V4L2_FIELD_NONE
               (fun _ _ => (0, VipFormats.mk_framefmt 0 0 0 V4L2_FIELD_NONE)) in
  let r := xvip_dma_start_streaming Samples.env_ok 0 g 0 cfg st
             Samples.capture0 [] in
  let st' := fst (xvip_dma_stop_streaming Samples.env_ok 0 (snd (fst r))
                    Samples.capture0 (snd r)) in
  use_count (node_users (snd (fst r))) = 1 /\
  node_users st' = node_users st /\
  media_pipeline_starts st' = media_pipeline_starts st /\
  returned_buffers st' = returned_buffers st ++ [VB2_BUF_STATE_ERROR].
Proof.
  intros st g cfg r st'. split; [reflexivity |].
  refine (stop_streaming_undoes_start Samples.env_ok 0 g 0 cfg
            st Samples.capture0 [] _ _ _ _ _).
  - cbn. lia.
  - intros _. now repeat split.
  - cbn. lia.
  - cbn. lia.
  - reflexivity.
Defined.

End StreamingFacts.

(** ** The routing word of the video switch *)

Module VideoSwitchFacts.

Import Vip Switch SwitchStream SwitchStreamSpec VideoSwitch VideoSwitchSpec.

Lemma nibble_testbit i w n :
  0 <= i -> 0 <= n ->
  Z.testbit (nibble i w) n = (n <? 4) && Z.testbit w (n + 4 * i).
Proof.
  intros Hi Hn. unfold nibble.
  rewrite Z.land_spec, Z.shiftr_spec by assumption.
  change 15 with (Z.ones 4).
  rewrite Z.testbit_ones_nonneg by lia. apply andb_comm.
Qed.

Lemma small_bits v n : 0 <= v < 16 -> 4 <= n -> Z.testbit v n = false.
Proof.
  intros Hv Hn. rewrite <- (Z.mod_small v (2 ^ 4)) by lia.
  apply Z.mod_pow2_bits_high. lia.
Qed.

Lemma nibble_u32 i w : 0 <= i < 8 -> nibble i (u32 w) = nibble i w.
Proof.
  intros Hi. apply Z.bits_inj'. intros n Hn.
  rewrite !nibble_testbit by lia.
  destruct (Z.ltb_spec n 4); [| reflexivity]. cbn [andb].
  unfold u32. apply Z.mod_pow2_bits_low. lia.
Qed.

Lemma nibble_lor i a b : nibble i (Z.lor a b) = Z.lor (nibble i a) (nibble i b).
Proof.
  unfold nibble. now rewrite Z.shiftr_lor, Z.land_lor_distr_l.
Qed.

Lemma nibble_shiftl i s v :
  0 <= v < 16 -> 0 <= s < 8 -> 0 <= i < 8 ->
  nibble i (Z.shiftl v (4 * s)) = if s =? i then v else 0.
Proof.
  intros Hv Hs Hi. apply Z.bits_inj'. intros n Hn.
  rewrite nibble_testbit, Z.shiftl_spec by lia.
  destruct (Z.eqb_spec s i) as [-> | Hne].
  - replace (n + 4 * i - 4 * i) with n by lia.
    destruct (Z.ltb_spec n 4); [reflexivity |].
    cbn [andb]. symmetry. now apply small_bits.
  - rewrite Z.bits_0. destruct (Z.ltb_spec n 4); [| reflexivity].
    cbn [andb]. destruct (Z_lt_le_dec i s).
    + apply Z.testbit_neg_r. lia.
    + apply small_bits; [assumption | lia].
Qed.

Lemma force_input p :
  0 <= p < 8 ->
  u32 (Z.lor XSW_CORE_CH_CTRL_FORCE p) = Z.lor XSW_CORE_CH_CTRL_FORCE p /\
  0 <= Z.lor XSW_CORE_CH_CTRL_FORCE p < 16.
Proof.
  intros Hp.
  assert (Hcases : p = 0 \/ p = 1 \/ p = 2 \/ p = 3 \/
                   p = 4 \/ p = 5 \/ p = 6 \/ p = 7) by lia.
  repeat destruct Hcases as [-> | Hcases]; try subst p;
    (split; [reflexivity | split; [discriminate | reflexivity]]).
Qed.

(** One [routing |= (FORCE | p) << (s * 4)]. *)
Lemma nibble_step i a p s :
  0 <= p < 8 -> 0 <= s < 8 -> 0 <= i < 8 ->
  nibble i (u32 (Z.lor a
                   (u32 (Z.shiftl (u32 (Z.lor XSW_CORE_CH_CTRL_FORCE p))
                           (u32 (s * 4)))))) =
  Z.lor (nibble i a) (if s =? i then Z.lor XSW_CORE_CH_CTRL_FORCE p else 0).
Proof.
  intros Hp Hs Hi. destruct (force_input p Hp) as [Hsmall Hrange].
  rewrite nibble_u32, nibble_lor, nibble_u32 by assumption.
  rewrite Hsmall, SwitchFacts.u32_small by lia.
  replace (s * 4) with (4 * s) by lia.
  now rewrite nibble_shiftl.
Qed.

Lemma forced_cons r rs :
  Z.lor (Z.lor XSW_CORE_CH_CTRL_FORCE (sink_pad r)) (forced rs)
  = forced (r :: rs).
Proof.
  unfold forced. destruct rs as [| r' rs'].
  - cbn [sinks_or map fold_right]. now rewrite !Z.lor_0_r.
  - set (rest := sinks_or (r' :: rs')).
    change (sinks_or (r :: r' :: rs')) with (Z.lor (sink_pad r) rest).
    apply Z.bits_inj'. intros n Hn. rewrite !Z.lor_spec.
    destruct (Z.testbit XSW_CORE_CH_CTRL_FORCE n), (Z.testbit (sink_pad r) n),
      (Z.testbit rest n); reflexivity.
Qed.

(** The first pass: the position of output [i] of the routing word. *)
Lemma scan_routes_word i routes :
  0 <= i < 8 ->
  Forall route_in_word routes ->
  forall s,
    nibble i (routing_word (scan_routes routes s)) =
    Z.lor (nibble i (routing_word s))
      (forced (List.filter (fun r => source_pad r =? i) routes)).
Proof.
  intros Hi Hwf. induction Hwf as [| r rest [Hsink Hsource] Hrest IH];
    intros s.
  - cbn. now rewrite Z.lor_0_r.
  - cbn [scan_routes List.filter]. rewrite IH. cbn [routing_word].
    rewrite nibble_step by assumption.
    destruct (source_pad r =? i).
    + now rewrite <- Z.lor_assoc, forced_cons.
    + now rewrite Z.lor_0_r.
Qed.

(** The first pass: the masks of the unused inputs and outputs. *)
Lemma scan_routes_masks k routes :
  0 <= k ->
  Forall route_in_word routes ->
  forall s,
    Z.testbit (unused_inputs (scan_routes routes s)) k =
    Z.testbit (unused_inputs s) k &&
    forallb (fun r => negb (sink_pad r =? k)) routes /\
    Z.testbit (unused_outputs (scan_routes routes s)) k =
    Z.testbit (unused_outputs s) k &&
    forallb (fun r => negb (source_pad r =? k)) routes.
Proof.
  intros Hk Hwf. induction Hwf as [| r rest [Hsink Hsource] Hrest IH];
    intros s.
  - cbn. now rewrite !andb_true_r.
  - cbn [scan_routes forallb].
    destruct (IH (mk_pass
           (u32 (Z.lor (routing_word s)
                   (u32 (Z.shiftl
                           (u32 (Z.lor XSW_CORE_CH_CTRL_FORCE (sink_pad r)))
                           (u32 (source_pad r * 4))))))
           (Z.land (unused_inputs s) (Z.lnot (BIT (sink_pad r))))
           (Z.land (unused_outputs s) (Z.lnot (BIT (source_pad r))))))
      as [Hin Hout].
    rewrite Hin, Hout. cbn [unused_inputs unused_outputs].
    rewrite !SwitchStreamFacts.testbit_clear by lia.
    now rewrite !andb_assoc.
Qed.

Lemma existsb_at (g : nat -> bool) i l :
  0 <= i ->
  existsb (fun j => (Z.of_nat j =? i) && g j) l =
  existsb (fun j => Z.of_nat j =? i) l && g (Z.to_nat i).
Proof.
  intros Hi. induction l as [| j l IH]; [reflexivity |].
  cbn [existsb]. rewrite IH.
  destruct (Z.eqb_spec (Z.of_nat j) i) as [Heq | Hne].
  - replace (Z.to_nat i) with j by lia.
    destruct (g j), (existsb (fun j0 => Z.of_nat j0 =? i) l); reflexivity.
  - reflexivity.
Qed.

(** The second pass over the positions [l]. *)
Lemma fill_positions i uo u l :
  0 <= u < 8 -> 0 <= i < 8 ->
  Forall (fun j => (j < 8)%nat) l ->
  forall acc,
    nibble i
      (fold_left
         (fun acc j =>
            if Z.testbit uo (Z.of_nat j)
            then u32 (Z.lor acc
                        (u32 (Z.shiftl
                                (u32 (Z.lor XSW_CORE_CH_CTRL_FORCE u))
                                (u32 (Z.of_nat j * 4)))))
            else acc) l acc) =
    Z.lor (nibble i acc)
      (if existsb (fun j => (Z.of_nat j =? i) && Z.testbit uo (Z.of_nat j)) l
       then Z.lor XSW_CORE_CH_CTRL_FORCE u else 0).
Proof.
  intros Hu Hi Hl. induction Hl as [| j l Hj Hl IH]; intros acc.
  - cbn. now rewrite Z.lor_0_r.
  - cbn [fold_left existsb]. rewrite IH.
    destruct (Z.testbit uo (Z.of_nat j)).
    + rewrite nibble_step by lia. rewrite andb_true_r.
      destruct (Z.of_nat j =? i); cbn [orb].
      * rewrite <- Z.lor_assoc. f_equal.
        destruct (existsb _ l); [apply Z.lor_diag | apply Z.lor_0_r].
      * now rewrite Z.lor_0_r.
    + now rewrite andb_false_r.
Qed.

Lemma fill_unused_word i uo u acc :
  0 <= u < 8 -> 0 <= i < 8 ->
  nibble i (fill_unused uo u acc) =
  Z.lor (nibble i acc)
    (if Z.testbit uo i then Z.lor XSW_CORE_CH_CTRL_FORCE u else 0).
Proof.
  intros Hu Hi. unfold fill_unused.
  rewrite fill_positions; try assumption.
  - rewrite (existsb_at (fun j => Z.testbit uo (Z.of_nat j))) by lia.
    rewrite Z2Nat.id by lia.
    replace (existsb (fun j => Z.of_nat j =? i) (seq 0 8)) with true;
      [reflexivity |].
    symmetry. apply existsb_exists. exists (Z.to_nat i). split.
    + apply List.in_seq. lia.
    + apply Z.eqb_eq. lia.
  - apply List.Forall_forall. intros j Hj. apply List.in_seq in Hj. lia.
Qed.

Lemma find_app {A : Type} (f : A -> bool) l1 l2 :
  List.find f (l1 ++ l2) =
  match List.find f l1 with
  | Some x => Some x
  | None => List.find f l2
  end.
Proof.
  induction l1 as [| x l1 IH]; [reflexivity |].
  cbn [app List.find]. now destruct (f x).
Qed.

Lemma find_ext_in {A : Type} (f g : A -> bool) l :
  (forall x, In x l -> f x = g x) -> List.find f l = List.find g l.
Proof.
  induction l as [| x l IH]; intros Hfg; [reflexivity |].
  cbn [List.find]. rewrite (Hfg x) by now left.
  destruct (g x); [reflexivity |].
  apply IH. intros y Hy. apply Hfg. now right.
Qed.

Lemma find_all_false {A : Type} (f : A -> bool) l :
  (forall x, In x l -> f x = false) -> List.find f l = None.
Proof.
  induction l as [| x l IH]; intros Hf; [reflexivity |].
  cbn [List.find]. rewrite (Hf x) by now left.
  apply IH. intros y Hy. apply Hf. now right.
Qed.

Lemma find_seq_least (f : nat -> bool) n :
  forall a x,
    List.find f (seq a n) = Some x ->
    (a <= x < a + n)%nat /\ f x = true /\
    forall y, (a <= y < x)%nat -> f y = false.
Proof.
  induction n as [| n IH]; intros a x Hfind; [discriminate |].
  cbn [seq List.find] in Hfind. destruct (f a) eqn:Hfa.
  - injection Hfind as <-. repeat split; [lia | lia | assumption | lia].
  - destruct (IH (S a) x Hfind) as (Hrange & Hfx & Hleast).
    repeat split; [lia | lia | assumption |].
    intros y Hy. destruct (Nat.eq_dec y a) as [-> | Hne]; [assumption |].
    apply Hleast. lia.
Qed.

(** The input [lowest_free_input] names. *)
Lemma lowest_free_input_spec routing :
  0 <= lowest_free_input routing < 8 /\
  forall k, 0 <= k < 8 -> input_free routing k = true ->
            input_free routing (lowest_free_input routing) = true /\
            lowest_free_input routing <= k.
Proof.
  unfold lowest_free_input.
  destruct (List.find (fun k => input_free routing (Z.of_nat k)) (seq 0 8))
    as [x |] eqn:Hfind.
  - destruct (find_seq_least _ _ _ _ Hfind) as (Hrange & Hfree & Hleast).
    split; [lia |]. intros k Hk Hfreek. split; [assumption |].
    destruct (Z_le_gt_dec (Z.of_nat x) k) as [Hle | Hgt]; [assumption |].
    specialize (Hleast (Z.to_nat k) ltac:(lia)).
    rewrite Z2Nat.id in Hleast by lia. congruence.
  - split; [lia |]. intros k Hk Hfreek.
    pose proof (List.find_none _ _ Hfind (Z.to_nat k)) as Hnone.
    cbv beta in Hnone. rewrite Z2Nat.id in Hnone by lia.
    rewrite Hnone in Hfreek; [discriminate |].
    apply List.in_seq. lia.
Qed.

(** The input the second pass uses is the lowest one no route uses. *)
Lemma pick_lowest_free routing uo :
  Forall route_in_word (active_routes routing) ->
  pick_unused_input
    (unused_inputs (scan_routes (active_routes routing) (mk_pass 0 255 uo)))
  = lowest_free_input routing.
Proof.
  intros Hwf.
  set (ui := unused_inputs
               (scan_routes (active_routes routing) (mk_pass 0 255 uo))).
  assert (Hbits : forall k, 0 <= k ->
            Z.testbit ui k = (k <? 8) && input_free routing k).
  { intros k Hk. subst ui.
    rewrite (proj1 (scan_routes_masks k _ Hk Hwf _)). cbn [unused_inputs].
    change 255 with (Z.ones 8). now rewrite Z.testbit_ones_nonneg by lia. }
  assert (Hfind :
    List.find (fun i => Z.testbit ui (Z.of_nat i)) (seq 0 32) =
    List.find (fun k => input_free routing (Z.of_nat k)) (seq 0 8)).
  { change (seq 0 32) with (seq 0 8 ++ seq 8 24). rewrite find_app.
    rewrite (find_ext_in _ (fun k => input_free routing (Z.of_nat k))
               (seq 0 8)).
    - rewrite (find_all_false _ (seq 8 24)).
      + now destruct (List.find _ (seq 0 8)).
      + intros x Hx. apply List.in_seq in Hx. rewrite Hbits by lia.
        destruct (Z.ltb_spec (Z.of_nat x) 8); [lia | reflexivity].
    - intros x Hx. apply List.in_seq in Hx. rewrite Hbits by lia.
      destruct (Z.ltb_spec (Z.of_nat x) 8); [reflexivity | lia]. }
  unfold pick_unused_input, ffs, lowest_free_input. rewrite Hfind.
  destruct (List.find (fun k => input_free routing (Z.of_nat k)) (seq 0 8))
    as [x |] eqn:Hfree.
  - destruct (find_seq_least _ _ _ _ Hfree) as (Hrange & Hfx & _).
    destruct (Z.eqb_spec ui 0) as [Hzero | Hnz]; cbn [negb].
    + pose proof (Hbits (Z.of_nat x) ltac:(lia)) as Hbit.
      rewrite Hzero, Z.bits_0, Hfx in Hbit.
      destruct (Z.ltb_spec (Z.of_nat x) 8); [discriminate | lia].
    + replace (Z.of_nat x + 1 - 1) with (Z.of_nat x) by lia.
      apply SwitchFacts.u32_small. lia.
  - destruct (Z.eqb_spec ui 0) as [Hzero | Hnz]; cbn [negb]; [reflexivity |].
    exfalso. apply Hnz. apply Z.bits_inj_0. intros n.
    destruct (Z_lt_le_dec n 0) as [Hneg | Hpos];
      [now apply Z.testbit_neg_r |].
    rewrite Hbits by assumption.
    destruct (Z.ltb_spec n 8); [| reflexivity]. cbn [andb].
    pose proof (List.find_none _ _ Hfree (Z.to_nat n)) as Hnone.
    cbv beta in Hnone. rewrite Z2Nat.id in Hnone by lia.
    apply Hnone. apply List.in_seq. lia.
Qed.

Lemma forallb_filter_nil {A : Type} (f : A -> bool) l :
  forallb (fun x => negb (f x)) l =
  match List.filter f l with
  | [] => true
  | _ => false
  end.
Proof.
  induction l as [| x l IH]; [reflexivity |].
  cbn [forallb List.filter]. now destruct (f x).
Qed.

Section RegistersFacts.

Variable XVIP_CTRL_CONTROL : Z.
Variable XVIP_CTRL_CONTROL_SW_ENABLE : Z.

(** The word [xsw_enable_streams] writes, position by position. *)
Lemma routing_word_nibbles xsw routing pad streams_mask :
  0 <= num_sources (xsw_xvip xsw) < 31 ->
  Forall route_in_word (active_routes routing) ->
  exists word,
    xsw_enable_streams XVIP_CTRL_CONTROL XVIP_CTRL_CONTROL_SW_ENABLE
      xsw routing pad streams_mask =
    (0, [(XSW_CORE_CH_CTRL, word);
         xvip_write XVIP_CTRL_CONTROL
           (Z.lor (Z.shiftl (Z.shiftl 1 (num_sources (xsw_xvip xsw)) - 1) 4)
              XVIP_CTRL_CONTROL_SW_ENABLE)]) /\
    0 <= word < 2 ^ 32 /\
    forall i, 0 <= i < 8 ->
      nibble i word =
      match routes_to routing i with
      | [] => if i <? num_sources (xsw_xvip xsw)
              then Z.lor XSW_CORE_CH_CTRL_FORCE (lowest_free_input routing)
              else 0
      | rs => Z.lor XSW_CORE_CH_CTRL_FORCE (sinks_or rs)
      end.
Proof.
  intros Hns Hwf. unfold xsw_enable_streams.
  set (ns := num_sources (xsw_xvip xsw)) in *.
  rewrite (pick_lowest_free routing _ Hwf).
  set (start := mk_pass 0 255 (Z.shiftl 1 ns - 1)).
  set (s := scan_routes (active_routes routing) start).
  eexists. split; [reflexivity |]. split.
  { unfold u32. apply Z.mod_pos_bound. reflexivity. }
  intros i Hi.
  destruct (lowest_free_input_spec routing) as [Hlow _].
  rewrite nibble_u32, fill_unused_word by assumption.
  subst s. rewrite (scan_routes_word i _ Hi Hwf).
  rewrite (proj2 (scan_routes_masks i _ ltac:(lia) Hwf _)).
  subst start. cbn [routing_word unused_outputs].
  replace (Z.shiftl 1 ns - 1) with (Z.ones ns) by (unfold Z.ones; lia).
  rewrite Z.testbit_ones_nonneg by lia.
  rewrite (forallb_filter_nil (fun r => source_pad r =? i)).
  fold (routes_to routing i).
  replace (nibble i 0) with 0 by (unfold nibble; now rewrite Z.shiftr_0_l).
  rewrite Z.lor_0_l.
  destruct (routes_to routing i) as [| r rs] eqn:Hroutes.
  - cbn [forced]. rewrite andb_true_r, Z.lor_0_l. reflexivity.
  - rewrite andb_false_r, Z.lor_0_r. reflexivity.
Qed.

(** X23: the routing word of [xsw_enable_streams].  With the pads of
    the active routes below 8, the call returns 0 and writes the
    routing word to [XSW_CORE_CH_CTRL], then the enable bits to
    [XVIP_CTRL_CONTROL].  In the word, the four bits at position [i]
    hold the force bit with the sink pad of the active route whose
    source pad is [i] (the sink pads or-ed together if there are
    several); a position without route holds the force bit with the
    lowest input no active route uses (0 when all eight are used) if
    [i] is below [num_sources], and 0 otherwise. *)
Theorem enable_streams_routing_word xsw routing pad streams_mask :
  0 <= num_sources (xsw_xvip xsw) < 31 ->
  Forall route_in_word (active_routes routing) ->
  exists word,
    xsw_enable_streams XVIP_CTRL_CONTROL XVIP_CTRL_CONTROL_SW_ENABLE
      xsw routing pad streams_mask =
    (0, [(XSW_CORE_CH_CTRL, word);
         xvip_write XVIP_CTRL_CONTROL
           (Z.lor (Z.shiftl (Z.shiftl 1 (num_sources (xsw_xvip xsw)) - 1) 4)
              XVIP_CTRL_CONTROL_SW_ENABLE)]) /\
    0 <= word < 2 ^ 32 /\
    (forall i, 0 <= i < 8 ->
       nibble i word =
       match routes_to routing i with
       | [] => if i <? num_sources (xsw_xvip xsw)
               then Z.lor XSW_CORE_CH_CTRL_FORCE (lowest_free_input routing)
               else 0
       | rs => Z.lor XSW_CORE_CH_CTRL_FORCE (sinks_or rs)
       end) /\
    (forall i r, 0 <= i < 8 -> routes_to routing i = [r] ->
       nibble i word = Z.lor XSW_CORE_CH_CTRL_FORCE (sink_pad r)) /\
    0 <= lowest_free_input routing < 8 /\
    (forall k, 0 <= k < 8 -> input_free routing k = true ->
       input_free routing (lowest_free_input routing) = true /\
       lowest_free_input routing <= k).
Proof.
  intros Hns Hwf.
  destruct (routing_word_nibbles xsw routing pad streams_mask Hns Hwf)
    as (word & Hrun & Hword & Hnibble).
  exists word. split; [exact Hrun |]. split; [exact Hword |].
  split; [exact Hnibble |]. split.
  - intros i r Hi Hone. rewrite (Hnibble i Hi), Hone.
    cbn [sinks_or map fold_right]. now rewrite Z.lor_0_r.
  - apply lowest_free_input_spec.
Qed.

(** X24: [xsw_enable_streams] takes the position in the routing word
    from [route->source_pad] itself, while the pads of the device
    number the sinks first.  With a routing whose active routes all
    lead to source pads (pad numbers [num_sinks] and above), the
    positions below [num_sinks] are therefore never programmed from a
    route: each of them that is below [num_sources] holds the force bit
    with the lowest input no active route uses, and when an input among
    0..7 is unused no active route starts at the input written
    there. *)
Theorem enable_streams_low_positions_unrouted xsw routing pad streams_mask :
  0 <= num_sources (xsw_xvip xsw) < 31 ->
  Forall route_in_word (active_routes routing) ->
  Forall (fun r => num_sinks (xsw_xvip xsw) <= source_pad r)
    (active_routes routing) ->
  exists word,
    xsw_enable_streams XVIP_CTRL_CONTROL XVIP_CTRL_CONTROL_SW_ENABLE
      xsw routing pad streams_mask =
    (0, [(XSW_CORE_CH_CTRL, word);
         xvip_write XVIP_CTRL_CONTROL
           (Z.lor (Z.shiftl (Z.shiftl 1 (num_sources (xsw_xvip xsw)) - 1) 4)
              XVIP_CTRL_CONTROL_SW_ENABLE)]) /\
    (forall i, 0 <= i < 8 ->
       i < num_sinks (xsw_xvip xsw) -> i < num_sources (xsw_xvip xsw) ->
       nibble i word =
       Z.lor XSW_CORE_CH_CTRL_FORCE (lowest_free_input routing)) /\
    ((exists k, 0 <= k < 8 /\ input_free routing k = true) ->
     forall r, In r (active_routes routing) ->
               sink_pad r <> lowest_free_input routing).
Proof.
  intros Hns Hwf Hsources.
  destruct (routing_word_nibbles xsw routing pad streams_mask Hns Hwf)
    as (word & Hrun & _ & Hnibble).
  exists word. split; [exact Hrun |]. split.
  - intros i Hi Hsink Hsource. rewrite (Hnibble i Hi).
    assert (Hnone : routes_to routing i = []).
    { unfold routes_to. induction Hsources as [| r rest Hr Hrest IH];
        [reflexivity |].
      cbn [List.filter]. inversion Hwf as [| ? ? _ Hwf']; subst.
      destruct (Z.eqb_spec (source_pad r) i); [lia | now apply IH]. }
    rewrite Hnone. destruct (Z.ltb_spec i (num_sources (xsw_xvip xsw)));
      [reflexivity | lia].
  - intros (k & Hk & Hfree) r Hr Heq.
    destruct (proj2 (lowest_free_input_spec routing) k Hk Hfree)
      as [Hlow _].
    unfold input_free in Hlow.
    rewrite forallb_forall in Hlow. specialize (Hlow r Hr).
    rewrite Heq, Z.eqb_refl in Hlow. discriminate.
Qed.

End RegistersFacts.

Lemma enable_streams_routing_word_witness :
  xsw_enable_streams 0 1 video_switch_2x2
    [mk_route 1 0 0 0 V4L2_SUBDEV_ROUTE_FL_ACTIVE;
     mk_route 0 0 1 0 0] 0 1 = (0, [(256, 137); (0, 49)]) /\
  exists word,
    xsw_enable_streams 0 1 video_switch_2x2
      [mk_route 1 0 0 0 V4L2_SUBDEV_ROUTE_FL_ACTIVE;
       mk_route 0 0 1 0 0] 0 1 =
    (0, [(XSW_CORE_CH_CTRL, word);
         xvip_write 0
           (Z.lor (Z.shiftl
                     (Z.shiftl 1 (num_sources (xsw_xvip video_switch_2x2)) - 1)
                     4) 1)]) /\
    nibble 0 word = 9 /\ nibble 1 word = 8.
Proof.
  split; [reflexivity |].
  destruct (enable_streams_routing_word 0 1 video_switch_2x2
              [mk_route 1 0 0 0 V4L2_SUBDEV_ROUTE_FL_ACTIVE;
               mk_route 0 0 1 0 0] 0 1)
    as (word & Hrun & _ & Hnibble & _).
  - cbn. lia.
  - repeat constructor; cbn; lia.
  - exists word. split; [exact Hrun |].
    split; [exact (Hnibble 0 ltac:(lia)) | exact (Hnibble 1 ltac:(lia))].
Defined.

Lemma enable_streams_low_positions_unrouted_witness :
  xsw_enable_streams 0 1 video_switch_2x2 routing_2x2 0 1
  = (0, [(256, 39082); (0, 49)]) /\
  exists word,
    xsw_enable_streams 0 1 video_switch_2x2 routing_2x2 0 1 =
    (0, [(XSW_CORE_CH_CTRL, word);
         xvip_write 0
           (Z.lor (Z.shiftl
                     (Z.shiftl 1 (num_sources (xsw_xvip video_switch_2x2)) - 1)
                     4) 1)]) /\
    nibble 0 word = 10 /\ nibble 1 word = 10.
Proof.
  split; [reflexivity |].
  destruct (enable_streams_low_positions_unrouted 0 1 video_switch_2x2
              routing_2x2 0 1)
    as (word & Hrun & Hlow & _).
  - cbn. lia.
  - repeat constructor; cbn; lia.
  - repeat constructor; cbn; lia.
  - exists word. split; [exact Hrun |].
    split; [exact (Hlow 0 ltac:(lia) ltac:(cbn; lia) ltac:(cbn; lia)) |
            exact (Hlow 1 ltac:(lia) ltac:(cbn; lia) ltac:(cbn; lia))].
Defined.

End VideoSwitchFacts.

(** ** Setting the format of the DMA video node *)

Module SetFormatFacts.

Import Lifecycle DmaFormats DmaFormatsSpec.

Section WithEngine.

Variable fourcc_value : Formats.v4l2_pix_fmt -> Z.
Variable bytes_per_pixel : Formats.xvip_video_format -> nat -> Z * Z.
Variable num_buffers : Formats.xvip_video_format -> Z.
Variable dma_width_align dma_align : Z.

(** What [xvip_dma_set_format_mplane] returns, from the adjusted
    format. *)
Lemma set_format_mplane_run busy dma format :
  let try_format :=
    __xvip_dma_try_format fourcc_value bytes_per_pixel num_buffers
      dma_width_align dma_align in
  xvip_dma_set_format_mplane fourcc_value bytes_per_pixel num_buffers
    dma_width_align dma_align busy dma format =
  let pix_mp := fst (try_format (fmt_pix_mp format)) in
  let info := snd (try_format (fmt_pix_mp format)) in
  if busy
  then (- EBUSY, mk_fmt_mp (fmt_mp_type format) pix_mp, dma)
  else (0, mk_fmt_mp (fmt_mp_type format) pix_mp,
        mk_format_state pix_mp (mp_width pix_mp) (mp_height pix_mp) info).
Proof.
  cbv zeta. unfold xvip_dma_set_format_mplane.
  now destruct (__xvip_dma_try_format _ _ _ _ _ (fmt_pix_mp format)).
Qed.

(** X25: setting a multi-planar format and reading it back.
    [xvip_dma_set_format_mplane] always hands back the format that
    [xvip_dma_try_format_mplane] gives for the same request.  On a busy
    queue it returns [-EBUSY] and leaves the engine as it was, although
    the format of the caller has been adjusted.  Otherwise it returns
    0, [xvip_dma_get_format_mplane] then returns exactly the adjusted
    format, the format information is the one the adjustment selected,
    and the rectangle is the whole new frame: a crop or composition set
    before is gone, [xvip_dma_g_selection] answers with the width and
    height of the new format. *)
Theorem set_format_mplane_then_get busy dma format :
  let try_format :=
    __xvip_dma_try_format fourcc_value bytes_per_pixel num_buffers
      dma_width_align dma_align in
  let try_format_mplane :=
    xvip_dma_try_format_mplane fourcc_value bytes_per_pixel num_buffers
      dma_width_align dma_align in
  let r := xvip_dma_set_format_mplane fourcc_value bytes_per_pixel
             num_buffers dma_width_align dma_align busy dma format in
  let tried := snd (try_format_mplane format) in
  fst (try_format_mplane format) = 0 /\
  snd (fst r) = tried /\
  (busy = true -> fst (fst r) = - EBUSY /\ snd r = dma) /\
  (busy = false ->
   fst (fst r) = 0 /\
   xvip_dma_get_format_mplane (dma_format (snd r)) format = (0, tried) /\
   dma_fmtinfo (snd r) = snd (try_format (fmt_pix_mp format)) /\
   forall sel, current_rectangle sel ->
     xvip_dma_g_selection (geometry_of dma_width_align (snd r)) sel =
     (0, mk_sel (sel_type sel) (sel_target sel)
           (mk_rect 0 0 (mp_width (fmt_pix_mp tried))
              (mp_height (fmt_pix_mp tried))))).
Proof.
  cbv zeta. rewrite set_format_mplane_run.
  unfold xvip_dma_try_format_mplane.
  destruct (__xvip_dma_try_format _ _ _ _ _ (fmt_pix_mp format))
    as [pix_mp info].
  cbn [fst snd]. split; [reflexivity |].
  split; [now destruct busy |]. split.
  - intros ->. now split.
  - intros ->. cbn [fst snd dma_format dma_fmtinfo fmt_pix_mp].
    split; [reflexivity |]. split; [reflexivity |].
    split; [reflexivity |].
    intros sel [[Htarget Htype] | [Htarget Htype]];
      unfold xvip_dma_g_selection; rewrite Htarget, Htype; reflexivity.
Qed.


End WithEngine.

Lemma set_format_mplane_then_get_witness :
  let request :=
    mk_fmt_mp V4L2_BUF_TYPE_VIDEO_CAPTURE_MPLANE
      (mk_pix_mp 1921 0 (Samples.fourcc_number Formats.V4L2_PIX_FMT_NV12)
         V4L2_FIELD_TOP 0 (replicate VIDEO_MAX_PLANES zero_plane)
         0 0 0 0 0) in
  let dma := mk_format_state (fmt_pix_mp request) 640 480 (Formats.FormatAt 0) in
  let r := xvip_dma_set_format_mplane Samples.fourcc_number
             (fun f i => (Formats.bpl_factor f, 1)) Formats.buffers 2 64
             false dma request in
  mp_width (dma_format (snd r)) = 1920 /\
  xvip_dma_g_selection (geometry_of 2 (snd r))
    (mk_sel V4L2_BUF_TYPE_VIDEO_CAPTURE V4L2_SEL_TGT_COMPOSE
       (mk_rect 0 0 0 0)) =
  (0, mk_sel V4L2_BUF_TYPE_VIDEO_CAPTURE V4L2_SEL_TGT_COMPOSE
        (mk_rect 0 0 1920 1)).
Proof.
  intros request dma r. split; [reflexivity |].
  refine (proj2 (proj2 (proj2
            (proj2 (proj2 (proj2
               (set_format_mplane_then_get Samples.fourcc_number
                  (fun f i => (Formats.bpl_factor f, 1)) Formats.buffers 2 64
                  false dma request))) eq_refl))) _ _).
  right. split; reflexivity.
Defined.


End SetFormatFacts.

(** ** Submitting a buffer to the DMA engine *)

Module SubmitFacts.

Import Lifecycle DmaFormats Streaming Submit.

Lemma roundup_ge x y :
  0 <= x -> 1 <= y -> x + y <= 2 ^ 32 -> x <= roundup x y.
Proof.
  intros Hx Hy Hfit. unfold roundup.
  rewrite (SwitchFacts.u32_small (x + (y - 1))) by lia.
  pose proof (Z.div_mod (x + (y - 1)) y ltac:(lia)) as Hdiv.
  pose proof (Z.mod_pos_bound (x + (y - 1)) y ltac:(lia)) as Hmod.
  assert (Hq : 0 <= (x + (y - 1)) / y) by (apply Z.div_pos; lia).
  rewrite SwitchFacts.u32_small by nia. nia.
Qed.

Lemma size_t_small bits x :
  32 <= bits -> 0 <= x < 2 ^ 32 -> size_t bits x = x.
Proof.
  intros Hbits Hx. unfold size_t. apply Z.mod_small.
  pose proof (Z.pow_le_mono_r 2 32 bits ltac:(lia) Hbits). lia.
Qed.

Section WithEngine.

Variable fourcc_value : Formats.v4l2_pix_fmt -> Z.
Variable bytes_per_pixel : Formats.xvip_video_format -> nat -> Z * Z.
Variable num_buffers : Formats.xvip_video_format -> Z.
Variable dma_width_align dma_align : Z.
Variable BITS_PER_LONG dma_addr_bits : Z.

(** The line size of plane 0 that [__xvip_dma_try_format] leaves. *)
Lemma try_format_plane0 req info p :
  let tried := __xvip_dma_try_format fourcc_value bytes_per_pixel
                 num_buffers dma_width_align dma_align req in
  Formats.deref (snd tried) = Some info ->
  1 <= Formats.num_planes info ->
  mp_plane_fmt req !! 0%nat = Some p ->
  plane_bytesperline
    (default zero_plane (mp_plane_fmt (fst tried) !! 0%nat)) =
  clamp (rounddown (plane_bytesperline p) dma_align)
    (roundup (u32 (mp_width (fst tried) * fst (bytes_per_pixel info 0%nat))
              / snd (bytes_per_pixel info 0%nat)) dma_align)
    (rounddown XVIP_DMA_MAX_WIDTH dma_align).
Proof.
  cbv zeta. unfold __xvip_dma_try_format. cbn [fst snd mp_plane_fmt mp_width].
  intros Hinfo Hplanes Hp. rewrite Hinfo.
  set (width := clamp _ _ _). set (height := clamp _ _ _).
  set (n := Z.to_nat (Formats.num_planes info)).
  assert (Hn : (1 <= n)%nat) by (subst n; lia).
  set (done := try_planes bytes_per_pixel dma_align width height info n 0
                 (mp_plane_fmt req)).
  assert (Hdone : done !! 0%nat =
                  Some (try_plane bytes_per_pixel dma_align width height
                          info 0 p)).
  { subst done. rewrite DmaFormatsFacts.try_planes_lookup, Hp.
    replace ((0 <=? 0)%nat && (0 <? 0 + n)%nat) with true; [reflexivity |].
    symmetry. apply andb_true_iff. split;
      [apply Nat.leb_le | apply Nat.ltb_lt]; lia. }
  assert (Hbpl : forall planes : list v4l2_plane_pix_format,
            plane_bytesperline <$> planes !! 0%nat
            = plane_bytesperline <$> done !! 0%nat ->
            plane_bytesperline (default zero_plane (planes !! 0%nat))
            = plane_bytesperline
                (try_plane bytes_per_pixel dma_align width height info 0 p)).
  { intros planes Hsame. rewrite Hdone in Hsame.
    destruct (planes !! 0%nat); cbn in Hsame |- *; congruence. }
  destruct (num_buffers info =? 1).
  - rewrite Hbpl; [reflexivity |].
    apply DmaFormatsFacts.add_sizes_lookup.
  - rewrite Hbpl; reflexivity.
Qed.

(** The submission made, whether a descriptor could be prepared or
    not. *)
Lemma submit_vb2_template xt prepared queue_type format info r_width r_height
    field plane_addr :
  xt_sgl0 (template (fst (xvip_dma_submit_vb2_buffer BITS_PER_LONG
                            dma_addr_bits bytes_per_pixel num_buffers xt
                            prepared queue_type format info r_width r_height
                            field plane_addr))) =
  xt_sgl0 (template (fst (xvip_dma_submit_vb2_buffer BITS_PER_LONG
                            dma_addr_bits bytes_per_pixel num_buffers xt
                            true queue_type format info r_width r_height
                            field plane_addr))) /\
  xt_numf (template (fst (xvip_dma_submit_vb2_buffer BITS_PER_LONG
                            dma_addr_bits bytes_per_pixel num_buffers xt
                            prepared queue_type format info r_width r_height
                            field plane_addr))) =
  size_t BITS_PER_LONG r_height.
Proof.
  unfold xvip_dma_submit_vb2_buffer, xvip_dma_submit_buffer.
  destruct prepared; split; reflexivity.
Qed.

(** X27: the line a submitted transfer moves fits the stride of the
    buffer.  For a format adjusted by [__xvip_dma_try_format] whose
    line, rounded up to the stride alignment, does not exceed the
    largest stride (65535 rounded down to the alignment), and a
    rectangle no wider than the format (as [xvip_dma_set_format_mplane]
    and [xvip_dma_s_selection] leave it), [xvip_dma_submit_vb2_buffer]
    fills the template with a chunk of [r.width * numerator /
    denominator] bytes, at most the line of the format and at most
    [bytesperline] of plane 0; the gap after the chunk is
    [bytesperline] minus the chunk without wrapping, so chunk and gap
    together are one stride; the number of frames is [r.height]. *)
Theorem submitted_line_fits_stride req info p xt prepared queue_type
    r_width r_height field plane_addr :
  let tried := __xvip_dma_try_format fourcc_value bytes_per_pixel
                 num_buffers dma_width_align dma_align req in
  let format := fst tried in
  let num := fst (bytes_per_pixel info 0%nat) in
  let den := snd (bytes_per_pixel info 0%nat) in
  let line := mp_width format * num / den in
  let bpl := plane_bytesperline
               (default zero_plane (mp_plane_fmt format !! 0%nat)) in
  1 <= dma_align ->
  32 <= BITS_PER_LONG ->
  Formats.deref (snd tried) = Some info ->
  1 <= Formats.num_planes info ->
  mp_plane_fmt req !! 0%nat = Some p ->
  0 <= plane_bytesperline p < 2 ^ 32 ->
  1 <= num < 2 ^ 32 -> 1 <= den < 2 ^ 32 ->
  mp_width format * num < 2 ^ 32 ->
  0 <= r_width <= mp_width format ->
  0 <= r_height < 2 ^ 32 ->
  line + dma_align <= 2 ^ 32 ->
  roundup line dma_align <= rounddown XVIP_DMA_MAX_WIDTH dma_align ->
  let s := fst (xvip_dma_submit_vb2_buffer BITS_PER_LONG dma_addr_bits
                  bytes_per_pixel num_buffers xt prepared queue_type format
                  info r_width r_height field plane_addr) in
  let chunk := xt_sgl0 (template s) in
  sgl_size chunk = r_width * num / den /\
  sgl_size chunk <= line <= bpl /\
  sgl_icg chunk = bpl - sgl_size chunk /\
  bpl <= XVIP_DMA_MAX_WIDTH /\
  xt_numf (template s) = r_height.
Proof.
  intros tried format num den line bpl Halign Hbits Hinfo Hplanes Hp Hpb
    Hnum Hden Hprod Hrw Hrh Hfit Hmax s chunk.
  assert (Hbpl : bpl = clamp (rounddown (plane_bytesperline p) dma_align)
                         (roundup line dma_align)
                         (rounddown XVIP_DMA_MAX_WIDTH dma_align)).
  { replace (roundup line dma_align)
      with (roundup (u32 (mp_width format * num) / den) dma_align)
      by (now rewrite (SwitchFacts.u32_small (mp_width format * num)) by nia).
    exact (try_format_plane0 req info p Hinfo Hplanes Hp). }
  assert (Hline0 : 0 <= line)
    by (subst line; apply Z.div_pos; [nia | lia]).
  assert (Hup : line <= roundup line dma_align)
    by (apply roundup_ge; assumption).
  assert (Hmaxw : 0 <= XVIP_DMA_MAX_WIDTH < 2 ^ 32)
    by (vm_compute; split; congruence).
  destruct (DmaFormatsFacts.rounddown_spec XVIP_DMA_MAX_WIDTH dma_align
              Hmaxw Halign) as (_ & Hdown & _).
  assert (Hrange : line <= bpl <= XVIP_DMA_MAX_WIDTH)
    by (rewrite Hbpl; unfold clamp; lia).
  assert (Hsize : r_width * num / den <= line).
  { subst line. apply Z.div_le_mono; [lia | nia]. }
  assert (Hsize0 : 0 <= r_width * num / den)
    by (apply Z.div_pos; [nia | lia]).
  assert (Hmaxv : XVIP_DMA_MAX_WIDTH = 65535) by reflexivity.
  destruct (submit_vb2_template xt prepared queue_type format info r_width
              r_height field plane_addr) as [Hchunk Hnumf].
  subst chunk s. rewrite Hchunk, Hnumf.
  unfold xvip_dma_submit_vb2_buffer, xvip_dma_submit_buffer.
  cbn [negb fst template xt_sgl0 sgl_size sgl_icg submit_ret Z.ltb Z.compare].
  fold bpl num den.
  rewrite (size_t_small BITS_PER_LONG r_width) by nia.
  rewrite (size_t_small BITS_PER_LONG num) by lia.
  rewrite (size_t_small BITS_PER_LONG den) by lia.
  rewrite (size_t_small BITS_PER_LONG (r_width * num)) by nia.
  rewrite (SwitchFacts.u32_small (r_width * num / den)) by lia.
  rewrite (size_t_small BITS_PER_LONG (r_width * num / den)) by lia.
  rewrite (SwitchFacts.u32_small (bpl - r_width * num / den)) by lia.
  rewrite (size_t_small BITS_PER_LONG (bpl - r_width * num / den)) by lia.
  rewrite (size_t_small BITS_PER_LONG r_height) by lia.
  repeat split; try reflexivity; lia.
Qed.

End WithEngine.

Lemma submitted_line_fits_stride_witness :
  let req := mk_pix_mp 1921 1080
               (Samples.fourcc_number Formats.V4L2_PIX_FMT_NV12)
               V4L2_FIELD_NONE 0 (replicate VIDEO_MAX_PLANES zero_plane)
               2 0 0 0 0 in
  let info := Formats.mk_format Formats.XVIP_VF_YUV_420 8 None
                Formats.MEDIA_BUS_FMT_VYYUYY8_1X24 None 1 12 (1, 1)
                Formats.V4L2_PIX_FMT_NV12 2 1 1 2 in
  let bpp := fun (f : Formats.xvip_video_format) (i : nat) =>
               (Formats.bpl_factor f, 1) in
  let format := fst (__xvip_dma_try_format Samples.fourcc_number bpp
                       Formats.buffers 2 64 req) in
  let xt := mk_template 0 0 DMA_MEM_TO_DEV false false 0 0
              (mk_chunk 0 0 0 0) in
  let s := fst (xvip_dma_submit_vb2_buffer 64 64 bpp Formats.buffers xt true
                  V4L2_BUF_TYPE_VIDEO_CAPTURE_MPLANE format info 1280 720
                  V4L2_FIELD_NONE (fun i => 4096 * Z.of_nat (S i))) in
  mp_width format = 1920 /\
  sgl_size (xt_sgl0 (template s)) = 1280 /\
  sgl_icg (xt_sgl0 (template s)) = 640 /\
  xt_numf (template s) = 720.
Proof.
  intros req info bpp format xt s. split; [reflexivity |].
  destruct (submitted_line_fits_stride Samples.fourcc_number bpp
              Formats.buffers 2 64 64 64 req info zero_plane xt true
              V4L2_BUF_TYPE_VIDEO_CAPTURE_MPLANE 1280 720 V4L2_FIELD_NONE
              (fun i => 4096 * Z.of_nat (S i)))
    as (Hsize & _ & Hicg & _ & Hnumf).
  - lia.
  - lia.
  - reflexivity.
  - cbn. lia.
  - reflexivity.
  - cbn. lia.
  - cbn. lia.
  - cbn. lia.
  - vm_compute. reflexivity.
  - vm_compute. split; discriminate.
  - lia.
  - vm_compute. discriminate.
  - vm_compute. discriminate.
  - split; [exact Hsize |]. split; [| exact Hnumf].
    fold format s in Hicg, Hsize. rewrite Hicg, Hsize. reflexivity.
Defined.

End SubmitFacts.
